(** * Synthetic-Dataset-Gen: the run pipeline, embedded and verified

    A shallow embedding of the engine modules [engine/generate.py],
    [engine/artifacts.py], [engine/registry.py] and [engine/evaluate.py],
    and further of [engine/profile.py], [engine/validate.py],
    [engine/ingest.py], [engine/version.py] and of the run context and the
    choice of the prior version in [scripts/run.py].

    Python objects are values of the inductive type [value]; a dict is an
    association list in insertion order; an exception is a constructor of
    [result]; the run directory is a finite map from paths to nodes; Python
    floats are IEEE-754 binary64 numbers ([spec_float] at precision 53). *)

From Stdlib Require Import ZArith List String Ascii Bool Lia Permutation Sorted.
From Stdlib Require Import Strings.Byte.
From Stdlib Require Import Floats.SpecFloat.
From stdpp Require Import base option list gmap strings pretty.

Local Open Scope string_scope.
#[local] Set Warnings "-register-all".

(** ** Exceptions and the error monad *)

Module Py.

Inductive exn_kind :=
| KeyError | ValueError | RuntimeError | FileNotFoundError
| TypeError | AttributeError | OverflowError | IndexError | OSError.

Record exn := Exn { kind : exn_kind; message : string }.

Inductive result (A : Type) :=
| Ok (a : A)
| Raise (e : exn).
Arguments Ok {A} a.
Arguments Raise {A} e.

#[export] Instance result_ret : MRet result := fun A a => Ok a.
#[export] Instance result_bind : MBind result := fun A B f m =>
  match m with Ok a => f a | Raise e => Raise e end.
#[export] Instance result_fmap : FMap result := fun A B f m =>
  match m with Ok a => Ok (f a) | Raise e => Raise e end.

Definition raise {A} (k : exn_kind) (msg : string) : result A := Raise (Exn k msg).

(** [try: body except Exception: raise k(msg)] *)
Definition except_reraise {A} (body : result A) (k : exn_kind) (msg : string) : result A :=
  match body with Ok a => Ok a | Raise _ => raise k msg end.

(** ** Floats: IEEE-754 binary64 *)

Definition float := spec_float.
Definition prec : Z := 53.
Definition emax : Z := 1024.

Definition fzero : float := S754_zero false.
Definition fone : float := S754_finite false 4503599627370496 (-52).
Definition fnan : float := S754_nan.

Definition fmul : float -> float -> float := SFmul prec emax.
Definition fsub : float -> float -> float := SFsub prec emax.
Definition fdiv : float -> float -> float := SFdiv prec emax.
Definition fabs : float -> float := SFabs.
Definition fltb : float -> float -> bool := SFltb.
Definition fleb : float -> float -> bool := SFleb.
Definition feqb : float -> float -> bool := SFeqb.

Definition is_nan (f : float) : bool :=
  match f with S754_nan => true | _ => false end.

(** The double nearest to an integer (ties to even). *)
Definition float_of_Z (z : Z) : float := binary_normalize prec emax z 0 false.

(** [float(i)] for a Python int: too large an int raises. *)
Definition int_to_float (z : Z) : result float :=
  match float_of_Z z with
  | S754_infinity _ => raise OverflowError "int too large to convert to float"
  | f => Ok f
  end.

(** [int(f)]: truncation toward zero. *)
Definition float_trunc (f : float) : result Z :=
  match f with
  | S754_zero _ => Ok 0%Z
  | S754_finite s m e =>
      let a := if (0 <=? e)%Z then (Z.pos m * 2 ^ e)%Z else (Z.pos m / 2 ^ (- e))%Z in
      Ok (if s then (- a)%Z else a)
  | S754_nan => raise ValueError "cannot convert float NaN to integer"
  | S754_infinity _ => raise OverflowError "cannot convert float infinity to integer"
  end.

(** [round(f)] with one argument: the nearest integer, ties to even. *)
Definition round_half_even (m : Z) (d : Z) : Z :=
  let q := (m / d)%Z in
  let r := (m mod d)%Z in
  match (2 * r ?= d)%Z with
  | Lt => q
  | Gt => (q + 1)%Z
  | Eq => if Z.even q then q else (q + 1)%Z
  end.

Definition py_round (f : float) : result Z :=
  match f with
  | S754_zero _ => Ok 0%Z
  | S754_finite s m e =>
      let a := if (0 <=? e)%Z then (Z.pos m * 2 ^ e)%Z
               else round_half_even (Z.pos m) (2 ^ (- e)) in
      Ok (if s then (- a)%Z else a)
  | S754_nan => raise ValueError "cannot convert float NaN to integer"
  | S754_infinity _ => raise OverflowError "cannot convert float infinity to integer"
  end.

(** [f * i] for a float and a Python int. *)
Definition fmul_int (f : float) (i : Z) : result float :=
  g ← int_to_float i; Ok (fmul f g).

(** Exact comparison of a double with an integer, as [==] does. *)
Definition float_eq_Z (f : float) (z : Z) : bool :=
  match f with
  | S754_zero _ => (z =? 0)%Z
  | S754_finite s m e =>
      let mz := if s then Z.neg m else Z.pos m in
      if (0 <=? e)%Z then (z =? mz * 2 ^ e)%Z else (mz =? z * 2 ^ (- e))%Z
  | _ => false
  end.

(** ** Python values

    The objects a YAML or JSON loader produces.  A dict keeps its keys in
    insertion order; lookup takes the first binding of a key. *)

Inductive value :=
| VNone
| VBool (b : bool)
| VInt (z : Z)
| VFloat (f : float)
| VStr (s : string)
| VList (l : list value)
| VDict (d : list (string * value)).

Abbreviation dict := (list (string * value)).

Fixpoint dict_get (k : string) (d : dict) : option value :=
  match d with
  | [] => None
  | (k', v) :: d' => if String.eqb k k' then Some v else dict_get k d'
  end.

Definition dict_mem (k : string) (d : dict) : bool :=
  match dict_get k d with Some _ => true | None => false end.

(** [d[k] = v]: an existing key keeps its position, a new key goes last. *)
Fixpoint dict_set (k : string) (v : value) (d : dict) : dict :=
  match d with
  | [] => [(k, v)]
  | (k', v') :: d' => if String.eqb k k' then (k, v) :: d' else (k', v') :: dict_set k v d'
  end.

Definition dict_keys (d : dict) : list string := map fst d.

(** [d.get(k)]: a missing key reads as [None]. *)
Definition get_or_none (k : string) (d : dict) : value :=
  match dict_get k d with Some v => v | None => VNone end.

Definition is_none (v : value) : bool :=
  match v with VNone => true | _ => false end.

(** Truth value of an object, as [not x] and [if x] test it. *)
Definition truthy (v : value) : bool :=
  match v with
  | VNone => false
  | VBool b => b
  | VInt z => negb (z =? 0)%Z
  | VFloat f => match f with S754_zero _ => false | _ => true end
  | VStr s => negb (String.eqb s "")
  | VList l => match l with [] => false | _ => true end
  | VDict d => match d with [] => false | _ => true end
  end.

(** [a == b]: numbers compare by value across bool, int and float; lists
    compare element-wise; dicts compare as finite maps. *)
Definition num_eq (a b : value) : option bool :=
  let as_int v := match v with VBool b => Some (if b then 1 else 0)%Z | VInt z => Some z | _ => None end in
  match as_int a, as_int b with
  | Some x, Some y => Some (x =? y)%Z
  | Some x, None => match b with VFloat g => Some (float_eq_Z g x) | _ => None end
  | None, Some y => match a with VFloat f => Some (float_eq_Z f y) | _ => None end
  | None, None => match a, b with VFloat f, VFloat g => Some (feqb f g) | _, _ => None end
  end.

Fixpoint py_eq (a b : value) : bool :=
  match a, b with
  | VNone, VNone => true
  | VStr s, VStr t => String.eqb s t
  | VList l1, VList l2 =>
      (fix all2 (l1 l2 : list value) : bool :=
         match l1, l2 with
         | [], [] => true
         | x :: l1', y :: l2' => py_eq x y && all2 l1' l2'
         | _, _ => false
         end) l1 l2
  | VDict d1, VDict d2 =>
      (length d1 =? length d2)%nat &&
      (fix sub (d : dict) : bool :=
         match d with
         | [] => true
         | (k, v) :: d' =>
             match dict_get k d2 with
             | Some w => py_eq v w && sub d'
             | None => false
             end
         end) d1
  | _, _ => match num_eq a b with Some r => r | None => false end
  end.

(** [json.dump(..., sort_keys=True)]: every object is written with its keys
    in ascending order. *)
Fixpoint insert_sorted (p : string * value) (d : dict) : dict :=
  match d with
  | [] => [p]
  | q :: d' => if String.leb (fst p) (fst q) then p :: q :: d' else q :: insert_sorted p d'
  end.

Definition sort_pairs (d : dict) : dict := fold_right insert_sorted [] d.

Fixpoint sort_keys (v : value) : value :=
  match v with
  | VList l => VList (map sort_keys l)
  | VDict d => VDict (sort_pairs (map (fun p => (fst p, sort_keys (snd p))) d))
  | _ => v
  end.

(** ** Strings that UTF-8 cannot hold

    A [str] is held as its UTF-8 bytes.  A [str] can also hold a lone
    surrogate (U+D800 to U+DFFF): [json.load] builds one from an escape, and
    the file system hands one out in a name that is not UTF-8.  UTF-8 has no
    encoding for it, and writing it to a UTF-8 file raises; it is held here
    as the three bytes the [surrogatepass] handler gives it, the first ED
    and the second from A0 to BF. *)
Definition surrogate_at (a b : ascii) : bool :=
  (nat_of_ascii a =? 237)%nat && (160 <=? nat_of_ascii b)%nat && (nat_of_ascii b <=? 191)%nat.

Fixpoint has_surrogate (s : string) : bool :=
  match s with
  | String a s' =>
      match s' with
      | String b _ => surrogate_at a b
      | EmptyString => false
      end || has_surrogate s'
  | EmptyString => false
  end.

(** Whether every string of a document, the keys too, encodes in UTF-8. *)
Fixpoint encodable (v : value) : bool :=
  match v with
  | VStr s => negb (has_surrogate s)
  | VList l => forallb encodable l
  | VDict d => forallb (fun p => negb (has_surrogate (fst p)) && encodable (snd p)) d
  | _ => true
  end.

(** ** Builtins that are taken as given

    [int(str)], [float(str)] and [round(x, 6)] are the interpreter's own
    parsers and decimal rounding. *)

Class Builtins := {
  str_to_int : string -> option Z;
  str_to_float : string -> option float;
  round6 : float -> float
}.

Section Conversions.
Context `{Builtins}.

(** [int(x)] *)
Definition py_int (v : value) : result Z :=
  match v with
  | VInt z => Ok z
  | VBool b => Ok (if b then 1 else 0)%Z
  | VFloat f => float_trunc f
  | VStr s =>
      match str_to_int s with
      | Some z => Ok z
      | None => raise ValueError "invalid literal for int()"
      end
  | _ => raise TypeError "int() argument must be a string or a number"
  end.

(** [float(x)] *)
Definition py_float (v : value) : result float :=
  match v with
  | VFloat f => Ok f
  | VInt z => int_to_float z
  | VBool b => Ok (if b then fone else fzero)
  | VStr s =>
      match str_to_float s with
      | Some f => Ok f
      | None => raise ValueError "could not convert string to float"
      end
  | _ => raise TypeError "float() argument must be a string or a number"
  end.

(** [round(x, 6)] *)
Definition py_round6 (v : value) : result value :=
  match v with
  | VFloat f => Ok (VFloat (round6 f))
  | VInt z => Ok (VInt z)
  | VBool b => Ok (VInt (if b then 1 else 0))
  | _ => raise TypeError "type doesn't define __round__ method"
  end.

End Conversions.

(** [abs(a - b)] on numbers. *)
Definition py_abs_diff (a b : value) : result value :=
  let as_int v := match v with VBool b => Some (if b then 1 else 0)%Z | VInt z => Some z | _ => None end in
  let as_float v :=
    match v with
    | VFloat f => Ok f
    | VInt z => int_to_float z
    | VBool b => Ok (if b then fone else fzero)
    | _ => raise TypeError "unsupported operand type(s) for -"
    end in
  match as_int a, as_int b with
  | Some x, Some y => Ok (VInt (Z.abs (x - y)))
  | _, _ => f ← as_float a; g ← as_float b; Ok (VFloat (fabs (fsub f g)))
  end.

(** ** Strings *)

Definition lower_ascii (c : ascii) : ascii :=
  let n := nat_of_ascii c in
  if (65 <=? n)%nat && (n <=? 90)%nat then ascii_of_nat (n + 32) else c.

(** [s.lower()].  Bytes outside A-Z are kept: no character outside ASCII
    lower-cases to a letter of the names the generator tests for. *)
Fixpoint lower (s : string) : string :=
  match s with
  | EmptyString => EmptyString
  | String c s' => String (lower_ascii c) (lower s')
  end.

Fixpoint string_rev (s acc : string) : string :=
  match s with
  | EmptyString => acc
  | String c s' => string_rev s' (String c acc)
  end.

Definition startswith (p s : string) : bool := String.prefix p s.

Definition endswith (suffix s : string) : bool :=
  String.prefix (string_rev suffix "") (string_rev s "").

(** [needle in hay] for two strings. *)
Fixpoint is_substring (needle hay : string) : bool :=
  String.prefix needle hay ||
  match hay with
  | EmptyString => false
  | String _ hay' => is_substring needle hay'
  end.

(** [sorted(names)] *)
Fixpoint insert_string (x : string) (l : list string) : list string :=
  match l with
  | [] => [x]
  | y :: l' => if String.leb x y then x :: y :: l' else y :: insert_string x l'
  end.

Definition sorted (l : list string) : list string := fold_right insert_string [] l.

(** A loop whose body may raise: the first exception ends it. *)
Fixpoint mapM {A B} (f : A -> result B) (l : list A) : result (list B) :=
  match l with
  | [] => Ok []
  | x :: l' => y ← f x; ys ← mapM f l'; Ok (y :: ys)
  end.

Fixpoint forM_ {A} (f : A -> result unit) (l : list A) : result unit :=
  match l with
  | [] => Ok tt
  | x :: l' => _ ← f x; forM_ f l'
  end.

(** [int.from_bytes(b, byteorder="big", signed=False)] *)
Definition from_bytes_be (b : list byte) : Z :=
  fold_left (fun acc x => (acc * 256 + Z.of_N (Byte.to_N x))%Z) b 0%Z.

End Py.

(** ** Paths: [os.path] on POSIX *)

Module Path.

Fixpoint split_on (c : ascii) (s : string) : list string :=
  match s with
  | EmptyString => [EmptyString]
  | String a s' =>
      if Ascii.eqb a c then EmptyString :: split_on c s'
      else match split_on c s' with
           | [] => [String a EmptyString]
           | w :: ws => String a w :: ws
           end
  end.

Definition slash : ascii := "/"%char.

(** The loop of [posixpath.normpath] over the components of the path;
    [initial] says whether the path starts with a slash. *)
Fixpoint norm_comps (initial : bool) (comps new_comps : list string) : list string :=
  match comps with
  | [] => new_comps
  | comp :: rest =>
      if String.eqb comp "" || String.eqb comp "." then norm_comps initial rest new_comps
      else if negb (String.eqb comp "..")
              || (negb initial && match new_comps with [] => true | _ => false end)
              || match last new_comps with
                 | Some l => String.eqb l ".."
                 | None => false
                 end
           then norm_comps initial rest (new_comps ++ [comp])
           else norm_comps initial rest (removelast new_comps)
  end.

Definition normpath (path : string) : string :=
  if String.eqb path "" then "."
  else
    let initial_slashes :=
      if Py.startswith "/" path then
        if Py.startswith "//" path && negb (Py.startswith "///" path) then 2%nat else 1%nat
      else 0%nat in
    let comps := norm_comps (negb (initial_slashes =? 0)%nat) (split_on slash path) [] in
    let p := String.concat "/" comps in
    let p := (match initial_slashes with 0%nat => "" | 1%nat => "/" | _ => "//" end) ++ p in
    if String.eqb p "" then "." else p.

(** [os.path.basename]: what follows the last slash. *)
Definition basename (p : string) : string :=
  default "" (last (split_on slash p)).

Definition dirname_slash (p : string) : string :=
  String.concat "" (map (fun c => c ++ "/") (removelast (split_on slash p))).

(** [os.path.join(a, b)] for a relative [b]. *)
Definition join (a b : string) : string :=
  if String.eqb a "" then b
  else if Py.endswith "/" a then a ++ b
  else a ++ "/" ++ b.

(** [PurePath.with_suffix]: the name's last suffix is replaced, or the new
    suffix is appended to a name that has none. *)
Definition with_suffix (p suffix : string) : string :=
  let name := basename p in
  let parts := split_on "."%char name in
  let stem :=
    match parts with
    | [] | [_] => name
    | first :: _ =>
        if String.eqb (default "" (last parts)) "" then name
        else if String.eqb first "" && (length parts =? 2)%nat then name
        else String.concat "." (removelast parts)
    end in
  dirname_slash p ++ stem ++ suffix.

End Path.

(** ** Configurations: what [yaml.safe_load] builds, and what [json] makes
    of it

    A YAML mapping takes any scalar as a key, and a YAML document can hold
    objects [json] has no form for (a date, a timestamp, binary data, a
    set).  [json.dump] writes every key as a string and raises on the
    objects; what [json.load] reads back is a [value].  A configuration is
    a finite tree: a document whose alias points back into its own anchor
    is not among them. *)

Module Yaml.
Import Py.

Inductive key :=
| KNone
| KBool (b : bool)
| KInt (z : Z)
| KFloat (f : float)
| KStr (s : string)
| KOther (repr : string).

Inductive config :=
| CNone
| CBool (b : bool)
| CInt (z : Z)
| CFloat (f : float)
| CStr (s : string)
| CList (l : list config)
| CDict (d : list (key * config))
| COther (repr : string).

(** A document with string keys only is a configuration. *)
Fixpoint of_value (v : value) : config :=
  match v with
  | VNone => CNone
  | VBool b => CBool b
  | VInt z => CInt z
  | VFloat f => CFloat f
  | VStr s => CStr s
  | VList l => CList (map of_value l)
  | VDict d => CDict (map (fun p => (KStr (fst p), of_value (snd p))) d)
  end.

(** What is taken as given of [json]: the text a float key is written as
    ([float.__repr__], or [NaN], [Infinity], [-Infinity]), and the text
    that is in the file when the encoder raises, for
    [json.dump(obj, f, indent=2)] and for
    [json.dump(doc, f, indent=2, sort_keys=True, ensure_ascii=False)]. *)
Class JsonText := {
  floatstr : float -> string;
  ascii_text_before_error : config -> string;
  utf8_text_before_error : value -> string
}.

(** [json.dump] raises a TypeError on an object it has no form for, as a
    value or as a key. *)
Fixpoint serializable (c : config) : bool :=
  match c with
  | CList l => forallb serializable l
  | CDict d =>
      forallb (fun p => match fst p with KOther _ => false | _ => true end
                        && serializable (snd p)) d
  | COther _ => false
  | _ => true
  end.

Section Text.
Context `{JsonText}.

(** The name a key is written under. *)
Definition key_name (k : key) : string :=
  match k with
  | KNone => "null"
  | KBool b => if b then "true" else "false"
  | KInt z => pretty z
  | KFloat f => floatstr f
  | KStr s => s
  | KOther repr => repr
  end.

(** [d[k] = v] for each pair of a list in turn. *)
Definition assigned (l acc : dict) : dict :=
  fold_left (fun acc p => dict_set (fst p) (snd p) acc) l acc.

(** [json.load] of what [json.dump] wrote: the keys are strings, and of two
    keys written under one name the first gives the place and the last the
    value. *)
Fixpoint loaded (c : config) : value :=
  match c with
  | CNone => VNone
  | CBool b => VBool b
  | CInt z => VInt z
  | CFloat f => VFloat f
  | CStr s => VStr s
  | CList l => VList (map loaded l)
  | CDict d =>
      VDict (assigned (map (fun p => (key_name (fst p), loaded (snd p))) d) [])
  | COther _ => VNone
  end.

End Text.

(** [d.get(k)] for a string [k]: only a string key equals a string. *)
Fixpoint lookup_str (k : string) (d : list (key * config)) : option config :=
  match d with
  | [] => None
  | (KStr s, c) :: d' => if String.eqb k s then Some c else lookup_str k d'
  | _ :: d' => lookup_str k d'
  end.

(** [snapshot == configs] for a document that was loaded and a
    configuration: two mappings are equal when they have as many keys and
    every key of the first is a key of the second, with an equal value. *)
Fixpoint config_eq (v : value) (c : config) {struct v} : bool :=
  match v, c with
  | VList l, CList cl =>
      (fix all2 (l : list value) (cl : list config) : bool :=
         match l, cl with
         | [], [] => true
         | x :: l', y :: cl' => config_eq x y && all2 l' cl'
         | _, _ => false
         end) l cl
  | VDict d, CDict cd =>
      (length d =? length cd)%nat &&
      (fix sub (d : dict) : bool :=
         match d with
         | [] => true
         | (k, x) :: d' =>
             match lookup_str k cd with
             | Some y => config_eq x y && sub d'
             | None => false
             end
         end) d
  | _, CNone => py_eq v VNone
  | _, CBool b => py_eq v (VBool b)
  | _, CInt z => py_eq v (VInt z)
  | _, CFloat f => py_eq v (VFloat f)
  | _, CStr s => py_eq v (VStr s)
  | _, _ => false
  end.

End Yaml.

(** ** Arrays and tables: the part of [numpy] and [pandas] the engine uses *)

Module Np.

Inductive dtype := int8 | int64 | float64 | unicode | object.

Inductive cell :=
| CInt (z : Z)
| CFloat (f : Py.float)
| CStr (s : string)
| CNone.

Record ndarray := NdArray { arr_dtype : dtype; arr_items : list cell }.

(** A table: named columns, in order. *)
Abbreviation table := (list (string * ndarray)).

Fixpoint table_get (name : string) (t : table) : option ndarray :=
  match t with
  | [] => None
  | (n, a) :: t' => if String.eqb name n then Some a else table_get name t'
  end.

Fixpoint table_set (name : string) (a : ndarray) (t : table) : table :=
  match t with
  | [] => [(name, a)]
  | (n, b) :: t' => if String.eqb name n then (name, a) :: t' else (n, b) :: table_set name a t'
  end.

(** What is taken as given of [numpy.random.RandomState] and [np.round]. *)
Class Numpy := {
  RandomState : Type;
  RandomState_seed : Z -> RandomState;
  rs_randint : RandomState -> nat -> nat -> list nat * RandomState;
  rs_uniform : RandomState -> Py.float -> Py.float -> nat -> list Py.float * RandomState;
  rs_permutation : RandomState -> nat -> list nat * RandomState;
  np_round2 : Py.float -> Py.float
}.

(** [rs.permutation(n)] is a permutation of [range(n)]. *)
Class NumpyLaws `{Numpy} : Prop := {
  rs_permutation_perm : forall rs n, Permutation (fst (rs_permutation rs n)) (seq 0 n)
}.

(** What is taken as given of [pandas]: whether the parquet engine can
    write, the dtypes a CSV file reads back with, and the reductions. *)
Class Pandas := {
  to_parquet_ok : table -> bool;
  read_csv : table -> table;
  series_mean : list cell -> Py.float;
  series_std : list cell -> Py.float;
  series_min : list cell -> Py.float;
  series_max : list cell -> Py.float
}.

Class Hashlib := { sha256 : string -> list byte }.

(** [dtype.kind] *)
Definition dtype_kind (d : dtype) : string :=
  match d with
  | int8 | int64 => "i"
  | float64 => "f"
  | unicode => "U"
  | object => "O"
  end.

(** [np.issubdtype(dtype, np.number)] *)
Definition is_number (d : dtype) : bool :=
  match d with int8 | int64 | float64 => true | _ => false end.

Definition cell_to_float (c : cell) : cell :=
  match c with
  | CInt z => CFloat (Py.float_of_Z z)
  | c => c
  end.

(** [arr.astype(float)] and [arr.astype(object)] *)
Definition astype_float (a : ndarray) : ndarray :=
  NdArray float64 (map cell_to_float (arr_items a)).

Definition astype_object (a : ndarray) : ndarray :=
  NdArray object (arr_items a).

(** [arr[idx] = x] for a list of positions: a position outside the array
    raises. *)
Fixpoint assign_at (idx : list nat) (x : cell) (items : list cell) : Py.result (list cell) :=
  match idx with
  | [] => Py.Ok items
  | i :: idx' =>
      if (i <? length items)%nat then assign_at idx' x (<[i := x]> items)
      else Py.raise Py.IndexError "index is out of bounds"
  end.

(** The missing markers: [np.nan] and [None]. *)
Definition is_missing (c : cell) : bool :=
  match c with
  | CNone => true
  | CFloat f => Py.is_nan f
  | _ => false
  end.

(** [l[:k]] *)
Definition slice_to {A} (k : Z) (l : list A) : list A :=
  if (0 <=? k)%Z then firstn (Z.to_nat k) l
  else firstn (length l - Z.to_nat (- k)) l.

End Np.

(** ** The file system and the stage monad *)

Module Fs.

Inductive content :=
| Json (v : Py.value)
| Parquet (t : Np.table)
| Csv (t : Np.table)
| Bytes (b : string).

Inductive node :=
| Dir
| File (c : content).

Abbreviation fs := (gmap string node).

Definition exists_ (st : fs) (p : string) : bool :=
  match st !! p with Some _ => true | None => false end.

Definition is_file (st : fs) (p : string) : bool :=
  match st !! p with Some (File _) => true | _ => false end.

Definition is_dir (st : fs) (p : string) : bool :=
  match st !! p with Some Dir => true | _ => false end.

(** A stage runs on the file system and returns or raises. *)
Definition io (A : Type) : Type := fs -> Py.result A * fs.

#[export] Instance io_ret : MRet io := fun A a st => (Py.Ok a, st).
#[export] Instance io_bind : MBind io := fun A B f m st =>
  match m st with
  | (Py.Ok a, st') => f a st'
  | (Py.Raise e, st') => (Py.Raise e, st')
  end.

Definition throw {A} (k : Py.exn_kind) (msg : string) : io A :=
  fun st => (Py.raise k msg, st).

Definition lift {A} (r : Py.result A) : io A := fun st => (r, st).

Definition gets {A} (f : fs -> A) : io A := fun st => (Py.Ok (f st), st).

Fixpoint for_each {A} (f : A -> io unit) (l : list A) : io unit :=
  match l with
  | [] => mret tt
  | x :: l' => _ ← f x; for_each f l'
  end.

(** [try: body except Exception: raise k(msg)] around a stage step. *)
Definition reraise {A} (body : io A) (k : Py.exn_kind) (msg : string) : io A := fun st =>
  match body st with
  | (Py.Ok a, st') => (Py.Ok a, st')
  | (Py.Raise _, st') => (Py.raise k msg, st')
  end.

(** [json.load(open(p))] *)
Definition load_json (p : string) : io Py.value := fun st =>
  match st !! p with
  | Some (File (Json v)) => (Py.Ok v, st)
  | Some (File _) => (Py.raise Py.ValueError "JSONDecodeError", st)
  | Some Dir => (Py.raise Py.OSError "IsADirectoryError", st)
  | None => (Py.raise Py.FileNotFoundError "No such file or directory", st)
  end.

(** [open(p, "w")] followed by a write that runs to its end.  The two
    dumps that can stop midway, and leave what they wrote so far, are
    [dump_ascii] and [dump_utf8] below. *)
Definition write_file (p : string) (c : content) : io unit := fun st =>
  match st !! p with
  | Some Dir => (Py.raise Py.OSError "IsADirectoryError", st)
  | _ => (Py.Ok tt, <[p := File c]> st)
  end.

(** [os.replace(src, dst)]: a file is moved over a file or a free name. *)
Definition replace (src dst : string) : io unit := fun st =>
  match st !! src with
  | Some n =>
      match st !! dst with
      | Some Dir => (Py.raise Py.OSError "IsADirectoryError", st)
      | _ => (Py.Ok tt, <[dst := n]> (delete src st))
      end
  | None => (Py.raise Py.FileNotFoundError "No such file or directory", st)
  end.

(** The manifest's write: [json.dump(manifest, f, indent=2, sort_keys=True)]
    to a temporary sibling, then the rename over the target.  The text is
    ASCII, every other character escaped, and the write cannot stop
    midway. *)
Definition atomic_write_json (p : string) (payload : Py.value) : io unit :=
  let tmp := Path.with_suffix p ".tmp" in
  _ ← write_file tmp (Json (Py.sort_keys payload));
  replace tmp p.

Section Dump.
Context `{Yaml.JsonText}.

(** [with open(p, "w", encoding="utf-8") as f: json.dump(obj, f, indent=2)].
    The encoder hands the text to the file piece by piece; when it meets an
    object it has no form for it raises, and the pieces before are in the
    file. *)
Definition dump_ascii (p : string) (obj : Yaml.config) : io unit := fun st =>
  match st !! p with
  | Some Dir => (Py.raise Py.OSError "IsADirectoryError", st)
  | _ =>
      if Yaml.serializable obj then (Py.Ok tt, <[p := File (Json (Yaml.loaded obj))]> st)
      else (Py.raise Py.TypeError "Object is not JSON serializable",
            <[p := File (Bytes (Yaml.ascii_text_before_error obj))]> st)
  end.

(** [with open(p, "w", encoding="utf-8") as f: json.dump(doc, f, indent=2,
    sort_keys=True, ensure_ascii=False)] for a document that was loaded
    from JSON.  The strings go to the file as they are; one that UTF-8
    cannot hold raises a UnicodeEncodeError (a ValueError) at its piece, and
    the pieces before are in the file. *)
Definition dump_utf8 (p : string) (doc : Py.value) : io unit := fun st =>
  match st !! p with
  | Some Dir => (Py.raise Py.OSError "IsADirectoryError", st)
  | _ =>
      if Py.encodable doc then (Py.Ok tt, <[p := File (Json (Py.sort_keys doc))]> st)
      else (Py.raise Py.ValueError "UnicodeEncodeError",
            <[p := File (Bytes (Yaml.utf8_text_before_error doc))]> st)
  end.

End Dump.

End Fs.

(** ** [engine/generate.py] *)

Module Generate.
Import Py Np Fs.

Record evolution := Evolution { fraud_rate : option float; missingness : dict }.

Section Engine.
Context `{Builtins} `{Hashlib} `{Numpy} `{Pandas}.

Definition _require_configs (configs : dict) : result unit :=
  forM_ (fun key =>
           if negb (dict_mem key configs) || is_none (get_or_none key configs)
           then raise KeyError ("Missing required config: " ++ key)
           else Ok tt)
        ["dataset.yaml"; "schema.yaml"; "evolution.yaml"].

Definition column_entry (c : value) : result value :=
  match c with
  | VStr s => Ok (VStr s)
  | VDict d =>
      match dict_get "name" d with
      | Some n => Ok n
      | None => raise ValueError "Invalid column entry in schema.yaml; expected string or dict with 'name'"
      end
  | _ => raise ValueError "Invalid column entry in schema.yaml; expected string or dict with 'name'"
  end.

Definition _extract_columns (schema_cfg : value) : result (list value) :=
  match schema_cfg with
  | VDict sc =>
      match dict_get "columns" sc with
      | None => raise KeyError "schema.yaml must contain 'columns'"
      | Some (VDict cols) =>
          match sorted (dict_keys cols) with
          | [] => raise ValueError "schema.yaml 'columns' mapping is empty"
          | names => Ok (map VStr names)
          end
      | Some (VList cols) =>
          names ← mapM column_entry cols;
          match names with
          | [] => raise ValueError "schema.yaml 'columns' list is empty"
          | _ => Ok names
          end
      | Some _ => raise ValueError "schema.yaml 'columns' must be a mapping or a list"
      end
  | _ => raise KeyError "schema.yaml must contain 'columns'"
  end.

Definition _extract_row_count (dataset_cfg : value) : result Z :=
  match dataset_cfg with
  | VDict cfg =>
      let rc := get_or_none "row_count" cfg in
      let rc := if is_none rc then get_or_none "rows" cfg else rc in
      if is_none rc then raise KeyError "dataset.yaml must define 'row_count' (or 'rows')"
      else
        rc_int ← except_reraise (py_int rc) ValueError "row_count must be an integer";
        if (rc_int <=? 0)%Z then raise ValueError "row_count must be > 0"
        else Ok rc_int
  | _ => raise KeyError "dataset.yaml must be a mapping"
  end.

(** The [if]/[elif]/[else] chain that picks the fraud rate. *)
Definition resolve_fraud_rate (evo_cfg : dict) : value :=
  match dict_get "weekly_changes" evo_cfg with
  | Some (VList (first_week :: _)) =>
      match first_week with
      | VDict fw =>
          match dict_get "fraud_rate" fw with
          | Some r => r
          | None => VNone
          end
      | _ => VNone
      end
  | _ =>
      if dict_mem "fraud_rate" evo_cfg then get_or_none "fraud_rate" evo_cfg
      else match get_or_none "fraud" evo_cfg with
           | VDict fraud => get_or_none "rate" fraud
           | _ => VNone
           end
  end.

Definition check_unit_interval (v : value) (not_numeric out_of_range : string) : result float :=
  r ← except_reraise (py_float v) ValueError not_numeric;
  if fltb r fzero || fltb fone r then raise ValueError out_of_range
  else Ok r.

Definition _extract_evolution (evo_cfg : value) : result evolution :=
  match evo_cfg with
  | VDict cfg =>
      let fraud_rate := resolve_fraud_rate cfg in
      fraud_rate ←
        (if is_none fraud_rate then Ok None
         else Some <$> check_unit_interval fraud_rate
                         "fraud_rate must be numeric" "fraud_rate must be in [0,1]");
      match get_or_none "missingness" cfg with
      | VNone => Ok (Evolution fraud_rate [])
      | VDict missingness =>
          _ ← forM_ (fun kv =>
                       _ ← check_unit_interval (snd kv)
                             "missingness ratios must be numeric"
                             "missingness ratio must be in [0,1]";
                       Ok tt)
                    missingness;
          Ok (Evolution fraud_rate missingness)
      | _ => raise ValueError "missingness must be a mapping of column_name -> ratio"
      end
  | _ => raise KeyError "evolution.yaml must be a mapping"
  end.

Definition _deterministic_col_hash (name : string) : Z :=
  from_bytes_be (firstn 4 (sha256 name)).

Definition _derive_seed (dataset_dir run_dir : string) : Z :=
  let dataset_name := Path.basename (Path.normpath dataset_dir) in
  let version := Path.basename (Path.normpath run_dir) in
  let seed64 := from_bytes_be (firstn 8 (sha256 (dataset_name ++ ":" ++ version))) in
  (seed64 mod 2 ^ 32)%Z.

(** [rs.permutation(n)[:k]] *)
Definition draw_positions (rs : RandomState) (n : nat) (k : Z) : list nat * RandomState :=
  let '(perm, rs') := rs_permutation rs n in (slice_to k perm, rs').

Definition _apply_missingness (rs : RandomState) (arr : ndarray) (ratio : float)
  : result (ndarray * RandomState) :=
  if fleb ratio fzero then Ok (arr, rs)
  else
    let n := length (arr_items arr) in
    x ← fmul_int ratio (Z.of_nat n);
    k ← py_round x;
    if (k <=? 0)%Z then Ok (arr, rs)
    else
      let '(idx, rs') := draw_positions rs n k in
      if String.eqb (dtype_kind (arr_dtype arr)) "f" || String.eqb (dtype_kind (arr_dtype arr)) "i"
         || String.eqb (dtype_kind (arr_dtype arr)) "u"
      then
        items ← assign_at idx (CFloat fnan) (arr_items (astype_float arr));
        Ok (NdArray float64 items, rs')
      else
        items ← assign_at idx CNone (arr_items (astype_object arr));
        Ok (NdArray object items, rs').

(** [rs.choice(a, size=size)]: an empty population raises as soon as a
    sample is asked for. *)
Definition rs_choice (rs : RandomState) (a : list cell) (size : nat)
  : result (list cell * RandomState) :=
  match a with
  | [] =>
      match size with
      | O => Ok ([], rs)
      | _ => raise ValueError "'a' cannot be empty unless no samples are taken"
      end
  | c :: _ =>
      let '(idx, rs') := rs_randint rs (length a) size in
      Ok (map (fun i => nth i a c) idx, rs')
  end.

Definition categories : list string :=
  ["Retail"; "Travel"; "Food"; "Grocery"; "Utilities"; "Health";
   "Entertainment"; "Online"; "Automotive"; "Education"].

Definition two_digits (n : nat) : string :=
  if (n <? 10)%nat then "0" ++ pretty n else pretty n.

Definition is_fraud_name (lname : string) : bool :=
  String.eqb lname "is_fraud" || String.eqb lname "fraud".

Definition _generate_column (rs : RandomState) (name : string) (rows : Z)
  : result (ndarray * RandomState) :=
  let lname := lower name in
  let n := Z.to_nat rows in
  if String.eqb lname "account_id" then
    let n_accounts := Z.min 5000 (rows / 10) in
    let pool := map (fun i => CInt (100000 + Z.of_nat i)) (seq 0 (Z.to_nat n_accounts)) in
    '(vals, rs') ← rs_choice rs pool n;
    Ok (NdArray int64 vals, rs')
  else if String.eqb lname "merchant_category" then
    '(vals, rs') ← rs_choice rs (map CStr categories) n;
    Ok (NdArray unicode vals, rs')
  else if String.eqb lname "transaction_id" || String.eqb lname "id"
          || (endswith "_id" lname && negb (String.eqb lname "account_id")) then
    Ok (NdArray int64 (map (fun i => CInt (Z.of_nat i)) (seq 1 n)), rs)
  else if String.eqb lname "amount" || String.eqb lname "txn_amount" then
    let '(vals, rs') := rs_uniform rs fone (float_of_Z 500) n in
    Ok (NdArray float64 (map (fun v => CFloat (np_round2 v)) vals), rs')
  else if is_fraud_name lname then
    Ok (NdArray int8 (replicate n (CInt 0)), rs)
  else if String.eqb lname "timestamp" || String.eqb lname "datetime"
          || String.eqb lname "event_time" || String.eqb lname "date" then
    Ok (NdArray object
          (map (fun i => CStr ("2025-01-01T00:" ++ two_digits (i mod 60) ++ ":00Z")) (seq 0 n)),
        rs)
  else
    Ok (NdArray object (map (fun i => CStr ("val_" ++ pretty i)) (seq 0 n)), rs).

(** The fraud block of the loop body: [k] positions of a fresh zero array
    are set to one. *)
Definition assign_fraud (rs : RandomState) (rate : float) (rows : Z)
  : result (ndarray * RandomState) :=
  x ← fmul_int rate rows;
  k ← py_round x;
  let '(idx, rs') := draw_positions rs (Z.to_nat rows) k in
  items ← assign_at idx (CInt 1) (replicate (Z.to_nat rows) (CInt 0));
  Ok (NdArray int8 items, rs').

(** One turn of the loop over the columns, up to the fraud block: the
    column's own stream, its generated values, and the labels in their place
    for a fraud column. *)
Definition column_before_missingness (seed rows : Z) (evo : evolution) (name : string)
  : result (ndarray * RandomState) :=
  let col_hash := _deterministic_col_hash name in
  let rs_col := RandomState_seed ((seed + col_hash) mod 2 ^ 32)%Z in
  '(col_vals, rs_col) ← _generate_column rs_col name rows;
  if is_fraud_name (lower name) then
    match fraud_rate evo with
    | None => raise KeyError "evolution.yaml must define fraud rate when 'is_fraud' column is present"
    | Some rate => assign_fraud rs_col rate rows
    end
  else Ok (col_vals, rs_col).

(** The whole turn: missingness is applied last, on the same stream. *)
Definition generate_one (seed rows : Z) (evo : evolution) (name : value)
  : result (string * ndarray) :=
  match name with
  | VStr name =>
      '(col_vals, rs_col) ← column_before_missingness seed rows evo name;
      let miss_cfg := get_or_none name (missingness evo) in
      col_vals ←
        (if is_none miss_cfg then Ok col_vals
         else ratio ← py_float miss_cfg;
              fst <$> _apply_missingness rs_col col_vals ratio);
      Ok (name, col_vals)
  | _ => raise AttributeError "object has no attribute 'encode'"
  end.

(** [pd.DataFrame({name: data[name] for name in columns})] *)
Definition DataFrame (data : table) (columns : list string) : table :=
  fold_left (fun df name =>
               match table_get name data with
               | Some a => table_set name a df
               | None => df
               end) columns [].

(** Everything [generate_dataset] does before it writes. *)
Definition build_table (dataset_dir : string) (configs : dict) (run_dir : string)
  : result table :=
  _ ← _require_configs configs;
  columns ← _extract_columns (get_or_none "schema.yaml" configs);
  rows ← _extract_row_count (get_or_none "dataset.yaml" configs);
  evo ← _extract_evolution (get_or_none "evolution.yaml" configs);
  let seed := _derive_seed dataset_dir run_dir in
  cols ← mapM (generate_one seed rows evo) columns;
  let data := fold_left (fun d c => table_set (fst c) (snd c) d) cols [] in
  Ok (DataFrame data (map fst cols)).

(** Parquet first, CSV when that fails; the temporary file of each attempt
    is renamed over the target or removed, and leaves no trace. *)
Definition _write_dataframe (df : table) (run_dir : string) : Fs.io unit := fun st =>
  if Fs.is_dir st run_dir then
    let parquet_path := Path.join run_dir "data.parquet" in
    let csv_path := Path.join run_dir "data.csv" in
    let attempt :=
      if to_parquet_ok df then Fs.write_file parquet_path (Fs.Parquet df) st
      else (raise OSError "to_parquet failed", st) in
    match attempt with
    | (Ok _, st') => (Ok tt, st')
    | (Raise _, _) => Fs.write_file csv_path (Fs.Csv df) st
    end
  else (raise FileNotFoundError "No such file or directory", st).

Definition generate_dataset (dataset_dir : string) (configs : dict) (run_dir : string)
  : Fs.io unit :=
  df ← Fs.lift (build_table dataset_dir configs run_dir);
  _write_dataframe df run_dir.

End Engine.
End Generate.

(** ** [engine/artifacts.py] *)

Module Artifacts.
Import Py Fs.

(** [Path.resolve()]: the absolute path of the run directory. *)
Class Os := { resolve : string -> string }.

Definition required_artifacts : list string :=
  ["configs_snapshot.json"; "run_metadata.json";
   "validation_report.json"; "evaluation_report.json"].

Definition manifest (dataset_dir resolved now data_file : string) : value :=
  VDict [("dataset", VStr (Path.basename (Path.normpath dataset_dir)));
         ("run_dir", VStr resolved);
         ("finalized_at_utc", VStr now);
         ("artifacts",
          VDict [("data", VStr data_file);
                 ("configs_snapshot", VStr "configs_snapshot.json");
                 ("run_metadata", VStr "run_metadata.json");
                 ("validation_report", VStr "validation_report.json");
                 ("evaluation_report", VStr "evaluation_report.json")])].

(** [now] is the clock reading [datetime.now(timezone.utc)], to the second. *)
Definition persist_artifacts `{Os} (now : string)
    (dataset_dir : string) (configs : value) (run_dir : string) : io unit :=
  let final_metadata_path := Path.join run_dir "final_metadata.json" in
  finalized ← gets (fun st => exists_ st final_metadata_path);
  if (finalized : bool) then throw RuntimeError "Run is already finalized"
  else
    has_parquet ← gets (fun st => exists_ st (Path.join run_dir "data.parquet"));
    has_csv ← gets (fun st => exists_ st (Path.join run_dir "data.csv"));
    if (has_parquet : bool) && has_csv then
      throw RuntimeError "Ambiguous data files: both data.parquet and data.csv exist"
    else if negb has_parquet && negb has_csv then
      throw RuntimeError "Missing data file: neither data.parquet nor data.csv exist"
    else
      let data_file := if has_parquet then "data.parquet" else "data.csv" in
      _ ← for_each (fun fname =>
                      present ← gets (fun st => is_file st (Path.join run_dir fname));
                      if (present : bool) then mret tt
                      else throw RuntimeError ("Missing required artifact: " ++ fname))
                   required_artifacts;
      snapshot ← load_json (Path.join run_dir "configs_snapshot.json");
      if negb (py_eq snapshot configs) then
        throw RuntimeError "configs_snapshot.json does not match provided configs"
      else
        atomic_write_json final_metadata_path
          (manifest dataset_dir (resolve run_dir) now data_file).

End Artifacts.

(** ** [engine/registry.py] *)

Module Registry.
Import Py Fs.

Definition _load_json (path : string) : io value := load_json path.

Section Engine.
Context `{Yaml.JsonText}.

(** The text goes to a temporary sibling, which is then renamed over the
    target.  Nothing removes the sibling when the write stops midway. *)
Definition _atomic_write_json (path : string) (payload : value) : io unit :=
  let tmp := Path.with_suffix path ".tmp" in
  _ ← dump_utf8 tmp payload;
  replace tmp path.

(** [x.get(k)] on an object that may not be a dict. *)
Definition attr_get (x : value) (k : string) : result value :=
  match x with
  | VDict d => Ok (get_or_none k d)
  | _ => raise AttributeError "object has no attribute 'get'"
  end.

(** The fields read from the manifest, and the version derived from the
    run directory's name. *)
Record manifest_fields := ManifestFields {
  mf_dataset : value;
  mf_run_dir : value;
  mf_finalized_at : value;
  mf_version : string
}.

Definition read_manifest (final_meta : value) : result manifest_fields :=
  dataset ← attr_get final_meta "dataset";
  run_dir ← attr_get final_meta "run_dir";
  finalized_at ← attr_get final_meta "finalized_at_utc";
  if negb (truthy dataset) || negb (truthy run_dir) || negb (truthy finalized_at) then
    raise RuntimeError "final_metadata.json missing required fields (dataset, run_dir, finalized_at_utc)"
  else
    version ← match run_dir with
              | VStr p => Ok (Path.basename (Path.normpath p))
              | _ => raise TypeError "expected str, bytes or os.PathLike object"
              end;
    if String.eqb version "" then
      raise RuntimeError "Could not derive version from run_dir in final_metadata.json"
    else Ok (ManifestFields dataset run_dir finalized_at version).

(** The duplicate check: [v.get("version") == version] for each record. *)
Definition check_not_recorded (version : string) (vs : list value) : result unit :=
  forM_ (fun v =>
           seen ← attr_get v "version";
           if py_eq seen (VStr version) then
             raise RuntimeError "Version already present in registry for dataset"
           else Ok tt)
        vs.

Definition version_record (m : manifest_fields) : value :=
  VDict [("version", VStr (mf_version m));
         ("run_dir", mf_run_dir m);
         ("finalized_at_utc", mf_finalized_at m)].

(** The in-memory part: the registry document after the append.  The entry
    is mutated in place inside the loaded document. *)
Definition append_version (m : manifest_fields) (registry : value) : result value :=
  reg ← match registry with
        | VDict reg => Ok reg
        | _ => raise AttributeError "object has no attribute 'get'"
        end;
  match get_or_none "datasets" reg with
  | VDict datasets =>
      name ← match mf_dataset m with
             | VStr name => Ok name
             | VList _ | VDict _ => raise TypeError "unhashable type"
             | _ => raise RuntimeError "Dataset not found in registry; refusing to create implicit entry"
             end;
      match dict_get name datasets with
      | None => raise RuntimeError "Dataset not found in registry; refusing to create implicit entry"
      | Some entry =>
          versions ← attr_get entry "versions";
          e ← match entry with
              | VDict e => Ok e
              | _ => raise AttributeError "object has no attribute 'get'"
              end;
          let e := if is_none versions then dict_set "versions" (VList []) e else e in
          match (if is_none versions then VList [] else versions) with
          | VList vs =>
              _ ← check_not_recorded (mf_version m) vs;
              let e := dict_set "versions" (VList (vs ++ [version_record m])) e in
              let e := dict_set "latest_version" (VStr (mf_version m)) e in
              Ok (VDict (dict_set "datasets" (VDict (dict_set name (VDict e) datasets)) reg))
          | _ => raise RuntimeError "'versions' must be a list in registry entry"
          end
      end
  | _ => raise RuntimeError "registry/datasets.json must contain a 'datasets' object"
  end.

Definition update_registry_from_final_metadata (final_metadata_path registry_path : string)
  : io unit :=
  meta_ok ← gets (fun st => is_file st final_metadata_path);
  if negb meta_ok then throw FileNotFoundError "final_metadata.json not found"
  else
    reg_ok ← gets (fun st => is_file st registry_path);
    if negb reg_ok then throw FileNotFoundError "registry file not found"
    else
      final_meta ← _load_json final_metadata_path;
      m ← lift (read_manifest final_meta);
      registry ← _load_json registry_path;
      registry' ← lift (append_version m registry);
      _atomic_write_json registry_path registry'.

End Engine.

(** Reading a registry document back: the entry of a dataset, its version
    list (an absent list reads as empty, as the updater takes it) and its
    latest-version pointer. *)
Definition doc_at (st : fs) (path : string) : option value :=
  match st !! path with
  | Some (File (Json v)) => Some v
  | _ => None
  end.

Definition entry_of (doc : value) (name : string) : option dict :=
  match doc with
  | VDict reg =>
      match dict_get "datasets" reg with
      | Some (VDict datasets) =>
          match dict_get name datasets with
          | Some (VDict e) => Some e
          | _ => None
          end
      | _ => None
      end
  | _ => None
  end.

Definition versions_of (doc : value) (name : string) : option (list value) :=
  match entry_of doc name with
  | Some e =>
      match get_or_none "versions" e with
      | VList vs => Some vs
      | VNone => Some []
      | _ => None
      end
  | None => None
  end.

Definition latest_of (doc : value) (name : string) : option value :=
  match entry_of doc name with
  | Some e => dict_get "latest_version" e
  | None => None
  end.

End Registry.

(** ** [engine/evaluate.py] *)

Module Evaluate.
Import Py Np Fs.

Record quality := Quality {
  q_missing_ratio : float;
  q_cardinality : Z;
  q_mean : option float;
  q_std : option float;
  q_min : option float;
  q_max : option float
}.

Definition opt_float (o : option float) : value :=
  match o with Some f => VFloat f | None => VNone end.

Definition quality_json (q : quality) : value :=
  VDict [("missing_ratio", VFloat (q_missing_ratio q));
         ("cardinality", VInt (q_cardinality q));
         ("stats", VDict [("mean", opt_float (q_mean q));
                          ("std", opt_float (q_std q));
                          ("min", opt_float (q_min q));
                          ("max", opt_float (q_max q))])].

Definition cell_eqb (a b : cell) : bool :=
  match a, b with
  | CInt x, CInt y => (x =? y)%Z
  | CFloat f, CFloat g => feqb f g
  | CInt x, CFloat g => float_eq_Z g x
  | CFloat f, CInt y => float_eq_Z f y
  | CStr s, CStr t => String.eqb s t
  | _, _ => false
  end.

(** [series.nunique(dropna=True)] *)
Fixpoint distinct (seen items : list cell) : list cell :=
  match items with
  | [] => seen
  | c :: rest =>
      if is_missing c || existsb (cell_eqb c) seen then distinct seen rest
      else distinct (seen ++ [c]) rest
  end.

Definition nunique (items : list cell) : Z := Z.of_nat (length (distinct [] items)).

(** [series.isna().sum()] *)
Definition isna_sum (items : list cell) : Z :=
  Z.of_nat (length (filter (fun c => is_missing c = true) items)).

Section Engine.
Context `{Builtins} `{Pandas}.

Definition column_quality (row_count : Z) (series : ndarray) : quality :=
  let items := arr_items series in
  let missing_ratio :=
    if (0 <? row_count)%Z
    then round6 (fdiv (float_of_Z (isna_sum items)) (float_of_Z row_count))
    else fzero in
  let cardinality := nunique items in
  if is_number (arr_dtype series) && negb (forallb is_missing items) then
    Quality missing_ratio cardinality
      (Some (round6 (series_mean items))) (Some (round6 (series_std items)))
      (Some (round6 (series_min items))) (Some (round6 (series_max items)))
  else Quality missing_ratio cardinality None None None None.

(** [col in prior_cols] *)
Definition py_contains (col : string) (container : value) : result bool :=
  match container with
  | VDict d => Ok (dict_mem col d)
  | VList l => Ok (existsb (py_eq (VStr col)) l)
  | VStr s => Ok (is_substring col s)
  | _ => raise TypeError "argument is not iterable"
  end.

(** [x[k]] for a string key *)
Definition getitem (x : value) (k : string) : result value :=
  match x with
  | VDict d =>
      match dict_get k d with
      | Some v => Ok v
      | None => raise KeyError k
      end
  | _ => raise TypeError "indices must be integers or the object is not subscriptable"
  end.

Definition attr_get (x : value) (k : string) : result value :=
  match x with
  | VDict d => Ok (get_or_none k d)
  | _ => raise AttributeError "object has no attribute 'get'"
  end.

Definition no_drift : value :=
  VDict [("mean_drift", VNone); ("std_drift", VNone); ("min_drift", VNone);
         ("max_drift", VNone); ("missing_ratio_drift", VNone);
         ("cardinality_drift", VNone)].

Definition stat_drift (prior_stats : value) (stat : string) (cur_val : option float)
  : result value :=
  prior_val ← attr_get prior_stats stat;
  match cur_val with
  | Some c =>
      if is_none prior_val then Ok VNone
      else d ← py_abs_diff (VFloat c) prior_val; py_round6 d
  | None => Ok VNone
  end.

(** The body of the second loop, for one column of the current data. *)
Definition column_drift (prior_cols : option value) (col : string) (q : quality)
  : result value :=
  known ← match prior_cols with
          | Some pc => py_contains col pc
          | None => Ok false
          end;
  match prior_cols with
  | Some pc =>
      if (known : bool) then
        prior_entry ← getitem pc col;
        prior_stats ← getitem prior_entry "stats";
        mean_drift ← stat_drift prior_stats "mean" (q_mean q);
        std_drift ← stat_drift prior_stats "std" (q_std q);
        min_drift ← stat_drift prior_stats "min" (q_min q);
        max_drift ← stat_drift prior_stats "max" (q_max q);
        prior_miss ← attr_get prior_entry "missing_ratio";
        miss_drift ←
          (if is_none prior_miss then Ok VNone
           else d ← py_abs_diff (VFloat (q_missing_ratio q)) prior_miss; py_round6 d);
        prior_card ← attr_get prior_entry "cardinality";
        card_drift ←
          (if is_none prior_card then Ok VNone
           else py_abs_diff (VInt (q_cardinality q)) prior_card);
        Ok (VDict [("mean_drift", mean_drift); ("std_drift", std_drift);
                   ("min_drift", min_drift); ("max_drift", max_drift);
                   ("missing_ratio_drift", miss_drift);
                   ("cardinality_drift", card_drift)])
      else Ok no_drift
  | None => Ok no_drift
  end.

Definition count_drift (current : Z) (prior : value) : result value :=
  if is_none prior then Ok VNone else py_abs_diff (VInt current) prior.

(** The report, from the table read and the prior profile when there is one. *)
Definition build_report (df : table) (prior_profile : option value) : result value :=
  let row_count := match df with
                   | [] => 0%Z
                   | (_, a) :: _ => Z.of_nat (length (arr_items a))
                   end in
  let column_count := Z.of_nat (length df) in
  let columns := sorted (map fst df) in
  let quality_of col :=
    match table_get col df with
    | Some series => column_quality row_count series
    | None => Quality fzero 0 None None None None
    end in
  let quality := fold_left (fun d col => dict_set col (quality_json (quality_of col)) d) columns [] in
  '(prior_cols, dataset_drift) ←
    match prior_profile with
    | Some p =>
        prior_cols ← match p with
                     | VDict d => Ok (match dict_get "columns" d with
                                      | Some c => c
                                      | None => VDict []
                                      end)
                     | _ => raise AttributeError "object has no attribute 'get'"
                     end;
        prior_row_count ← attr_get p "row_count";
        prior_column_count ← attr_get p "column_count";
        row_drift ← count_drift row_count prior_row_count;
        col_drift ← count_drift column_count prior_column_count;
        Ok (Some prior_cols,
            VDict [("row_count_drift", row_drift); ("column_count_drift", col_drift)])
    | None =>
        Ok (None, VDict [("row_count_drift", VNone); ("column_count_drift", VNone)])
    end;
  drifts ← mapM (fun col => d ← column_drift prior_cols col (quality_of col); Ok (col, d)) columns;
  let drift := fold_left (fun d cd => dict_set (fst cd) (snd cd) d) drifts [] in
  Ok (VDict [("row_count", VInt row_count);
             ("column_count", VInt column_count);
             ("dataset_drift", dataset_drift);
             ("quality", VDict quality);
             ("drift", VDict drift)]).

(** [pd.read_parquet] / [pd.read_csv] on the file found. *)
Definition read_data (path : string) (parquet : bool) : io table := fun st =>
  match st !! path with
  | Some (File (Parquet t)) =>
      if parquet then (Ok t, st)
      else (raise RuntimeError "Failed to read generated data file", st)
  | Some (File (Csv t)) =>
      if parquet then (raise RuntimeError "Failed to read generated data file", st)
      else (Ok (read_csv t), st)
  | _ => (raise RuntimeError "Failed to read generated data file", st)
  end.

Definition evaluate_dataset (dataset_dir : string) (configs : value) (run_dir : string)
  : io unit :=
  has_parquet ← gets (fun st => is_file st (Path.join run_dir "data.parquet"));
  has_csv ← gets (fun st => is_file st (Path.join run_dir "data.csv"));
  if negb has_parquet && negb has_csv then
    throw FileNotFoundError "No generated data file found (searched for data.parquet, data.csv)"
  else
    let prior_profile_path := Path.join run_dir "prior_profile.json" in
    has_prior ← gets (fun st => is_file st prior_profile_path);
    prior_profile ← (if (has_prior : bool)
                     then p ← load_json prior_profile_path; mret (Some p)
                     else mret None);
    df ← (if (has_parquet : bool) then read_data (Path.join run_dir "data.parquet") true
          else read_data (Path.join run_dir "data.csv") false);
    report ← lift (build_report df prior_profile);
    reraise (write_file (Path.join run_dir "evaluation_report.json") (Json report))
            RuntimeError "Failed to write evaluation report".

End Engine.
End Evaluate.

(** * Instances for the examples

    Small executable stand-ins for the external libraries, so that the
    engine can be run inside the prover on concrete inputs. *)

Module Demo.
Import Py Np.

Fixpoint digits_value (s : string) (acc : Z) : option Z :=
  match s with
  | EmptyString => Some acc
  | String c s' =>
      let n := nat_of_ascii c in
      if (48 <=? n)%nat && (n <=? 57)%nat
      then digits_value s' (acc * 10 + Z.of_nat (n - 48))%Z
      else None
  end.

#[export] Instance builtins : Builtins := {|
  str_to_int := fun s => match s with EmptyString => None | _ => digits_value s 0 end;
  str_to_float := fun s =>
    match s with
    | EmptyString => None
    | _ => z ← digits_value s 0; Some (float_of_Z z)
    end;
  round6 := fun f => f
|}.

(** A digest of the right length: the bytes of the text, zero-padded. *)
#[export] Instance hashlib : Hashlib := {|
  sha256 := fun s => firstn 32 (list_byte_of_string s ++ repeat x00 32)
|}.

Definition lcg (x : Z) : Z := ((1103515245 * x + 12345) mod 2 ^ 31)%Z.

Fixpoint lcg_draws (x : Z) (size : nat) : list Z * Z :=
  match size with
  | O => ([], x)
  | S size' => let y := lcg x in
               let '(l, z) := lcg_draws y size' in (y :: l, z)
  end.

Definition rotate {A} (r : nat) (l : list A) : list A := skipn r l ++ firstn r l.

#[export] Instance numpy : Numpy := {|
  RandomState := Z;
  RandomState_seed := fun seed => seed;
  rs_randint := fun rs bound size =>
    let '(l, rs') := lcg_draws rs size in
    (map (fun y => Z.to_nat (y mod Z.of_nat bound)) l, rs');
  rs_uniform := fun rs lo hi size =>
    let '(l, rs') := lcg_draws rs size in
    (map (fun y => float_of_Z (1 + y mod 500)) l, rs');
  rs_permutation := fun rs n =>
    (rotate (Z.to_nat (lcg rs mod Z.of_nat n)) (seq 0 n), lcg rs);
  np_round2 := fun f => f
|}.

#[export] Instance pandas : Pandas := {|
  to_parquet_ok := fun _ => true;
  read_csv := fun t => t;
  series_mean := fun _ => fzero;
  series_std := fun _ => fzero;
  series_min := fun _ => fzero;
  series_max := fun _ => fzero
|}.

#[export] Instance json_text : Yaml.JsonText := {|
  Yaml.floatstr := fun f => if is_nan f then "NaN" else "0.0";
  Yaml.ascii_text_before_error := fun _ => "{";
  Yaml.utf8_text_before_error := fun _ => "{"
|}.

#[export] Instance os : Artifacts.Os := {|
  Artifacts.resolve := fun p => if startswith "/" p then p else "/srv/" ++ p
|}.

(** A few doubles, by mantissa and exponent. *)
Definition f0_02 : float := S754_finite false 5764607523034235 (-58).
Definition f0_4 : float := S754_finite false 7205759403792794 (-54).
Definition f0_5 : float := S754_finite false 4503599627370496 (-53).
Definition f2_5 : float := S754_finite false 5629499534213120 (-51).

End Demo.

(** * What the properties are stated with

    Readings of a state or of a report, and the resolution of the fraud
    rate in the specification's words. *)

Module Notions.
Import Py Np Fs.

(** [k] right shifts of a mantissa with its round and sticky bits: the
    mantissa is divided by [2^k], and an exact division leaves both bits
    clear. *)
Definition shr_rel (k : Z) (a b : shr_record) : Prop :=
  (0 <= shr_m a)%Z ->
  (0 <= shr_m b)%Z /\ shr_m b = (shr_m a / 2 ^ k)%Z /\
  ((shr_m a mod 2 ^ k)%Z = 0%Z -> shr_r a = false -> shr_s a = false ->
   shr_r b = false /\ shr_s b = false).

(** The resolution of the fraud rate as the specification words it: the
    conventions are tried in order, and the first one that yields a value
    wins. *)
Definition first_yielding_fraud_rate (evo_cfg : dict) : value :=
  let weekly :=
    match dict_get "weekly_changes" evo_cfg with
    | Some (VList (VDict fw :: _)) => get_or_none "fraud_rate" fw
    | _ => VNone
    end in
  let top := get_or_none "fraud_rate" evo_cfg in
  let nested :=
    match get_or_none "fraud" evo_cfg with
    | VDict fraud => get_or_none "rate" fraud
    | _ => VNone
    end in
  if negb (is_none weekly) then weekly
  else if negb (is_none top) then top
  else nested.

(** The first entry of a non-empty [weekly_changes] list, when there is one. *)
Definition first_week (evo_cfg : dict) : option value :=
  match dict_get "weekly_changes" evo_cfg with
  | Some (VList (w :: _)) => Some w
  | _ => None
  end.

(** The marker a column of a given dtype receives, and what becomes of the
    cells that are not marked. *)
Definition marker (d : dtype) : cell := if is_number d then CFloat fnan else CNone.

Definition kept (d : dtype) (c : cell) : cell := if is_number d then cell_to_float c else c.

(** The run directory holds the table, in one of the two encodings. *)
Definition holds_table (st : fs) (run_dir : string) (df : table) : Prop :=
  st !! Path.join run_dir "data.parquet" = Some (File (Parquet df)) \/
  st !! Path.join run_dir "data.csv" = Some (File (Csv df)).

(** The table the evaluator reads from a run directory, when it can. *)
Definition current_table `{Pandas} (st : fs) (run_dir : string) : option table :=
  match st !! Path.join run_dir "data.parquet" with
  | Some (File c) => match c with Parquet t => Some t | _ => None end
  | _ =>
      match st !! Path.join run_dir "data.csv" with
      | Some (File (Csv t)) => Some (read_csv t)
      | _ => None
      end
  end.

(** The [columns] object of a prior profile, as the evaluator takes it. *)
Definition prior_columns (prior : value) : value :=
  match prior with
  | VDict d => match dict_get "columns" d with Some c => c | None => VDict [] end
  | _ => VNone
  end.

Definition dataset_no_drift : value :=
  VDict [("row_count_drift", VNone); ("column_count_drift", VNone)].

(** In the report, the column has its six drift fields present and null,
    and its three quality fields present, the statistics with their four
    keys; the four statistics are numbers when the column of the table is
    numeric and holds a value. *)
Definition absent_drift_full_quality (df : table) (report : value) (col : string) : Prop :=
  exists fields quality drift mr card mean std mn mx,
    report = VDict fields /\
    dict_get "quality" fields = Some (VDict quality) /\
    dict_get "drift" fields = Some (VDict drift) /\
    dict_get col drift =
      Some (VDict [("mean_drift", VNone); ("std_drift", VNone); ("min_drift", VNone);
                   ("max_drift", VNone); ("missing_ratio_drift", VNone);
                   ("cardinality_drift", VNone)]) /\
    dict_get col quality =
      Some (VDict [("missing_ratio", VFloat mr); ("cardinality", VInt card);
                   ("stats", VDict [("mean", mean); ("std", std); ("min", mn); ("max", mx)])]) /\
    forall series,
      table_get col df = Some series ->
      is_number (arr_dtype series) = true ->
      forallb is_missing (arr_items series) = false ->
      exists a b c d, mean = VFloat a /\ std = VFloat b /\ mn = VFloat c /\ mx = VFloat d.

End Notions.

(** * Concrete inputs *)

Module Examples.
Import Py Np Fs Demo.

(** A registry whose latest version is of February, and the manifest of a
    run of January, finalized later. *)
Definition old_version : string := "2025-02-01T00-00-00Z".
Definition new_version : string := "2025-01-01T00-00-00Z".

Definition demo_registry : value :=
  VDict [("datasets",
          VDict [("finance_transactions",
                  VDict [("versions",
                          VList [VDict [("version", VStr old_version);
                                        ("run_dir", VStr "/srv/runs/finance_transactions/2025-02-01T00-00-00Z");
                                        ("finalized_at_utc", VStr "2025-02-01T00:00:07+00:00")]]);
                         ("latest_version", VStr old_version)])])].

Definition demo_manifest : value :=
  Artifacts.manifest "datasets/finance_transactions"
    "/srv/runs/finance_transactions/2025-01-01T00-00-00Z"
    "2025-03-01T10:00:00+00:00" "data.parquet".

Definition manifest_path : string :=
  "/srv/runs/finance_transactions/2025-01-01T00-00-00Z/final_metadata.json".
Definition registry_path : string := "/srv/registry/datasets.json".

Definition demo_fs : fs :=
  <[manifest_path := File (Json demo_manifest)]>
    (<[registry_path := File (Json demo_registry)]> ∅).

Definition demo_fs_registered : fs :=
  snd (Registry.update_registry_from_final_metadata manifest_path registry_path demo_fs).

(** The run directory of the tests: four artifacts and a parquet file. *)
Definition test_configs : value := VDict [("a", VInt 1)].

Definition test_run_dir : fs :=
  <[ "/tmp/run" := Dir ]>
  (<[ "/tmp/run/configs_snapshot.json" := File (Json test_configs) ]>
  (<[ "/tmp/run/run_metadata.json" := File (Json (VDict [])) ]>
  (<[ "/tmp/run/validation_report.json" := File (Json (VDict [])) ]>
  (<[ "/tmp/run/evaluation_report.json" := File (Json (VDict [])) ]>
  (<[ "/tmp/run/data.parquet" := File (Bytes "parquetdata") ]> ∅))))).

Definition test_run_dir_finalized : fs :=
  snd (Artifacts.persist_artifacts "2025-01-01T00:00:00+00:00" "/dataset" test_configs "/tmp/run" test_run_dir).

Definition finance_configs (rows : Z) (evolution : dict) : dict :=
  [("dataset.yaml", VDict [("row_count", VInt rows)]);
   ("schema.yaml",
    VDict [("columns", VList [VStr "account_id"; VStr "transaction_id"; VStr "amount";
                              VStr "merchant_category"; VStr "is_fraud"; VStr "timestamp"])]);
   ("evolution.yaml", VDict evolution)].

Definition finance_columns : list value :=
  [VStr "account_id"; VStr "transaction_id"; VStr "amount";
   VStr "merchant_category"; VStr "is_fraud"; VStr "timestamp"].

Definition empty_run : fs := <["runs/finance_transactions/v1" := Dir]> ∅.

Definition ids_1_to_10 : ndarray :=
  NdArray int64 (map (fun i => CInt (Z.of_nat i)) (seq 1 10)).

(** The run directory of the evaluator's tests: columns [a] and [b], three
    rows; and the same with a prior profile that lists [a] only. *)
Definition test_table : table :=
  [("a", NdArray int64 [CInt 1; CInt 2; CInt 3]);
   ("b", NdArray int64 [CInt 4; CInt 5; CInt 6])].

Definition test_run : fs :=
  <["/tmp/run" := Dir]> (<["/tmp/run/data.parquet" := File (Parquet test_table)]> ∅).

Definition test_prior : value :=
  VDict [("source_version", VStr "v0"); ("row_count", VInt 3); ("column_count", VInt 1);
         ("columns",
          VDict [("a", VDict [("dtype", VStr "int64");
                              ("missing_ratio", VFloat fzero);
                              ("cardinality", VInt 3);
                              ("stats", VDict [("mean", VFloat (float_of_Z 2));
                                               ("std", VFloat fone);
                                               ("min", VFloat fone);
                                               ("max", VFloat (float_of_Z 3))])])])].

Definition test_run_with_prior : fs :=
  <["/tmp/run/prior_profile.json" := File (Json test_prior)]> test_run.

End Examples.

(** ** Data frames and directories: what the other stages use of [pandas]
    and [os] *)

Module Pd.
Import Py Np Fs.

(** [str(series.dtype)].  A column of numpy strings is held by pandas as an
    object column. *)
Definition dtype_name (d : dtype) : string :=
  match d with
  | int8 => "int8"
  | int64 => "int64"
  | float64 => "float64"
  | unicode => "object"
  | object => "object"
  end.

(** [df.shape]: the rows are those of the columns, which a frame keeps of
    one length. *)
Definition row_count (df : table) : Z :=
  match df with
  | [] => 0%Z
  | (_, a) :: _ => Z.of_nat (length (arr_items a))
  end.

Definition column_count (df : table) : Z := Z.of_nat (length df).

(** [df.empty]: an axis of length zero. *)
Definition empty (df : table) : bool :=
  (column_count df =? 0)%Z || (row_count df =? 0)%Z.

(** [df[names]]: the columns under each label, label by label. *)
Definition select (names : list string) (df : table) : table :=
  flat_map (fun n => List.filter (fun c => String.eqb (fst c) n) df) names.

(** [pd.read_parquet(path)] and [pd.read_csv(path)] *)
Definition read_parquet (path : string) : io table := fun st =>
  match st !! path with
  | Some (File (Parquet t)) => (Ok t, st)
  | Some (File _) => (raise ValueError "ArrowInvalid", st)
  | Some Dir => (raise OSError "IsADirectoryError", st)
  | None => (raise FileNotFoundError "No such file or directory", st)
  end.

Definition read_csv_file `{Pandas} (path : string) : io table := fun st =>
  match st !! path with
  | Some (File (Csv t)) => (Ok (read_csv t), st)
  | Some (File _) => (raise ValueError "ParserError", st)
  | Some Dir => (raise OSError "IsADirectoryError", st)
  | None => (raise FileNotFoundError "No such file or directory", st)
  end.

(** [try: body except Exception as e: handler(e)] around a stage step. *)
Definition try_except {A} (body : io A) (handler : exn -> io A) : io A := fun st =>
  match body st with
  | (Ok a, st') => (Ok a, st')
  | (Raise e, st') => handler e st'
  end.

(** [Path.unlink()] *)
Definition unlink (p : string) : io unit := fun st =>
  match st !! p with
  | Some (File _) => (Ok tt, delete p st)
  | Some Dir => (raise OSError "IsADirectoryError", st)
  | None => (raise FileNotFoundError "No such file or directory", st)
  end.

(** What remains of [s] after the prefix [p]. *)
Fixpoint strip_prefix (p s : string) : option string :=
  match p with
  | EmptyString => Some s
  | String a p' =>
      match s with
      | EmptyString => None
      | String b s' => if Ascii.eqb a b then strip_prefix p' s' else None
      end
  end.

Definition dir_prefix (d : string) : string :=
  if String.eqb d "" then ""
  else if endswith "/" d then d
  else d ++ "/".

(** The name under which a path is an entry of the directory [d]. *)
Definition entry_name (d k : string) : option string :=
  match strip_prefix (dir_prefix d) k with
  | Some name =>
      if String.eqb name "" || is_substring "/" name then None else Some name
  | None => None
  end.

(** [os.listdir(d)], [Path.iterdir()]: the names of the entries of [d], in
    the order the system gives them. *)
Definition listdir (st : fs) (d : string) : list string :=
  omap (entry_name d) (map fst (map_to_list st)).

(** [os.mkdir] of one directory on the way of [os.makedirs(exist_ok=True)]:
    a directory that is there is kept, a file in its place is an error. *)
Definition mkdir_exist_ok (p : string) : io unit := fun st =>
  match st !! p with
  | Some Dir => (Ok tt, st)
  | Some (File _) => (raise OSError "FileExistsError", st)
  | None => (Ok tt, <[p := Dir]> st)
  end.

(** The directories on the way to a path, the path last. *)
Fixpoint ancestors (acc : string) (first : bool) (comps : list string) : list string :=
  match comps with
  | [] => []
  | comp :: rest =>
      let p := if first then comp else acc ++ "/" ++ comp in
      if String.eqb comp "" then ancestors p false rest
      else p :: ancestors p false rest
  end.

(** [os.makedirs(path, exist_ok=True)] *)
Definition makedirs (path : string) : io unit :=
  for_each mkdir_exist_ok (ancestors "" true (Path.split_on Path.slash path)).

End Pd.

(** ** [engine/profile.py] *)

Module Profile.
Import Py Np Fs Evaluate.

Section Engine.
Context `{Builtins} `{Pandas}.

(** The entry of one column: its dtype and the measures the evaluator
    computes too, the same way. *)
Definition column_profile (row_count : Z) (series : ndarray) : value :=
  let q := column_quality row_count series in
  VDict [("dtype", VStr (Pd.dtype_name (arr_dtype series)));
         ("missing_ratio", VFloat (q_missing_ratio q));
         ("cardinality", VInt (q_cardinality q));
         ("stats", VDict [("mean", opt_float (q_mean q));
                          ("std", opt_float (q_std q));
                          ("min", opt_float (q_min q));
                          ("max", opt_float (q_max q))])].

(** The summary, from the table read. *)
Definition build_profile (prior_version_dir : string) (df : table) : value :=
  let row_count := Pd.row_count df in
  let column_count := Pd.column_count df in
  let columns :=
    fold_left (fun d col =>
                 match table_get col df with
                 | Some series => dict_set col (column_profile row_count series) d
                 | None => d
                 end)
              (sorted (map fst df)) [] in
  VDict [("source_version", VStr (Path.basename prior_version_dir));
         ("row_count", VInt row_count);
         ("column_count", VInt column_count);
         ("columns", VDict columns)].

Definition read_prior (path : string) (parquet : bool) : io table :=
  reraise (if parquet then Pd.read_parquet path else Pd.read_csv_file path)
          RuntimeError "Failed to read prior data file".

Definition profile_dataset (dataset_dir : string) (configs : value)
    (run_dir prior_version_dir : string) : io unit :=
  has_parquet ← gets (fun st => is_file st (Path.join prior_version_dir "data.parquet"));
  has_csv ← gets (fun st => is_file st (Path.join prior_version_dir "data.csv"));
  if negb has_parquet && negb has_csv then
    throw FileNotFoundError "No prior data file found (searched for: data.parquet, data.csv)"
  else
    df ← (if (has_parquet : bool)
          then read_prior (Path.join prior_version_dir "data.parquet") true
          else read_prior (Path.join prior_version_dir "data.csv") false);
    reraise (write_file (Path.join run_dir "prior_profile.json")
               (Json (build_profile prior_version_dir df)))
            RuntimeError "Failed to write profile output".

End Engine.
End Profile.

(** ** [engine/validate.py] *)

Module Validate.
Import Py Np Fs.

(** What is taken as given of [pandas] here: whether a column parses as
    datetimes, and the comparisons of a column with a bound that is not a
    number of the column's own kind. *)
Class PandasChecks := {
  to_datetime_ok : list cell -> bool;
  series_lt_any : ndarray -> value -> result bool;
  series_gt_any : ndarray -> value -> result bool
}.

Definition dtype_map (declared : string) : option (list string) :=
  if String.eqb declared "string" then Some ["object"; "string"]
  else if String.eqb declared "float" then Some ["float64"; "float32"; "float16"]
  else if String.eqb declared "integer" then
    Some ["int64"; "int32"; "int16"; "int8"; "uint8"; "uint16"; "uint32"; "uint64"]
  else if String.eqb declared "boolean" then Some ["bool"; "boolean"; "int8"; "int32"; "int64"]
  else if String.eqb declared "datetime" then
    Some ["datetime64[ns]"; "datetime64[ns, UTC]"; "object"; "string"]
  else None.

(** The loop over a list of column entries: the names in order, and the
    definitions by name.  A name that is not a string is kept among the
    names; among the definitions it is under a key no column label equals. *)
Fixpoint schema_entries (entries : list value) (schema_cols : list value) (schema_defs : dict)
  : result (list value * dict) :=
  match entries with
  | [] => Ok (schema_cols, schema_defs)
  | c :: rest =>
      match c with
      | VStr s => schema_entries rest (schema_cols ++ [VStr s]) (dict_set s (VDict []) schema_defs)
      | VDict d =>
          match dict_get "name" d with
          | Some name =>
              match name with
              | VStr n => schema_entries rest (schema_cols ++ [name]) (dict_set n c schema_defs)
              | VList _ | VDict _ => raise TypeError "unhashable type"
              | _ => schema_entries rest (schema_cols ++ [name]) schema_defs
              end
          | None =>
              raise ValueError "Invalid column entry in schema.yaml; expected string or dict with 'name'"
          end
      | _ => raise ValueError "Invalid column entry in schema.yaml; expected string or dict with 'name'"
      end
  end.

Definition parse_columns (columns_cfg : value) : result (list value * dict) :=
  match columns_cfg with
  | VDict cols => Ok (map VStr (dict_keys cols), cols)
  | VList entries => schema_entries entries [] []
  | _ => raise ValueError "schema.yaml 'columns' must be a mapping or a list"
  end.

Definition is_label (data_cols : list string) (s : value) : bool :=
  match s with
  | VStr n => existsb (String.eqb n) data_cols
  | _ => false
  end.

(** [set(data_cols) == set(schema_cols)] *)
Definition same_columns (data_cols : list string) (schema_cols : list value) : bool :=
  forallb (fun c => existsb (fun s => py_eq s (VStr c)) schema_cols) data_cols
  && forallb (is_label data_cols) schema_cols.

(** [sorted] raises on names of kinds that do not compare. *)
Definition heterogeneous (l : list value) : bool :=
  let has_none := existsb is_none l in
  let has_str := existsb (fun v => match v with VStr _ => true | _ => false end) l in
  let has_num :=
    existsb (fun v => match v with VBool _ | VInt _ | VFloat _ => true | _ => false end) l in
  (has_none && (has_str || has_num)) || (has_str && has_num).

Definition check_columns (data_cols : list string) (schema_cols : list value) : result unit :=
  if same_columns data_cols schema_cols then Ok tt
  else
    let missing := List.filter (fun s => negb (is_label data_cols s)) schema_cols in
    if heterogeneous missing then raise TypeError "'<' not supported between instances"
    else raise ValueError "Schema column mismatch".

Definition int64_range (z : Z) : bool := (- 2 ^ 63 <=? z)%Z && (z <? 2 ^ 63)%Z.

Section Engine.
Context `{Builtins} `{Pandas} `{PandasChecks}.

(** [(df[col] < minv).any()] and [(df[col] > maxv).any()] *)
Definition lt_any (series : ndarray) (bound : value) : result bool :=
  match arr_dtype series, bound with
  | float64, VFloat b =>
      Ok (existsb (fun c => match c with CFloat f => fltb f b | _ => false end)
            (arr_items series))
  | int8, VInt z | int64, VInt z =>
      if int64_range z then
        Ok (existsb (fun c => match c with CInt x => (x <? z)%Z | _ => false end)
              (arr_items series))
      else series_lt_any series bound
  | _, _ => series_lt_any series bound
  end.

Definition gt_any (series : ndarray) (bound : value) : result bool :=
  match arr_dtype series, bound with
  | float64, VFloat b =>
      Ok (existsb (fun c => match c with CFloat f => fltb b f | _ => false end)
            (arr_items series))
  | int8, VInt z | int64, VInt z =>
      if int64_range z then
        Ok (existsb (fun c => match c with CInt x => (z <? x)%Z | _ => false end)
              (arr_items series))
      else series_gt_any series bound
  | _, _ => series_gt_any series bound
  end.

(** [df[col]] *)
Definition getcol (df : table) (col : string) : result ndarray :=
  match table_get col df with
  | Some series => Ok series
  | None => raise KeyError col
  end.

(** The type check of one column against its declared type. *)
Definition check_type (df : table) (col : string) (declared : value) : result unit :=
  if truthy declared then
    series ← getcol df col;
    let actual_dtype := Pd.dtype_name (arr_dtype series) in
    match declared with
    | VStr declared_type =>
        match dtype_map declared_type with
        | None => raise TypeError "type is not a supported schema type"
        | Some valid_types =>
            if String.eqb declared_type "datetime" then
              if startswith "datetime64" actual_dtype then Ok tt
              else if to_datetime_ok (arr_items series) then Ok tt
              else raise TypeError "type mismatch: expected datetime (not parseable)"
            else if existsb (String.eqb actual_dtype) valid_types then Ok tt
            else raise TypeError "type mismatch"
        end
    | VList _ | VDict _ => raise TypeError "unhashable type"
    | _ => raise TypeError "type is not a supported schema type"
    end
  else Ok tt.

Definition is_numeric_type (declared_type : value) : bool :=
  py_eq declared_type (VStr "float") || py_eq declared_type (VStr "integer").

(** [col_def.get(key, default)] *)
Definition get_default (col_def : value) (key : string) (default : value) : result value :=
  match col_def with
  | VDict d => Ok (match dict_get key d with Some v => v | None => default end)
  | _ => raise AttributeError "object has no attribute 'get'"
  end.

(** The body of the loop over the columns. *)
Definition check_column (df : table) (schema_defs : dict) (col : string) : result unit :=
  let col_def := match dict_get col schema_defs with Some d => d | None => VDict [] end in
  declared_type ← Evaluate.attr_get col_def "type";
  _ ← check_type df col declared_type;
  nullable ← get_default col_def "nullable" (VBool true);
  _ ← match nullable with
      | VBool false =>
          series ← getcol df col;
          if existsb is_missing (arr_items series)
          then raise ValueError "column is not nullable but contains nulls"
          else Ok tt
      | _ => Ok tt
      end;
  if is_numeric_type declared_type then
    constraints ← get_default col_def "constraints" (VDict []);
    minv ← Evaluate.attr_get constraints "min";
    maxv ← Evaluate.attr_get constraints "max";
    _ ← (if is_none minv then Ok tt
         else series ← getcol df col;
              below ← lt_any series minv;
              if (below : bool) then raise ValueError "column violates min constraint"
              else Ok tt);
    if is_none maxv then Ok tt
    else series ← getcol df col;
         above ← gt_any series maxv;
         if (above : bool) then raise ValueError "column violates max constraint"
         else Ok tt
  else Ok tt.

Definition label_of (v : value) : option string :=
  match v with VStr s => Some s | _ => None end.

Definition report (df : table) : value :=
  VDict [("status", VStr "pass");
         ("row_count", VInt (Pd.row_count df));
         ("column_count", VInt (Pd.column_count df))].

(** Steps 3 and 4: the schema is parsed and the table checked against it;
    the report comes out when every check passes. *)
Definition check_table (configs : value) (df : table) : result value :=
  schema ← Evaluate.attr_get configs "schema.yaml";
  has_columns ← (if truthy schema then Evaluate.py_contains "columns" schema else Ok false);
  if negb has_columns then raise KeyError "schema.yaml must contain 'columns'"
  else
    columns_cfg ← Evaluate.getitem schema "columns";
    '(schema_cols, schema_defs) ← parse_columns columns_cfg;
    _ ← check_columns (map fst df) schema_cols;
    _ ← forM_ (check_column df schema_defs) (sorted (omap label_of schema_cols));
    Ok (report df).

Definition validate_dataset (dataset_dir : string) (configs : value) (run_dir : string)
  : io unit :=
  has_parquet ← gets (fun st => is_file st (Path.join run_dir "data.parquet"));
  has_csv ← gets (fun st => is_file st (Path.join run_dir "data.csv"));
  if negb has_parquet && negb has_csv then
    throw FileNotFoundError "No generated data file found (searched for data.parquet, data.csv)"
  else
    df ← (if (has_parquet : bool)
          then Evaluate.read_data (Path.join run_dir "data.parquet") true
          else Evaluate.read_data (Path.join run_dir "data.csv") false);
    report ← lift (check_table configs df);
    reraise (write_file (Path.join run_dir "validation_report.json") (Json report))
            RuntimeError "Failed to write validation report".

End Engine.
End Validate.

(** ** [engine/ingest.py] *)

Module Ingest.
Import Py Np Fs.

(** [PurePath.suffix]: the last dot of the name and what follows, unless the
    dot opens or closes the name. *)
Definition suffix (p : string) : string :=
  let name := Path.basename p in
  let parts := Path.split_on "."%char name in
  match parts with
  | [] | [_] => ""
  | first :: _ =>
      let l := default "" (last parts) in
      if String.eqb l "" then ""
      else if String.eqb first "" && (length parts =? 2)%nat then ""
      else "." ++ l
  end.

Section Engine.
Context `{Pandas}.

(** Step 5: parquet through a temporary sibling, CSV the same way when that
    fails. *)
Definition write_atomically (df : table) (run_dir : string) : io unit :=
  let out_parquet := Path.join run_dir "data.parquet" in
  let out_csv := Path.join run_dir "data.csv" in
  Pd.try_except
    (let tmp_path := Path.with_suffix out_parquet ".tmp" in
     _ ← (if to_parquet_ok df then write_file tmp_path (Parquet df)
          else throw OSError "to_parquet failed");
     replace tmp_path out_parquet)
    (fun _ =>
       let tmp_path := Path.with_suffix out_parquet ".tmp" in
       left_over ← gets (fun st => exists_ st tmp_path);
       _ ← (if (left_over : bool) then Pd.unlink tmp_path else mret tt);
       Pd.try_except
         (let tmp_path := Path.with_suffix out_csv ".tmp" in
          _ ← write_file tmp_path (Csv df);
          replace tmp_path out_csv)
         (fun _ =>
            let tmp_path := Path.with_suffix out_csv ".tmp" in
            left_over ← gets (fun st => exists_ st tmp_path);
            _ ← (if (left_over : bool) then Pd.unlink tmp_path else mret tt);
            throw RuntimeError "Failed to write dataset as parquet or csv")).

Definition ingest_external_dataset (input_path run_dir : string) : io unit :=
  input_ok ← gets (fun st => exists_ st input_path && is_file st input_path);
  if negb input_ok then throw RuntimeError "input_path does not exist or is not a file"
  else if negb (String.eqb (lower (suffix input_path)) ".csv"
                || String.eqb (lower (suffix input_path)) ".parquet")
  then throw RuntimeError "input_path must be a .csv or .parquet file"
  else
    run_ok ← gets (fun st => exists_ st run_dir && is_dir st run_dir);
    if negb run_ok then throw RuntimeError "run_dir does not exist or is not a directory"
    else
      entries ← gets (fun st => Pd.listdir st run_dir);
      match entries with
      | _ :: _ => throw RuntimeError "run_dir must be empty"
      | [] =>
          df ← reraise (if String.eqb (lower (suffix input_path)) ".csv"
                        then Pd.read_csv_file input_path
                        else Pd.read_parquet input_path)
                       RuntimeError "Failed to load dataset";
          if Pd.empty df then throw RuntimeError "Input dataset is empty"
          else
            let df := Pd.select (sorted (map fst df)) df in
            write_atomically df run_dir
      end.

End Engine.
End Ingest.

(** ** [engine/version.py] *)

Module Version.
Import Py.

(** A reading of the clock: [datetime.utcnow()]. *)
Record datetime := DateTime {
  year : nat; month : nat; day : nat;
  hour : nat; minute : nat; second : nat
}.

(** A number in decimal, zero-filled to a width. *)
Definition zero_filled (width n : nat) : string :=
  let digits := pretty n in
  String.concat "" (replicate (width - String.length digits) "0") ++ digits.

(** [now.strftime("%Y-%m-%dT%H-%M-%SZ")], the year on four digits as it is
    from the year 1000 on. *)
Definition strftime (now : datetime) : string :=
  zero_filled 4 (year now) ++ "-" ++ zero_filled 2 (month now) ++ "-" ++ zero_filled 2 (day now)
  ++ "T" ++ zero_filled 2 (hour now) ++ "-" ++ zero_filled 2 (minute now) ++ "-"
  ++ zero_filled 2 (second now) ++ "Z".

Definition resolve_version (now : datetime) (dataset_name run_id : value) : result string :=
  match dataset_name with
  | VStr name =>
      if String.eqb name "" then raise ValueError "dataset_name must be a non-empty string"
      else
        match run_id with
        | VNone => Ok (strftime now)
        | VStr id =>
            if String.eqb id "" then raise ValueError "run_id must be a non-empty string if provided"
            else Ok id
        | _ => raise ValueError "run_id must be a non-empty string if provided"
        end
  | _ => raise ValueError "dataset_name must be a non-empty string"
  end.

End Version.

(** ** [scripts/run.py] *)

Module Run.
Import Py Np Fs.

Definition ensure_dir (path : string) : io unit := Pd.makedirs path.

(** The configurations are what [yaml.safe_load] built; the files hold what
    [json.dump] makes of them. *)
Definition snapshot_run_context `{Yaml.JsonText} (run_dir : string)
    (configs metadata : Yaml.config) : io unit :=
  _ ← ensure_dir run_dir;
  _ ← dump_ascii (Path.join run_dir "configs_snapshot.json") configs;
  dump_ascii (Path.join run_dir "run_metadata.json") metadata.

(** [sorted(names, reverse=True)] *)
Fixpoint insert_desc (x : string) (l : list string) : list string :=
  match l with
  | [] => [x]
  | y :: l' => if String.ltb y x then x :: y :: l' else y :: insert_desc x l'
  end.

Definition sorted_reverse (l : list string) : list string := fold_right insert_desc [] l.

(** The choice of the prior version in [main]: among the directories of
    [runs_base] whose name is below the version, the greatest. *)
Definition prior_versions (st : fs) (runs_base version : string) : list string :=
  if is_dir st runs_base then
    List.filter (fun v => is_dir st (Path.join runs_base v) && String.ltb v version)
                (Pd.listdir st runs_base)
  else [].

Definition select_prior_version (st : fs) (runs_base version : string) : option string :=
  match sorted_reverse (prior_versions st runs_base version) with
  | prior_version :: _ => Some prior_version
  | [] => None
  end.

End Run.

(** ** What is taken as given of the library: the shape of the draws *)

Module Laws.
Import Py Np.

(** [rs.randint] and [rs.uniform] return as many draws as asked for. *)
Class NumpyShapes `{Numpy} : Prop := {
  rs_randint_length : forall rs bound size, length (fst (rs_randint rs bound size)) = size;
  rs_uniform_length : forall rs lo hi size, length (fst (rs_uniform rs lo hi size)) = size
}.

End Laws.

(** ** Further readings *)

Module Readings.
Import Py Np Fs.

Fixpoint distinct_keys (l : list string) : bool :=
  match l with
  | [] => true
  | k :: l' => negb (existsb (String.eqb k) l') && distinct_keys l'
  end.

(** A document as a loader builds it from a file without NaN: the keys of
    every object are distinct. *)
Fixpoint well_formed (v : value) : bool :=
  match v with
  | VFloat f => negb (is_nan f)
  | VList l => forallb well_formed l
  | VDict d => distinct_keys (map fst d) && forallb (fun p => well_formed (snd p)) d
  | _ => true
  end.

(** Two lists compared entry by entry. *)
Fixpoint all2 {A B} (f : A -> B -> bool) (l1 : list A) (l2 : list B) : bool :=
  match l1, l2 with
  | [], [] => true
  | x :: l1', y :: l2' => f x y && all2 f l1' l2'
  | _, _ => false
  end.

(** The entries of a mapping that are under a string key. *)
Fixpoint str_entries (d : list (Yaml.key * Yaml.config)) : list (string * Yaml.config) :=
  match d with
  | [] => []
  | (Yaml.KStr s, c) :: d' => (s, c) :: str_entries d'
  | _ :: d' => str_entries d'
  end.

(** The order of two clock readings. *)
Definition chronological (a b : Version.datetime) : comparison :=
  let then_ (c d : comparison) := match c with Eq => d | _ => c end in
  then_ (Nat.compare (Version.year a) (Version.year b))
  (then_ (Nat.compare (Version.month a) (Version.month b))
  (then_ (Nat.compare (Version.day a) (Version.day b))
  (then_ (Nat.compare (Version.hour a) (Version.hour b))
  (then_ (Nat.compare (Version.minute a) (Version.minute b))
         (Nat.compare (Version.second a) (Version.second b)))))).

(** A reading of the clock within the ranges of [datetime], in a year of
    four digits. *)
Definition clock_reading (a : Version.datetime) : bool :=
  (1000 <=? Z.of_nat (Version.year a))%Z && (Z.of_nat (Version.year a) <=? 9999)%Z
  && (1 <=? Version.month a)%nat && (Version.month a <=? 12)%nat
  && (1 <=? Version.day a)%nat && (Version.day a <=? 31)%nat
  && (Version.hour a <=? 23)%nat && (Version.minute a <=? 59)%nat
  && (Version.second a <=? 59)%nat.

(** A name an entry of a directory can have. *)
Definition entry_like (name : string) : bool :=
  negb (String.eqb name "") && negb (is_substring "/" name).

(** A name that is one component of a path: not empty, without a slash, and
    neither of the two dots. *)
Definition plain_name (v : string) : bool :=
  entry_like v && negb (String.eqb v ".") && negb (String.eqb v "..").

(** In ascending order, as [sorted] leaves a list of names. *)
Definition ascending (l : list string) : Prop :=
  StronglySorted (fun a b => String.leb a b = true) l.

(** The keys of an object in ascending order, as a sorted write leaves
    them. *)
Definition keys_ascending (d : dict) : Prop :=
  Sorted (fun p q => String.leb (fst p) (fst q) = true) d.

End Readings.

(** ** Further instances and inputs for the examples *)

Module Samples.
Import Py Np Fs Demo Examples.

#[export] Instance checks : Validate.PandasChecks := {|
  Validate.to_datetime_ok := fun _ => true;
  Validate.series_lt_any := fun _ _ => raise TypeError "Invalid comparison";
  Validate.series_gt_any := fun _ _ => raise TypeError "Invalid comparison"
|}.

(** The exception a result carries. *)
Definition raised {A} (r : result A) : exn :=
  match r with
  | Raise e => e
  | Ok _ => Exn RuntimeError ""
  end.

(** One schema, its mapping listed in two orders. *)
Definition schema_b_a : dict := [("columns", VDict [("b", VNone); ("a", VNone)])].
Definition schema_a_b : dict := [("columns", VDict [("a", VNone); ("b", VNone)])].

Definition missingness_evolution : value :=
  VDict [("missingness", VDict [("amount", VFloat f0_4)])].

(** Three runs of a dataset, and a file beside them. *)
Definition three_runs : fs :=
  <["runs/ds" := Dir]>
  (<["runs/ds/v1" := Dir]>
  (<["runs/ds/v2" := Dir]>
  (<["runs/ds/v3" := Dir]>
  (<["runs/ds/notes.txt" := File (Bytes "notes")]> ∅)))).

(** A prior version with its data, and the run directory of the next. *)
Definition prior_and_run : fs :=
  <["/tmp/run" := Dir]> (<["/tmp/prior/data.parquet" := File (Parquet test_table)]> ∅).

(** The run directory of the tests beside a registry that lists the
    dataset. *)
Definition registry_of_dataset : value :=
  VDict [("datasets", VDict [("dataset", VDict [("versions", VList [])])])].

Definition test_run_dir_and_registry : fs :=
  <[registry_path := File (Json registry_of_dataset)]> test_run_dir.

(** The configuration of the validator's tests, and one that declares the
    columns with types and bounds. *)
Definition names_schema : value :=
  VDict [("schema.yaml", VDict [("columns", VList [VStr "a"; VStr "b"])])].

Definition bounded_defs : dict :=
  [("a", VDict [("type", VStr "integer"); ("nullable", VBool false);
                ("constraints", VDict [("min", VInt 1); ("max", VInt 3)])])].

(** Ten rows of sequential ids, declared integer, four of them to go
    missing. *)
Definition ids_configs : dict :=
  [("dataset.yaml", VDict [("row_count", VInt 10)]);
   ("schema.yaml", VDict [("columns", VDict [("transaction_id", VDict [("type", VStr "integer")])])]);
   ("evolution.yaml", VDict [("missingness", VDict [("transaction_id", VFloat f0_4)])])].

(** A CSV file to ingest, its columns out of order, and an empty run
    directory. *)
Definition unsorted_table : table :=
  [("b", NdArray int64 [CInt 4; CInt 5]); ("a", NdArray int64 [CInt 1; CInt 2])].

Definition midnight : Version.datetime := Version.DateTime 2025 1 1 0 0 0.
Definition a_second_later : Version.datetime := Version.DateTime 2025 1 1 0 0 1.

(** The run directory of the evaluator's tests with a prior profile whose
    entry for [a] has a dtype and nothing else. *)
Definition prior_without_stats : dict :=
  [("source_version", VStr "v0"); ("row_count", VInt 3); ("column_count", VInt 1);
   ("columns", VDict [("a", VDict [("dtype", VStr "int64")])])].

Definition test_run_with_bare_prior : fs :=
  <["/tmp/run/prior_profile.json" := File (Json (VDict prior_without_stats))]> test_run.

(** The finance dataset at twenty rows, the table the generator builds for
    it and the run directory it leaves. *)
Definition finance_20 : dict := finance_configs 20 [("fraud_rate", VFloat f0_02)].

Definition finance_table : table :=
  match Generate.build_table "datasets/finance_transactions" finance_20
          "runs/finance_transactions/v1" with
  | Ok df => df
  | Raise _ => []
  end.

Definition finance_run_generated : fs :=
  snd (Generate.generate_dataset "datasets/finance_transactions" finance_20
         "runs/finance_transactions/v1" empty_run).

Definition ids_run_generated : fs :=
  snd (Generate.generate_dataset "datasets/finance_transactions" ids_configs
         "runs/finance_transactions/v1" empty_run).

Definition account_ids : ndarray :=
  match Generate._generate_column (RandomState_seed 7) "account_id" 20 with
  | Ok p => fst p
  | Raise _ => NdArray int64 []
  end.

Definition test_run_dir_and_registry_finalized : fs :=
  snd (Artifacts.persist_artifacts "2025-01-01T00:00:00+00:00" "/dataset" test_configs
         "/tmp/run" test_run_dir_and_registry).

(** A run of the finance dataset from nothing: the states after the
    snapshot of the run context, the generation, the validation and the
    evaluation. *)
Definition fresh_run_snapshot : fs :=
  snd (Run.snapshot_run_context "runs/finance_transactions/v1"
         (Yaml.of_value (VDict finance_20)) (Yaml.CDict []) ∅).

Definition fresh_run_generated : fs :=
  snd (Generate.generate_dataset "datasets/finance_transactions" finance_20
         "runs/finance_transactions/v1" fresh_run_snapshot).

Definition fresh_run_validated : fs :=
  snd (Validate.validate_dataset "datasets/finance_transactions" (VDict finance_20)
         "runs/finance_transactions/v1" fresh_run_generated).

Definition fresh_run_evaluated : fs :=
  snd (Evaluate.evaluate_dataset "datasets/finance_transactions" (VDict finance_20)
         "runs/finance_transactions/v1" fresh_run_validated).

(** The stream of the id column of [ids_configs] and the column as it is
    generated, before four of its entries go missing. *)
Definition ids_column : ndarray * RandomState :=
  match Generate.column_before_missingness
          (Generate._derive_seed "datasets/finance_transactions" "runs/finance_transactions/v1")
          10 (Generate.Evolution None [("transaction_id", VFloat f0_4)]) "transaction_id" with
  | Ok p => p
  | Raise _ => (NdArray int64 [], RandomState_seed 0)
  end.


(** A lone surrogate, U+D800, and a registry that was loaded with one in a
    comment beside its datasets. *)
Definition lone_surrogate : string :=
  String (ascii_of_nat 237) (String (ascii_of_nat 160) (String (ascii_of_nat 128) "")).

Definition registry_with_surrogate : value :=
  match demo_registry with
  | VDict d => VDict (("comment", VStr lone_surrogate) :: d)
  | v => v
  end.

Definition demo_fs_surrogate : fs :=
  <[manifest_path := File (Json demo_manifest)]>
    (<[registry_path := File (Json registry_with_surrogate)]> ∅).

(** A configuration whose evolution file has a mapping keyed by a
    number. *)
Definition keyed_by_number : Yaml.config :=
  Yaml.CDict
    [(Yaml.KStr "dataset.yaml", Yaml.CDict [(Yaml.KStr "row_count", Yaml.CInt 10)]);
     (Yaml.KStr "schema.yaml",
      Yaml.CDict [(Yaml.KStr "columns", Yaml.CList [Yaml.CStr "transaction_id"])]);
     (Yaml.KStr "evolution.yaml",
      Yaml.CDict [(Yaml.KStr "weekly_weights", Yaml.CDict [(Yaml.KInt 1, Yaml.CFloat f0_5)])])].

End Samples.

(** * Properties *)

(** ** Binary64 arithmetic: rounding a product with a ratio in [0, 1] *)

Module Binary64.
Import Py Notions.
Local Open Scope Z_scope.

Lemma digits2_pos_size p : digits2_pos p = Pos.size p.
Proof. induction p; simpl; congruence. Qed.

Lemma digits_le (m : positive) (k : Z) :
  0 <= k -> Z.pos m < 2 ^ k -> Z.pos (digits2_pos m) <= k.
Proof.
  intros Hk Hm. rewrite digits2_pos_size.
  pose proof (Pos.size_le m) as Hs.
  assert (H2 : 2 ^ Z.pos (Pos.size m) <= 2 * Z.pos m).
  { replace (2 ^ Z.pos (Pos.size m)) with (Z.pos (2 ^ Pos.size m)) by (rewrite Pos2Z.inj_pow; reflexivity).
    change (2 * Z.pos m) with (Z.pos m~0). apply Pos2Z.pos_le_pos. exact Hs. }
  destruct (Z_le_gt_dec (Z.pos (Pos.size m)) k) as [|Hgt]; [assumption|].
  assert (2 ^ (k + 1) <= 2 ^ Z.pos (Pos.size m)) by (apply Z.pow_le_mono_r; lia).
  rewrite Z.pow_add_r in H by lia. lia.
Qed.

Lemma digits_gt (m : positive) : Z.pos m < 2 ^ Z.pos (digits2_pos m).
Proof.
  rewrite digits2_pos_size.
  replace (2 ^ Z.pos (Pos.size m)) with (Z.pos (2 ^ Pos.size m)) by (rewrite Pos2Z.inj_pow; reflexivity).
  apply Pos2Z.pos_lt_pos, Pos.size_gt.
Qed.

Lemma shr_1_spec m r s : 0 <= m ->
  shr_m (shr_1 (Build_shr_record m r s)) = m / 2 /\
  (m mod 2 = 0 -> r = false -> s = false ->
   shr_r (shr_1 (Build_shr_record m r s)) = false /\ shr_s (shr_1 (Build_shr_record m r s)) = false).
Proof.
  intros Hm. destruct m as [|[p|p|]|p]; simpl; try lia.
  - split; [reflexivity|]. intros _ -> ->; auto.
  - split. { rewrite Pos2Z.inj_xI. rewrite (Z.mul_comm 2), Z.div_add_l by lia. reflexivity. }
    intros H. exfalso. rewrite Pos2Z.inj_xI in H. rewrite Z.add_comm, Z.mul_comm, Z.mod_add in H by lia. discriminate.
  - split. { rewrite Pos2Z.inj_xO. rewrite (Z.mul_comm 2), Z.div_mul by lia. reflexivity. }
    intros _ -> ->; auto.
  - split; [reflexivity|]. intros H; discriminate.
Qed.

Lemma shr_rel_1 a : shr_rel 1 a (shr_1 a).
Proof.
  destruct a as [m r s]. intros Hm. simpl in Hm.
  destruct (shr_1_spec m r s Hm) as [H1 H2].
  change (2 ^ 1) with 2. simpl shr_m at 2 3. simpl shr_r at 1. simpl shr_s at 1.
  split; [rewrite H1; apply Z.div_pos; lia|]. split; [exact H1|exact H2].
Qed.

Lemma shr_rel_trans k1 k2 a b c :
  0 <= k1 -> 0 <= k2 -> shr_rel k1 a b -> shr_rel k2 b c -> shr_rel (k1 + k2) a c.
Proof.
  intros Hk1 Hk2 Hab Hbc Ha.
  destruct (Hab Ha) as (Hb & Eb & Xb). destruct (Hbc Hb) as (Hc & Ec & Xc).
  assert (P1 : 0 < 2 ^ k1) by (apply Z.pow_pos_nonneg; lia).
  assert (P2 : 0 < 2 ^ k2) by (apply Z.pow_pos_nonneg; lia).
  split; [assumption|]. split.
  - rewrite Ec, Eb, Z.pow_add_r, Z.div_div by lia. reflexivity.
  - intros Hmod Hr Hs. rewrite Z.pow_add_r in Hmod by lia.
    apply Z.mod_divide in Hmod; [|lia]. destruct Hmod as [q Hq].
    assert (M1 : shr_m a mod 2 ^ k1 = 0).
    { rewrite Hq. replace (q * (2 ^ k1 * 2 ^ k2)) with (q * 2 ^ k2 * 2 ^ k1) by ring.
      apply Z.mod_mul; lia. }
    destruct (Xb M1 Hr Hs) as [Rb Sb]. apply Xc; [|assumption..].
    rewrite Eb, Hq. replace (q * (2 ^ k1 * 2 ^ k2)) with (q * 2 ^ k2 * 2 ^ k1) by ring.
    rewrite Z.div_mul by lia. apply Z.mod_mul; lia.
Qed.

Lemma shr_rel_iter p : forall a, shr_rel (Z.pos p) a (SpecFloat.iter_pos shr_1 p a).
Proof.
  induction p as [p IH|p IH|]; intros a; simpl SpecFloat.iter_pos.
  - replace (Z.pos p~1) with (1 + Z.pos p + Z.pos p) by lia.
    eapply shr_rel_trans; [lia|lia| |apply IH].
    eapply shr_rel_trans; [lia|lia|apply shr_rel_1|apply IH].
  - replace (Z.pos p~0) with (Z.pos p + Z.pos p) by lia.
    eapply shr_rel_trans; [lia|lia|apply IH|apply IH].
  - apply shr_rel_1.
Qed.

Lemma round_nearest_even_bounds q l :
  q <= round_nearest_even q l <= q + 1 /\
  (l = loc_Exact -> round_nearest_even q l = q).
Proof.
  split; [|intros ->; reflexivity].
  destruct l as [|[]]; simpl; try lia. destruct (Z.even q); lia.
Qed.

(** One rounding pass of [binary_round_aux]: shift to the canonical exponent. *)
Lemma pow2_pos k : 0 <= k -> 0 < 2 ^ k.
Proof. intros; apply Z.pow_pos_nonneg; lia. Qed.

Lemma fexp_le_0 (m e N : Z) :
  0 <= m -> e <= 0 -> 0 <= N < 2 ^ 53 -> m <= N * 2 ^ (- e) ->
  fexp prec emax (Zdigits2 m + e) <= 0.
Proof.
  intros Hm He HN Hle.
  unfold fexp, SpecFloat.emin, prec, emax. apply Z.max_lub; [|lia].
  destruct m as [|p|p]; simpl Zdigits2; [lia| |lia].
  assert (Z.pos (digits2_pos p) <= 53 - e); [|lia].
  apply digits_le; [lia|].
  replace (53 - e) with (53 + - e) by lia. rewrite Z.pow_add_r by lia.
  pose proof (pow2_pos (- e)). nia.
Qed.

Lemma shr_fexp_le (m e N : Z) :
  0 <= m -> e <= 0 -> 0 <= N < 2 ^ 53 -> m <= N * 2 ^ (- e) ->
  exists m' r' s' e',
    shr_fexp prec emax m e loc_Exact = (Build_shr_record m' r' s', e') /\
    e <= e' <= 0 /\ m' = m / 2 ^ (e' - e) /\ 0 <= m' /\
    (m mod 2 ^ (e' - e) = 0 -> r' = false /\ s' = false) /\
    m' <= N * 2 ^ (- e').
Proof.
  intros Hm He HN Hle.
  pose proof (fexp_le_0 m e N Hm He HN Hle) as Hf.
  unfold shr_fexp, shr. simpl shr_record_of_loc.
  set (f := fexp prec emax (Zdigits2 m + e)) in *.
  destruct (f - e) as [|p|p] eqn:Hd.
  - exists m, false, false, e. replace (e - e) with 0 by lia.
    change (2 ^ 0) with 1. rewrite Z.div_1_r. repeat split; auto; lia.
  - pose proof (shr_rel_iter p (Build_shr_record m false false) Hm) as (H0 & H1 & H2).
    destruct (SpecFloat.iter_pos shr_1 p _) as [m' r' s']. simpl in H0, H1, H2.
    exists m', r', s', (e + Z.pos p).
    replace (e + Z.pos p - e) with (Z.pos p) by lia.
    repeat split; auto; try lia; try (apply H2; auto).
    rewrite H1. apply Z.div_le_upper_bound; [apply pow2_pos; lia|].
    replace (- e) with (Z.pos p + - (e + Z.pos p)) in Hle by lia.
    rewrite Z.pow_add_r in Hle by lia. lia.
  - exists m, false, false, e. replace (e - e) with 0 by lia.
    change (2 ^ 0) with 1. rewrite Z.div_1_r. repeat split; auto; lia.
Qed.

Lemma binary_round_aux_le (s : bool) (mx ex N : Z) :
  0 <= mx -> ex <= 0 -> 0 <= N < 2 ^ 53 -> mx <= N * 2 ^ (- ex) ->
  binary_round_aux prec emax s mx ex loc_Exact = S754_zero s \/
  exists m e, binary_round_aux prec emax s mx ex loc_Exact = S754_finite s m e /\
              e <= 0 /\ Z.pos m <= N * 2 ^ (- e).
Proof.
  intros Hm He HN Hle. unfold binary_round_aux.
  destruct (shr_fexp_le mx ex N Hm He HN Hle) as (m1 & r1 & s1 & e1 & -> & He1 & Em1 & Hm1 & Hex & Hb1).
  set (m2 := round_nearest_even _ _).
  assert (Hm2 : 0 <= m2 /\ m2 <= N * 2 ^ (- e1)).
  { destruct (round_nearest_even_bounds m1 (loc_of_shr_record (Build_shr_record m1 r1 s1))) as [Hb Hx].
    simpl shr_m in Hb, Hx. split; [subst m2; simpl shr_m; lia|].
    destruct (Z.eq_dec (mx mod 2 ^ (e1 - ex)) 0) as [Hz|Hnz].
    - destruct (Hex Hz) as [-> ->]. subst m2. simpl. exact Hb1.
    - subst m2. simpl shr_m. assert (m1 < N * 2 ^ (- e1)); [|lia].
      rewrite Em1. apply Z.div_lt_upper_bound; [apply pow2_pos; lia|].
      pose proof (pow2_pos (e1 - ex)) as Hp.
      replace (- ex) with ((e1 - ex) + - e1) in Hle by lia.
      rewrite Z.pow_add_r in Hle by lia.
      assert (mx <> 2 ^ (e1 - ex) * (N * 2 ^ (- e1))); [|lia].
      intros ->. apply Hnz. rewrite Z.mul_comm. apply Z.mod_mul. lia. }
  destruct Hm2 as [Hm2 Hb2].
  destruct (shr_fexp_le m2 e1 N Hm2 (proj2 He1) HN Hb2) as (m3 & r3 & s3 & e3 & -> & He3 & Em3 & Hm3 & _ & Hb3).
  simpl shr_m. destruct m3 as [|p|p]; [left; reflexivity| |lia].
  right. exists p, e3.
  replace (e3 <=? emax - prec) with true; [auto with zarith|].
  symmetry. apply Z.leb_le. unfold emax, prec. lia.
Qed.

Lemma pos_iter_xO (m d : positive) : Z.pos (Pos.iter xO m d) = Z.pos m * 2 ^ Z.pos d.
Proof.
  revert m. induction d using Pos.peano_ind; intros m.
  - simpl Pos.iter. change (2 ^ 1) with 2. lia.
  - rewrite Pos.iter_succ. rewrite Pos2Z.inj_xO, IHd, Pos2Z.inj_succ, Z.pow_succ_r by lia. ring.
Qed.

(** [float(i)] is exact or below for small non-negative ints. *)
Lemma float_of_Z_le (n : Z) :
  0 <= n < 2 ^ 53 ->
  float_of_Z n = S754_zero false \/
  exists m e, float_of_Z n = S754_finite false m e /\ e <= 0 /\ Z.pos m <= n * 2 ^ (- e).
Proof.
  intros Hn. unfold float_of_Z, binary_normalize.
  destruct n as [|p|p]; [left; reflexivity| |lia].
  unfold binary_round.
  assert (Hf : fexp prec emax (Z.pos (digits2_pos p) + 0) <= 0).
  { apply (fexp_le_0 (Z.pos p) 0 (Z.pos p)); simpl; lia. }
  unfold shl_align.
  destruct (fexp prec emax (Z.pos (digits2_pos p) + 0) - 0) as [|d|d] eqn:Hd.
  - apply binary_round_aux_le; simpl; lia.
  - lia.
  - apply binary_round_aux_le; try lia.
    rewrite pos_iter_xO. replace (fexp prec emax (Z.pos (digits2_pos p) + 0)) with (Z.neg d) by lia.
    change (- Z.neg d) with (Z.pos d). lia.
Qed.

Lemma pow2_52 : 2 ^ 52 = 4503599627370496.
Proof. vm_compute. reflexivity. Qed.

Lemma valid_le_one (m : positive) (e : Z) :
  valid_binary prec emax (S754_finite false m e) = true ->
  fleb (S754_finite false m e) fone = true ->
  e <= 0 /\ Z.pos m <= 2 ^ (- e).
Proof.
  unfold valid_binary, bounded, canonical_mantissa, fleb, SFleb, fone.
  cbn [SFcompare].
  intros Hv Hle. apply andb_true_iff in Hv as [Hc _]. apply Z.eqb_eq in Hc.
  assert (Hd : Z.pos (digits2_pos m) <= 53).
  { unfold fexp, prec in Hc. lia. }
  pose proof (digits_gt m) as Hg.
  assert (Hm53 : Z.pos m < 2 ^ 53).
  { eapply Z.lt_le_trans; [exact Hg|]. apply Z.pow_le_mono_r; [lia|exact Hd]. }
  destruct (e ?= -52) eqn:Hcmp.
  - apply Z.compare_eq in Hcmp. subst e. split; [lia|].
    change (- -52) with 52. rewrite pow2_52.
    pose proof (Pos.compare_spec m 4503599627370496) as Hsp. unfold Pos.compare in Hsp.
    destruct Hsp as [Hm|Hm|Hm]; [| |discriminate Hle].
    + subst m. apply Z.le_refl.
    + apply Z.lt_le_incl. apply Pos2Z.pos_lt_pos. exact Hm.
  - rewrite Z.compare_lt_iff in Hcmp. split; [lia|].
    apply Z.lt_le_incl. eapply Z.lt_le_trans; [exact Hm53|].
    apply Z.pow_le_mono_r; lia.
  - discriminate.
Qed.

Lemma round_half_even_le (m d N : Z) :
  0 <= m -> 0 < d -> m <= N * d -> 0 <= round_half_even m d <= N.
Proof.
  intros Hm Hd Hle. unfold round_half_even.
  pose proof (Z.div_mod m d ltac:(lia)) as Hdm.
  pose proof (Z.mod_pos_bound m d Hd) as Hmod.
  assert (Hq : 0 <= m / d) by (apply Z.div_pos; lia).
  assert (Hq' : m / d <= N) by (apply Z.div_le_upper_bound; lia).
  assert (Hr : 0 < m mod d -> m / d + 1 <= N).
  { intros Hpos. assert (m / d < N); [|lia].
    apply Z.div_lt_upper_bound; [lia|]. 
    destruct (Z.eq_dec m (d * N)) as [->|]; [|lia].
    rewrite Z.mul_comm, Z.mod_mul in Hpos; lia. }
  destruct (2 * (m mod d) ?= d) eqn:Hc.
  - apply Z.compare_eq in Hc. destruct (Z.even (m / d)); lia.
  - lia.
  - rewrite Z.compare_gt_iff in Hc. lia.
Qed.

Lemma py_round_le (m : positive) (e N : Z) :
  e <= 0 -> Z.pos m <= N * 2 ^ (- e) ->
  exists k, py_round (S754_finite false m e) = Ok k /\ 0 <= k <= N.
Proof.
  intros He Hle. unfold py_round.
  destruct (0 <=? e) eqn:H0.
  - apply Z.leb_le in H0. assert (e = 0) as -> by lia.
    simpl in Hle. change (2 ^ 0) with 1. exists (Z.pos m * 1). split; [reflexivity|lia].
  - eexists; split; [reflexivity|].
    apply round_half_even_le; [lia|apply pow2_pos; lia|exact Hle].
Qed.

(** [int(round(r * n))] lies in [0, n] for a ratio in [0, 1]. *)
Lemma round_ratio_bounds (r : float) (n : Z) :
  valid_binary prec emax r = true ->
  fleb fzero r = true -> fleb r fone = true ->
  0 <= n < 2 ^ 53 ->
  exists f k, fmul_int r n = Ok f /\ py_round f = Ok k /\ 0 <= k <= n.
Proof.
  intros Hv H0 H1 Hn. unfold fmul_int, int_to_float.
  destruct (float_of_Z_le n Hn) as [Hz|(mn & en & Hf & Hen & Hmn)].
  - rewrite Hz. cbn [mbind result_bind].
    destruct r as [s|s| |s m e].
    + exists (S754_zero (xorb s false)), 0. repeat split; lia.
    + destruct s; discriminate.
    + discriminate.
    + exists (S754_zero (xorb s false)), 0. repeat split; lia.
  - rewrite Hf. cbn [mbind result_bind].
    destruct r as [s|s| |s m e].
    + exists (S754_zero (xorb s false)), 0. repeat split; lia.
    + destruct s; discriminate.
    + discriminate.
    + destruct s; [discriminate|].
      destruct (valid_le_one m e Hv H1) as [He Hm].
      unfold fmul. cbn [SFmul xorb].
      destruct (binary_round_aux_le false (Z.pos (m * mn)) (e + en) n) as [Hz|(m' & e' & Hr & He' & Hm')]; try lia.
      { rewrite Pos2Z.inj_mul. replace (- (e + en)) with (- e + - en) by lia.
        rewrite Z.pow_add_r by lia.
        pose proof (pow2_pos (- e)). pose proof (pow2_pos (- en)). nia. }
      * rewrite Hz. exists (S754_zero false), 0. repeat split; lia.
      * rewrite Hr. destruct (py_round_le m' e' n He' Hm') as (k & Hk & Hb).
        exists (S754_finite false m' e'), k. auto.
Qed.

End Binary64.

(** ** Dicts and key sorting *)

Module PyFacts.
Import Py.

Lemma dict_get_set_eq k v (d : dict) : dict_get k (dict_set k v d) = Some v.
Proof.
  induction d as [|[k' v'] d IH]; simpl.
  - now rewrite String.eqb_refl.
  - destruct (String.eqb k k') eqn:E; simpl.
    + now rewrite String.eqb_refl.
    + now rewrite E.
Qed.

Lemma dict_get_set_ne k k' v (d : dict) :
  k <> k' -> dict_get k' (dict_set k v d) = dict_get k' d.
Proof.
  intros Hne. induction d as [|[k0 v0] d IH]; simpl.
  - apply String.eqb_neq in Hne. rewrite String.eqb_sym in Hne. now rewrite Hne.
  - destruct (String.eqb k k0) eqn:E; simpl.
    + apply String.eqb_eq in E. subst k0.
      apply String.eqb_neq in Hne. rewrite String.eqb_sym in Hne. now rewrite Hne.
    + now rewrite IH.
Qed.

Lemma get_or_none_set_eq k v (d : dict) : get_or_none k (dict_set k v d) = v.
Proof. unfold get_or_none. now rewrite dict_get_set_eq. Qed.

Lemma leb_refl (s : string) : String.leb s s = true.
Proof. destruct (String.leb_total s s); assumption. Qed.

Lemma dict_get_insert_sorted k (p : string * value) (d : dict) :
  dict_get k (insert_sorted p d) =
  if String.eqb k (fst p) then Some (snd p) else dict_get k d.
Proof.
  destruct p as [kp vp]. simpl fst; simpl snd.
  induction d as [|[kq vq] d IH]; simpl; [reflexivity|].
  destruct (String.leb kp kq) eqn:L; simpl; [reflexivity|].
  rewrite IH. destruct (String.eqb k kq) eqn:E; [|reflexivity].
  apply String.eqb_eq in E. subst kq.
  destruct (String.eqb k kp) eqn:E'; [|reflexivity].
  apply String.eqb_eq in E'. subst kp. rewrite leb_refl in L. discriminate.
Qed.

Lemma dict_get_sort_pairs k (d : dict) : dict_get k (sort_pairs d) = dict_get k d.
Proof.
  induction d as [|[k' v'] d IH]; simpl; [reflexivity|].
  rewrite dict_get_insert_sorted. simpl. now rewrite IH.
Qed.

Lemma dict_get_map k (f : value -> value) (d : dict) :
  dict_get k (map (fun p => (fst p, f (snd p))) d) = option_map f (dict_get k d).
Proof.
  induction d as [|[k' v'] d IH]; simpl; [reflexivity|].
  destruct (String.eqb k k'); [reflexivity|exact IH].
Qed.

(** Reading a key of a document written with sorted keys. *)
Lemma dict_get_sorted k (d : dict) :
  dict_get k (sort_pairs (map (fun p => (fst p, sort_keys (snd p))) d))
  = option_map sort_keys (dict_get k d).
Proof. now rewrite dict_get_sort_pairs, dict_get_map. Qed.

Lemma get_or_none_sorted k (d : dict) :
  get_or_none k (sort_pairs (map (fun p => (fst p, sort_keys (snd p))) d))
  = sort_keys (get_or_none k d).
Proof.
  unfold get_or_none. rewrite dict_get_sorted.
  destruct (dict_get k d); reflexivity.
Qed.

Lemma sort_keys_dict (d : dict) :
  sort_keys (VDict d) = VDict (sort_pairs (map (fun p => (fst p, sort_keys (snd p))) d)).
Proof. reflexivity. Qed.

Lemma sort_keys_list (l : list value) : sort_keys (VList l) = VList (map sort_keys l).
Proof. reflexivity. Qed.

Lemma py_eq_sorted_str (x : value) (s : string) :
  py_eq (sort_keys x) (VStr s) = py_eq x (VStr s).
Proof. destruct x; reflexivity. Qed.

Lemma mapM_raise {A B} (f : A -> result B) (l : list A) (x : A) (e : exn) :
  In x l -> f x = Raise e -> exists e', mapM f l = Raise e'.
Proof.
  induction l as [|y l IH]; simpl; [tauto|].
  intros [->|Hin] Hf.
  - rewrite Hf. eexists; reflexivity.
  - destruct (f y); [|eexists; reflexivity]. simpl.
    destruct (IH Hin Hf) as [e' ->]. eexists; reflexivity.
Qed.

Lemma mapM_ok {A B} (f : A -> result B) (l : list A) (ys : list B) :
  mapM f l = Ok ys -> Forall2 (fun x y => f x = Ok y) l ys.
Proof.
  revert ys. induction l as [|x l IH]; simpl; intros ys Hm.
  - injection Hm as <-. constructor.
  - destruct (f x) eqn:Hx; [|discriminate]. simpl in Hm.
    destruct (mapM f l) eqn:Hl; [|discriminate]. simpl in Hm.
    injection Hm as <-. constructor; auto.
Qed.

End PyFacts.

(** ** The stage monad *)

Module FsFacts.
Import Py Fs.

Lemma atomic_write_json_ok p v (st st' : fs) :
  atomic_write_json p v st = (Ok tt, st') ->
  st' = <[p := File (Json (sort_keys v))]>
          (delete (Path.with_suffix p ".tmp")
             (<[Path.with_suffix p ".tmp" := File (Json (sort_keys v))]> st)).
Proof.
  unfold atomic_write_json, mbind, io_bind, write_file, replace.
  destruct (st !! Path.with_suffix p ".tmp") as [[|c]|] eqn:E; cbv beta iota;
    [discriminate| |]; rewrite lookup_insert_eq;
    destruct (_ !! p) as [[|c']|]; try discriminate; intros [= <-]; reflexivity.
Qed.

Section Dump.
Context `{Yaml.JsonText}.

Lemma dump_utf8_ok p doc (st st' : fs) :
  dump_utf8 p doc st = (Ok tt, st') ->
  encodable doc = true /\ st' = <[p := File (Json (sort_keys doc))]> st.
Proof.
  unfold dump_utf8.
  destruct (st !! p) as [[|c]|]; [discriminate| |];
    destruct (encodable doc); try discriminate; intros [= <-]; auto.
Qed.

(** A dump that raises has written nothing, or the text up to the string
    that could not be encoded. *)
Lemma dump_utf8_raises p doc (st st' : fs) e :
  dump_utf8 p doc st = (Raise e, st') ->
  st' = st \/
  (encodable doc = false /\ kind e = ValueError /\
   st' = <[p := File (Bytes (Yaml.utf8_text_before_error doc))]> st).
Proof.
  unfold dump_utf8.
  destruct (st !! p) as [[|c]|]; [intros [= _ <-]; auto| |];
    destruct (encodable doc); try discriminate; intros [= <- <-]; auto.
Qed.

Lemma dump_ascii_ok p obj (st st' : fs) :
  dump_ascii p obj st = (Ok tt, st') ->
  Yaml.serializable obj = true /\ st' = <[p := File (Json (Yaml.loaded obj))]> st.
Proof.
  unfold dump_ascii.
  destruct (st !! p) as [[|c]|]; [discriminate| |];
    destruct (Yaml.serializable obj); try discriminate; intros [= <-]; auto.
Qed.

End Dump.

End FsFacts.

(** ** The registry updater *)

Module RegistryFacts.
Import Py Fs Registry PyFacts FsFacts.

(** What a successful append did to the document. *)
Lemma append_version_ok m registry registry' :
  append_version m registry = Ok registry' ->
  exists reg datasets name e vs,
    registry = VDict reg /\
    get_or_none "datasets" reg = VDict datasets /\
    mf_dataset m = VStr name /\
    dict_get name datasets = Some (VDict e) /\
    (get_or_none "versions" e = VList vs \/ (get_or_none "versions" e = VNone /\ vs = [])) /\
    check_not_recorded (mf_version m) vs = Ok tt /\
    exists e',
      dict_get "versions" e' = Some (VList (vs ++ [version_record m])) /\
      dict_get "latest_version" e' = Some (VStr (mf_version m)) /\
      registry' = VDict (dict_set "datasets" (VDict (dict_set name (VDict e') datasets)) reg).
Proof.
  unfold append_version. intros Happ.
  destruct registry as [| | | | |l|reg]; try discriminate. simpl in Happ.
  destruct (get_or_none "datasets" reg) as [| | | | |l|datasets] eqn:Hds; try discriminate.
  destruct (mf_dataset m) as [| | | |name|l|d] eqn:Hname; try discriminate. simpl in Happ.
  destruct (dict_get name datasets) as [entry|] eqn:Hent; [|discriminate].
  destruct entry as [| | | | |l|e]; try discriminate. simpl in Happ.
  exists reg, datasets, name, e.
  destruct (get_or_none "versions" e) as [| | | | |vs|d] eqn:Hvs; simpl in Happ; try discriminate.
  - exists []. simpl in Happ. injection Happ as <-.
    repeat split; auto. eexists. split; [|split; [|reflexivity]].
    + rewrite dict_get_set_ne by discriminate. rewrite dict_get_set_eq. reflexivity.
    + apply dict_get_set_eq.
  - exists vs. destruct (check_not_recorded (mf_version m) vs) as [[]|] eqn:Hchk; [|discriminate].
    simpl in Happ. injection Happ as <-.
    repeat split; auto. eexists. split; [|split; [|reflexivity]].
    + rewrite dict_get_set_ne by discriminate. rewrite dict_get_set_eq. reflexivity.
    + apply dict_get_set_eq.
Qed.

(** The record appended by a first registration stops a second one. *)
Lemma check_recorded_again m vs :
  check_not_recorded (mf_version m) vs = Ok tt ->
  exists e, check_not_recorded (mf_version m)
              (map sort_keys (vs ++ [version_record m])) = Raise e
            /\ kind e = RuntimeError.
Proof.
  unfold check_not_recorded. induction vs as [|v vs IH]; simpl.
  - intros _. eexists. rewrite String.eqb_refl. split; reflexivity.
  - intros Hchk. destruct v as [| | | | |l|d]; try discriminate. simpl in Hchk |- *.
    rewrite get_or_none_sorted, py_eq_sorted_str.
    destruct (py_eq (get_or_none "version" d) (VStr (mf_version m))); [discriminate|].
    simpl in Hchk |- *. apply IH, Hchk.
Qed.

Lemma get_or_none_some k (d : dict) v :
  get_or_none k d = v -> v <> VNone -> dict_get k d = Some v.
Proof.
  unfold get_or_none. destruct (dict_get k d); intros <- Hv; [reflexivity|contradiction].
Qed.

Lemma append_version_again m registry registry' :
  append_version m registry = Ok registry' ->
  exists e, append_version m (sort_keys registry') = Raise e /\ kind e = RuntimeError.
Proof.
  intros Happ.
  destruct (append_version_ok _ _ _ Happ)
    as (reg & datasets & name & e0 & vs & -> & Hds & Hname & Hent & Hvs & Hchk & e' & Hv' & Hl' & ->).
  destruct (check_recorded_again m vs Hchk) as (err & Herr & Hkind).
  exists err. split; [|exact Hkind].
  unfold append_version. rewrite sort_keys_dict. cbn [mbind result_bind].
  rewrite get_or_none_sorted, get_or_none_set_eq, sort_keys_dict, Hname.
  cbn [mbind result_bind].
  rewrite dict_get_sorted, dict_get_set_eq. cbn [option_map].
  rewrite sort_keys_dict. cbn [attr_get mbind result_bind].
  unfold get_or_none at 1 2 3. rewrite dict_get_sorted, Hv'. cbn [option_map].
  rewrite sort_keys_list. cbn [is_none]. rewrite Herr. reflexivity.
Qed.

Section Engine.
Context `{Yaml.JsonText}.

(** What a write of the registry that returned left behind. *)
Lemma registry_write_ok p v (st st' : fs) :
  _atomic_write_json p v st = (Ok tt, st') ->
  encodable v = true /\
  st' = <[p := File (Json (sort_keys v))]>
          (delete (Path.with_suffix p ".tmp")
             (<[Path.with_suffix p ".tmp" := File (Json (sort_keys v))]> st)).
Proof.
  unfold _atomic_write_json, mbind, io_bind, replace.
  destruct (dump_utf8 _ v st) as [[[]|e] st0] eqn:Hd; [|discriminate].
  apply dump_utf8_ok in Hd as [Henc ->]. rewrite lookup_insert_eq.
  destruct (_ !! p) as [[|c']|]; try discriminate; intros [= <-]; auto.
Qed.

(** What a successful run of the updater read and wrote. *)
Lemma update_registry_ok mp rp (st st1 : fs) :
  update_registry_from_final_metadata mp rp st = (Ok tt, st1) ->
  exists fm reg m reg',
    st !! mp = Some (File (Json fm)) /\
    st !! rp = Some (File (Json reg)) /\
    read_manifest fm = Ok m /\
    append_version m reg = Ok reg' /\
    st1 = <[rp := File (Json (sort_keys reg'))]>
            (delete (Path.with_suffix rp ".tmp")
               (<[Path.with_suffix rp ".tmp" := File (Json (sort_keys reg'))]> st)).
Proof.
  unfold update_registry_from_final_metadata, _load_json, _atomic_write_json,
    mbind, io_bind, gets, throw, lift, load_json, is_file.
  destruct (st !! mp) as [[|[fm| | |]]|] eqn:Hmp; simpl; try discriminate.
  all: destruct (st !! rp) as [[|[reg| | |]]|] eqn:Hrp; simpl; try discriminate.
  all: rewrite ?Hmp; simpl; try discriminate.
  all: destruct (read_manifest _) as [m|] eqn:Hm; [|discriminate].
  all: rewrite ?Hrp; simpl; try discriminate.
  destruct (append_version m reg) as [reg'|] eqn:Happ; [|discriminate].
  intros Hw. apply registry_write_ok in Hw as [_ Hw].
  exists fm, reg, m, reg'. auto.
Qed.

Lemma update_registry_run mp rp (st : fs) fm reg m r :
  st !! mp = Some (File (Json fm)) ->
  st !! rp = Some (File (Json reg)) ->
  read_manifest fm = Ok m ->
  append_version m reg = r ->
  update_registry_from_final_metadata mp rp st =
  match r with
  | Ok reg' => _atomic_write_json rp reg' st
  | Raise e => (Raise e, st)
  end.
Proof.
  intros Hmp Hrp Hm Hr.
  unfold update_registry_from_final_metadata, _load_json,
    mbind, io_bind, gets, throw, lift, load_json, is_file.
  rewrite Hmp. simpl. rewrite Hrp. simpl. rewrite Hmp. simpl. rewrite Hm.
  rewrite Hrp. simpl. rewrite Hr. destruct r; reflexivity.
Qed.

End Engine.

Lemma entry_of_written reg name datasets e' :
  entry_of (sort_keys (VDict (dict_set "datasets" (VDict (dict_set name (VDict e') datasets)) reg))) name
  = Some (sort_pairs (map (fun p => (fst p, sort_keys (snd p))) e')).
Proof.
  unfold entry_of. rewrite sort_keys_dict, dict_get_sorted, dict_get_set_eq.
  cbn [option_map]. rewrite sort_keys_dict, dict_get_sorted, dict_get_set_eq.
  reflexivity.
Qed.

End RegistryFacts.

(** ** Registering versions *)

Module RegistryTheorems.
Import Py Fs Registry PyFacts FsFacts RegistryFacts Examples.

Lemma versions_of_written reg name datasets e' vs :
  dict_get "versions" e' = Some (VList vs) ->
  versions_of (sort_keys (VDict (dict_set "datasets" (VDict (dict_set name (VDict e') datasets)) reg))) name
  = Some (map sort_keys vs).
Proof.
  intros Hv. unfold versions_of. rewrite entry_of_written.
  unfold get_or_none. rewrite dict_get_sorted, Hv. reflexivity.
Qed.

Lemma latest_of_written reg name datasets e' v :
  dict_get "latest_version" e' = Some (VStr v) ->
  latest_of (sort_keys (VDict (dict_set "datasets" (VDict (dict_set name (VDict e') datasets)) reg))) name
  = Some (VStr v).
Proof.
  intros Hv. unfold latest_of. rewrite entry_of_written.
  rewrite dict_get_sorted, Hv. reflexivity.
Qed.

Lemma versions_of_before reg datasets name e vs :
  get_or_none "datasets" reg = VDict datasets ->
  dict_get name datasets = Some (VDict e) ->
  get_or_none "versions" e = VList vs \/ (get_or_none "versions" e = VNone /\ vs = []) ->
  versions_of (VDict reg) name = Some vs.
Proof.
  intros Hds Hent Hvs. unfold versions_of, entry_of.
  rewrite (get_or_none_some _ _ _ Hds) by discriminate. rewrite Hent.
  destruct Hvs as [->|[-> ->]]; reflexivity.
Qed.

Section Registration.
Context `{Yaml.JsonText}.

(** C3: registering the same version of a dataset a second time raises and
    leaves the file system as the first registration left it; over the two
    attempts the dataset's version list grows by exactly one record. *)
Theorem register_twice_rejected (mp rp : string) (st st1 : fs) :
  mp <> rp -> mp <> Path.with_suffix rp ".tmp" ->
  update_registry_from_final_metadata mp rp st = (Ok tt, st1) ->
  (exists e, update_registry_from_final_metadata mp rp st1 = (Raise e, st1)
             /\ kind e = RuntimeError) /\
  exists fm m name doc0 doc1 vs0,
    doc_at st mp = Some fm /\ read_manifest fm = Ok m /\ mf_dataset m = VStr name /\
    doc_at st rp = Some doc0 /\ doc_at st1 rp = Some doc1 /\
    versions_of doc0 name = Some vs0 /\
    versions_of doc1 name = Some (map sort_keys (vs0 ++ [version_record m])) /\
    length (map sort_keys (vs0 ++ [version_record m])) = S (length vs0).
Proof.
  intros Hne Hne' Hrun.
  destruct (update_registry_ok _ _ _ _ Hrun) as (fm & reg & m & reg' & Hmp & Hrp & Hm & Happ & ->).
  set (tmp := Path.with_suffix rp ".tmp") in *.
  set (st1 := <[rp := _]> _).
  assert (Hmp1 : st1 !! mp = Some (File (Json fm))).
  { unfold st1. rewrite lookup_insert_ne, lookup_delete_ne, lookup_insert_ne by congruence.
    exact Hmp. }
  assert (Hrp1 : st1 !! rp = Some (File (Json (sort_keys reg')))).
  { unfold st1. apply lookup_insert_eq. }
  split.
  - destruct (append_version_again _ _ _ Happ) as (e & He & Hk).
    exists e. split; [|exact Hk].
    rewrite (update_registry_run mp rp st1 fm (sort_keys reg') m (Raise e) Hmp1 Hrp1 Hm He).
    reflexivity.
  - destruct (append_version_ok _ _ _ Happ)
      as (r & datasets & name & e0 & vs & -> & Hds & Hname & Hent & Hvs & Hchk & e' & Hv' & Hl' & ->).
    exists fm, m, name, (VDict r), (sort_keys (VDict (dict_set "datasets"
             (VDict (dict_set name (VDict e') datasets)) r))), vs.
    unfold doc_at. rewrite Hmp, Hrp, Hrp1.
    repeat split; auto.
    + eapply versions_of_before; eauto.
    + apply versions_of_written, Hv'.
    + rewrite length_map, length_app. simpl. lia.
Qed.

(** C10: after a successful registration the last record of the dataset's
    version list is the record just appended, its [version] field is the
    version of the manifest, and the latest-version pointer of the dataset
    is that field, whatever the versions recorded before: the list is the
    one recorded before with the new record at its end. *)
Theorem latest_is_last_registered (mp rp : string) (st st1 : fs) :
  update_registry_from_final_metadata mp rp st = (Ok tt, st1) ->
  exists fm m name doc1 vs1,
    doc_at st mp = Some fm /\ read_manifest fm = Ok m /\ mf_dataset m = VStr name /\
    doc_at st1 rp = Some doc1 /\
    versions_of doc1 name = Some vs1 /\
    last vs1 = Some (sort_keys (version_record m)) /\
    latest_of doc1 name = Some (VStr (mf_version m)) /\
    exists doc0 vs0 rec,
      doc_at st rp = Some doc0 /\ versions_of doc0 name = Some vs0 /\
      vs1 = (map sort_keys vs0 ++ [VDict rec])%list /\
      last vs1 = Some (VDict rec) /\
      dict_get "version" rec = Some (VStr (mf_version m)) /\
      dict_get "run_dir" rec = Some (sort_keys (mf_run_dir m)) /\
      dict_get "finalized_at_utc" rec = Some (sort_keys (mf_finalized_at m)) /\
      latest_of doc1 name = dict_get "version" rec.
Proof.
  intros Hrun.
  destruct (update_registry_ok _ _ _ _ Hrun) as (fm & reg & m & reg' & Hmp & Hrp & Hm & Happ & ->).
  destruct (append_version_ok _ _ _ Happ)
    as (r & datasets & name & e0 & vs & -> & Hds & Hname & Hent & Hvs & Hchk & e' & Hv' & Hl' & ->).
  exists fm, m, name, (sort_keys (VDict (dict_set "datasets"
           (VDict (dict_set name (VDict e') datasets)) r))),
    (map sort_keys (vs ++ [version_record m])).
  unfold doc_at. rewrite Hmp, Hrp, lookup_insert_eq.
  assert (Hlast : last (map sort_keys (vs ++ [version_record m]))
                  = Some (sort_keys (version_record m))).
  { rewrite map_app. simpl map. apply last_snoc. }
  assert (Hlatest : latest_of (sort_keys (VDict (dict_set "datasets"
                      (VDict (dict_set name (VDict e') datasets)) r))) name
                    = Some (VStr (mf_version m))).
  { apply latest_of_written, Hl'. }
  split; [reflexivity|]. split; [exact Hm|]. split; [exact Hname|].
  split; [reflexivity|]. split; [apply versions_of_written, Hv'|].
  split; [exact Hlast|]. split; [exact Hlatest|].
  exists (VDict r), vs,
    (sort_pairs (map (fun p => (fst p, sort_keys (snd p)))
                   [("version", VStr (mf_version m)); ("run_dir", mf_run_dir m);
                    ("finalized_at_utc", mf_finalized_at m)])).
  split; [reflexivity|]. split; [eapply versions_of_before; eauto|].
  split; [rewrite map_app; reflexivity|].
  split; [rewrite Hlast; reflexivity|].
  rewrite !dict_get_sorted, Hlatest. repeat split; reflexivity.
Qed.

End Registration.

Import Demo.

Lemma register_twice_rejected_witness :
  (exists e, update_registry_from_final_metadata manifest_path registry_path demo_fs_registered
             = (Raise e, demo_fs_registered) /\ kind e = RuntimeError) /\
  exists fm m name doc0 doc1 vs0,
    doc_at demo_fs manifest_path = Some fm /\ read_manifest fm = Ok m /\
    mf_dataset m = VStr name /\
    doc_at demo_fs registry_path = Some doc0 /\
    doc_at demo_fs_registered registry_path = Some doc1 /\
    versions_of doc0 name = Some vs0 /\
    versions_of doc1 name = Some (map sort_keys (vs0 ++ [version_record m])) /\
    length (map sort_keys (vs0 ++ [version_record m])) = S (length vs0).
Proof.
  apply (register_twice_rejected manifest_path registry_path demo_fs demo_fs_registered).
  - vm_compute. discriminate.
  - vm_compute. discriminate.
  - vm_compute. reflexivity.
Defined.

Lemma latest_is_last_registered_witness :
  String.ltb new_version old_version = true /\
  latest_of demo_registry "finance_transactions" = Some (VStr old_version) /\
  (exists doc1, doc_at demo_fs_registered registry_path = Some doc1 /\
                latest_of doc1 "finance_transactions" = Some (VStr new_version)) /\
  exists fm m name doc1 vs1,
    doc_at demo_fs manifest_path = Some fm /\ read_manifest fm = Ok m /\
    mf_dataset m = VStr name /\
    doc_at demo_fs_registered registry_path = Some doc1 /\
    versions_of doc1 name = Some vs1 /\
    last vs1 = Some (sort_keys (version_record m)) /\
    latest_of doc1 name = Some (VStr (mf_version m)) /\
    exists doc0 vs0 rec,
      doc_at demo_fs registry_path = Some doc0 /\ versions_of doc0 name = Some vs0 /\
      vs1 = (map sort_keys vs0 ++ [VDict rec])%list /\
      last vs1 = Some (VDict rec) /\
      dict_get "version" rec = Some (VStr (mf_version m)) /\
      dict_get "run_dir" rec = Some (sort_keys (mf_run_dir m)) /\
      dict_get "finalized_at_utc" rec = Some (sort_keys (mf_finalized_at m)) /\
      latest_of doc1 name = dict_get "version" rec.
Proof.
  split; [vm_compute; reflexivity|].
  split; [vm_compute; reflexivity|].
  split; [eexists; split; vm_compute; reflexivity|].
  apply (latest_is_last_registered manifest_path registry_path demo_fs demo_fs_registered).
  vm_compute. reflexivity.
Defined.

End RegistryTheorems.

(** ** Finalizing a run *)

Module ArtifactsTheorems.
Import Py Fs Artifacts PyFacts FsFacts.

Section Finalizer.
Context `{Os}.

(** A finalized run directory turns every further attempt away. *)
Lemma persist_artifacts_finalized now dataset_dir configs run_dir (st : fs) :
  exists_ st (Path.join run_dir "final_metadata.json") = true ->
  persist_artifacts now dataset_dir configs run_dir st
  = (raise RuntimeError "Run is already finalized", st).
Proof.
  intros Hex. unfold persist_artifacts, mbind, io_bind, gets. rewrite Hex. reflexivity.
Qed.

Lemma required_artifacts_present run_dir (st : fs) :
  forallb (fun fname => is_file st (Path.join run_dir fname)) required_artifacts = true ->
  for_each (fun fname =>
              present ← gets (fun st => is_file st (Path.join run_dir fname));
              if (present : bool) then mret tt
              else throw RuntimeError ("Missing required artifact: " ++ fname))
           required_artifacts st = (Ok tt, st).
Proof.
  generalize required_artifacts. intros l. induction l as [|f l IH]; [reflexivity|].
  cbn [forallb for_each]. intros Hall. apply andb_true_iff in Hall as [Hf Hl].
  unfold mbind at 1. unfold io_bind at 1. unfold mbind at 1. unfold io_bind at 1.
  unfold gets at 1. rewrite Hf. cbv beta iota. unfold mret at 1. unfold io_ret at 1.
  apply IH, Hl.
Qed.

Lemma atomic_write_json_fresh p v (st : fs) :
  is_dir st (Path.with_suffix p ".tmp") = false -> is_dir st p = false ->
  atomic_write_json p v st
  = (Ok tt, <[p := File (Json (sort_keys v))]>
              (delete (Path.with_suffix p ".tmp")
                 (<[Path.with_suffix p ".tmp" := File (Json (sort_keys v))]> st))).
Proof.
  unfold atomic_write_json, mbind, io_bind, write_file, replace, is_dir.
  intros Htmp Hp.
  destruct (st !! Path.with_suffix p ".tmp") as [[|c]|] eqn:E; [discriminate| |];
    cbv beta iota;
    (destruct (decide (Path.with_suffix p ".tmp" = p)) as [Heq|Hne];
     [rewrite !Heq, !lookup_insert_eq; reflexivity
     |rewrite lookup_insert_eq, lookup_insert_ne by exact Hne;
      destruct (st !! p) as [[|c']|]; [discriminate|reflexivity|reflexivity]]).
Qed.

(** What a first finalization needs, and what it then leaves. *)
Lemma persist_artifacts_succeeds now dataset_dir configs run_dir (st : fs) snapshot :
  exists_ st (Path.join run_dir "final_metadata.json") = false ->
  exists_ st (Path.join run_dir "data.parquet")
  = negb (exists_ st (Path.join run_dir "data.csv")) ->
  forallb (fun fname => is_file st (Path.join run_dir fname)) required_artifacts = true ->
  st !! Path.join run_dir "configs_snapshot.json" = Some (File (Json snapshot)) ->
  py_eq snapshot configs = true ->
  is_dir st (Path.with_suffix (Path.join run_dir "final_metadata.json") ".tmp") = false ->
  exists st1,
    persist_artifacts now dataset_dir configs run_dir st = (Ok tt, st1) /\
    exists data_file,
      st1 !! Path.join run_dir "final_metadata.json"
      = Some (File (Json (sort_keys (manifest dataset_dir (resolve run_dir) now data_file)))).
Proof.
  intros Hfin Hdata Hreq Hsnap Heq Htmp.
  assert (Hnodir : is_dir st (Path.join run_dir "final_metadata.json") = false).
  { unfold exists_ in Hfin. unfold is_dir.
    destruct (st !! Path.join run_dir "final_metadata.json"); [discriminate|reflexivity]. }
  destruct (exists_ st (Path.join run_dir "data.csv")) eqn:Hcsv; cbn [negb] in Hdata;
    (eexists; split;
     [unfold persist_artifacts;
      unfold mbind at 1; unfold io_bind at 1; unfold gets at 1; rewrite Hfin; cbv beta iota;
      unfold mbind at 1; unfold io_bind at 1; unfold gets at 1; cbv beta iota;
      unfold mbind at 1; unfold io_bind at 1; unfold gets at 1; cbv beta iota;
      rewrite Hdata, Hcsv; cbn [negb andb];
      unfold mbind at 1; unfold io_bind at 1;
      rewrite (required_artifacts_present run_dir st Hreq); cbv beta iota;
      unfold mbind at 1; unfold io_bind at 1; unfold load_json at 1; rewrite Hsnap;
      cbv beta iota; rewrite Heq; cbn [negb];
      apply atomic_write_json_fresh; assumption
     |eexists; apply lookup_insert_eq]).
Qed.

(** C2: a first finalization of a run directory that is ready for it
    succeeds and leaves the manifest; every later call on that directory
    raises and returns the file system, so the manifest, untouched. *)
Theorem finalize_once now dataset_dir configs run_dir (st : fs) snapshot :
  exists_ st (Path.join run_dir "final_metadata.json") = false ->
  exists_ st (Path.join run_dir "data.parquet")
  = negb (exists_ st (Path.join run_dir "data.csv")) ->
  forallb (fun fname => is_file st (Path.join run_dir fname)) required_artifacts = true ->
  st !! Path.join run_dir "configs_snapshot.json" = Some (File (Json snapshot)) ->
  py_eq snapshot configs = true ->
  is_dir st (Path.with_suffix (Path.join run_dir "final_metadata.json") ".tmp") = false ->
  exists st1,
    persist_artifacts now dataset_dir configs run_dir st = (Ok tt, st1) /\
    is_file st1 (Path.join run_dir "final_metadata.json") = true /\
    forall now' dataset_dir' configs',
    exists e,
      persist_artifacts now' dataset_dir' configs' run_dir st1 = (Raise e, st1) /\
      kind e = RuntimeError.
Proof.
  intros Hfin Hdata Hreq Hsnap Heq Htmp.
  destruct (persist_artifacts_succeeds now dataset_dir configs run_dir st snapshot
              Hfin Hdata Hreq Hsnap Heq Htmp) as (st1 & Hrun & data_file & Hl).
  exists st1. split; [exact Hrun|].
  split; [unfold is_file; now rewrite Hl|].
  intros now' dataset_dir' configs'. eexists. split.
  - apply persist_artifacts_finalized. unfold exists_. now rewrite Hl.
  - reflexivity.
Qed.

End Finalizer.

Import Demo Examples.

Lemma finalize_once_witness :
  exists st1,
    persist_artifacts "2025-01-01T00:00:00+00:00" "/dataset" test_configs "/tmp/run" test_run_dir
    = (Ok tt, st1) /\
    is_file st1 (Path.join "/tmp/run" "final_metadata.json") = true /\
    forall now' dataset_dir' configs',
    exists e,
      persist_artifacts now' dataset_dir' configs' "/tmp/run" st1 = (Raise e, st1) /\
      kind e = RuntimeError.
Proof.
  apply (finalize_once "2025-01-01T00:00:00+00:00" "/dataset" test_configs "/tmp/run"
           test_run_dir test_configs); vm_compute; reflexivity.
Defined.

End ArtifactsTheorems.

(** ** The configuration resolver *)

Module ResolverTheorems.
Import Py Np Generate PyFacts Notions.

Lemma SFcompare_antisym (a b : float) :
  SFcompare a b = option_map CompOpp (SFcompare b a).
Proof.
  destruct a as [sa|sa| |sa ma ea], b as [sb|sb| |sb mb eb]; cbn [SFcompare option_map];
    try reflexivity; try (destruct sa; reflexivity); try (destruct sb; reflexivity);
    try (destruct sa, sb; reflexivity).
  pose proof (Pos.compare_cont_antisym ma mb Eq) as Hm. cbn [CompOpp] in Hm.
  destruct sa, sb; cbn [CompOpp]; try reflexivity;
    rewrite (Z.compare_antisym eb ea);
    destruct (eb ?= ea)%Z; cbn [CompOpp]; try reflexivity;
    rewrite <- Hm; destruct (Pos.compare_cont Eq ma mb); reflexivity.
Qed.

(** Outside NaN, "neither below 0 nor above 1" is "within [0, 1]". *)
Lemma not_outside_unit_interval (r : float) :
  is_nan r = false -> fltb r fzero = false -> fltb fone r = false ->
  fleb fzero r = true /\ fleb r fone = true.
Proof.
  unfold fltb, fleb, SFltb, SFleb. intros Hnan H0 H1.
  rewrite (SFcompare_antisym fzero r). rewrite (SFcompare_antisym fone r) in H1.
  destruct r as [s|s| |s m e]; try discriminate Hnan.
  - split; reflexivity.
  - destruct s; [discriminate H0|discriminate H1].
  - destruct (SFcompare (S754_finite s m e) fzero) as [[]|] eqn:C0;
      destruct (SFcompare (S754_finite s m e) fone) as [[]|] eqn:C1;
      cbn [option_map CompOpp] in *; try discriminate; split; reflexivity.
Qed.

Section Resolver.
Context `{Builtins}.

Lemma check_unit_interval_ok v m1 m2 r :
  check_unit_interval v m1 m2 = Ok r ->
  py_float v = Ok r /\ fltb r fzero = false /\ fltb fone r = false.
Proof.
  unfold check_unit_interval, except_reraise.
  destruct (py_float v) as [f|e]; cbn [mbind result_bind]; [|discriminate].
  destruct (fltb f fzero) eqn:E0; [discriminate|].
  destruct (fltb fone f) eqn:E1; [discriminate|].
  cbn [orb]. intros [= <-]. auto.
Qed.

Lemma check_unit_interval_rejects v m1 m2 :
  (forall r, py_float v = Ok r -> fltb r fzero || fltb fone r = true) ->
  exists e, check_unit_interval v m1 m2 = Raise e /\ kind e = ValueError.
Proof.
  unfold check_unit_interval, except_reraise. intros Hbad.
  destruct (py_float v) as [f|e]; cbn [mbind result_bind].
  - rewrite (Hbad f eq_refl). eexists; split; reflexivity.
  - eexists; split; reflexivity.
Qed.

(** C7, as the code has it: the conventions are told apart by their
    selectors, in order; a convention whose selector matches decides the
    rate even when it holds no value.  A rate that is found is converted
    with [float()]; a value that does not convert, or lies below 0 or above
    1, is a configuration error, so a rate that comes out and is a number
    lies in [0, 1]. *)
Theorem fraud_rate_first_matching_selector (cfg : dict) :
  resolve_fraud_rate cfg =
    match first_week cfg with
    | Some (VDict fw) => get_or_none "fraud_rate" fw
    | Some _ => VNone
    | None =>
        if dict_mem "fraud_rate" cfg then get_or_none "fraud_rate" cfg
        else match get_or_none "fraud" cfg with
             | VDict fraud => get_or_none "rate" fraud
             | _ => VNone
             end
    end
  /\ (forall evo,
        _extract_evolution (VDict cfg) = Ok evo ->
        match fraud_rate evo with
        | None => resolve_fraud_rate cfg = VNone
        | Some r =>
            resolve_fraud_rate cfg <> VNone /\
            py_float (resolve_fraud_rate cfg) = Ok r /\
            (is_nan r = false -> fleb fzero r = true /\ fleb r fone = true)
        end)
  /\ (resolve_fraud_rate cfg <> VNone ->
      (forall r, py_float (resolve_fraud_rate cfg) = Ok r ->
                 fltb r fzero || fltb fone r = true) ->
      exists e, _extract_evolution (VDict cfg) = Raise e /\ kind e = ValueError).
Proof.
  split; [|split].
  - unfold resolve_fraud_rate, first_week, get_or_none.
    destruct (dict_get "weekly_changes" cfg) as [[| | | | |[|w ws]|]|]; reflexivity.
  - intros evo. unfold _extract_evolution.
    destruct (is_none (resolve_fraud_rate cfg)) eqn:Hn.
    + cbn [mbind result_bind].
      assert (Hr : resolve_fraud_rate cfg = VNone)
        by (destruct (resolve_fraud_rate cfg); try discriminate; reflexivity).
      destruct (get_or_none "missingness" cfg); try discriminate.
      * intros [= <-]. exact Hr.
      * destruct (forM_ _ d); cbn [mbind result_bind]; [|discriminate].
        intros [= <-]. exact Hr.
    + destruct (check_unit_interval _ _ _) as [r|e] eqn:Hc; cbn [fmap result_fmap mbind result_bind];
        [|discriminate].
      apply check_unit_interval_ok in Hc as (Hf & H0 & H1).
      assert (Hgoal : resolve_fraud_rate cfg <> VNone /\
                      py_float (resolve_fraud_rate cfg) = Ok r /\
                      (is_nan r = false -> fleb fzero r = true /\ fleb r fone = true)).
      { split; [intros E; rewrite E in Hn; discriminate|].
        split; [exact Hf|]. intros Hnan. now apply not_outside_unit_interval. }
      destruct (get_or_none "missingness" cfg); try discriminate.
      * intros [= <-]. exact Hgoal.
      * destruct (forM_ _ d); cbn [mbind result_bind]; [|discriminate].
        intros [= <-]. exact Hgoal.
  - intros Hsome Hbad. unfold _extract_evolution.
    destruct (is_none (resolve_fraud_rate cfg)) eqn:Hn.
    { destruct (resolve_fraud_rate cfg); try discriminate. contradiction. }
    destruct (check_unit_interval_rejects (resolve_fraud_rate cfg)
                "fraud_rate must be numeric" "fraud_rate must be in [0,1]" Hbad)
      as (e & -> & Hk).
    exists e. split; [reflexivity|exact Hk].
Qed.

(** C6: what the row-count extraction guarantees: a count that comes out is
    positive, and a configuration with neither alias raises.  The same code
    lets a fraction through: 2.5 is taken as 2. *)
Theorem row_count_truncates_fraction :
  (forall cfg rows, _extract_row_count cfg = Ok rows -> (0 < rows)%Z) /\
  (forall cfg, get_or_none "row_count" cfg = VNone -> get_or_none "rows" cfg = VNone ->
               exists e, _extract_row_count (VDict cfg) = Raise e /\ kind e = KeyError) /\
  _extract_row_count (VDict [("row_count", VFloat Demo.f2_5)]) = Ok 2%Z.
Proof.
  split; [|split].
  - intros cfg rows. unfold _extract_row_count.
    destruct cfg; try discriminate.
    destruct (is_none _); [discriminate|].
    destruct (except_reraise _ _ _) as [z|]; cbn [mbind result_bind]; [|discriminate].
    destruct (z <=? 0)%Z eqn:Hz; [discriminate|].
    intros [= <-]. apply Z.leb_gt in Hz. exact Hz.
  - intros cfg H1 H2. unfold _extract_row_count. rewrite H1. cbn [is_none]. rewrite H2.
    cbn [is_none]. eexists; split; reflexivity.
  - vm_compute. reflexivity.
Qed.

End Resolver.

Import Demo.

(** C7 as stated fails: with a first week that holds no rate, the rate at
    the top level, which the second convention would yield, is not used. *)
Lemma fraud_rate_later_convention_unused :
  let cfg := [("weekly_changes", VList [VDict [("note", VStr "launch")]]);
              ("fraud_rate", VFloat f0_5)] in
  first_yielding_fraud_rate cfg = VFloat f0_5 /\
  resolve_fraud_rate cfg = VNone /\
  resolve_fraud_rate cfg <> first_yielding_fraud_rate cfg /\
  _extract_evolution (VDict cfg) = Ok (Evolution None []).
Proof.
  cbv zeta. repeat split; try (vm_compute; reflexivity).
  vm_compute. discriminate.
Qed.

End ResolverTheorems.

(** ** The generator *)

Module GeneratorFacts.
Import Py Np Fs Generate PyFacts Binary64.

(** In-place assignment at positions that are all inside the array. *)
Lemma assign_at_spec (idx : list nat) (x : cell) (items : list cell) :
  Forall (fun i => i < length items) idx ->
  exists items',
    assign_at idx x items = Ok items' /\
    length items' = length items /\
    forall i, items' !! i = if decide (i ∈ idx)
                            then (if decide (i < length items) then Some x else None)
                            else items !! i.
Proof.
  revert items. induction idx as [|j idx IH]; intros items Hall.
  - exists items. split; [reflexivity|]. split; [reflexivity|]. intros i.
    destruct (decide (i ∈ [])) as [Hin|_]; [inversion Hin|reflexivity].
  - inversion Hall as [|? ? Hj Hrest]; subst. cbn [assign_at].
    apply Nat.ltb_lt in Hj as Hjb. rewrite Hjb.
    destruct (IH (<[j := x]> items)) as (items' & Hrun & Hlen & Hspec).
    { rewrite length_insert. exact Hrest. }
    exists items'. rewrite length_insert in Hlen. split; [exact Hrun|]. split; [exact Hlen|].
    intros i. rewrite Hspec, length_insert.
    destruct (decide (i ∈ idx)) as [Hin|Hnin].
    + destruct (decide (i ∈ j :: idx)) as [_|Hc]; [reflexivity|].
      exfalso. apply Hc. right. exact Hin.
    + destruct (decide (i = j)) as [->|Hne].
      * destruct (decide (j ∈ j :: idx)) as [_|Hc]; [|exfalso; apply Hc; left].
        destruct (decide (j < length items)); [|lia].
        apply list_lookup_insert_eq. exact Hj.
      * destruct (decide (i ∈ j :: idx)) as [Hc|_].
        { apply elem_of_cons in Hc as [?|?]; contradiction. }
        apply list_lookup_insert_ne. congruence.
Qed.

Section Positions.
Context `{Numpy} `{!NumpyLaws}.

(** The first [k] entries of a permutation of [range(n)]: [k] distinct
    positions inside the array. *)
Lemma draw_positions_spec (rs : RandomState) (n : nat) (k : Z) :
  (0 <= k <= Z.of_nat n)%Z ->
  let idx := fst (draw_positions rs n k) in
  idx = firstn (Z.to_nat k) (fst (rs_permutation rs n)) /\
  NoDup idx /\ length idx = Z.to_nat k /\ Forall (fun i => i < n) idx.
Proof.
  intros Hk. unfold draw_positions, slice_to.
  pose proof (rs_permutation_perm rs n) as Hperm.
  destruct (rs_permutation rs n) as [perm rs']. cbn [fst] in *.
  replace (0 <=? k)%Z with true by (symmetry; apply Z.leb_le; lia).
  assert (Hlen : length perm = n).
  { rewrite (Permutation_length Hperm). apply length_seq. }
  assert (Hnd : NoDup perm).
  { rewrite Hperm. apply NoDup_seq. }
  assert (Hin : Forall (fun i => i < n) perm).
  { rewrite Hperm. apply Forall_forall. intros i Hi. apply elem_of_seq in Hi. lia. }
  repeat split.
  - apply (sublist_NoDup _ perm); [exact Hnd|apply sublist_take].
  - rewrite length_take. lia.
  - apply Forall_take, Hin.
Qed.

End Positions.

Lemma numeric_kind (d : dtype) :
  String.eqb (dtype_kind d) "f" || String.eqb (dtype_kind d) "i" || String.eqb (dtype_kind d) "u"
  = is_number d.
Proof. destruct d; reflexivity. Qed.

(** A ratio that is both at most and at least zero is a zero. *)
Lemma fleb_zero_both (r : float) :
  fleb fzero r = true -> fleb r fzero = true -> exists s, r = S754_zero s.
Proof.
  destruct r as [s|[]| |[] m e]; try discriminate; intros _ _; eauto.
Qed.

Lemma round_zero_ratio s (n : Z) :
  (0 <= n < 2 ^ 53)%Z ->
  exists x, fmul_int (S754_zero s) n = Ok x /\ py_round x = Ok 0%Z.
Proof.
  intros Hn. unfold fmul_int, int_to_float.
  destruct (float_of_Z_le n Hn) as [->|(m & e & -> & _)]; cbn [mbind result_bind];
    eexists; split; reflexivity.
Qed.

End GeneratorFacts.

Module GeneratorTheorems.
Import Py Np Fs Generate PyFacts Binary64 GeneratorFacts Notions.
Local Open Scope Z_scope.

Section Generator.
Context `{Builtins} `{Hashlib} `{Numpy} `{Pandas}.

Lemma generate_dataset_raises dataset_dir configs run_dir e (st : fs) :
  build_table dataset_dir configs run_dir = Raise e ->
  generate_dataset dataset_dir configs run_dir st = (Raise e, st).
Proof.
  intros Hb. unfold generate_dataset, mbind, io_bind, lift. rewrite Hb. reflexivity.
Qed.

Lemma generate_dataset_ok dataset_dir configs run_dir (st st' : fs) :
  generate_dataset dataset_dir configs run_dir st = (Ok tt, st') ->
  exists df, build_table dataset_dir configs run_dir = Ok df /\ holds_table st' run_dir df.
Proof.
  unfold generate_dataset, mbind, io_bind, lift.
  destruct (build_table dataset_dir configs run_dir) as [df|e]; [|discriminate].
  intros Hw. exists df. split; [reflexivity|].
  unfold _write_dataframe, write_file in Hw.
  destruct (is_dir st run_dir); [|discriminate].
  destruct (to_parquet_ok df).
  - destruct (st !! Path.join run_dir "data.parquet") as [[|c]|] eqn:Hp.
    + destruct (st !! Path.join run_dir "data.csv") as [[|c]|] eqn:Hc; try discriminate;
        injection Hw as <-; right; apply lookup_insert_eq.
    + injection Hw as <-. left. apply lookup_insert_eq.
    + injection Hw as <-. left. apply lookup_insert_eq.
  - destruct (st !! Path.join run_dir "data.csv") as [[|c]|] eqn:Hc; try discriminate;
      injection Hw as <-; right; apply lookup_insert_eq.
Qed.

(** A column whose turn raises makes the whole stage raise, before any
    write. *)
Lemma column_failure_aborts dataset_dir configs run_dir (st : fs) cols col :
  _extract_columns (get_or_none "schema.yaml" configs) = Ok cols ->
  In col cols ->
  (forall rows evo,
     _extract_row_count (get_or_none "dataset.yaml" configs) = Ok rows ->
     _extract_evolution (get_or_none "evolution.yaml" configs) = Ok evo ->
     exists e, generate_one (_derive_seed dataset_dir run_dir) rows evo col = Raise e) ->
  exists e, generate_dataset dataset_dir configs run_dir st = (Raise e, st).
Proof.
  intros Hcols Hin Hcol.
  assert (Hb : exists e, build_table dataset_dir configs run_dir = Raise e).
  { unfold build_table.
    destruct (_require_configs configs) as [[]|e]; cbn [mbind result_bind]; [|eauto].
    rewrite Hcols. cbn [mbind result_bind].
    destruct (_extract_row_count _) as [rows|e]; cbn [mbind result_bind]; [|eauto].
    destruct (_extract_evolution _) as [evo|e]; cbn [mbind result_bind]; [|eauto].
    destruct (Hcol rows evo eq_refl eq_refl) as [e He].
    destruct (mapM_raise _ cols col e Hin He) as [e' ->]. cbn [mbind result_bind]. eauto. }
  destruct Hb as [e Hb]. exists e. apply generate_dataset_raises, Hb.
Qed.

(** C1: the table depends on the two directories only through the dataset
    name and the version; with those and the configuration fixed, two
    invocations build the same table, and two invocations that succeed
    leave that one table in their run directories. *)
Theorem generate_deterministic (d1 r1 d2 r2 : string) (configs : dict) :
  Path.basename (Path.normpath d1) = Path.basename (Path.normpath d2) ->
  Path.basename (Path.normpath r1) = Path.basename (Path.normpath r2) ->
  build_table d1 configs r1 = build_table d2 configs r2 /\
  forall st1 st2 st1' st2' : fs,
    generate_dataset d1 configs r1 st1 = (Ok tt, st1') ->
    generate_dataset d2 configs r2 st2 = (Ok tt, st2') ->
    exists df, build_table d1 configs r1 = Ok df /\
               holds_table st1' r1 df /\ holds_table st2' r2 df.
Proof.
  intros Hd Hr.
  assert (Hseed : _derive_seed d1 r1 = _derive_seed d2 r2).
  { unfold _derive_seed. now rewrite Hd, Hr. }
  assert (Heq : build_table d1 configs r1 = build_table d2 configs r2).
  { unfold build_table. now rewrite Hseed. }
  split; [exact Heq|].
  intros st1 st2 st1' st2' Hg1 Hg2.
  destruct (generate_dataset_ok _ _ _ _ _ Hg1) as (df & Hb1 & Hh1).
  destruct (generate_dataset_ok _ _ _ _ _ Hg2) as (df' & Hb2 & Hh2).
  rewrite Heq, Hb2 in Hb1. injection Hb1 as ->.
  exists df. rewrite Heq. auto.
Qed.

Lemma row_count_positive cfg rows : _extract_row_count cfg = Ok rows -> 0 < rows.
Proof.
  unfold _extract_row_count. destruct cfg; try discriminate.
  destruct (is_none _); [discriminate|].
  destruct (except_reraise _ _ _) as [z|]; cbn [mbind result_bind]; [|discriminate].
  destruct (z <=? 0) eqn:Hz; [discriminate|].
  intros [= <-]. apply Z.leb_gt in Hz. exact Hz.
Qed.

(** C9: with fewer than ten rows the pool of accounts is empty, drawing from
    it raises, and the stage ends without a data file. *)
Theorem account_pool_empty_below_ten
    dataset_dir (configs : dict) run_dir (st : fs) cols name rows :
  _extract_columns (get_or_none "schema.yaml" configs) = Ok cols ->
  In (VStr name) cols ->
  lower name = "account_id" ->
  _extract_row_count (get_or_none "dataset.yaml" configs) = Ok rows ->
  rows < 10 ->
  Z.min 5000 (rows / 10) = 0 /\
  (forall rs, exists e, _generate_column rs name rows = Raise e /\ kind e = ValueError) /\
  exists e, generate_dataset dataset_dir configs run_dir st = (Raise e, st).
Proof.
  intros Hcols Hin Hname Hrows Hlt.
  pose proof (row_count_positive _ _ Hrows) as Hpos.
  assert (Hdiv : rows / 10 = 0) by (apply Z.div_small; lia).
  assert (Hcol : forall rs, exists e, _generate_column rs name rows = Raise e /\ kind e = ValueError).
  { intros rs. unfold _generate_column. rewrite Hname, Hdiv. cbn [String.eqb Ascii.eqb Bool.eqb].
    change (Z.to_nat (Z.min 5000 0)) with O. cbn [seq map rs_choice].
    destruct (Z.to_nat rows) eqn:Hn; [lia|].
    eexists; split; reflexivity. }
  split; [rewrite Hdiv; reflexivity|]. split; [exact Hcol|].
  eapply column_failure_aborts; [exact Hcols|exact Hin|].
  intros rows' evo Hrows' _. rewrite Hrows in Hrows'. injection Hrows' as <-.
  unfold generate_one, column_before_missingness.
  destruct (Hcol (RandomState_seed
                    ((_derive_seed dataset_dir run_dir + _deterministic_col_hash name) mod 2 ^ 32)))
    as (e & -> & _).
  exists e. reflexivity.
Qed.

End Generator.

Section Marking.
Context `{Builtins} `{Hashlib} `{Numpy} `{Pandas} `{!NumpyLaws}.

(** What [_apply_missingness] does to an array on a stream: for a ratio in
    [0, 1], [k = round(ratio * n)] distinct positions, the first [k] of the
    stream's permutation, are overwritten with the marker.  A float or
    integer column is cast to float and marked with NaN; any other column
    becomes an object column marked with [None].  With [k = 0] the array is
    returned as it came, and so is the stream. *)
Lemma apply_missingness_marks
    (rs : RandomState) (arr : ndarray) (ratio : float) :
  valid_binary prec emax ratio = true ->
  fleb fzero ratio = true -> fleb ratio fone = true ->
  Z.of_nat (length (arr_items arr)) < 2 ^ 53 ->
  let n := length (arr_items arr) in
  let d := arr_dtype arr in
  exists x k arr' rs',
    fmul_int ratio (Z.of_nat n) = Ok x /\ py_round x = Ok k /\ 0 <= k <= Z.of_nat n /\
    _apply_missingness rs arr ratio = Ok (arr', rs') /\
    let idx := firstn (Z.to_nat k) (fst (rs_permutation rs n)) in
    NoDup idx /\ length idx = Z.to_nat k /\
    (k = 0 -> arr' = arr) /\
    (0 < k ->
     arr_dtype arr' = (if is_number d then float64 else object) /\
     length (arr_items arr') = n /\
     forall i, (i < n)%nat ->
       arr_items arr' !! i =
       if decide (i ∈ idx) then Some (marker d) else kept d <$> (arr_items arr !! i)).
Proof.
  intros Hv Hlo Hhi Hn n d.
  destruct (round_ratio_bounds ratio (Z.of_nat n) Hv Hlo Hhi ltac:(lia)) as (x & k & Hx & Hk & Hb).
  destruct (draw_positions_spec rs n k Hb) as (Hidx & Hnd & Hlen & Hin).
  unfold _apply_missingness. fold n. rewrite Hx. cbn [mbind result_bind]. rewrite Hk.
  cbn [mbind result_bind]. rewrite numeric_kind. fold d.
  destruct (fleb ratio fzero) eqn:Hz.
  { destruct (fleb_zero_both ratio Hlo Hz) as [s ->].
    destruct (round_zero_ratio s (Z.of_nat n) ltac:(lia)) as (x' & Hx' & Hk').
    rewrite Hx in Hx'. injection Hx' as <-. rewrite Hk in Hk'. injection Hk' as ->.
    exists x, 0, arr, rs. rewrite <- Hidx.
    repeat split; auto; lia. }
  destruct (k <=? 0) eqn:Hk0.
  { apply Z.leb_le in Hk0. assert (k = 0) as -> by lia.
    exists x, 0, arr, rs. rewrite <- Hidx. repeat split; auto; lia. }
  apply Z.leb_gt in Hk0.
  destruct (draw_positions rs n k) as [idx rs'] eqn:Hdraw. cbn [fst] in *. subst idx.
  set (idx := firstn (Z.to_nat k) (fst (rs_permutation rs n))) in *.
  destruct (is_number d) eqn:Hnum.
  - destruct (assign_at_spec idx (CFloat fnan) (arr_items (astype_float arr)))
      as (items' & Hrun & Hl & Hspec).
    { cbn [astype_float arr_items]. rewrite length_map. exact Hin. }
    rewrite Hrun. cbn [mbind result_bind].
    exists x, k, (NdArray float64 items'), rs'.
    cbn [astype_float arr_items] in Hl, Hspec. rewrite length_map in Hl, Hspec.
    repeat split; auto; try lia.
    intros i Hi. cbn [arr_items]. rewrite Hspec. fold n. fold idx.
    destruct (decide (i ∈ idx)).
    + destruct (decide (i < n)%nat); [|lia]. unfold marker. now rewrite Hnum.
    + rewrite list_lookup_fmap. unfold kept. rewrite Hnum. reflexivity.
  - destruct (assign_at_spec idx CNone (arr_items (astype_object arr)))
      as (items' & Hrun & Hl & Hspec).
    { exact Hin. }
    rewrite Hrun. cbn [mbind result_bind].
    exists x, k, (NdArray object items'), rs'.
    cbn [astype_object arr_items] in Hl, Hspec.
    repeat split; auto; try lia.
    intros i Hi. cbn [arr_items]. rewrite Hspec. fold n. fold idx.
    destruct (decide (i ∈ idx)).
    + destruct (decide (i < n)%nat); [|lia]. unfold marker. now rewrite Hnum.
    + unfold kept. rewrite Hnum. now destruct (arr_items arr !! i).
Qed.




End Marking.
End GeneratorTheorems.

(** ** The generator on concrete inputs *)

Module GeneratorExamples.
Import Py Np Fs Generate PyFacts Binary64 GeneratorFacts GeneratorTheorems Notions Demo Examples.
Local Open Scope Z_scope.

Lemma rotate_perm {A} (r : nat) (l : list A) : Permutation (rotate r l) l.
Proof.
  unfold rotate. rewrite Permutation_app_comm. now rewrite take_drop.
Qed.

#[export] Instance numpy_laws : NumpyLaws.
Proof. constructor. intros rs n. apply rotate_perm. Qed.

Lemma generate_deterministic_witness :
  let configs := finance_configs 1000 [("fraud_rate", VFloat f0_02)] in
  build_table "datasets/finance_transactions" configs "runs/finance_transactions/v1"
  = build_table "/srv/datasets/finance_transactions/" configs "/srv/runs/finance_transactions/v1/" /\
  forall st1 st2 st1' st2' : fs,
    generate_dataset "datasets/finance_transactions" configs "runs/finance_transactions/v1" st1
    = (Ok tt, st1') ->
    generate_dataset "/srv/datasets/finance_transactions/" configs
      "/srv/runs/finance_transactions/v1/" st2 = (Ok tt, st2') ->
    exists df,
      build_table "datasets/finance_transactions" configs "runs/finance_transactions/v1" = Ok df /\
      holds_table st1' "runs/finance_transactions/v1" df /\
      holds_table st2' "/srv/runs/finance_transactions/v1/" df.
Proof.
  apply (generate_deterministic
           "datasets/finance_transactions" "runs/finance_transactions/v1"
           "/srv/datasets/finance_transactions/" "/srv/runs/finance_transactions/v1/").
  - vm_compute. reflexivity.
  - vm_compute. reflexivity.
Defined.

Lemma account_pool_empty_below_ten_witness :
  Z.min 5000 (5 / 10) = 0 /\
  (forall rs, exists e, _generate_column rs "account_id" 5 = Raise e /\ kind e = ValueError) /\
  exists e,
    generate_dataset "datasets/finance_transactions"
      (finance_configs 5 [("fraud_rate", VFloat f0_02)])
      "runs/finance_transactions/v1" empty_run
    = (Raise e, empty_run).
Proof.
  apply (account_pool_empty_below_ten "datasets/finance_transactions"
           (finance_configs 5 [("fraud_rate", VFloat f0_02)])
           "runs/finance_transactions/v1" empty_run finance_columns "account_id" 5).
  - vm_compute. reflexivity.
  - left. reflexivity.
  - vm_compute. reflexivity.
  - vm_compute. reflexivity.
  - reflexivity.
Defined.

(** C4 as stated fails on an integer column: it is not of floating-point
    dtype, yet it comes back as a float column marked with NaN, not as an
    object column marked with [None]. *)
Lemma missingness_integer_column_gets_nan :
  arr_dtype ids_1_to_10 = int64 /\
  exists arr' rs',
    _apply_missingness (RandomState_seed 7) ids_1_to_10 f0_4 = Ok (arr', rs') /\
    arr_dtype arr' = float64 /\ arr_dtype arr' <> object /\
    length (List.filter (fun c => match c with CFloat f => is_nan f | _ => false end)
              (arr_items arr')) = 4%nat /\
    existsb (fun c => match c with CNone => true | _ => false end) (arr_items arr') = false.
Proof.
  split; [reflexivity|].
  eexists _, _. split; [vm_compute; reflexivity|].
  split; [reflexivity|]. split; [discriminate|].
  split; vm_compute; reflexivity.
Qed.

End GeneratorExamples.

(** ** The evaluator *)

Module EvaluateTheorems.
Import Py Np Fs Evaluate PyFacts Notions.

Lemma In_insert_string x y l : In x (insert_string y l) <-> x = y \/ In x l.
Proof.
  induction l as [|z l IH]; simpl.
  - intuition.
  - destruct (String.leb y z); simpl; [intuition|]. rewrite IH. intuition.
Qed.

Lemma In_sorted x l : In x (sorted l) <-> In x l.
Proof.
  induction l as [|y l IH]; simpl; [tauto|].
  rewrite In_insert_string, IH. intuition.
Qed.

(** Filling a dict in a loop: a key set in the loop reads as what the loop
    set it to, when every turn for that key sets the same value. *)
Lemma fold_dict_set_get {A} (key : A -> string) (val : A -> value) (l : list A)
    (acc : dict) (k : string) (v : value) :
  (forall a, In a l -> key a = k -> val a = v) ->
  (exists a, In a l /\ key a = k) \/ dict_get k acc = Some v ->
  dict_get k (fold_left (fun d a => dict_set (key a) (val a) d) l acc) = Some v.
Proof.
  revert acc. induction l as [|a l IH]; intros acc Hsame Hsome; simpl.
  - destruct Hsome as [(a & [] & _)|Hacc]. exact Hacc.
  - apply IH; [intros b Hb; apply Hsame; right; exact Hb|].
    destruct (String.eqb (key a) k) eqn:E.
    + apply String.eqb_eq in E. right. rewrite <- E at 1.
      rewrite dict_get_set_eq. f_equal. apply Hsame; [left; reflexivity|exact E].
    + apply String.eqb_neq in E. rewrite dict_get_set_ne by exact E.
      destruct Hsome as [(b & [->|Hb] & Hk)|Hacc]; [contradiction| |]; eauto.
Qed.

Section Evaluator.
Context `{Builtins} `{Pandas}.

Lemma quality_json_shape df row_count col :
  let q := match table_get col df with
           | Some series => column_quality row_count series
           | None => Quality fzero 0 None None None None
           end in
  exists mr card mean std mn mx,
    quality_json q =
    VDict [("missing_ratio", VFloat mr); ("cardinality", VInt card);
           ("stats", VDict [("mean", mean); ("std", std); ("min", mn); ("max", mx)])] /\
    forall series,
      table_get col df = Some series ->
      is_number (arr_dtype series) = true ->
      forallb is_missing (arr_items series) = false ->
      exists a b c d, mean = VFloat a /\ std = VFloat b /\ mn = VFloat c /\ mx = VFloat d.
Proof.
  intros q. unfold quality_json. eexists _, _, _, _, _, _. split; [reflexivity|].
  intros series Hs Hn Hm. subst q. rewrite Hs. unfold column_quality. rewrite Hn, Hm.
  cbn. eexists _, _, _, _. repeat split.
Qed.

(** Without a prior profile, and for a column the prior profile does not
    know, the drift is the all-null record. *)
Lemma column_drift_unknown (prior_cols : option value) col q :
  match prior_cols with
  | Some pc => py_contains col pc = Ok false
  | None => True
  end ->
  column_drift prior_cols col q = Ok no_drift.
Proof.
  unfold column_drift. destruct prior_cols as [pc|]; [|reflexivity].
  intros ->. reflexivity.
Qed.

(** The report of a successful evaluation, column by column. *)
Lemma build_report_column df prior report col :
  build_report df prior = Ok report ->
  In col (map fst df) ->
  match prior with
  | Some p => py_contains col (prior_columns p) = Ok false
  | None => True
  end ->
  absent_drift_full_quality df report col.
Proof.
  unfold build_report. intros Hrep Hcol Hprior. cbv zeta in Hrep.
  set (row_count := match df with [] => 0%Z | (_, a) :: _ => Z.of_nat (length (arr_items a)) end) in *.
  set (quality_of := fun c : string =>
         match table_get c df with
         | Some series => column_quality row_count series
         | None => Quality fzero 0 None None None None
         end) in *.
  set (quality := fold_left _ (sorted (map fst df)) []) in Hrep.
  destruct (match prior with Some p => _ | None => _ end) as [[prior_cols dataset_drift]|] eqn:Hp;
    cbn [mbind result_bind] in Hrep; [|discriminate].
  destruct (mapM _ (sorted (map fst df))) as [drifts|] eqn:Hm;
    cbn [mbind result_bind] in Hrep; [|discriminate].
  injection Hrep as <-.
  assert (Hpc : match prior_cols with
                | Some pc => py_contains col pc = Ok false
                | None => True
                end).
  { destruct prior as [p|].
    - destruct p as [| | | | |l|d]; try discriminate. cbn [mbind result_bind] in Hp.
      cbn [attr_get mbind result_bind] in Hp.
      destruct (count_drift row_count _); cbn [mbind result_bind] in Hp; [|discriminate].
      destruct (count_drift _ _); cbn [mbind result_bind] in Hp; [|discriminate].
      injection Hp as <- _. exact Hprior.
    - injection Hp as <- _. exact I. }
  destruct (quality_json_shape df row_count col)
    as (mr & card & mean & std & mn & mx & Hq & Hnum).
  fold (quality_of col) in Hq.
  eexists _, quality, _, mr, card, mean, std, mn, mx.
  split; [reflexivity|]. split; [reflexivity|]. split; [reflexivity|].
  split; [|split; [|exact Hnum]].
  - apply mapM_ok in Hm.
    apply (fold_dict_set_get fst snd).
    + intros cd Hcd Hk.
      revert Hm Hcd. generalize (sorted (map fst df)). induction drifts as [|cd' drifts IH];
        intros cols HF Hcd; [destruct Hcd|].
      inversion HF as [|c ? cs ? Hc HF']; subst.
      destruct Hcd as [->|Hcd]; [|exact (IH _ HF' Hcd)].
      cbv beta in Hc.
      match type of Hc with context [column_drift ?a ?b ?q] =>
        destruct (column_drift a b q) eqn:Hd end;
        cbn [mbind result_bind] in Hc; [|discriminate].
      injection Hc as <-. cbn [fst snd] in *. try subst c.
      rewrite (column_drift_unknown _ _ _ Hpc) in Hd. now injection Hd as <-.
    + left. apply In_sorted in Hcol.
      revert Hm Hcol. generalize (sorted (map fst df)). induction drifts as [|cd' drifts IH];
        intros cols HF Hcol; inversion HF as [|c ? cs ? Hc HF']; subst; [destruct Hcol|].
      cbv beta in Hc.
      match type of Hc with context [column_drift ?a ?b ?q] =>
        destruct (column_drift a b q) end;
        cbn [mbind result_bind] in Hc; [|discriminate].
      injection Hc as <-.
      destruct Hcol as [->|Hcol].
      * eexists. split; [left; reflexivity|reflexivity].
      * destruct (IH _ HF' Hcol) as (cd & Hin & Hk). exists cd. split; [right; exact Hin|exact Hk].
  - rewrite <- Hq. unfold quality.
    apply (fold_dict_set_get (fun c => c) (fun c => quality_json (quality_of c))).
    + intros c _ ->. reflexivity.
    + left. exists col. split; [apply In_sorted; exact Hcol|reflexivity].
Qed.

Lemma mapM_total {A B} (f : A -> result B) (g : A -> B) (l : list A) :
  (forall x, f x = Ok (g x)) -> mapM f l = Ok (map g l).
Proof.
  intros Hf. induction l as [|x l IH]; simpl; [reflexivity|].
  rewrite Hf, IH. reflexivity.
Qed.

(** Without a prior profile the report is always built. *)
Lemma build_report_no_prior df :
  exists fields,
    build_report df None = Ok (VDict fields) /\
    dict_get "dataset_drift" fields = Some dataset_no_drift.
Proof.
  unfold build_report. cbv zeta. cbn [mbind result_bind].
  erewrite mapM_total; [|intros col; reflexivity].
  cbn [mbind result_bind]. eexists. split; reflexivity.
Qed.

(** The stage, once the table and the prior profile are read. *)
Lemma evaluate_dataset_run dataset_dir configs run_dir (st : fs) df prior :
  current_table st run_dir = Some df ->
  match st !! Path.join run_dir "prior_profile.json" with
  | Some (File (Json p)) => prior = Some p
  | Some (File _) => False
  | _ => prior = None
  end ->
  evaluate_dataset dataset_dir configs run_dir st =
  match build_report df prior with
  | Ok report =>
      reraise (write_file (Path.join run_dir "evaluation_report.json") (Json report))
        RuntimeError "Failed to write evaluation report" st
  | Raise e => (Raise e, st)
  end.
Proof.
  unfold current_table. intros Hdata Hprior.
  unfold evaluate_dataset.
  cbv beta iota delta [mbind io_bind gets throw lift mret io_ret is_file load_json read_data].
  destruct (st !! Path.join run_dir "data.parquet") as [[|c]|] eqn:Hp;
    [|destruct c; try discriminate|];
    destruct (st !! Path.join run_dir "data.csv") as [[|c']|] eqn:Hc;
    try destruct c'; try discriminate;
    injection Hdata as <-;
    destruct (st !! Path.join run_dir "prior_profile.json") as [[|[]]|] eqn:Hpr;
    try contradiction; subst prior;
    repeat (progress (cbv beta iota delta [negb andb]; rewrite ?Hp, ?Hc, ?Hpr));
    destruct (build_report _ _); reflexivity.
Qed.

(** C8: on a run directory with a data file and no prior profile the report
    is written, its two dataset-level drift fields are present and null, and
    every column has its six drift fields present and null and its quality
    fields filled in; with a prior profile, the same holds of every column
    the profile does not list. *)
Theorem drift_absent_quality_present dataset_dir configs run_dir (st : fs) df :
  current_table st run_dir = Some df ->
  (is_file st (Path.join run_dir "prior_profile.json") = false ->
   is_dir st (Path.join run_dir "evaluation_report.json") = false ->
   exists fields,
     evaluate_dataset dataset_dir configs run_dir st
     = (Ok tt, <[Path.join run_dir "evaluation_report.json" := File (Json (VDict fields))]> st) /\
     dict_get "dataset_drift" fields
     = Some (VDict [("row_count_drift", VNone); ("column_count_drift", VNone)]) /\
     forall col, In col (map fst df) -> absent_drift_full_quality df (VDict fields) col) /\
  (forall prior st',
     st !! Path.join run_dir "prior_profile.json" = Some (File (Json prior)) ->
     evaluate_dataset dataset_dir configs run_dir st = (Ok tt, st') ->
     exists report,
       st' !! Path.join run_dir "evaluation_report.json" = Some (File (Json report)) /\
       forall col, In col (map fst df) ->
                   py_contains col (prior_columns prior) = Ok false ->
                   absent_drift_full_quality df report col).
Proof.
  intros Hdata. split.
  - intros Hnoprior Hnodir.
    destruct (build_report_no_prior df) as (fields & Hrep & Hdd).
    exists fields. split; [|split; [exact Hdd|]].
    + rewrite (evaluate_dataset_run _ _ _ _ df None Hdata).
      * rewrite Hrep. unfold reraise, write_file. unfold is_dir in Hnodir.
        destruct (st !! Path.join run_dir "evaluation_report.json") as [[|c]|];
          [discriminate|reflexivity|reflexivity].
      * unfold is_file in Hnoprior.
        destruct (st !! Path.join run_dir "prior_profile.json") as [[|c]|];
          [reflexivity|discriminate|reflexivity].
    + intros col Hcol. apply (build_report_column df None _ col Hrep Hcol I).
  - intros prior st' Hprior Hrun.
    rewrite (evaluate_dataset_run _ _ _ _ df (Some prior) Hdata) in Hrun
      by (rewrite Hprior; reflexivity).
    destruct (build_report df (Some prior)) as [report|] eqn:Hrep; [|discriminate].
    exists report. split.
    + unfold reraise, write_file in Hrun.
      destruct (st !! Path.join run_dir "evaluation_report.json") as [[|c]|];
        try discriminate; injection Hrun as <-; apply lookup_insert_eq.
    + intros col Hcol Hunknown.
      apply (build_report_column df (Some prior) _ col Hrep Hcol Hunknown).
Qed.

End Evaluator.

Import Demo Examples.

Lemma drift_absent_quality_present_witness :
  (exists fields,
     evaluate_dataset "dataset" (VDict []) "/tmp/run" test_run
     = (Ok tt, <[Path.join "/tmp/run" "evaluation_report.json" := File (Json (VDict fields))]> test_run) /\
     dict_get "dataset_drift" fields
     = Some (VDict [("row_count_drift", VNone); ("column_count_drift", VNone)]) /\
     forall col, In col (map fst test_table) ->
                 absent_drift_full_quality test_table (VDict fields) col) /\
  (exists report,
     snd (evaluate_dataset "dataset" (VDict []) "/tmp/run" test_run_with_prior)
       !! Path.join "/tmp/run" "evaluation_report.json" = Some (File (Json report)) /\
     forall col, In col (map fst test_table) ->
                 py_contains col (prior_columns test_prior) = Ok false ->
                 absent_drift_full_quality test_table report col).
Proof.
  split.
  - apply (proj1 (drift_absent_quality_present "dataset" (VDict []) "/tmp/run"
                    test_run test_table eq_refl)).
    + vm_compute. reflexivity.
    + vm_compute. reflexivity.
  - apply (proj2 (drift_absent_quality_present "dataset" (VDict []) "/tmp/run"
                    test_run_with_prior test_table eq_refl) test_prior).
    + vm_compute. reflexivity.
    + vm_compute. reflexivity.
Defined.

End EvaluateTheorems.

(** * Further properties *)

(** ** The order of strings, and sorting by it *)

Module StringOrder.
Import Py Readings.

Lemma ascii_compare_refl (a : ascii) : Ascii.compare a a = Eq.
Proof. unfold Ascii.compare. apply N.compare_refl. Qed.

Lemma ascii_compare_lt_trans (a b c : ascii) :
  Ascii.compare a b = Lt -> Ascii.compare b c = Lt -> Ascii.compare a c = Lt.
Proof.
  unfold Ascii.compare. rewrite !N.compare_lt_iff. apply N.lt_trans.
Qed.

Lemma compare_refl (s : string) : String.compare s s = Eq.
Proof. induction s as [|a s IH]; simpl; [reflexivity|]. now rewrite ascii_compare_refl. Qed.

Lemma compare_lt_trans (a b c : string) :
  String.compare a b = Lt -> String.compare b c = Lt -> String.compare a c = Lt.
Proof.
  revert b c. induction a as [|x a IH]; intros [|y b] [|z c]; simpl; try discriminate; auto.
  destruct (Ascii.compare x y) eqn:Exy; try discriminate.
  - apply Ascii.compare_eq_iff in Exy. subst y.
    destruct (Ascii.compare x z); try discriminate; auto. apply IH.
  - intros _. destruct (Ascii.compare y z) eqn:Eyz; try discriminate.
    + apply Ascii.compare_eq_iff in Eyz. subst z. now rewrite Exy.
    + now rewrite (ascii_compare_lt_trans _ _ _ Exy Eyz).
Qed.

Lemma ltb_irrefl (s : string) : String.ltb s s = false.
Proof. unfold String.ltb. now rewrite compare_refl. Qed.

Lemma ltb_trans (a b c : string) :
  String.ltb a b = true -> String.ltb b c = true -> String.ltb a c = true.
Proof.
  unfold String.ltb.
  destruct (String.compare a b) eqn:E1; try discriminate.
  destruct (String.compare b c) eqn:E2; try discriminate.
  now rewrite (compare_lt_trans _ _ _ E1 E2).
Qed.

Lemma leb_ltb (a b : string) : String.leb a b = negb (String.ltb b a).
Proof.
  unfold String.leb, String.ltb. rewrite (String.compare_antisym a b).
  destruct (String.compare b a); reflexivity.
Qed.

Lemma leb_iff (a b : string) : String.leb a b = true <-> a = b \/ String.ltb a b = true.
Proof.
  unfold String.leb, String.ltb. destruct (String.compare a b) eqn:E.
  - apply String.compare_eq_iff in E. intuition.
  - intuition.
  - split; [discriminate|]. intros [->|?]; [|discriminate].
    rewrite compare_refl in E. discriminate.
Qed.

Lemma leb_trans (a b c : string) :
  String.leb a b = true -> String.leb b c = true -> String.leb a c = true.
Proof.
  rewrite !leb_iff. intros [->|H1] [->|H2]; auto. right. eapply ltb_trans; eauto.
Qed.

Lemma ltb_leb_trans (a b c : string) :
  String.ltb a b = true -> String.leb b c = true -> String.ltb a c = true.
Proof. rewrite leb_iff. intros H1 [->|H2]; auto. eapply ltb_trans; eauto. Qed.

Lemma leb_ltb_trans (a b c : string) :
  String.leb a b = true -> String.ltb b c = true -> String.ltb a c = true.
Proof. rewrite leb_iff. intros [->|H1] H2; auto. eapply ltb_trans; eauto. Qed.

(** [sorted] permutes its argument into ascending order. *)
Lemma insert_string_perm x l : Permutation (insert_string x l) (x :: l).
Proof.
  induction l as [|y l IH]; simpl; [reflexivity|].
  destruct (String.leb x y); [reflexivity|].
  rewrite IH. apply perm_swap.
Qed.

Lemma sorted_perm l : Permutation (sorted l) l.
Proof.
  induction l as [|x l IH]; simpl; [reflexivity|].
  unfold sorted in *. simpl. rewrite insert_string_perm. now constructor.
Qed.

Lemma insert_string_ascending x l : ascending l -> ascending (insert_string x l).
Proof.
  unfold ascending. induction 1 as [|y l Hs IH Hall]; simpl.
  - repeat constructor.
  - destruct (String.leb x y) eqn:E.
    + constructor; [constructor; assumption|].
      constructor; [exact E|].
      eapply List.Forall_impl; [|exact Hall]. cbv beta. intros z Hz. eapply leb_trans; eauto.
    + constructor; [exact IH|].
      assert (Hyx : String.leb y x = true).
      { destruct (String.leb_total x y) as [Hc|Hc]; [congruence|exact Hc]. }
      rewrite (insert_string_perm x l). constructor; assumption.
Qed.

Lemma sorted_ascending l : ascending (sorted l).
Proof.
  induction l as [|x l IH]; [constructor|].
  unfold sorted in *. simpl. now apply insert_string_ascending.
Qed.

Lemma ascending_unique l1 l2 :
  ascending l1 -> ascending l2 -> Permutation l1 l2 -> l1 = l2.
Proof.
  unfold ascending. intros H1. revert l2. induction H1 as [|x l1 Hs1 IH Hall1]; intros l2 H2 Hp.
  - apply Permutation_nil in Hp. now subst.
  - destruct H2 as [|y l2 Hs2 Hall2].
    + symmetry in Hp. apply Permutation_nil in Hp. discriminate.
    + assert (Hxy : x = y).
      { assert (Hx : In x (y :: l2)) by (eapply Permutation_in; [exact Hp|now left]).
        assert (Hy : In y (x :: l1)) by (eapply Permutation_in; [symmetry; exact Hp|now left]).
        destruct Hx as [->|Hx]; [reflexivity|]. destruct Hy as [->|Hy]; [reflexivity|].
        rewrite List.Forall_forall in Hall1, Hall2.
        apply String.leb_antisym; auto. }
      subst y. f_equal. apply IH; [exact Hs2|]. eapply Permutation_cons_inv, Hp.
Qed.

Lemma sorted_permutation l1 l2 : Permutation l1 l2 -> sorted l1 = sorted l2.
Proof.
  intros Hp. apply ascending_unique; try apply sorted_ascending.
  rewrite !sorted_perm. exact Hp.
Qed.

Lemma sorted_of_ascending l : ascending l -> sorted l = l.
Proof.
  intros Ha. apply ascending_unique; [apply sorted_ascending|exact Ha|apply sorted_perm].
Qed.

End StringOrder.

(** ** The generator: configuration, shape and values *)

Module GeneratorShape.
Import Py Np Fs Generate PyFacts GeneratorFacts Notions Readings Laws StringOrder.
Local Open Scope Z_scope.

(** X1: the columns of a mapping come out in ascending order of their
    names, whatever the order in which the mapping lists them. *)
Theorem columns_mapping_order_independent (sc1 sc2 c1 c2 : dict) :
  dict_get "columns" sc1 = Some (VDict c1) ->
  dict_get "columns" sc2 = Some (VDict c2) ->
  Permutation (dict_keys c1) (dict_keys c2) ->
  _extract_columns (VDict sc1) = _extract_columns (VDict sc2) /\
  forall names, _extract_columns (VDict sc1) = Ok names ->
    exists l, names = map VStr l /\ l <> [] /\ ascending l /\ Permutation l (dict_keys c1).
Proof.
  intros H1 H2 Hp. unfold _extract_columns. rewrite H1, H2.
  rewrite (sorted_permutation _ _ Hp). split; [reflexivity|].
  intros names. rewrite <- (sorted_permutation _ _ Hp).
  pose proof (sorted_ascending (dict_keys c1)) as Ha.
  pose proof (sorted_perm (dict_keys c1)) as Hs.
  destruct (sorted (dict_keys c1)) as [|n l] eqn:E; [discriminate|].
  intros [= <-]. exists (n :: l). repeat split; auto.
Qed.

Section Resolver.
Context `{Builtins}.

Lemma forM_ok {A} (f : A -> result unit) (l : list A) :
  forM_ f l = Ok tt -> Forall (fun x => f x = Ok tt) l.
Proof.
  induction l as [|x l IH]; simpl; intros Hm; [constructor|].
  destruct (f x) as [[]|] eqn:Hx; [|discriminate]. constructor; auto.
Qed.

(** X2: every missingness ratio of an evolution that was extracted
    converts with [float()] and lies neither below 0 nor above 1, so the
    conversion in the loop over the columns cannot fail; a ratio given as
    null is refused with the others that do not convert. *)
Theorem evolution_ratios_validated (cfg : value) (evo : evolution) :
  _extract_evolution cfg = Ok evo ->
  (forall name v, dict_get name (missingness evo) = Some v ->
     exists r, py_float v = Ok r /\ fltb r fzero = false /\ fltb fone r = false) /\
  (forall name, dict_get name (missingness evo) <> Some VNone) /\
  exists d, cfg = VDict d /\
    (get_or_none "missingness" d = VDict (missingness evo) \/
     (get_or_none "missingness" d = VNone /\ missingness evo = [])).
Proof.
  unfold _extract_evolution. destruct cfg as [| | | | | |d]; try discriminate.
  destruct (if is_none (resolve_fraud_rate d) then _ else _) as [fr|]; [|discriminate].
  cbn [mbind result_bind].
  destruct (get_or_none "missingness" d) as [| | | | | |m] eqn:Hm; try discriminate.
  - intros [= <-]. cbn [missingness]. split; [discriminate|]. split; [discriminate|].
    exists d. auto.
  - destruct (forM_ _ m) as [[]|] eqn:Hall; [|discriminate]. cbn [mbind result_bind].
    intros [= <-]. cbn [missingness].
    apply forM_ok in Hall.
    assert (Hvalid : forall name v, dict_get name m = Some v ->
              exists r, py_float v = Ok r /\ fltb r fzero = false /\ fltb fone r = false).
    { intros name v Hget.
      assert (Hin : In (name, v) m).
      { clear -Hget. induction m as [|[k w] m IH]; simpl in Hget; [discriminate|].
        destruct (String.eqb name k) eqn:E.
        - apply String.eqb_eq in E. subst k. injection Hget as ->. now left.
        - right. auto. }
      rewrite List.Forall_forall in Hall. specialize (Hall _ Hin). cbn [snd] in Hall.
      destruct (check_unit_interval v _ _) as [r|] eqn:Hc; [|discriminate].
      apply ResolverTheorems.check_unit_interval_ok in Hc. exists r. exact Hc. }
    split; [exact Hvalid|]. split.
    + intros name Hnone. destruct (Hvalid _ _ Hnone) as (r & Hr & _). discriminate.
    + exists d. auto.
Qed.

End Resolver.

(** Assignment keeps the length of the array. *)
Lemma assign_at_length idx x items items' :
  assign_at idx x items = Ok items' -> length items' = length items.
Proof.
  revert items. induction idx as [|i idx IH]; simpl; intros items.
  - now intros [= <-].
  - destruct (i <? length items)%nat; [|discriminate].
    intros Hrun. apply IH in Hrun. now rewrite length_insert in Hrun.
Qed.

Lemma table_get_set_eq n a (t : table) : table_get n (table_set n a t) = Some a.
Proof.
  induction t as [|[k b] t IH]; simpl.
  - now rewrite String.eqb_refl.
  - destruct (String.eqb n k) eqn:E; simpl; [now rewrite String.eqb_refl|now rewrite E].
Qed.

Lemma table_get_set_ne n n' a (t : table) :
  n <> n' -> table_get n' (table_set n a t) = table_get n' t.
Proof.
  intros Hne. assert (Hb : String.eqb n' n = false) by (apply String.eqb_neq; congruence).
  induction t as [|[k b] t IH]; simpl.
  - now rewrite Hb.
  - destruct (String.eqb n k) eqn:E; simpl.
    + apply String.eqb_eq in E. subst k. now rewrite Hb.
    + now rewrite IH.
Qed.

Lemma table_set_keys n a (t : table) :
  map fst (table_set n a t) = if existsb (String.eqb n) (map fst t) then map fst t
                              else (map fst t ++ [n])%list.
Proof.
  induction t as [|[k b] t IH]; simpl; [reflexivity|].
  destruct (String.eqb n k) eqn:E; simpl.
  - apply String.eqb_eq in E. now subst k.
  - rewrite IH. now destruct (existsb (String.eqb n) (map fst t)).
Qed.

Lemma existsb_eqb_In n (l : list string) : existsb (String.eqb n) l = true <-> In n l.
Proof.
  rewrite existsb_exists. split.
  - intros (x & Hx & E). apply String.eqb_eq in E. now subst x.
  - intros Hin. exists n. split; [exact Hin|apply String.eqb_refl].
Qed.

Lemma table_set_In n a (t : table) k :
  In k (map fst (table_set n a t)) <-> k = n \/ In k (map fst t).
Proof.
  rewrite table_set_keys. destruct (existsb (String.eqb n) (map fst t)) eqn:E.
  - apply existsb_eqb_In in E. split; [auto|]. intros [->|?]; auto.
  - rewrite in_app_iff. simpl. intuition.
Qed.

Lemma table_set_NoDup n a (t : table) :
  List.NoDup (map fst t) -> List.NoDup (map fst (table_set n a t)).
Proof.
  intros Hnd. rewrite table_set_keys. destruct (existsb (String.eqb n) (map fst t)) eqn:E; [exact Hnd|].
  apply NoDup_ListNoDup. apply NoDup_ListNoDup in Hnd.
  apply NoDup_app. split; [exact Hnd|]. split.
  - intros x Hx Hx'. apply list_elem_of_singleton in Hx'. subst x.
    apply list_elem_of_In, existsb_eqb_In in Hx. congruence.
  - apply NoDup_singleton.
Qed.

Lemma table_set_Forall (P : ndarray -> Prop) n a (t : table) :
  P a -> List.Forall (fun c => P (snd c)) t -> List.Forall (fun c => P (snd c)) (table_set n a t).
Proof.
  intros Ha Ht. induction Ht as [|[k b] t Hb Ht IH]; simpl.
  - repeat constructor. exact Ha.
  - destruct (String.eqb n k); constructor; auto.
Qed.

Lemma table_get_In n (t : table) a : table_get n t = Some a -> In (n, a) t.
Proof.
  induction t as [|[k b] t IH]; simpl; [discriminate|].
  destruct (String.eqb n k) eqn:E.
  - apply String.eqb_eq in E. subst k. intros [= ->]. now left.
  - intros Hg. right. auto.
Qed.

Lemma table_get_Some_In n (t : table) : In n (map fst t) -> exists a, table_get n t = Some a.
Proof.
  induction t as [|[k b] t IH]; simpl; [tauto|].
  destruct (String.eqb n k) eqn:E; [eauto|].
  intros [->|Hin]; [rewrite String.eqb_refl in E; discriminate|auto].
Qed.

(** The table collected from the columns generated in turn: a name is
    bound to the array of its last turn. *)
Lemma collected_get (cols : list (string * ndarray)) (t0 : table) n :
  table_get n (fold_left (fun d c => table_set (fst c) (snd c) d) cols t0) =
  match last (List.filter (fun c => String.eqb (fst c) n) cols) with
  | Some c => Some (snd c)
  | None => table_get n t0
  end.
Proof.
  revert t0. induction cols as [|[k a] cols IH]; intros t0; [reflexivity|].
  cbn [fold_left List.filter fst snd]. rewrite IH.
  destruct (String.eqb k n) eqn:E.
  - apply String.eqb_eq in E. subst k.
    destruct (List.filter _ cols) as [|c l] eqn:Hf.
    + cbn. apply table_get_set_eq.
    + rewrite last_cons_cons.
      destruct (last (c :: l)) eqn:El; [reflexivity|]. apply last_None in El. discriminate.
  - destruct (last _); [reflexivity|].
    apply table_get_set_ne. intros ->. rewrite String.eqb_refl in E. discriminate.
Qed.

Lemma frame_keys (data : table) (names : list string) (df0 : table) k :
  (forall n, In n names -> In n (map fst data)) ->
  In k (map fst (fold_left (fun df name =>
                              match table_get name data with
                              | Some a => table_set name a df
                              | None => df
                              end) names df0))
  <-> In k names \/ In k (map fst df0).
Proof.
  revert df0. induction names as [|n names IH]; intros df0 Hin; cbn [fold_left].
  - simpl. tauto.
  - destruct (table_get_Some_In n data) as [a Ha]; [apply Hin; now left|].
    rewrite Ha, IH by (intros; apply Hin; now right).
    rewrite table_set_In. simpl. intuition.
Qed.

Lemma frame_get (data : table) (names : list string) (df0 : table) k :
  table_get k (fold_left (fun df name =>
                            match table_get name data with
                            | Some a => table_set name a df
                            | None => df
                            end) names df0)
  = if existsb (String.eqb k) names
    then match table_get k data with Some a => Some a | None => table_get k df0 end
    else table_get k df0.
Proof.
  revert df0. induction names as [|n names IH]; intros df0; cbn [fold_left existsb]; [reflexivity|].
  rewrite IH. destruct (String.eqb k n) eqn:E; cbn [orb].
  - apply String.eqb_eq in E. subst n.
    destruct (table_get k data) as [a|] eqn:Ha.
    + rewrite table_get_set_eq. now destruct (existsb _ names).
    + now destruct (existsb _ names).
  - destruct (existsb (String.eqb k) names); [|].
    + destruct (table_get k data); [reflexivity|].
      destruct (table_get n data); [|reflexivity].
      apply table_get_set_ne. intros ->. rewrite String.eqb_refl in E. discriminate.
    + destruct (table_get n data); [|reflexivity].
      apply table_get_set_ne. intros ->. rewrite String.eqb_refl in E. discriminate.
Qed.

Lemma frame_NoDup (data : table) (names : list string) (df0 : table) :
  List.NoDup (map fst df0) ->
  List.NoDup (map fst (fold_left (fun df name =>
                                    match table_get name data with
                                    | Some a => table_set name a df
                                    | None => df
                                    end) names df0)).
Proof.
  revert df0. induction names as [|n names IH]; intros df0 Hnd; cbn [fold_left]; [exact Hnd|].
  apply IH. destruct (table_get n data); [now apply table_set_NoDup|exact Hnd].
Qed.

Section Shape.
Context `{Builtins} `{Hashlib} `{Numpy} `{Pandas} `{!NumpyShapes}.

Lemma rs_choice_length rs a size vals rs' :
  rs_choice rs a size = Ok (vals, rs') -> length vals = size.
Proof.
  unfold rs_choice. destruct a as [|c a].
  - destruct size; [|discriminate]. now intros [= <- _].
  - pose proof (rs_randint_length rs (length (c :: a)) size) as Hl.
    destruct (rs_randint rs (length (c :: a)) size) as [idx rs1]. cbn [fst] in Hl.
    intros [= <- _]. now rewrite length_map.
Qed.

Lemma generate_column_length rs name rows arr rs' :
  _generate_column rs name rows = Ok (arr, rs') ->
  length (arr_items arr) = Z.to_nat rows.
Proof.
  unfold _generate_column.
  repeat match goal with
         | |- context [if ?b then _ else _] => destruct b
         end.
  - destruct (rs_choice _ _ _) as [[vals rs1]|] eqn:Hc; [|discriminate].
    cbn [mbind result_bind]. intros [= <- _]. cbn [arr_items].
    eapply rs_choice_length, Hc.
  - destruct (rs_choice _ _ _) as [[vals rs1]|] eqn:Hc; [|discriminate].
    cbn [mbind result_bind]. intros [= <- _]. cbn [arr_items].
    eapply rs_choice_length, Hc.
  - intros [= <- _]. cbn [arr_items]. now rewrite length_map, length_seq.
  - pose proof (rs_uniform_length rs fone (float_of_Z 500) (Z.to_nat rows)) as Hl.
    destruct (rs_uniform _ _ _ _) as [vals rs1]. cbn [fst] in Hl.
    intros [= <- _]. cbn [arr_items]. now rewrite length_map.
  - intros [= <- _]. cbn [arr_items]. apply length_replicate.
  - intros [= <- _]. cbn [arr_items]. now rewrite length_map, length_seq.
  - intros [= <- _]. cbn [arr_items]. now rewrite length_map, length_seq.
Qed.

Lemma apply_missingness_length rs arr ratio arr' rs' :
  _apply_missingness rs arr ratio = Ok (arr', rs') ->
  length (arr_items arr') = length (arr_items arr).
Proof.
  unfold _apply_missingness. destruct (fleb ratio fzero); [now intros [= <- _]|].
  destruct (fmul_int _ _) as [x|]; [|discriminate]. cbn [mbind result_bind].
  destruct (py_round x) as [k|]; [|discriminate]. cbn [mbind result_bind].
  destruct (k <=? 0); [now intros [= <- _]|].
  destruct (draw_positions _ _ _) as [idx rs1].
  destruct (_ || _).
  - destruct (assign_at _ _ _) as [items|] eqn:Ha; [|discriminate]. cbn [mbind result_bind].
    intros [= <- _]. cbn [arr_items]. apply assign_at_length in Ha.
    cbn [astype_float arr_items] in Ha. now rewrite length_map in Ha.
  - destruct (assign_at _ _ _) as [items|] eqn:Ha; [|discriminate]. cbn [mbind result_bind].
    intros [= <- _]. cbn [arr_items]. apply assign_at_length in Ha. exact Ha.
Qed.

Lemma generate_one_shape seed rows evo name c :
  generate_one seed rows evo name = Ok c ->
  name = VStr (fst c) /\ length (arr_items (snd c)) = Z.to_nat rows.
Proof.
  unfold generate_one. destruct name as [| | | |name| |]; try discriminate.
  destruct (column_before_missingness seed rows evo name) as [[vals rs]|] eqn:Hc; [|discriminate].
  cbn [mbind result_bind].
  assert (Hl : length (arr_items vals) = Z.to_nat rows).
  { unfold column_before_missingness in Hc.
    destruct (_generate_column _ name rows) as [[v0 rs0]|] eqn:Hg; [|discriminate].
    cbn [mbind result_bind] in Hc.
    destruct (is_fraud_name (lower name)).
    - destruct (fraud_rate evo) as [rate|]; [|discriminate].
      unfold assign_fraud in Hc.
      destruct (fmul_int rate rows) as [x|]; [|discriminate]. cbn [mbind result_bind] in Hc.
      destruct (py_round x) as [k|]; [|discriminate]. cbn [mbind result_bind] in Hc.
      destruct (draw_positions _ _ _) as [idx rs1].
      destruct (assign_at _ _ _) as [items|] eqn:Ha; [|discriminate].
      cbn [mbind result_bind] in Hc. injection Hc as <- _. cbn [arr_items].
      apply assign_at_length in Ha. now rewrite length_replicate in Ha.
    - injection Hc as <- _. eapply generate_column_length, Hg. }
  destruct (is_none _).
  - cbn [mbind result_bind]. intros [= <-]. auto.
  - destruct (py_float _) as [ratio|]; [|discriminate]. cbn [mbind result_bind].
    destruct (_apply_missingness rs vals ratio) as [[arr' rs']|] eqn:Hm; [|discriminate].
    cbn [fmap result_fmap mbind result_bind fst]. intros [= <-]. split; [reflexivity|].
    cbn [snd]. apply apply_missingness_length in Hm. congruence.
Qed.

Lemma generated_names seed rows evo cols gen :
  Forall2 (fun x y => generate_one seed rows evo x = Ok y) cols gen ->
  map VStr (map fst gen) = cols.
Proof.
  induction 1 as [|c g cols gen Hc Hrest IH]; [reflexivity|].
  apply generate_one_shape in Hc as [-> _]. cbn [map]. now rewrite IH.
Qed.

Lemma generated_turn seed rows evo cols gen k a :
  Forall2 (fun x y => generate_one seed rows evo x = Ok y) cols gen ->
  In (k, a) gen -> generate_one seed rows evo (VStr k) = Ok (k, a).
Proof.
  induction 1 as [|c g cols gen Hc Hrest IH]; intros Hk; [destruct Hk|].
  destruct Hk as [->|Hk]; [|auto].
  pose proof (generate_one_shape _ _ _ _ _ Hc) as [-> _]. exact Hc.
Qed.

Lemma extract_columns_nonempty schema cols : _extract_columns schema = Ok cols -> cols <> [].
Proof.
  unfold _extract_columns.
  destruct schema as [| | | | | |sc]; try discriminate.
  destruct (dict_get "columns" sc) as [[| | | | |l|d]|]; try discriminate.
  - destruct (mapM column_entry l) as [[|n names]|]; try discriminate.
    cbn [mbind result_bind]. intros [= <-]. discriminate.
  - destruct (sorted (dict_keys d)) as [|n names]; [discriminate|].
    intros [= <-]. discriminate.
Qed.

Lemma collected_keys (gen : list (string * ndarray)) (t0 : table) n :
  In n (map fst gen) \/ In n (map fst t0) ->
  In n (map fst (fold_left (fun d c => table_set (fst c) (snd c) d) gen t0)).
Proof.
  revert t0. induction gen as [|[k a] gen IH]; intros t0; cbn [fold_left map fst snd].
  - simpl. tauto.
  - intros Hin. apply IH. rewrite table_set_In. simpl in Hin. intuition.
Qed.

Lemma table_get_NoDup n a (df : table) :
  List.NoDup (map fst df) -> In (n, a) df -> table_get n df = Some a.
Proof.
  intros Hnd Hin. induction df as [|[k b] df IH]; [destruct Hin|].
  simpl. inversion Hnd as [|? ? Hnotin Hnd']; subst.
  destruct Hin as [[= -> ->]|Hin]; [now rewrite String.eqb_refl|].
  destruct (String.eqb n k) eqn:E; [|auto].
  apply String.eqb_eq in E. subst k. exfalso. apply Hnotin.
  apply in_map_iff. exists (n, a). auto.
Qed.

(** What a table that was built holds: the column of a name is the array
    that name's turn of the loop returns. *)
Lemma build_table_ok dataset_dir (configs : dict) run_dir df :
  build_table dataset_dir configs run_dir = Ok df ->
  exists cols rows evo,
    _extract_columns (get_or_none "schema.yaml" configs) = Ok cols /\
    _extract_row_count (get_or_none "dataset.yaml" configs) = Ok rows /\
    _extract_evolution (get_or_none "evolution.yaml" configs) = Ok evo /\
    cols <> [] /\
    List.NoDup (map fst df) /\
    (forall name, In name (map fst df) <-> In (VStr name) cols) /\
    (forall c, In c cols -> exists name, c = VStr name) /\
    (forall name, In (VStr name) cols ->
       exists arr, generate_one (_derive_seed dataset_dir run_dir) rows evo (VStr name)
                   = Ok (name, arr) /\
                   table_get name df = Some arr).
Proof.
  unfold build_table.
  destruct (_require_configs configs) as [[]|]; [|discriminate]. cbn [mbind result_bind].
  destruct (_extract_columns _) as [cols|] eqn:Hcols; [|discriminate]. cbn [mbind result_bind].
  destruct (_extract_row_count _) as [rows|] eqn:Hrows; [|discriminate]. cbn [mbind result_bind].
  destruct (_extract_evolution _) as [evo|] eqn:Hevo; [|discriminate]. cbn [mbind result_bind].
  set (seed := _derive_seed dataset_dir run_dir).
  destruct (mapM (generate_one seed rows evo) cols) as [gen|] eqn:Hgen; [|discriminate].
  cbn [mbind result_bind]. intros [= <-].
  exists cols, rows, evo.
  apply mapM_ok in Hgen.
  pose proof (generated_names _ _ _ _ _ Hgen) as Hnames.
  pose proof (extract_columns_nonempty _ _ Hcols) as Hne.
  set (data := fold_left (fun d c => table_set (fst c) (snd c) d) gen []).
  assert (Hdata : forall n, In n (map fst gen) -> In n (map fst data)).
  { intros n Hn. unfold data. apply collected_keys. now left. }
  assert (Hin_iff : forall name, In name (map fst gen) <-> In (VStr name) cols).
  { intros name. rewrite <- Hnames. split.
    - apply in_map.
    - intros Hin. apply in_map_iff in Hin as (x & [= ->] & Hx). exact Hx. }
  repeat split; auto.
  - unfold DataFrame. apply frame_NoDup. constructor.
  - unfold DataFrame. rewrite (frame_keys data (map fst gen) [] name Hdata). simpl.
    rewrite Hin_iff. tauto.
  - unfold DataFrame. rewrite (frame_keys data (map fst gen) [] name Hdata). simpl.
    rewrite Hin_iff. tauto.
  - intros c Hc. rewrite <- Hnames in Hc. apply in_map_iff in Hc as (n & <- & _). eauto.
  - intros name Hin. apply Hin_iff in Hin.
    assert (Hex : existsb (String.eqb name) (map fst gen) = true)
      by now apply existsb_eqb_In.
    unfold DataFrame. rewrite frame_get, Hex. cbn [table_get].
    unfold data. rewrite collected_get. cbn [table_get].
    destruct (last (List.filter (fun c => String.eqb (fst c) name) gen)) as [[k a]|] eqn:Hlast.
    + assert (Hk : In (k, a) (List.filter (fun c => String.eqb (fst c) name) gen)).
      { apply list_elem_of_In. eapply last_Some_elem_of, Hlast. }
      apply filter_In in Hk as [Hk Ek]. cbn [fst] in Ek. apply String.eqb_eq in Ek. subst k.
      exists a. split; [|reflexivity]. eapply generated_turn; eauto.
    + exfalso. apply last_None in Hlast.
      apply in_map_iff in Hin as ([k a] & Ek & Hk). cbn [fst] in Ek. subst k.
      assert (Hf : In (name, a) (List.filter (fun c => String.eqb (fst c) name) gen)).
      { apply filter_In. split; [exact Hk|]. apply String.eqb_refl. }
      rewrite Hlast in Hf. destruct Hf.
Qed.

(** X3: a table that was built has the columns of the schema, each under
    its name once, and every column has as many entries as the dataset
    configuration asks rows for. *)
Theorem generated_table_shape dataset_dir (configs : dict) run_dir df :
  build_table dataset_dir configs run_dir = Ok df ->
  exists cols rows,
    _extract_columns (get_or_none "schema.yaml" configs) = Ok cols /\
    _extract_row_count (get_or_none "dataset.yaml" configs) = Ok rows /\
    0 < rows /\
    List.NoDup (map fst df) /\
    (forall name, In name (map fst df) <-> In (VStr name) cols) /\
    List.Forall (fun c => length (arr_items (snd c)) = Z.to_nat rows) df /\
    Pd.row_count df = rows.
Proof.
  intros Hb.
  destruct (build_table_ok _ _ _ _ Hb)
    as (cols & rows & evo & Hcols & Hrows & Hevo & Hne & Hnd & Hkeys & Hstr & Hget).
  exists cols, rows.
  pose proof (GeneratorTheorems.row_count_positive _ _ Hrows) as Hpos.
  assert (Hall : List.Forall (fun c => length (arr_items (snd c)) = Z.to_nat rows) df).
  { apply List.Forall_forall. intros [n a] Hin. cbn [snd].
    assert (Hn : In n (map fst df)) by (apply in_map_iff; exists (n, a); auto).
    apply Hkeys in Hn. destruct (Hget _ Hn) as (arr & Hgen & Hdf).
    apply generate_one_shape in Hgen as [_ Hl]. cbn [snd] in Hl.
    pose proof (table_get_NoDup _ _ _ Hnd Hin). congruence. }
  repeat split; auto.
  - apply Hkeys.
  - apply Hkeys.
  - destruct df as [|[n a] df].
    + exfalso. destruct cols as [|c cols]; [contradiction|].
      destruct (Hstr c (or_introl eq_refl)) as [name ->].
      apply (Hkeys name). now left.
    + cbn [Pd.row_count]. inversion Hall as [|? ? Ha _]; subst. cbn [snd] in Ha.
      rewrite Ha. lia.
Qed.

(** X4: an account column holds ids of the pool only, which starts at
    100000 and has [min(5000, rows // 10)] ids; a merchant-category column
    holds none but the ten categories. *)
Theorem drawn_values_in_pool rs name rows arr rs' :
  _generate_column rs name rows = Ok (arr, rs') ->
  (lower name = "account_id" ->
   arr_dtype arr = int64 /\
   List.Forall (fun c => exists z, c = CInt z /\ 100000 <= z < 100000 + Z.min 5000 (rows / 10))
               (arr_items arr)) /\
  (lower name = "merchant_category" ->
   List.Forall (fun c => exists s, c = CStr s /\ In s categories) (arr_items arr)).
Proof.
  assert (Hchoice : forall (P : cell -> Prop) a size vals rs1,
            List.Forall P a -> rs_choice rs a size = Ok (vals, rs1) -> List.Forall P vals).
  { intros P a size vals rs1 Ha. unfold rs_choice. destruct a as [|c a].
    - destruct size; [|discriminate]. intros [= <- _]. constructor.
    - destruct (rs_randint _ _ _) as [idx rs2]. intros [= <- _].
      apply List.Forall_forall. intros v Hv. apply in_map_iff in Hv as (i & <- & _).
      rewrite List.Forall_forall in Ha.
      assert (Hin : In (nth i (c :: a) c) (c :: a)).
      { destruct (Nat.lt_ge_cases i (length (c :: a))) as [Hlt|Hge].
        - exact (nth_In (c :: a) c Hlt).
        - rewrite (nth_overflow (c :: a) c Hge). now left. }
      exact (Ha _ Hin). }
  unfold _generate_column. intros Hg. split; intros Hname; rewrite Hname in Hg;
    cbn [String.eqb Ascii.eqb Bool.eqb] in Hg.
  - destruct (rs_choice _ _ _) as [[vals rs1]|] eqn:Hc; [|discriminate].
    cbn [mbind result_bind] in Hg. injection Hg as <- _. split; [reflexivity|].
    cbn [arr_items]. eapply Hchoice; [|exact Hc].
    apply List.Forall_forall. intros c Hin. apply in_map_iff in Hin as (i & <- & Hi).
    apply in_seq in Hi. eexists. split; [reflexivity|]. lia.
  - destruct (rs_choice _ _ _) as [[vals rs1]|] eqn:Hc; [|discriminate].
    cbn [mbind result_bind] in Hg. injection Hg as <- _.
    cbn [arr_items]. eapply Hchoice; [|exact Hc].
    apply List.Forall_forall. intros c Hin. apply in_map_iff in Hin as (s & <- & Hs). eauto.
Qed.

(** X5: an identifier column other than the account's counts the rows
    from 1: its [i]-th entry is [i + 1], no id occurs twice, and the
    column's random stream is left as it was. *)
Theorem identifiers_count_rows rs name rows :
  let lname := lower name in
  (lname = "transaction_id" \/ lname = "id" \/
   (endswith "_id" lname = true /\ lname <> "account_id")) ->
  exists items,
    _generate_column rs name rows = Ok (NdArray int64 items, rs) /\
    length items = Z.to_nat rows /\
    (forall i, (i < Z.to_nat rows)%nat -> items !! i = Some (CInt (Z.of_nat i + 1))) /\
    List.NoDup items.
Proof.
  intros lname Hid.
  assert (Hnm : lname <> "merchant_category").
  { intros E. rewrite E in Hid. destruct Hid as [?|[?|[? _]]]; discriminate. }
  exists (map (fun i => CInt (Z.of_nat i)) (seq 1 (Z.to_nat rows))).
  split; [|split; [|split]].
  - unfold _generate_column. fold lname.
    assert (Ha : String.eqb lname "account_id" = false).
    { apply String.eqb_neq. destruct Hid as [E|[E|[_ E]]]; [rewrite E; discriminate..|exact E]. }
    assert (Hm : String.eqb lname "merchant_category" = false) by now apply String.eqb_neq.
    rewrite Ha, Hm.
    assert (Hc : String.eqb lname "transaction_id" || String.eqb lname "id"
                 || (endswith "_id" lname && negb false) = true).
    { destruct Hid as [E|[E|[E _]]].
      - rewrite E. reflexivity.
      - rewrite E. reflexivity.
      - rewrite E. cbn [negb andb]. apply orb_true_r. }
    rewrite Hc. reflexivity.
  - now rewrite length_map, length_seq.
  - intros i Hi. rewrite list_lookup_fmap, lookup_seq_lt by exact Hi.
    cbn [fmap option_fmap option_map]. do 2 f_equal. lia.
  - apply NoDup_ListNoDup.
    assert (Hinj : Inj eq eq (fun i : nat => CInt (Z.of_nat i))) by (intros x y [= E]; lia).
    apply (NoDup_fmap_2 (fun i : nat => CInt (Z.of_nat i))). apply NoDup_seq.
Qed.

(** X6: a generation that succeeds writes one file and touches nothing
    else: the parquet file when the parquet engine takes the table, the CSV
    file only when it does not. *)
Theorem generate_writes_one_file dataset_dir (configs : dict) run_dir (st st' : fs) :
  is_dir st (Path.join run_dir "data.parquet") = false ->
  generate_dataset dataset_dir configs run_dir st = (Ok tt, st') ->
  exists df,
    build_table dataset_dir configs run_dir = Ok df /\
    is_dir st run_dir = true /\
    ((to_parquet_ok df = true /\
      st' = <[Path.join run_dir "data.parquet" := File (Parquet df)]> st) \/
     (to_parquet_ok df = false /\
      st' = <[Path.join run_dir "data.csv" := File (Csv df)]> st)).
Proof.
  intros Hnd. unfold generate_dataset, mbind, io_bind, lift.
  destruct (build_table dataset_dir configs run_dir) as [df|e]; [|discriminate].
  intros Hw. exists df. split; [reflexivity|].
  unfold _write_dataframe, write_file in Hw.
  destruct (is_dir st run_dir); [|discriminate]. split; [reflexivity|].
  unfold is_dir in Hnd.
  destruct (to_parquet_ok df).
  - left. split; [reflexivity|].
    destruct (st !! Path.join run_dir "data.parquet") as [[|c]|] eqn:Hp; [discriminate| |];
      now injection Hw as <-.
  - right. split; [reflexivity|].
    destruct (st !! Path.join run_dir "data.csv") as [[|c]|] eqn:Hc; [discriminate| |];
      now injection Hw as <-.
Qed.

End Shape.
End GeneratorShape.

(** ** The generator: what reaches the table *)

Module GeneratorOutput.
Import Py Np Fs Generate PyFacts Binary64 GeneratorFacts GeneratorTheorems Notions Laws
       GeneratorShape.
Local Open Scope Z_scope.

Section Output.
Context `{Builtins} `{Hashlib} `{Numpy} `{Pandas} `{!NumpyLaws} `{!NumpyShapes}.

(** A column has as many entries as there are rows before missingness is
    applied to it. *)
Lemma column_before_missingness_length seed rows evo name vals rs :
  column_before_missingness seed rows evo name = Ok (vals, rs) ->
  length (arr_items vals) = Z.to_nat rows.
Proof.
  unfold column_before_missingness. intros Hc.
  destruct (_generate_column _ name rows) as [[v0 rs0]|] eqn:Hg; [|discriminate].
  cbn [mbind result_bind] in Hc.
  destruct (is_fraud_name (lower name)).
  - destruct (fraud_rate evo) as [rate|]; [|discriminate].
    unfold assign_fraud in Hc.
    destruct (fmul_int rate rows) as [x|]; [|discriminate]. cbn [mbind result_bind] in Hc.
    destruct (py_round x) as [k|]; [|discriminate]. cbn [mbind result_bind] in Hc.
    destruct (draw_positions _ _ _) as [idx rs1].
    destruct (assign_at _ _ _) as [items|] eqn:Ha; [|discriminate].
    cbn [mbind result_bind] in Hc. injection Hc as <- _. cbn [arr_items].
    apply assign_at_length in Ha. now rewrite length_replicate in Ha.
  - injection Hc as <- _. eapply generate_column_length, Hg.
Qed.

(** The turn of a column with a configured ratio ends with
    [_apply_missingness] on the stream the column was drawn from. *)
Lemma generate_one_with_missingness seed rows evo name v ratio col0 rs0 :
  column_before_missingness seed rows evo name = Ok (col0, rs0) ->
  dict_get name (missingness evo) = Some v -> py_float v = Ok ratio ->
  generate_one seed rows evo (VStr name)
  = (p ← _apply_missingness rs0 col0 ratio; Ok (name, fst p)).
Proof.
  intros Hc Hv Hf. unfold generate_one. rewrite Hc. cbn [mbind result_bind].
  unfold get_or_none. rewrite Hv.
  assert (Hnn : is_none v = false) by (destruct v; try reflexivity; discriminate).
  rewrite Hnn, Hf. cbn [mbind result_bind].
  destruct (_apply_missingness rs0 col0 ratio) as [[arr rs1]|]; reflexivity.
Qed.


(** The column a turn returns is the column of the table, and of the data
    file. *)
Lemma turn_reaches_table dataset_dir (configs : dict) run_dir cols rows evo name arr :
  _extract_columns (get_or_none "schema.yaml" configs) = Ok cols ->
  _extract_row_count (get_or_none "dataset.yaml" configs) = Ok rows ->
  _extract_evolution (get_or_none "evolution.yaml" configs) = Ok evo ->
  In (VStr name) cols ->
  generate_one (_derive_seed dataset_dir run_dir) rows evo (VStr name) = Ok (name, arr) ->
  (forall df, build_table dataset_dir configs run_dir = Ok df -> table_get name df = Some arr) /\
  (forall st st' : fs,
     generate_dataset dataset_dir configs run_dir st = (Ok tt, st') ->
     exists df, holds_table st' run_dir df /\ table_get name df = Some arr).
Proof.
  intros Hcols Hrows Hevo Hin Hgen.
  assert (Htab : forall df, build_table dataset_dir configs run_dir = Ok df ->
                            table_get name df = Some arr).
  { intros df Hb.
    destruct (build_table_ok _ _ _ _ Hb)
      as (cols' & rows' & evo' & Hc' & Hr' & He' & _ & _ & _ & _ & Hturn).
    rewrite Hcols in Hc'. injection Hc' as <-.
    rewrite Hrows in Hr'. injection Hr' as <-.
    rewrite Hevo in He'. injection He' as <-.
    destruct (Hturn name Hin) as (arr0 & Hg0 & Hget).
    rewrite Hgen in Hg0. injection Hg0 as <-. exact Hget. }
  split; [exact Htab|].
  intros st st' Hrun. destruct (generate_dataset_ok _ _ _ _ _ Hrun) as (df & Hb & Hh).
  exists df. split; [exact Hh|]. apply Htab, Hb.
Qed.

Lemma derive_seed_names d1 r1 d2 r2 :
  Path.basename (Path.normpath d1) = Path.basename (Path.normpath d2) ->
  Path.basename (Path.normpath r1) = Path.basename (Path.normpath r2) ->
  _derive_seed d1 r1 = _derive_seed d2 r2.
Proof. intros Hd Hr. unfold _derive_seed. now rewrite Hd, Hr. Qed.

(** C4, as the code has it: a column of the schema with a configured ratio
    in [0, 1] leaves its turn, and reaches the table and the data file,
    with [k = round(ratio * rows)] distinct positions overwritten by the
    marker: the first [k] of a permutation drawn from the column's own
    stream, as the generation of the column left it.  A float or integer
    column is cast to float and marked with NaN; any other column becomes an
    object column marked with [None]; with [k = 0] the column stays as it
    was generated.  A run for the same dataset name and version marks the
    same positions. *)
Theorem configured_missingness_marks_column
    dataset_dir (configs : dict) run_dir cols rows evo name v ratio col0 rs0 :
  _extract_columns (get_or_none "schema.yaml" configs) = Ok cols ->
  _extract_row_count (get_or_none "dataset.yaml" configs) = Ok rows ->
  _extract_evolution (get_or_none "evolution.yaml" configs) = Ok evo ->
  In (VStr name) cols ->
  dict_get name (missingness evo) = Some v -> py_float v = Ok ratio ->
  valid_binary prec emax ratio = true ->
  fleb fzero ratio = true -> fleb ratio fone = true ->
  rows < 2 ^ 53 ->
  let seed := _derive_seed dataset_dir run_dir in
  column_before_missingness seed rows evo name = Ok (col0, rs0) ->
  let n := Z.to_nat rows in
  let d := arr_dtype col0 in
  exists x k arr',
    fmul_int ratio rows = Ok x /\ py_round x = Ok k /\ 0 <= k <= rows /\
    length (arr_items col0) = n /\
    generate_one seed rows evo (VStr name) = Ok (name, arr') /\
    (let idx := firstn (Z.to_nat k) (fst (rs_permutation rs0 n)) in
     NoDup idx /\ length idx = Z.to_nat k /\
     (k = 0 -> arr' = col0) /\
     (0 < k ->
      arr_dtype arr' = (if is_number d then float64 else object) /\
      length (arr_items arr') = n /\
      forall i, (i < n)%nat ->
        arr_items arr' !! i =
        if decide (i ∈ idx) then Some (marker d) else kept d <$> (arr_items col0 !! i))) /\
    (forall df, build_table dataset_dir configs run_dir = Ok df ->
                table_get name df = Some arr') /\
    (forall st st' : fs,
       generate_dataset dataset_dir configs run_dir st = (Ok tt, st') ->
       exists df, holds_table st' run_dir df /\ table_get name df = Some arr') /\
    (forall dataset_dir' run_dir',
       Path.basename (Path.normpath dataset_dir') = Path.basename (Path.normpath dataset_dir) ->
       Path.basename (Path.normpath run_dir') = Path.basename (Path.normpath run_dir) ->
       generate_one (_derive_seed dataset_dir' run_dir') rows evo (VStr name) = Ok (name, arr') /\
       forall df', build_table dataset_dir' configs run_dir' = Ok df' ->
                   table_get name df' = Some arr').
Proof.
  intros Hcols Hrows Hevo Hin Hv Hf Hvalid Hlo Hhi Hbound seed Hcol n d.
  pose proof (row_count_positive _ _ Hrows) as Hpos.
  pose proof (column_before_missingness_length _ _ _ _ _ _ Hcol) as Hlen.
  assert (Hn : Z.of_nat (length (arr_items col0)) = rows) by (rewrite Hlen; lia).
  destruct (apply_missingness_marks rs0 col0 ratio Hvalid Hlo Hhi ltac:(lia))
    as (x & k & arr' & rs' & Hx & Hk & Hb & Hrun & Hmarks).
  rewrite Hn in Hx, Hb. cbv zeta in Hmarks. rewrite Hlen in Hmarks. fold n d in Hmarks.
  assert (Hgen : generate_one seed rows evo (VStr name) = Ok (name, arr')).
  { rewrite (generate_one_with_missingness _ _ _ _ _ _ _ _ Hcol Hv Hf), Hrun. reflexivity. }
  exists x, k, arr'.
  split; [exact Hx|]. split; [exact Hk|]. split; [exact Hb|]. split; [exact Hlen|].
  split; [exact Hgen|]. split; [exact Hmarks|].
  destruct (turn_reaches_table dataset_dir configs run_dir cols rows evo name arr'
              Hcols Hrows Hevo Hin Hgen) as [Htab Hfile].
  split; [exact Htab|]. split; [exact Hfile|].
  intros dataset_dir' run_dir' Hd Hr.
  assert (Hseed : _derive_seed dataset_dir' run_dir' = seed) by now apply derive_seed_names.
  assert (Hgen' : generate_one (_derive_seed dataset_dir' run_dir') rows evo (VStr name)
                  = Ok (name, arr')) by (rewrite Hseed; exact Hgen).
  split; [exact Hgen'|].
  apply (turn_reaches_table dataset_dir' configs run_dir' cols rows evo name arr'
           Hcols Hrows Hevo Hin Hgen').
Qed.


End Output.
End GeneratorOutput.

(** ** Finalizing and registering: what a failure leaves, what a success
    means *)

Module StageFacts.
Import Py Fs PyFacts FsFacts.

(** The atomic write either goes through or leaves the file system as it
    was. *)
Lemma atomic_write_json_raises p v (st st' : fs) e :
  is_dir st p = false ->
  atomic_write_json p v st = (Raise e, st') -> st' = st.
Proof.
  unfold atomic_write_json, mbind, io_bind, write_file, replace, is_dir.
  intros Hp.
  destruct (st !! Path.with_suffix p ".tmp") as [[|c]|] eqn:E; cbv beta iota;
    [now intros [= _ <-]| |]; rewrite lookup_insert_eq;
    (destruct (decide (Path.with_suffix p ".tmp" = p)) as [Heq|Hne];
     [rewrite Heq, lookup_insert_eq; discriminate
     |rewrite lookup_insert_ne by exact Hne;
      destruct (st !! p) as [[|c']|]; discriminate]).
Qed.

Lemma atomic_write_json_runs p v (st : fs) :
  is_dir st p = false ->
  atomic_write_json p v st =
  if is_dir st (Path.with_suffix p ".tmp") then (raise OSError "IsADirectoryError", st)
  else (Ok tt, <[p := File (Json (sort_keys v))]>
                 (delete (Path.with_suffix p ".tmp")
                    (<[Path.with_suffix p ".tmp" := File (Json (sort_keys v))]> st))).
Proof.
  intros Hp. destruct (is_dir st (Path.with_suffix p ".tmp")) eqn:Ht.
  - unfold atomic_write_json, mbind, io_bind, write_file, is_dir in *.
    destruct (st !! Path.with_suffix p ".tmp") as [[|c]|]; try discriminate. reflexivity.
  - now apply ArtifactsTheorems.atomic_write_json_fresh.
Qed.

Lemma load_json_frame p (st st' : fs) r : load_json p st = (r, st') -> st' = st.
Proof.
  unfold load_json. destruct (st !! p) as [[|[]]|]; now intros [= _ <-].
Qed.

End StageFacts.

Module ArtifactsMore.
Import Py Fs Artifacts PyFacts FsFacts StageFacts.

Section Finalizer.
Context `{Os}.

Lemma required_loop run_dir (l : list string) (st : fs) :
  for_each (fun fname =>
              present ← gets (fun st => is_file st (Path.join run_dir fname));
              if (present : bool) then mret tt
              else throw RuntimeError ("Missing required artifact: " ++ fname)) l st
  = (match List.find (fun fname => negb (is_file st (Path.join run_dir fname))) l with
     | Some fname => raise RuntimeError ("Missing required artifact: " ++ fname)
     | None => Ok tt
     end, st).
Proof.
  induction l as [|f l IH]; [reflexivity|].
  cbn [for_each List.find].
  unfold mbind at 1. unfold io_bind at 1. unfold mbind at 1. unfold io_bind at 1.
  unfold gets at 1.
  destruct (is_file st (Path.join run_dir f)); cbn [negb]; cbv beta iota.
  - unfold mret at 1. unfold io_ret at 1. exact IH.
  - reflexivity.
Qed.

(** The steps of the finalizer, in one equation. *)
Lemma persist_artifacts_runs now dataset_dir configs run_dir (st : fs) :
  persist_artifacts now dataset_dir configs run_dir st =
  if exists_ st (Path.join run_dir "final_metadata.json") then
    (raise RuntimeError "Run is already finalized", st)
  else
    let has_parquet := exists_ st (Path.join run_dir "data.parquet") in
    let has_csv := exists_ st (Path.join run_dir "data.csv") in
    if has_parquet && has_csv then
      (raise RuntimeError "Ambiguous data files: both data.parquet and data.csv exist", st)
    else if negb has_parquet && negb has_csv then
      (raise RuntimeError "Missing data file: neither data.parquet nor data.csv exist", st)
    else
      match List.find (fun fname => negb (is_file st (Path.join run_dir fname)))
                      required_artifacts with
      | Some fname => (raise RuntimeError ("Missing required artifact: " ++ fname), st)
      | None =>
          match load_json (Path.join run_dir "configs_snapshot.json") st with
          | (Ok snapshot, _) =>
              if negb (py_eq snapshot configs) then
                (raise RuntimeError "configs_snapshot.json does not match provided configs", st)
              else
                atomic_write_json (Path.join run_dir "final_metadata.json")
                  (manifest dataset_dir (resolve run_dir) now
                     (if has_parquet then "data.parquet" else "data.csv")) st
          | (Raise e, _) => (Raise e, st)
          end
      end.
Proof.
  unfold persist_artifacts.
  unfold mbind at 1. unfold io_bind at 1. unfold gets at 1. cbv beta iota.
  destruct (exists_ st (Path.join run_dir "final_metadata.json")); [reflexivity|].
  unfold mbind at 1. unfold io_bind at 1. unfold gets at 1. cbv beta iota.
  unfold mbind at 1. unfold io_bind at 1. unfold gets at 1. cbv beta iota zeta.
  destruct (exists_ st (Path.join run_dir "data.parquet")),
           (exists_ st (Path.join run_dir "data.csv")); cbn [andb negb]; try reflexivity.
  all: unfold mbind at 1; unfold io_bind at 1; rewrite required_loop;
    destruct (List.find _ required_artifacts); [reflexivity|]; cbv beta iota;
    unfold mbind at 1; unfold io_bind at 1;
    destruct (load_json _ st) as [[snapshot|e] st1] eqn:Hload;
    rewrite (load_json_frame _ _ _ _ Hload); [|reflexivity];
    destruct (py_eq snapshot configs); reflexivity.
Qed.

(** X7: a finalization that raises leaves the file system exactly as it
    found it: no manifest, and no temporary file either. *)
Theorem persist_failure_changes_nothing now dataset_dir configs run_dir (st st' : fs) e :
  persist_artifacts now dataset_dir configs run_dir st = (Raise e, st') -> st' = st.
Proof.
  rewrite persist_artifacts_runs.
  destruct (exists_ st (Path.join run_dir "final_metadata.json")) eqn:Hfin;
    [now intros [= _ <-]|].
  cbv zeta.
  destruct (_ && _); [now intros [= _ <-]|].
  destruct (_ && _); [now intros [= _ <-]|].
  destruct (List.find _ _); [now intros [= _ <-]|].
  destruct (load_json _ st) as [[snapshot|e'] st1]; [|now intros [= _ <-]].
  destruct (negb _); [now intros [= _ <-]|].
  apply atomic_write_json_raises.
  unfold exists_ in Hfin. unfold is_dir.
  destruct (st !! Path.join run_dir "final_metadata.json"); [discriminate|reflexivity].
Qed.

(** X8: a finalization succeeds on a complete run directory only: the
    manifest was not there, exactly one of the two data files was, the four
    artifacts were files, and the snapshot equalled the configuration.  It
    then writes the manifest, which names the data file that was found, and
    changes nothing else. *)
Theorem persist_success_means_complete now dataset_dir configs run_dir (st st1 : fs) :
  persist_artifacts now dataset_dir configs run_dir st = (Ok tt, st1) ->
  exists_ st (Path.join run_dir "final_metadata.json") = false /\
  exists_ st (Path.join run_dir "data.parquet")
  = negb (exists_ st (Path.join run_dir "data.csv")) /\
  forallb (fun fname => is_file st (Path.join run_dir fname)) required_artifacts = true /\
  (exists snapshot,
     st !! Path.join run_dir "configs_snapshot.json" = Some (File (Json snapshot)) /\
     py_eq snapshot configs = true) /\
  let data_file :=
    if exists_ st (Path.join run_dir "data.parquet") then "data.parquet" else "data.csv" in
  let written := File (Json (sort_keys (manifest dataset_dir (resolve run_dir) now data_file))) in
  let tmp := Path.with_suffix (Path.join run_dir "final_metadata.json") ".tmp" in
  st1 = <[Path.join run_dir "final_metadata.json" := written]>
          (delete tmp (<[tmp := written]> st)).
Proof.
  rewrite persist_artifacts_runs.
  destruct (exists_ st (Path.join run_dir "final_metadata.json")) eqn:Hfin; [discriminate|].
  cbv zeta.
  destruct (exists_ st (Path.join run_dir "data.parquet")) eqn:Hp,
           (exists_ st (Path.join run_dir "data.csv")) eqn:Hc; cbn [andb negb]; try discriminate.
  all: destruct (List.find _ required_artifacts) eqn:Hfind; [discriminate|];
    unfold load_json;
    destruct (st !! Path.join run_dir "configs_snapshot.json") as [[|[snapshot| | |]]|] eqn:Hs;
    try discriminate;
    destruct (py_eq snapshot configs) eqn:Heq; cbn [negb]; [|discriminate];
    intros Hw; apply atomic_write_json_ok in Hw;
    (split; [reflexivity|]); (split; [reflexivity|]);
    (split; [apply forallb_forall; intros f Hf;
             pose proof (find_none _ _ Hfind f Hf) as Hn; cbv beta in Hn;
             now destruct (is_file st (Path.join run_dir f))|]);
    (split; [exists snapshot; auto|]); exact Hw.
Qed.

End Finalizer.
End ArtifactsMore.

(** ** Documents: induction, sorted writes, equality *)

Module ValueFacts.
Import Py PyFacts Readings StringOrder.

(** Induction on a document, through its lists and objects. *)
Lemma value_induction (P : value -> Prop) :
  P VNone -> (forall b, P (VBool b)) -> (forall z, P (VInt z)) -> (forall f, P (VFloat f)) ->
  (forall s, P (VStr s)) ->
  (forall l, List.Forall P l -> P (VList l)) ->
  (forall d, List.Forall (fun p => P (snd p)) d -> P (VDict d)) ->
  forall v, P v.
Proof.
  intros HN HB HI HF HS HL HD. fix IH 1. intros [|b|z|f|s|l|d].
  - exact HN.
  - apply HB.
  - apply HI.
  - apply HF.
  - apply HS.
  - apply HL. induction l as [|x l IHl]; constructor; [apply IH|exact IHl].
  - apply HD. induction d as [|[k x] d IHd]; constructor; [apply IH|exact IHd].
Qed.

Lemma insert_sorted_ascending p d : keys_ascending d -> keys_ascending (insert_sorted p d).
Proof.
  unfold keys_ascending. induction 1 as [|q d Hs IH Hhd]; simpl.
  - repeat constructor.
  - destruct (String.leb (fst p) (fst q)) eqn:E.
    + constructor; [constructor; assumption|]. constructor. exact E.
    + constructor; [exact IH|].
      assert (Hqp : String.leb (fst q) (fst p) = true).
      { destruct (String.leb_total (fst p) (fst q)) as [Hc|Hc]; [congruence|exact Hc]. }
      destruct d as [|r d]; simpl.
      * constructor. exact Hqp.
      * destruct (String.leb (fst p) (fst r)); constructor; [exact Hqp|].
        inversion Hhd; assumption.
Qed.

Lemma sort_pairs_ascending d : keys_ascending (sort_pairs d).
Proof.
  induction d as [|p d IH]; [constructor|]. unfold sort_pairs in *. simpl.
  now apply insert_sorted_ascending.
Qed.

Lemma sort_pairs_of_ascending d : keys_ascending d -> sort_pairs d = d.
Proof.
  unfold keys_ascending. induction 1 as [|p d Hs IH Hhd]; [reflexivity|].
  unfold sort_pairs in *. simpl. rewrite IH.
  destruct Hhd as [|q d' Hpq]; simpl; [reflexivity|]. now rewrite Hpq.
Qed.

Lemma insert_sorted_map (f : value -> value) p d :
  map (fun q => (fst q, f (snd q))) (insert_sorted p d)
  = insert_sorted (fst p, f (snd p)) (map (fun q => (fst q, f (snd q))) d).
Proof.
  induction d as [|q d IH]; simpl; [reflexivity|].
  destruct (String.leb (fst p) (fst q)); simpl; [reflexivity|]. now rewrite IH.
Qed.

Lemma sort_pairs_map (f : value -> value) d :
  map (fun q => (fst q, f (snd q))) (sort_pairs d)
  = sort_pairs (map (fun q => (fst q, f (snd q))) d).
Proof.
  induction d as [|p d IH]; [reflexivity|]. unfold sort_pairs in *. simpl.
  now rewrite insert_sorted_map, IH.
Qed.

(** Sorting the keys is idempotent. *)
Lemma sort_keys_idempotent (v : value) : sort_keys (sort_keys v) = sort_keys v.
Proof.
  induction v as [| | | | |l IH|d IH] using value_induction; try reflexivity.
  - rewrite !sort_keys_list. f_equal. rewrite map_map.
    induction IH as [|x l Hx _ IHl]; [reflexivity|]. simpl. now rewrite Hx, IHl.
  - rewrite !sort_keys_dict. f_equal.
    rewrite sort_pairs_map, map_map. cbn [fst snd].
    rewrite sort_pairs_of_ascending by apply sort_pairs_ascending.
    f_equal. induction IH as [|[k x] d Hx _ IHd]; [reflexivity|]. simpl in *.
    now rewrite Hx, IHd.
Qed.

Lemma SFcompare_refl (f : float) : is_nan f = false -> SFcompare f f = Some Eq.
Proof.
  destruct f as [s|s| |s m e]; try discriminate; intros _; cbn [SFcompare].
  - reflexivity.
  - now destruct s.
  - destruct s; rewrite Z.compare_refl.
    + pose proof (Pos.compare_cont_refl m Eq) as Hm. now rewrite Hm.
    + pose proof (Pos.compare_cont_refl m Eq) as Hm. now rewrite Hm.
Qed.

Lemma feqb_refl (f : float) : is_nan f = false -> feqb f f = true.
Proof. intros Hn. unfold feqb, SFeqb. now rewrite SFcompare_refl. Qed.

Lemma distinct_keys_get (d : dict) k v :
  distinct_keys (map fst d) = true -> In (k, v) d -> dict_get k d = Some v.
Proof.
  induction d as [|[k' v'] d IH]; [intros _ []|].
  cbn [map fst distinct_keys dict_get]. intros Hd Hin.
  apply andb_true_iff in Hd as [Hk Hd].
  destruct Hin as [[= -> ->]|Hin]; [now rewrite String.eqb_refl|].
  destruct (String.eqb k k') eqn:E; [|auto].
  apply String.eqb_eq in E. subst k'. exfalso.
  apply negb_true_iff in Hk.
  assert (Hex : existsb (String.eqb k) (map fst d) = true).
  { apply existsb_exists. exists k. split; [|apply String.eqb_refl].
    apply in_map_iff. exists (k, v). auto. }
  congruence.
Qed.

(** Deep equality is reflexive on a well-formed document. *)
Lemma py_eq_refl (v : value) : well_formed v = true -> py_eq v v = true.
Proof.
  induction v as [|b|z|f|s|l IH|d IH] using value_induction; intros Hwf.
  - reflexivity.
  - cbn. destruct b; reflexivity.
  - cbn. apply Z.eqb_refl.
  - cbn in *. apply feqb_refl. now apply negb_true_iff in Hwf.
  - cbn. apply String.eqb_refl.
  - cbn [well_formed] in Hwf. cbn [py_eq].
    induction IH as [|x l Hx _ IHl]; [reflexivity|].
    cbn [forallb] in Hwf. apply andb_true_iff in Hwf as [Hw1 Hw2].
    rewrite (Hx Hw1). cbn [andb]. apply IHl, Hw2.
  - cbn [well_formed] in Hwf. apply andb_true_iff in Hwf as [Hkeys Hall].
    cbn [py_eq]. rewrite Nat.eqb_refl. cbn [andb].
    assert (Hsub : forall d', (forall k v, In (k, v) d' -> In (k, v) d) ->
              List.Forall (fun p => well_formed (snd p) = true -> py_eq (snd p) (snd p) = true) d' ->
              forallb (fun p => well_formed (snd p)) d' = true ->
              (fix sub (d0 : dict) : bool :=
                 match d0 with
                 | [] => true
                 | (k, v) :: d'0 =>
                     match dict_get k d with
                     | Some w => py_eq v w && sub d'0
                     | None => false
                     end
                 end) d' = true).
    { induction d' as [|[k v] d' IHd']; intros Hin Hrefl Hw; [reflexivity|].
      rewrite (distinct_keys_get d k v Hkeys) by (apply Hin; now left).
      inversion Hrefl as [|? ? Hv Hrest]; subst. cbn [snd] in Hv.
      cbn [forallb snd] in Hw. apply andb_true_iff in Hw as [Hw1 Hw2].
      rewrite (Hv Hw1). cbn [andb]. apply IHd'; auto.
      intros k0 v0 H0. apply Hin. now right. }
    apply Hsub; auto.
Qed.

(** Sorting the keys moves no string in or out of a document. *)
Lemma forallb_insert_sorted (P : string * value -> bool) p d :
  forallb P (insert_sorted p d) = P p && forallb P d.
Proof.
  induction d as [|q d IH]; [reflexivity|]. simpl.
  destruct (String.leb (fst p) (fst q)); [reflexivity|]. simpl. rewrite IH.
  now rewrite !andb_assoc, (andb_comm (P q)).
Qed.

Lemma forallb_sort_pairs (P : string * value -> bool) d :
  forallb P (sort_pairs d) = forallb P d.
Proof.
  induction d as [|q d IH]; [reflexivity|]. unfold sort_pairs in *. simpl.
  now rewrite forallb_insert_sorted, IH.
Qed.

Lemma encodable_sort_keys (v : value) : encodable (sort_keys v) = encodable v.
Proof.
  induction v as [| | | | |l IH|d IH] using value_induction; try reflexivity.
  - rewrite sort_keys_list. cbn [encodable].
    induction IH as [|x l Hx _ IHl]; [reflexivity|]. simpl. now rewrite Hx, IHl.
  - rewrite sort_keys_dict. cbn [encodable]. rewrite forallb_sort_pairs.
    induction IH as [|[k x] d Hx _ IHd]; [reflexivity|]. simpl in *. now rewrite Hx, IHd.
Qed.

End ValueFacts.

(** ** The registry: what a registration leaves alone *)

Module RegistryMore.
Import Py Fs Registry PyFacts FsFacts RegistryFacts StageFacts ValueFacts.

Section Engine.
Context `{Yaml.JsonText}.

(** A document that UTF-8 can hold is written as the manifest is. *)
Lemma registry_write_encodable p v (st : fs) :
  encodable v = true -> _atomic_write_json p v st = atomic_write_json p v st.
Proof.
  intros Henc. unfold _atomic_write_json, atomic_write_json, mbind, io_bind, dump_utf8, write_file.
  rewrite Henc. reflexivity.
Qed.

(** A write of the registry that raises has left the file system as it
    was, or with the text before the string that could not be encoded at
    the temporary name. *)
Lemma registry_write_raises p v (st st' : fs) e :
  is_dir st p = false ->
  _atomic_write_json p v st = (Raise e, st') ->
  st' = st \/
  (encodable v = false /\ kind e = ValueError /\
   st' = <[Path.with_suffix p ".tmp" := File (Bytes (Yaml.utf8_text_before_error v))]> st).
Proof.
  intros Hp. unfold _atomic_write_json, mbind, io_bind.
  destruct (dump_utf8 _ v st) as [[[]|e0] st0] eqn:Hd.
  - apply dump_utf8_ok in Hd as [_ ->]. unfold replace, is_dir in *.
    rewrite lookup_insert_eq.
    destruct (decide (Path.with_suffix p ".tmp" = p)) as [Heq|Hne].
    + rewrite Heq, lookup_insert_eq. discriminate.
    + rewrite lookup_insert_ne by exact Hne. destruct (st !! p) as [[|c']|]; discriminate.
  - intros [= <- <-]. apply dump_utf8_raises in Hd. exact Hd.
Qed.

(** X9: a document that the registry's write has put in place reads back
    as it was written, keys sorted, and writing what was read changes
    nothing: the file system after the second write is the one before it,
    with no temporary file left. *)
Theorem atomic_rewrite_is_stable (p : string) (v : value) (st st1 : fs) :
  _atomic_write_json p v st = (Ok tt, st1) ->
  _load_json p st1 = (Ok (sort_keys v), st1) /\
  st1 !! Path.with_suffix p ".tmp" = (if decide (Path.with_suffix p ".tmp" = p)
                                      then Some (File (Json (sort_keys v))) else None) /\
  _atomic_write_json p (sort_keys v) st1 = (Ok tt, st1).
Proof.
  intros Hw. apply registry_write_ok in Hw as [Henc Hw].
  rewrite registry_write_encodable by (now rewrite encodable_sort_keys).
  set (c := File (Json (sort_keys v))) in *. set (tmp := Path.with_suffix p ".tmp") in *.
  assert (Hp : st1 !! p = Some c) by (rewrite Hw; apply lookup_insert_eq).
  assert (Htmp : st1 !! tmp = if decide (tmp = p) then Some c else None).
  { destruct (decide (tmp = p)) as [E|E]; [now rewrite E|].
    rewrite Hw, lookup_insert_ne by congruence. apply lookup_delete_eq. }
  split; [unfold _load_json, load_json; now rewrite Hp|]. split; [exact Htmp|].
  rewrite ArtifactsTheorems.atomic_write_json_fresh.
  - rewrite sort_keys_idempotent. fold c tmp. f_equal.
    apply map_eq. intros k.
    destruct (decide (k = p)) as [->|Hkp]; [now rewrite lookup_insert_eq|].
    rewrite lookup_insert_ne by congruence.
    destruct (decide (k = tmp)) as [->|Hkt].
    + rewrite lookup_delete_eq, Htmp. destruct (decide (tmp = p)); [congruence|reflexivity].
    + rewrite lookup_delete_ne, lookup_insert_ne by congruence. reflexivity.
  - unfold is_dir. fold tmp. rewrite Htmp. now destruct (decide (tmp = p)).
  - unfold is_dir. now rewrite Hp.
Qed.

(** The steps of the updater, in one equation. *)
Lemma update_registry_steps mp rp (st : fs) :
  update_registry_from_final_metadata mp rp st =
  if negb (is_file st mp) then (raise FileNotFoundError "final_metadata.json not found", st)
  else if negb (is_file st rp) then (raise FileNotFoundError "registry file not found", st)
  else
    match load_json mp st with
    | (Ok final_meta, _) =>
        match read_manifest final_meta with
        | Ok m =>
            match load_json rp st with
            | (Ok registry, _) =>
                match append_version m registry with
                | Ok registry' => _atomic_write_json rp registry' st
                | Raise e => (Raise e, st)
                end
            | (Raise e, _) => (Raise e, st)
            end
        | Raise e => (Raise e, st)
        end
    | (Raise e, _) => (Raise e, st)
    end.
Proof.
  unfold update_registry_from_final_metadata, _load_json.
  unfold mbind at 1. unfold io_bind at 1. unfold gets at 1. cbv beta iota.
  destruct (is_file st mp); cbn [negb]; [|reflexivity].
  unfold mbind at 1. unfold io_bind at 1. unfold gets at 1. cbv beta iota.
  destruct (is_file st rp); cbn [negb]; [|reflexivity].
  unfold mbind at 1. unfold io_bind at 1.
  destruct (load_json mp st) as [[fm|e] st1] eqn:H1; rewrite (load_json_frame _ _ _ _ H1);
    [|reflexivity].
  unfold mbind at 1. unfold io_bind at 1. unfold lift at 1.
  destruct (read_manifest fm) as [m|e]; [|reflexivity].
  unfold mbind at 1. unfold io_bind at 1.
  destruct (load_json rp st) as [[reg|e] st2] eqn:H2; rewrite (load_json_frame _ _ _ _ H2);
    [|reflexivity].
  unfold mbind at 1. unfold io_bind at 1. unfold lift at 1.
  destruct (append_version m reg); reflexivity.
Qed.

(** X10: a registration that raises has changed no path but the temporary
    sibling of the registry.  It has changed nothing at all when a file is
    missing or does not parse, the manifest lacks its fields, the registry
    does not list the dataset, the version is recorded already or the
    temporary name is a directory; the other way to raise is that the new
    registry document holds a string UTF-8 cannot encode, and then the text
    written before that string is left at the temporary name, and the
    exception is a ValueError. *)
Theorem registration_failure_keeps_registry mp rp (st st' : fs) e :
  update_registry_from_final_metadata mp rp st = (Raise e, st') ->
  (forall p, p <> Path.with_suffix rp ".tmp" -> st' !! p = st !! p) /\
  (st' = st \/
   exists fm m reg reg',
     doc_at st mp = Some fm /\ read_manifest fm = Ok m /\
     doc_at st rp = Some reg /\ append_version m reg = Ok reg' /\
     encodable reg' = false /\ kind e = ValueError /\
     st' = <[Path.with_suffix rp ".tmp" := File (Bytes (Yaml.utf8_text_before_error reg'))]> st) /\
  ((forall fm m reg reg',
      doc_at st mp = Some fm -> read_manifest fm = Ok m ->
      doc_at st rp = Some reg -> append_version m reg = Ok reg' ->
      encodable reg' = true) ->
   st' = st).
Proof.
  intros Hrun.
  assert (Hcases :
    st' = st \/
    exists fm m reg reg',
      doc_at st mp = Some fm /\ read_manifest fm = Ok m /\
      doc_at st rp = Some reg /\ append_version m reg = Ok reg' /\
      encodable reg' = false /\ kind e = ValueError /\
      st' = <[Path.with_suffix rp ".tmp" := File (Bytes (Yaml.utf8_text_before_error reg'))]> st).
  { revert Hrun. rewrite update_registry_steps.
    destruct (is_file st mp); cbn [negb]; [|intros [= _ <-]; now left].
    destruct (is_file st rp) eqn:Hrp; cbn [negb]; [|intros [= _ <-]; now left].
    unfold load_json, doc_at.
    destruct (st !! mp) as [[|[fm| | |]]|]; try (intros [= _ <-]; now left).
    destruct (read_manifest fm) as [m|e1] eqn:Hm; [|intros [= _ <-]; now left].
    destruct (st !! rp) as [[|[reg| | |]]|] eqn:Hreg; try (intros [= _ <-]; now left).
    destruct (append_version m reg) as [reg'|e1] eqn:Happ; [|intros [= _ <-]; now left].
    intros Hw. apply registry_write_raises in Hw.
    - destruct Hw as [->|(Henc & Hk & ->)]; [now left|].
      right. exists fm, m, reg, reg'. auto 10.
    - unfold is_dir. now rewrite Hreg. }
  split; [|split; [exact Hcases|]].
  - intros p Hp. destruct Hcases as [->|(fm & m & reg & reg' & _ & _ & _ & _ & _ & _ & ->)];
      [reflexivity|]. apply lookup_insert_ne. congruence.
  - intros Hall. destruct Hcases as [->|(fm & m & reg & reg' & Hfm & Hm & Hreg & Happ & Henc & _)];
      [reflexivity|]. rewrite (Hall _ _ _ _ Hfm Hm Hreg Happ) in Henc. discriminate.
Qed.

(** X11: a registration writes the registry file and nothing else, and in
    the registry it changes the entry of its own dataset only: every other
    dataset reads as in the document before, written with sorted keys. *)
Theorem registration_leaves_the_rest mp rp (st st1 : fs) :
  update_registry_from_final_metadata mp rp st = (Ok tt, st1) ->
  (forall p, p <> rp -> p <> Path.with_suffix rp ".tmp" -> st1 !! p = st !! p) /\
  exists fm m name doc0 doc1,
    doc_at st mp = Some fm /\ read_manifest fm = Ok m /\ mf_dataset m = VStr name /\
    doc_at st rp = Some doc0 /\ doc_at st1 rp = Some doc1 /\
    forall other, other <> name -> entry_of doc1 other = entry_of (sort_keys doc0) other.
Proof.
  intros Hrun.
  destruct (update_registry_ok _ _ _ _ Hrun) as (fm & reg & m & reg' & Hmp & Hrp & Hm & Happ & ->).
  split.
  - intros p Hp Ht. rewrite lookup_insert_ne, lookup_delete_ne, lookup_insert_ne by congruence.
    reflexivity.
  - destruct (append_version_ok _ _ _ Happ)
      as (r & datasets & name & e0 & vs & -> & Hds & Hname & Hent & Hvs & Hchk & e' & Hv' & Hl' & ->).
    exists fm, m, name, (VDict r), (sort_keys (VDict (dict_set "datasets"
             (VDict (dict_set name (VDict e') datasets)) r))).
    unfold doc_at. rewrite Hmp, Hrp, lookup_insert_eq.
    repeat split; auto.
    intros other Hne. unfold entry_of. rewrite !sort_keys_dict, !dict_get_sorted.
    rewrite dict_get_set_eq. rewrite (get_or_none_some _ _ _ Hds) by discriminate.
    cbn [option_map]. rewrite !sort_keys_dict, !dict_get_sorted.
    rewrite dict_get_set_ne by congruence. reflexivity.
Qed.

End Engine.
End RegistryMore.

(** ** Paths and directory listings *)

Module PathFacts.
Import Py Fs Pd Readings.

Lemma append_assoc (a b c : string) : (a ++ b) ++ c = a ++ (b ++ c).
Proof.
  induction a as [|x a IH]; [reflexivity|].
  change (String x (((a ++ b) ++ c)) = String x (a ++ (b ++ c))). now rewrite IH.
Qed.

Lemma append_inj (a b c : string) : a ++ b = a ++ c -> b = c.
Proof.
  induction a as [|x a IH]; [auto|].
  change (String x (a ++ b) = String x (a ++ c) -> b = c). intros [= E]. auto.
Qed.

Lemma join_prefix (d name : string) : Path.join d name = dir_prefix d ++ name.
Proof.
  unfold Path.join, dir_prefix. destruct (String.eqb d ""); [reflexivity|].
  destruct (endswith "/" d); [reflexivity|]. now rewrite append_assoc.
Qed.

Lemma join_inj (d a b : string) : Path.join d a = Path.join d b -> a = b.
Proof. rewrite !join_prefix. apply append_inj. Qed.

Lemma strip_prefix_spec (p s r : string) : strip_prefix p s = Some r <-> s = p ++ r.
Proof.
  revert s. induction p as [|a p IH]; intros s; simpl.
  - split; [now intros [= ->]|now intros ->].
  - destruct s as [|b s]; [split; discriminate|].
    destruct (Ascii.eqb a b) eqn:E.
    + apply Ascii.eqb_eq in E. subst b. rewrite IH. split; [now intros ->|now intros [= ->]].
    + split; [discriminate|]. intros [= -> _]. rewrite Ascii.eqb_refl in E. discriminate.
Qed.

(** The entries of a directory are the names under which the file system
    holds something in it. *)
Lemma listdir_spec (st : fs) (d name : string) :
  In name (listdir st d) <-> entry_like name = true /\ exists_ st (Path.join d name) = true.
Proof.
  unfold listdir, entry_like, exists_. rewrite <- list_elem_of_In, list_elem_of_omap. split.
  - intros (k & Hk & He). apply list_elem_of_In, in_map_iff in Hk as ([k' n] & <- & Hin).
    cbn [fst] in He. apply list_elem_of_In, elem_of_map_to_list in Hin.
    unfold entry_name in He.
    destruct (strip_prefix (dir_prefix d) k') as [r|] eqn:Hs; [|discriminate].
    destruct (String.eqb r "" || is_substring "/" r) eqn:Hr; [discriminate|].
    injection He as ->. apply orb_false_iff in Hr as [H1 H2]. rewrite H1, H2.
    split; [reflexivity|]. apply strip_prefix_spec in Hs. rewrite join_prefix, <- Hs, Hin.
    reflexivity.
  - intros [Hl Hex]. apply andb_true_iff in Hl as [H1 H2].
    apply negb_true_iff in H1, H2.
    destruct (st !! Path.join d name) as [n|] eqn:Hn; [|discriminate].
    exists (Path.join d name). split.
    + apply list_elem_of_In, in_map_iff. exists (Path.join d name, n). split; [reflexivity|].
      apply list_elem_of_In, elem_of_map_to_list. exact Hn.
    + unfold entry_name.
      assert (Hs : strip_prefix (dir_prefix d) (Path.join d name) = Some name)
        by (apply strip_prefix_spec, join_prefix).
      rewrite Hs, H1, H2. reflexivity.
Qed.

End PathFacts.

(** ** From the manifest to the registry *)

Module Handover.
Import Py Fs Artifacts Registry PyFacts FsFacts RegistryFacts StageFacts ArtifactsMore.

Section Finalizer.
Context `{Os} `{Yaml.JsonText}.

Lemma persist_artifacts_written now dataset_dir configs run_dir (st st1 : fs) :
  persist_artifacts now dataset_dir configs run_dir st = (Ok tt, st1) ->
  exists data_file,
    let written := File (Json (sort_keys (manifest dataset_dir (resolve run_dir) now data_file))) in
    let tmp := Path.with_suffix (Path.join run_dir "final_metadata.json") ".tmp" in
    st1 = <[Path.join run_dir "final_metadata.json" := written]>
            (delete tmp (<[tmp := written]> st)).
Proof.
  rewrite persist_artifacts_runs.
  destruct (exists_ st _); [discriminate|]. cbv zeta.
  destruct (_ && _); [discriminate|]. destruct (_ && _); [discriminate|].
  destruct (List.find _ _); [discriminate|].
  destruct (load_json _ st) as [[snapshot|e'] st2]; [|discriminate].
  destruct (negb _); [discriminate|].
  intros Hw. apply atomic_write_json_ok in Hw. eexists. exact Hw.
Qed.

Lemma read_written_manifest dataset_dir resolved now data_file :
  let name := Path.basename (Path.normpath dataset_dir) in
  let version := Path.basename (Path.normpath resolved) in
  name <> "" -> resolved <> "" -> now <> "" -> version <> "" ->
  read_manifest (sort_keys (manifest dataset_dir resolved now data_file))
  = Ok (ManifestFields (VStr name) (VStr resolved) (VStr now) version).
Proof.
  intros name version Hn Hr Hnow Hv.
  unfold read_manifest, manifest. rewrite sort_keys_dict.
  cbn [attr_get mbind result_bind]. rewrite !get_or_none_sorted.
  unfold get_or_none. cbn [dict_get String.eqb Ascii.eqb Bool.eqb sort_keys truthy].
  fold name.
  apply String.eqb_neq in Hn, Hr, Hnow, Hv. rewrite Hn, Hr, Hnow. cbn [negb orb].
  cbn [mbind result_bind]. fold version. rewrite Hv. reflexivity.
Qed.

(** X12: the registry updater reads the manifest of a finalized run as the
    finalizer wrote it: the dataset is the name of the dataset directory and
    the version the name of the resolved run directory; with these it goes
    on to the append. *)
Theorem finalized_run_registers now dataset_dir configs run_dir rp (st st1 : fs) reg :
  let mp := Path.join run_dir "final_metadata.json" in
  let name := Path.basename (Path.normpath dataset_dir) in
  let version := Path.basename (Path.normpath (resolve run_dir)) in
  let m := ManifestFields (VStr name) (VStr (resolve run_dir)) (VStr now) version in
  persist_artifacts now dataset_dir configs run_dir st = (Ok tt, st1) ->
  name <> "" -> resolve run_dir <> "" -> now <> "" -> version <> "" ->
  rp <> mp -> rp <> Path.with_suffix mp ".tmp" ->
  st !! rp = Some (File (Json reg)) ->
  (exists fm, doc_at st1 mp = Some fm /\ read_manifest fm = Ok m) /\
  update_registry_from_final_metadata mp rp st1 =
    match append_version m reg with
    | Ok reg' => _atomic_write_json rp reg' st1
    | Raise e => (Raise e, st1)
    end.
Proof.
  intros mp name version m Hrun Hn Hr Hnow Hv Hne Hne' Hreg.
  destruct (persist_artifacts_written _ _ _ _ _ _ Hrun) as (data_file & Hst1). cbv zeta in Hst1.
  fold mp in Hst1.
  assert (Hmp : st1 !! mp = Some (File (Json (sort_keys
                  (manifest dataset_dir (resolve run_dir) now data_file)))))
    by (rewrite Hst1; apply lookup_insert_eq).
  assert (Hrp : st1 !! rp = Some (File (Json reg))).
  { rewrite Hst1, lookup_insert_ne, lookup_delete_ne, lookup_insert_ne by congruence.
    exact Hreg. }
  pose proof (read_written_manifest dataset_dir (resolve run_dir) now data_file Hn Hr Hnow Hv)
    as Hread.
  split.
  - eexists. unfold doc_at. rewrite Hmp. split; [reflexivity|exact Hread].
  - apply (update_registry_run mp rp st1 _ reg m _ Hmp Hrp Hread eq_refl).
Qed.

End Finalizer.
End Handover.

(** ** Configurations and their snapshots *)

Module YamlFacts.
Import Py Yaml PyFacts Readings ValueFacts.

(** Induction on a configuration, through its lists and mappings. *)
Lemma config_induction (P : config -> Prop) :
  P CNone -> (forall b, P (CBool b)) -> (forall z, P (CInt z)) -> (forall f, P (CFloat f)) ->
  (forall s, P (CStr s)) ->
  (forall l, List.Forall P l -> P (CList l)) ->
  (forall d, List.Forall (fun p => P (snd p)) d -> P (CDict d)) ->
  (forall r, P (COther r)) ->
  forall c, P c.
Proof.
  intros HN HB HI HF HS HL HD HO. fix IH 1. intros [|b|z|f|s|l|d|r].
  - exact HN.
  - apply HB.
  - apply HI.
  - apply HF.
  - apply HS.
  - apply HL. induction l as [|x l IHl]; constructor; [apply IH|exact IHl].
  - apply HD. induction d as [|[k x] d IHd]; constructor; [apply IH|exact IHd].
  - apply HO.
Qed.

Lemma distinct_keys_NoDup (l : list string) : distinct_keys l = true <-> List.NoDup l.
Proof.
  induction l as [|k l IH]; cbn [distinct_keys].
  - split; [constructor|reflexivity].
  - rewrite andb_true_iff, negb_true_iff, IH. split.
    + intros [Hk Hl]. constructor; [|exact Hl]. intros Hin.
      assert (existsb (String.eqb k) l = true); [|congruence].
      apply existsb_exists. exists k. split; [exact Hin|apply String.eqb_refl].
    + intros Hnd. inversion Hnd as [|? ? Hk Hl]; subst. split; [|exact Hl].
      destruct (existsb (String.eqb k) l) eqn:E; [|reflexivity].
      apply existsb_exists in E as (x & Hx & Ex). apply String.eqb_eq in Ex. subst x.
      contradiction.
Qed.

Lemma dict_set_fresh k v (d : dict) :
  ~ In k (map fst d) -> dict_set k v d = (d ++ [(k, v)])%list.
Proof.
  induction d as [|[k' v'] d IH]; [reflexivity|]. cbn [map fst In dict_set app].
  intros Hn. destruct (String.eqb k k') eqn:E.
  - apply String.eqb_eq in E. subst k'. exfalso. apply Hn. now left.
  - rewrite IH; [reflexivity|]. intros Hin. apply Hn. now right.
Qed.

Lemma dict_set_keys k v (d : dict) k' :
  In k' (map fst (dict_set k v d)) <-> k' = k \/ In k' (map fst d).
Proof.
  induction d as [|[k0 v0] d IH]; cbn [dict_set map fst In].
  - intuition.
  - destruct (String.eqb k k0) eqn:E; cbn [map fst In].
    + apply String.eqb_eq in E. subst k0. intuition.
    + rewrite IH. intuition.
Qed.

Lemma dict_set_NoDup k v (d : dict) :
  List.NoDup (map fst d) -> List.NoDup (map fst (dict_set k v d)).
Proof.
  induction d as [|[k0 v0] d IH]; cbn [dict_set map fst].
  - intros _. constructor; [intros []|constructor].
  - intros Hnd. inversion Hnd as [|? ? Hk Hd]; subst.
    destruct (String.eqb k k0) eqn:E; cbn [map fst].
    + apply String.eqb_eq in E. subst k0. now constructor.
    + constructor; [|now apply IH]. rewrite dict_set_keys. intros [->|Hin]; [|contradiction].
      rewrite String.eqb_refl in E. discriminate.
Qed.

Lemma assigned_keys (l acc : dict) k :
  In k (map fst (assigned l acc)) <-> In k (map fst l) \/ In k (map fst acc).
Proof.
  unfold assigned. revert acc. induction l as [|[k0 v0] l IH]; intros acc; cbn [fold_left map fst In].
  - intuition.
  - rewrite IH, dict_set_keys. intuition.
Qed.

Lemma assigned_NoDup (l acc : dict) :
  List.NoDup (map fst acc) -> List.NoDup (map fst (assigned l acc)).
Proof.
  unfold assigned. revert acc. induction l as [|[k0 v0] l IH]; intros acc Hnd; cbn [fold_left].
  - exact Hnd.
  - apply IH. now apply dict_set_NoDup.
Qed.

Lemma assigned_In (l acc : dict) k x :
  In (k, x) (assigned l acc) -> In (k, x) l \/ In (k, x) acc.
Proof.
  unfold assigned. revert acc. induction l as [|[k0 v0] l IH]; intros acc; cbn [fold_left].
  - auto.
  - intros Hin. apply IH in Hin as [Hin|Hin]; [left; now right|].
    cbn [fst snd] in Hin.
    assert (Hs : forall d, In (k, x) (dict_set k0 v0 d) -> (k, x) = (k0, v0) \/ In (k, x) d).
    { clear. induction d as [|[k1 v1] d IHd]; cbn [dict_set].
      - intros [E|[]]. left. now symmetry.
      - destruct (String.eqb k0 k1); intros [E|Hin].
        + left. now symmetry.
        + right. now right.
        + right. now left.
        + apply IHd in Hin as [E|Hin]; [now left|right; now right]. }
    apply Hs in Hin as [[= -> ->]|Hin]; [left; now left|now right].
Qed.

Lemma assigned_distinct (l acc : dict) :
  List.NoDup (map fst (acc ++ l)%list) -> assigned l acc = (acc ++ l)%list.
Proof.
  unfold assigned. revert acc. induction l as [|[k0 v0] l IH]; intros acc Hnd; cbn [fold_left].
  - now rewrite app_nil_r.
  - cbn [fst snd]. rewrite dict_set_fresh.
    + rewrite IH; [now rewrite <- app_assoc|].
      rewrite <- app_assoc. exact Hnd.
    + rewrite map_app in Hnd. cbn [map fst] in Hnd.
      apply List.NoDup_remove_2 in Hnd. intros Hin. apply Hnd. apply in_or_app. now left.
Qed.

Section Text.
Context `{JsonText}.

Lemma loaded_dict (d : list (key * config)) :
  loaded (CDict d) = VDict (assigned (map (fun p => (key_name (fst p), loaded (snd p))) d) []).
Proof. reflexivity. Qed.

(** A document whose mappings have distinct keys is read back as it was
    written. *)
Lemma loaded_of_value (v : value) : well_formed v = true -> loaded (of_value v) = v.
Proof.
  induction v as [| | | | |l IH|d IH] using value_induction; intros Hwf; try reflexivity.
  - cbn [of_value loaded]. f_equal. cbn [well_formed] in Hwf. rewrite map_map.
    induction IH as [|x l Hx _ IHl]; [reflexivity|].
    cbn [forallb] in Hwf. apply andb_true_iff in Hwf as [Hw1 Hw2].
    cbn [map]. now rewrite (Hx Hw1), (IHl Hw2).
  - cbn [of_value]. rewrite loaded_dict. f_equal.
    cbn [well_formed] in Hwf. apply andb_true_iff in Hwf as [Hkeys Hall].
    rewrite map_map. cbn [fst snd key_name].
    assert (Hmap : map (fun p : string * value => (fst p, loaded (of_value (snd p)))) d = d).
    { clear Hkeys. induction IH as [|[k x] d Hx _ IHd]; [reflexivity|].
      cbn [forallb snd] in Hall. apply andb_true_iff in Hall as [Hw1 Hw2].
      cbn [map fst snd] in *. now rewrite (Hx Hw1), (IHd Hw2). }
    rewrite Hmap. apply (assigned_distinct d []). now apply distinct_keys_NoDup.
Qed.

End Text.

(** The comparison, list by list and mapping by mapping. *)
Lemma config_eq_list (l : list value) (cl : list config) :
  config_eq (VList l) (CList cl) = all2 config_eq l cl.
Proof.
  cbn [config_eq]. revert cl. induction l as [|x l IH]; intros [|y cl]; try reflexivity.
  cbn [all2]. now rewrite IH.
Qed.

Lemma config_eq_dict (d : dict) (cd : list (key * config)) :
  config_eq (VDict d) (CDict cd)
  = (length d =? length cd)%nat &&
    forallb (fun p => match lookup_str (fst p) cd with
                      | Some y => config_eq (snd p) y
                      | None => false
                      end) d.
Proof.
  cbn [config_eq]. f_equal. induction d as [|[k x] d IH]; [reflexivity|].
  cbn [forallb fst snd]. destruct (lookup_str k cd); [|reflexivity]. now rewrite IH.
Qed.

Lemma py_eq_list (l1 l2 : list value) : py_eq (VList l1) (VList l2) = all2 py_eq l1 l2.
Proof.
  cbn [py_eq]. revert l2. induction l1 as [|x l IH]; intros [|y l2]; try reflexivity.
  cbn [all2]. now rewrite IH.
Qed.

Lemma py_eq_dict (d1 d2 : dict) :
  py_eq (VDict d1) (VDict d2)
  = (length d1 =? length d2)%nat &&
    forallb (fun p => match dict_get (fst p) d2 with
                      | Some w => py_eq (snd p) w
                      | None => false
                      end) d1.
Proof.
  cbn [py_eq]. f_equal. induction d1 as [|[k x] d IH]; [reflexivity|].
  cbn [forallb fst snd]. destruct (dict_get k d2); [|reflexivity]. now rewrite IH.
Qed.

Lemma lookup_str_of_value k (d : dict) :
  lookup_str k (map (fun p => (KStr (fst p), of_value (snd p))) d)
  = option_map of_value (dict_get k d).
Proof.
  induction d as [|[k' v] d IH]; [reflexivity|]. cbn [map fst snd lookup_str dict_get].
  destruct (String.eqb k k'); [reflexivity|exact IH].
Qed.

(** On a configuration that is a document the comparison is the deep
    equality of documents. *)
Lemma config_eq_of_value (x v : value) : config_eq x (of_value v) = py_eq x v.
Proof.
  revert v. induction x as [|b|z|f|s|l IH|d IH] using value_induction; intros v.
  1-5: destruct v; reflexivity.
  - destruct v as [| | | | |l2|d2]; try reflexivity.
    cbn [of_value]. rewrite config_eq_list, py_eq_list.
    revert l2. induction IH as [|x l Hx _ IHl]; intros [|y l2]; try reflexivity.
    cbn [map all2]. now rewrite Hx, IHl.
  - destruct v as [| | | | |l2|d2]; try reflexivity.
    cbn [of_value]. rewrite config_eq_dict, py_eq_dict, length_map. f_equal.
    induction IH as [|[k x] d Hx _ IHd]; [reflexivity|].
    cbn [forallb fst snd] in *. rewrite lookup_str_of_value, IHd.
    destruct (dict_get k d2); cbn [option_map]; [now rewrite Hx|reflexivity].
Qed.

Lemma str_entries_length d : (length (str_entries d) <= length d)%nat.
Proof.
  induction d as [|[[] c] d IH]; cbn [str_entries length]; lia.
Qed.

Lemma str_entries_full d :
  length (str_entries d) = length d ->
  d = map (fun p => (KStr (fst p), snd p)) (str_entries d).
Proof.
  induction d as [|[k c] d IH]; [reflexivity|].
  pose proof (str_entries_length d).
  destruct k; cbn [str_entries length map fst snd]; intros Hl; try lia.
  f_equal. apply IH. lia.
Qed.

Lemma lookup_str_In k d y : lookup_str k d = Some y -> In (k, y) (str_entries d).
Proof.
  induction d as [|[[] c] d IH]; cbn [lookup_str str_entries]; try discriminate; auto.
  destruct (String.eqb k s) eqn:E.
  - apply String.eqb_eq in E. subst s. intros [= ->]. now left.
  - intros Hl. right. auto.
Qed.

Lemma lookup_str_distinct (d' : list (string * config)) k c :
  List.NoDup (map fst d') -> In (k, c) d' ->
  lookup_str k (map (fun p => (KStr (fst p), snd p)) d') = Some c.
Proof.
  induction d' as [|[k' c'] d' IH]; [intros _ []|].
  cbn [map fst snd lookup_str]. intros Hnd Hin. inversion Hnd as [|? ? Hk Hd]; subst.
  destruct Hin as [[= -> ->]|Hin]; [now rewrite String.eqb_refl|].
  destruct (String.eqb k k') eqn:E; [|auto].
  apply String.eqb_eq in E. subst k'. exfalso. apply Hk.
  apply in_map_iff. exists (k, c). auto.
Qed.

Lemma feqb_self (f : float) : feqb f f = true -> is_nan f = false.
Proof. destruct f; [reflexivity|reflexivity|discriminate|reflexivity]. Qed.

Section Snapshot.
Context `{JsonText}.

(** A configuration equals what is read back of it only if it is a
    document: string keys only, distinct in every mapping, and no NaN. *)
Lemma config_eq_loaded_document (c : config) :
  config_eq (loaded c) c = true -> exists v, c = of_value v /\ well_formed v = true.
Proof.
  induction c as [|b|z|f|s|l IH|d IH|r] using config_induction; intros Heq.
  - now exists VNone.
  - now exists (VBool b).
  - now exists (VInt z).
  - exists (VFloat f). split; [reflexivity|]. cbn [well_formed].
    cbn in Heq. now rewrite (feqb_self f Heq).
  - now exists (VStr s).
  - cbn [loaded] in Heq. rewrite config_eq_list in Heq.
    assert (Hl : exists vs, l = map of_value vs /\ forallb well_formed vs = true).
    { induction IH as [|x l Hx _ IHl]; [now exists []|].
      cbn [map all2] in Heq. apply andb_true_iff in Heq as [H1 H2].
      destruct (Hx H1) as (v & -> & Hv). destruct (IHl H2) as (vs & -> & Hvs).
      exists (v :: vs). cbn [map forallb]. now rewrite Hv, Hvs. }
    destruct Hl as (vs & -> & Hvs). now exists (VList vs).
  - rewrite loaded_dict, config_eq_dict in Heq.
    set (entries := map (fun p => (key_name (fst p), loaded (snd p))) d) in *.
    apply andb_true_iff in Heq as [Hlen Hsub]. apply Nat.eqb_eq in Hlen.
    rewrite forallb_forall in Hsub.
    assert (Hnames : map fst entries = map (fun p => key_name (fst p)) d)
      by (unfold entries; now rewrite map_map).
    assert (Hnd : List.NoDup (map fst entries)).
    { apply List.NoDup_incl_NoDup with (l := map fst (assigned entries [])).
      - apply assigned_NoDup. constructor.
      - rewrite !length_map. unfold entries at 1. rewrite length_map. lia.
      - intros k Hk. apply assigned_keys in Hk as [Hk|[]]. exact Hk. }
    assert (Hincl : List.incl (map fst entries) (map fst (str_entries d))).
    { intros k Hk.
      assert (Hk' : In k (map fst (assigned entries []))) by (apply assigned_keys; now left).
      apply in_map_iff in Hk' as ([k' x] & <- & Hin). cbn [fst].
      specialize (Hsub _ Hin). cbn [fst snd] in Hsub.
      destruct (lookup_str k' d) as [y|] eqn:Hy; [|discriminate].
      apply lookup_str_In in Hy. apply in_map_iff. exists (k', y). auto. }
    apply (List.NoDup_incl_length Hnd) in Hincl.
    rewrite !length_map in Hincl. unfold entries in Hincl. rewrite length_map in Hincl.
    pose proof (str_entries_length d) as Hle.
    assert (Hfull := str_entries_full d ltac:(lia)).
    set (d' := str_entries d) in *.
    assert (Hentries : entries = map (fun p => (fst p, loaded (snd p))) d').
    { unfold entries. rewrite Hfull at 1. now rewrite map_map. }
    assert (Hnd' : List.NoDup (map fst d')).
    { rewrite Hentries, map_map in Hnd. exact Hnd. }
    rewrite (assigned_distinct entries []) in Hsub by exact Hnd. cbn [app] in Hsub.
    assert (Hvals : List.Forall (fun p => exists v, snd p = of_value v /\ well_formed v = true) d').
    { rewrite Hfull in IH. apply List.Forall_map in IH. cbn [snd] in IH.
      rewrite List.Forall_forall in IH |- *. intros [k c] Hin. cbn [snd].
      apply (IH _ Hin). cbn [snd].
      specialize (Hsub (k, loaded c)). cbn [fst snd] in Hsub.
      rewrite Hfull, (lookup_str_distinct d' k c Hnd' Hin) in Hsub.
      apply Hsub. rewrite Hentries. apply in_map_iff. exists (k, c). auto. }
    assert (Hdv : exists dv : dict,
               d' = map (fun p => (fst p, of_value (snd p))) dv /\
               forallb (fun p => well_formed (snd p)) dv = true).
    { clear -Hvals. induction Hvals as [|[k c] d' (v & Hc & Hv) _ (dv & -> & Hdv)];
        [now exists []|].
      cbn [snd] in Hc. subst c. exists ((k, v) :: dv). cbn [map forallb fst snd].
      now rewrite Hv, Hdv. }
    destruct Hdv as (dv & Hd' & Hwf).
    exists (VDict dv). split.
    + cbn [of_value]. f_equal. rewrite Hfull, Hd', map_map. reflexivity.
    + cbn [well_formed]. rewrite Hwf, andb_true_r. apply distinct_keys_NoDup.
      rewrite Hd', map_map in Hnd'. exact Hnd'.
  - discriminate.
Qed.

(** The snapshot of a configuration equals it, under the comparison of the
    finalizer, exactly when the configuration is a well-formed document. *)
Lemma snapshot_equal_iff (c : config) :
  config_eq (loaded c) c = true <-> exists v, c = of_value v /\ well_formed v = true.
Proof.
  split; [apply config_eq_loaded_document|].
  intros (v & -> & Hwf). rewrite loaded_of_value by exact Hwf.
  rewrite config_eq_of_value. now apply py_eq_refl.
Qed.

End Snapshot.
End YamlFacts.

(** ** The orchestrator: the snapshot and the prior version *)

Module RunTheorems.
Import Py Fs Pd Run PyFacts FsFacts Readings StringOrder PathFacts ValueFacts YamlFacts.

Lemma for_each_mkdir_keeps (l : list string) (st st1 : fs) p n :
  for_each mkdir_exist_ok l st = (Ok tt, st1) ->
  st !! p = Some n -> st1 !! p = Some n.
Proof.
  revert st. induction l as [|q l IH]; intros st.
  - now intros [= <-].
  - cbn [for_each]. unfold mbind at 1. unfold io_bind at 1. unfold mkdir_exist_ok at 1.
    destruct (st !! q) as [[|c]|] eqn:Hq; try discriminate.
    + apply IH.
    + intros Hrun Hp. eapply IH; [exact Hrun|].
      rewrite lookup_insert_ne; [exact Hp|]. intros ->. congruence.
Qed.

Section Snapshot.
Context `{Yaml.JsonText}.

(** What a snapshot that returned has written. *)
Lemma snapshot_run_context_ok run_dir configs metadata (st st1 : fs) :
  snapshot_run_context run_dir configs metadata st = (Ok tt, st1) ->
  exists st0,
    makedirs run_dir st = (Ok tt, st0) /\
    Yaml.serializable configs = true /\ Yaml.serializable metadata = true /\
    st1 = <[Path.join run_dir "run_metadata.json" := File (Json (Yaml.loaded metadata))]>
            (<[Path.join run_dir "configs_snapshot.json"
               := File (Json (Yaml.loaded configs))]> st0).
Proof.
  unfold snapshot_run_context, ensure_dir.
  unfold mbind at 1. unfold io_bind at 1.
  destruct (makedirs run_dir st) as [[[]|e] st0]; [|discriminate].
  unfold mbind at 1. unfold io_bind at 1.
  destruct (dump_ascii _ configs st0) as [[[]|e] st2] eqn:Hc; [|discriminate].
  apply dump_ascii_ok in Hc as [Hsc ->].
  intros Hm. apply dump_ascii_ok in Hm as [Hsm ->].
  exists st0. auto.
Qed.

(** X13: after the snapshot of the run context the two files hold what
    [json.load] reads back of the configuration and of the metadata, every
    key a string.  The snapshot equals the configuration, under the
    comparison the finalizer makes, exactly when the configuration is a
    document without NaN whose mappings have string keys only, all
    distinct; such a document is read back as it is, and on it the
    comparison is the deep equality of documents. *)
Theorem snapshot_matches_configs run_dir (configs metadata : Yaml.config) (st st1 : fs) :
  snapshot_run_context run_dir configs metadata st = (Ok tt, st1) ->
  Yaml.serializable configs = true /\ Yaml.serializable metadata = true /\
  st1 !! Path.join run_dir "configs_snapshot.json" = Some (File (Json (Yaml.loaded configs))) /\
  st1 !! Path.join run_dir "run_metadata.json" = Some (File (Json (Yaml.loaded metadata))) /\
  (Yaml.config_eq (Yaml.loaded configs) configs = true <->
   exists v, configs = Yaml.of_value v /\ well_formed v = true) /\
  (forall v, configs = Yaml.of_value v -> well_formed v = true ->
             Yaml.loaded configs = v /\ py_eq (Yaml.loaded configs) v = true) /\
  (forall v, configs = Yaml.of_value v ->
             forall snapshot, Yaml.config_eq snapshot configs = py_eq snapshot v).
Proof.
  intros Hrun. apply snapshot_run_context_ok in Hrun as (st0 & _ & Hsc & Hsm & ->).
  assert (Hne : Path.join run_dir "run_metadata.json" <> Path.join run_dir "configs_snapshot.json").
  { intros E. apply join_inj in E. discriminate. }
  split; [exact Hsc|]. split; [exact Hsm|]. split; [|split; [|split; [|split]]].
  - rewrite lookup_insert_ne by exact Hne. apply lookup_insert_eq.
  - apply lookup_insert_eq.
  - apply snapshot_equal_iff.
  - intros v -> Hwf. rewrite loaded_of_value by exact Hwf. split; [reflexivity|].
    now apply py_eq_refl.
  - intros v -> snapshot. apply config_eq_of_value.
Qed.

End Snapshot.

Lemma insert_desc_In x y l : In y (insert_desc x l) <-> y = x \/ In y l.
Proof.
  induction l as [|z l IH]; simpl; [intuition|].
  destruct (String.ltb z x); simpl; [intuition|]. rewrite IH. intuition.
Qed.

Lemma sorted_reverse_In y l : In y (sorted_reverse l) <-> In y l.
Proof.
  induction l as [|x l IH]; simpl; [tauto|].
  unfold sorted_reverse in *. simpl. rewrite insert_desc_In, IH. intuition.
Qed.

(** The head of a list sorted downwards is its greatest element. *)
Lemma sorted_reverse_head l m r :
  sorted_reverse l = m :: r -> forall y, In y l -> String.leb y m = true.
Proof.
  revert m r. induction l as [|x l IH]; intros m r; [discriminate|].
  unfold sorted_reverse in *. cbn [fold_right].
  destruct (fold_right insert_desc [] l) as [|m' r'] eqn:Hs.
  - cbn [insert_desc]. intros [= <- _] y [->|Hin]; [apply leb_refl|].
    apply sorted_reverse_In in Hin. unfold sorted_reverse in Hin. rewrite Hs in Hin. destruct Hin.
  - cbn [insert_desc]. destruct (String.ltb m' x) eqn:E.
    + intros [= <- _] y [->|Hin]; [apply leb_refl|].
      apply leb_iff. right. eapply leb_ltb_trans; [|exact E]. eapply IH; eauto.
    + intros [= <- _] y [->|Hin].
      * rewrite leb_ltb, E. reflexivity.
      * eapply IH; eauto.
Qed.

(** X14: the prior version the orchestrator profiles is, among the
    directories of [runs_base] whose name is below the version of the run,
    the one with the greatest name; there is none exactly when no directory
    has a name below the version. *)
Theorem prior_version_is_greatest_earlier (st : fs) (runs_base version : string) :
  is_dir st runs_base = true ->
  match select_prior_version st runs_base version with
  | Some p =>
      entry_like p = true /\ is_dir st (Path.join runs_base p) = true /\
      String.ltb p version = true /\
      forall v, entry_like v = true -> is_dir st (Path.join runs_base v) = true ->
                String.ltb v version = true -> String.leb v p = true
  | None =>
      forall v, entry_like v = true -> is_dir st (Path.join runs_base v) = true ->
                String.ltb v version = false
  end.
Proof.
  intros Hbase. unfold select_prior_version.
  assert (Hin : forall v, In v (prior_versions st runs_base version) <->
                  entry_like v = true /\ is_dir st (Path.join runs_base v) = true /\
                  String.ltb v version = true).
  { intros v. unfold prior_versions. rewrite Hbase, filter_In, listdir_spec, andb_true_iff.
    split.
    - intros [[Hl _] [Hd Hlt]]. auto.
    - intros (Hl & Hd & Hlt). repeat split; auto.
      unfold is_dir in Hd. unfold exists_.
      destruct (st !! Path.join runs_base v); [reflexivity|discriminate]. }
  destruct (sorted_reverse (prior_versions st runs_base version)) as [|p r] eqn:Hs.
  - intros v Hl Hd. destruct (String.ltb v version) eqn:Hlt; [|reflexivity].
    assert (Hv : In v (sorted_reverse (prior_versions st runs_base version)))
      by (apply sorted_reverse_In, Hin; auto).
    rewrite Hs in Hv. destruct Hv.
  - assert (Hp : In p (prior_versions st runs_base version))
      by (apply sorted_reverse_In; rewrite Hs; now left).
    apply Hin in Hp as (Hl & Hd & Hlt). repeat split; auto.
    intros v Hvl Hvd Hvlt. eapply sorted_reverse_head; [exact Hs|]. apply Hin. auto.
Qed.

End RunTheorems.

(** ** Versions: run ids and timestamps *)

Module VersionTheorems.
Import Py Version Readings StringOrder PathFacts.

Lemma compare_app (a1 a2 b1 b2 : string) :
  String.length a1 = String.length a2 ->
  String.compare (a1 ++ b1) (a2 ++ b2)
  = match String.compare a1 a2 with Eq => String.compare b1 b2 | c => c end.
Proof.
  revert a2. induction a1 as [|x a1 IH]; intros [|y a2]; try discriminate.
  - reflexivity.
  - intros [= Hl].
    change (String.compare (String x (a1 ++ b1)) (String y (a2 ++ b2))
            = match String.compare (String x a1) (String y a2) with
              | Eq => String.compare b1 b2
              | c => c
              end).
    cbn [String.compare]. destruct (Ascii.compare x y); auto.
Qed.

Lemma two_digits_all :
  forallb (fun n =>
             (String.length (zero_filled 2 n) =? 2)%nat &&
             forallb (fun m =>
                        match String.compare (zero_filled 2 n) (zero_filled 2 m),
                              Nat.compare n m with
                        | Eq, Eq | Lt, Lt | Gt, Gt => true
                        | _, _ => false
                        end) (seq 0 100)) (seq 0 100) = true.
Proof. vm_compute. reflexivity. Qed.

Lemma two_digits_length n : (n < 100)%nat -> String.length (zero_filled 2 n) = 2%nat.
Proof.
  intros Hn. pose proof two_digits_all as Hall. rewrite forallb_forall in Hall.
  specialize (Hall n). rewrite andb_true_iff in Hall.
  apply Nat.eqb_eq, Hall, in_seq. lia.
Qed.

Lemma two_digits_compare n m :
  (n < 100)%nat -> (m < 100)%nat ->
  String.compare (zero_filled 2 n) (zero_filled 2 m) = Nat.compare n m.
Proof.
  intros Hn Hm. pose proof two_digits_all as Hall. rewrite forallb_forall in Hall.
  specialize (Hall n). rewrite andb_true_iff in Hall.
  destruct Hall as [_ Hall]; [apply in_seq; lia|].
  rewrite forallb_forall in Hall. specialize (Hall m ltac:(apply in_seq; lia)).
  destruct (String.compare _ _), (Nat.compare n m); try discriminate; reflexivity.
Qed.

Lemma four_digits_all :
  forallb (fun y => String.eqb (zero_filled 4 y)
                      (zero_filled 2 (y / 100) ++ zero_filled 2 (y mod 100)))
          (seq 0 (100 * 100)) = true.
Proof. vm_compute. reflexivity. Qed.

Lemma four_digits_split y :
  (y < 100 * 100)%nat ->
  zero_filled 4 y = zero_filled 2 (y / 100) ++ zero_filled 2 (y mod 100).
Proof.
  intros Hy. pose proof four_digits_all as Hall. rewrite forallb_forall in Hall.
  apply String.eqb_eq, Hall, in_seq. lia.
Qed.

Lemma app_length (a b : string) :
  String.length (a ++ b) = (String.length a + String.length b)%nat.
Proof.
  induction a as [|x a IH]; [reflexivity|].
  change (S (String.length (a ++ b)) = S (String.length a + String.length b)). now rewrite IH.
Qed.

Lemma four_digits_length y : (y < 100 * 100)%nat -> String.length (zero_filled 4 y) = 4%nat.
Proof.
  intros Hy. rewrite four_digits_split by exact Hy.
  assert (y / 100 < 100)%nat by (apply Nat.Div0.div_lt_upper_bound; lia).
  assert (y mod 100 < 100)%nat by (apply Nat.mod_upper_bound; lia).
  rewrite app_length, !two_digits_length by assumption. reflexivity.
Qed.

Lemma four_digits_compare y z :
  (y < 100 * 100)%nat -> (z < 100 * 100)%nat ->
  String.compare (zero_filled 4 y) (zero_filled 4 z) = Nat.compare y z.
Proof.
  intros Hy Hz. rewrite !four_digits_split by assumption.
  assert (y / 100 < 100)%nat by (apply Nat.Div0.div_lt_upper_bound; lia).
  assert (z / 100 < 100)%nat by (apply Nat.Div0.div_lt_upper_bound; lia).
  assert (y mod 100 < 100)%nat by (apply Nat.mod_upper_bound; lia).
  assert (z mod 100 < 100)%nat by (apply Nat.mod_upper_bound; lia).
  rewrite compare_app by (rewrite !two_digits_length by assumption; reflexivity).
  rewrite !two_digits_compare by assumption.
  pose proof (Nat.div_mod_eq y 100) as Ey. pose proof (Nat.div_mod_eq z 100) as Ez.
  destruct (Nat.compare_spec (y / 100) (z / 100)) as [E|L|G].
  - destruct (Nat.compare_spec (y mod 100) (z mod 100)) as [E'|L'|G'];
      symmetry; [apply Nat.compare_eq_iff|apply Nat.compare_lt_iff|apply Nat.compare_gt_iff]; lia.
  - symmetry. apply Nat.compare_lt_iff. lia.
  - symmetry. apply Nat.compare_gt_iff. lia.
Qed.

Lemma clock_reading_bounds a :
  clock_reading a = true ->
  (1000 <= year a < 100 * 100 /\ month a < 100 /\ day a < 100 /\ hour a < 100 /\
   minute a < 100 /\ second a < 100)%nat.
Proof.
  unfold clock_reading. rewrite !andb_true_iff, !Z.leb_le, !Nat.leb_le. lia.
Qed.

Lemma strftime_compare a b :
  clock_reading a = true -> clock_reading b = true ->
  String.compare (strftime a) (strftime b) = chronological a b.
Proof.
  intros Ha Hb. apply clock_reading_bounds in Ha, Hb.
  unfold strftime, chronological.
  rewrite compare_app by (rewrite !four_digits_length by lia; reflexivity).
  rewrite four_digits_compare by lia.
  destruct (Nat.compare (year a) (year b)); try reflexivity.
  change (String.compare ("-" ++ ?x) ("-" ++ ?y)) with (String.compare x y).
  rewrite compare_app by (rewrite !two_digits_length by lia; reflexivity).
  rewrite two_digits_compare by lia.
  destruct (Nat.compare (month a) (month b)); try reflexivity.
  change (String.compare ("-" ++ ?x) ("-" ++ ?y)) with (String.compare x y).
  rewrite compare_app by (rewrite !two_digits_length by lia; reflexivity).
  rewrite two_digits_compare by lia.
  destruct (Nat.compare (day a) (day b)); try reflexivity.
  change (String.compare ("T" ++ ?x) ("T" ++ ?y)) with (String.compare x y).
  rewrite compare_app by (rewrite !two_digits_length by lia; reflexivity).
  rewrite two_digits_compare by lia.
  destruct (Nat.compare (hour a) (hour b)); try reflexivity.
  change (String.compare ("-" ++ ?x) ("-" ++ ?y)) with (String.compare x y).
  rewrite compare_app by (rewrite !two_digits_length by lia; reflexivity).
  rewrite two_digits_compare by lia.
  destruct (Nat.compare (minute a) (minute b)); try reflexivity.
  change (String.compare ("-" ++ ?x) ("-" ++ ?y)) with (String.compare x y).
  rewrite compare_app by (rewrite !two_digits_length by lia; reflexivity).
  rewrite two_digits_compare by lia.
  destruct (Nat.compare (second a) (second b)); reflexivity.
Qed.

(** The version of a run is never empty: it is the run id when one is
    given, which must be a non-empty string, and the timestamp of the clock
    otherwise; every refusal is a [ValueError]. *)
Lemma resolved_version_not_empty (now : datetime) (dataset_name run_id : value) :
  match resolve_version now dataset_name run_id with
  | Ok v =>
      v <> "" /\
      (exists name, dataset_name = VStr name /\ name <> "") /\
      (run_id = VStr v \/ (run_id = VNone /\ v = strftime now))
  | Raise e =>
      kind e = ValueError /\
      (dataset_name = VStr "" \/ (forall name, dataset_name <> VStr name) \/
       run_id = VStr "" \/ (run_id <> VNone /\ forall id, run_id <> VStr id))
  end.
Proof.
  unfold resolve_version.
  destruct dataset_name as [| | | |name| |];
    try (split; [reflexivity|right; left; intros n; discriminate]).
  destruct (String.eqb name "") eqn:En.
  { apply String.eqb_eq in En. subst name. split; [reflexivity|]. now left. }
  apply String.eqb_neq in En.
  destruct run_id as [| | | |id| |];
    try (split; [reflexivity|do 3 right; split; [discriminate|intros i; discriminate]]).
  - split; [|split; [eauto|right; auto]].
    unfold strftime. destruct (zero_filled 4 (year now)); discriminate.
  - destruct (String.eqb id "") eqn:Ei.
    + apply String.eqb_eq in Ei. subst id. split; [reflexivity|]. right. right. now left.
    + apply String.eqb_neq in Ei. split; [exact Ei|]. split; [eauto|now left].
Qed.

(** X16: the timestamps order as the clock readings do: the version of an
    earlier second is below the version of a later one, and two readings
    get the same version only when they are the same second. *)
Theorem timestamps_order_chronologically (a b : datetime) :
  clock_reading a = true -> clock_reading b = true ->
  String.compare (strftime a) (strftime b) = chronological a b /\
  (String.ltb (strftime a) (strftime b) = true <-> chronological a b = Lt) /\
  (strftime a = strftime b -> a = b).
Proof.
  intros Ha Hb. pose proof (strftime_compare a b Ha Hb) as Hc.
  split; [exact Hc|]. split.
  - unfold String.ltb. rewrite Hc. destruct (chronological a b); split; congruence.
  - intros E. rewrite E, compare_refl in Hc. symmetry in Hc.
    unfold chronological in Hc.
    destruct a as [y1 m1 d1 h1 i1 s1], b as [y2 m2 d2 h2 i2 s2]. cbn [year month day hour minute second] in Hc.
    destruct (Nat.compare_spec y1 y2); try discriminate.
    destruct (Nat.compare_spec m1 m2); try discriminate.
    destruct (Nat.compare_spec d1 d2); try discriminate.
    destruct (Nat.compare_spec h1 h2); try discriminate.
    destruct (Nat.compare_spec i1 i2); try discriminate.
    destruct (Nat.compare_spec s1 s2); try discriminate.
    congruence.
Qed.

End VersionTheorems.

(** ** Quality measures, and the profile as the evaluator's input *)

Module ProfileTheorems.
Import Py Np Fs Evaluate Profile PyFacts Notions Readings StringOrder EvaluateTheorems.
Local Open Scope Z_scope.

Lemma distinct_bound (seen items : list cell) :
  (length (distinct seen items)
   + length (filter (fun c => is_missing c = true) items)
   <= length seen + length items)%nat.
Proof.
  revert seen. induction items as [|c items IH]; intros seen; cbn [distinct].
  - rewrite filter_nil. simpl. lia.
  - rewrite filter_cons. destruct (is_missing c) eqn:Hm; cbn [orb].
    + destruct (decide (true = true)); [|congruence]. specialize (IH seen). simpl in *. lia.
    + destruct (decide (false = true)); [discriminate|].
      destruct (existsb (cell_eqb c) seen).
      * specialize (IH seen). simpl. lia.
      * specialize (IH (seen ++ [c])%list). rewrite length_app in IH. simpl in *. lia.
Qed.

Lemma distinct_all_missing (seen items : list cell) :
  forallb is_missing items = true -> distinct seen items = seen.
Proof.
  revert seen. induction items as [|c items IH]; intros seen; cbn [distinct forallb]; [reflexivity|].
  intros Hall. apply andb_true_iff in Hall as [Hc Hall]. rewrite Hc. cbn [orb]. auto.
Qed.

Section Measures.
Context `{Builtins} `{Pandas}.

(** X17: of every column the evaluator reports a cardinality that counts
    values only: with the missing entries it stays within the number of
    entries, and it is zero for a column that holds nothing; the mean, the
    standard deviation, the minimum and the maximum are there, each of
    them, exactly for a numeric column that holds a value, and absent all
    together otherwise. *)
Theorem column_quality_counts (row_count : Z) (series : ndarray) :
  let q := column_quality row_count series in
  let items := arr_items series in
  0 <= q_cardinality q /\
  0 <= isna_sum items /\
  q_cardinality q + isna_sum items <= Z.of_nat (length items) /\
  (forallb is_missing items = true -> q_cardinality q = 0) /\
  (q_mean q <> None <-> is_number (arr_dtype series) = true /\ forallb is_missing items = false) /\
  (q_std q <> None <-> is_number (arr_dtype series) = true /\ forallb is_missing items = false) /\
  (q_min q <> None <-> is_number (arr_dtype series) = true /\ forallb is_missing items = false) /\
  (q_max q <> None <-> is_number (arr_dtype series) = true /\ forallb is_missing items = false) /\
  (q_mean q = None -> q_std q = None /\ q_min q = None /\ q_max q = None).
Proof.
  intros q items.
  assert (Hc : q_cardinality q = nunique items).
  { unfold q, column_quality. fold items. now destruct (_ && _). }
  rewrite Hc. unfold nunique, isna_sum.
  pose proof (distinct_bound [] items) as Hb. simpl in Hb.
  split; [lia|]. split; [lia|]. split; [lia|]. split.
  - intros Hall. now rewrite distinct_all_missing.
  - unfold q, column_quality. fold items.
    destruct (is_number (arr_dtype series)), (forallb is_missing items); cbn;
      repeat lazymatch goal with
             | |- _ /\ _ => split
             | |- _ <-> _ => split; [intros ?; split; congruence|intros [? ?]; congruence]
             | |- _ -> _ => intros; try congruence; auto
             end.
Qed.

End Measures.

Section Profiler.
Context `{Builtins} `{Pandas}.

(** What the profiler's loop leaves under a name. *)
Lemma profile_columns_inv (df0 : table) (rc : Z) (names : list string) (acc : dict) col e :
  (forall k v, dict_get k acc = Some v ->
     exists series, table_get k df0 = Some series /\ v = column_profile rc series) ->
  dict_get col
    (fold_left (fun d col =>
                  match table_get col df0 with
                  | Some series => dict_set col (column_profile rc series) d
                  | None => d
                  end) names acc) = Some e ->
  exists series, table_get col df0 = Some series /\ e = column_profile rc series.
Proof.
  revert acc. induction names as [|n names IH]; intros acc Hacc; cbn [fold_left]; [apply Hacc|].
  apply IH. intros k v. destruct (table_get n df0) as [s|] eqn:Hn; [|apply Hacc].
  destruct (String.eqb n k) eqn:E.
  - apply String.eqb_eq in E. subst k. rewrite dict_get_set_eq. intros [= <-]. eauto.
  - apply String.eqb_neq in E. rewrite dict_get_set_ne by exact E. apply Hacc.
Qed.

Lemma profile_columns_mem (df0 : table) (rc : Z) (names : list string) (acc : dict) col :
  (In col names /\ table_get col df0 <> None) \/ dict_get col acc <> None ->
  dict_get col
    (fold_left (fun d col =>
                  match table_get col df0 with
                  | Some series => dict_set col (column_profile rc series) d
                  | None => d
                  end) names acc) <> None.
Proof.
  revert acc. induction names as [|n names IH]; intros acc; cbn [fold_left].
  - intros [[[] _]|Hacc]. exact Hacc.
  - intros Hc. apply IH.
    destruct (String.eqb n col) eqn:E.
    + apply String.eqb_eq in E. subst n.
      destruct (table_get col df0) as [s|] eqn:Hs.
      * right. rewrite dict_get_set_eq. discriminate.
      * destruct Hc as [[_ Hc]|Hc]; [contradiction|]. now right.
    + apply String.eqb_neq in E.
      destruct Hc as [[[->|Hin] Hs]|Hacc]; [contradiction|now left|].
      right. destruct (table_get n df0); [|exact Hacc].
      now rewrite dict_get_set_ne.
Qed.

(** The drift of a column the profile lists, measure by measure. *)
Lemma column_drift_profiled (pc : dict) col (q : quality) rc0 series0 :
  dict_get col pc = Some (column_profile rc0 series0) ->
  let q0 := column_quality rc0 series0 in
  let stat (cur prior : option float) :=
    match cur, prior with
    | Some c, Some p => VFloat (round6 (fabs (fsub c p)))
    | _, _ => VNone
    end in
  column_drift (Some (VDict pc)) col q
  = Ok (VDict [("mean_drift", stat (q_mean q) (q_mean q0));
               ("std_drift", stat (q_std q) (q_std q0));
               ("min_drift", stat (q_min q) (q_min q0));
               ("max_drift", stat (q_max q) (q_max q0));
               ("missing_ratio_drift",
                VFloat (round6 (fabs (fsub (q_missing_ratio q) (q_missing_ratio q0)))));
               ("cardinality_drift", VInt (Z.abs (q_cardinality q - q_cardinality q0)))]).
Proof.
  intros Hget q0 stat. unfold column_drift, py_contains, dict_mem, getitem.
  rewrite Hget. cbn [mbind result_bind]. unfold column_profile. fold q0.
  cbn [dict_get String.eqb Ascii.eqb Bool.eqb mbind result_bind].
  unfold stat_drift, Evaluate.attr_get, get_or_none.
  cbn [dict_get String.eqb Ascii.eqb Bool.eqb mbind result_bind is_none].
  destruct (q_mean q), (q_mean q0), (q_std q), (q_std q0), (q_min q), (q_min q0),
    (q_max q), (q_max q0); reflexivity.
Qed.

Lemma mapM_exists {A B} (f : A -> result B) (l : list A) :
  (forall x, In x l -> exists y, f x = Ok y) -> exists ys, mapM f l = Ok ys.
Proof.
  induction l as [|x l IH]; intros Hf; [eexists; reflexivity|].
  destruct (Hf x (or_introl eq_refl)) as [y Hy].
  destruct IH as [ys Hys]; [intros z Hz; apply Hf; now right|].
  exists (y :: ys). cbn [mapM]. rewrite Hy. cbn [mbind result_bind]. rewrite Hys. reflexivity.
Qed.

(** The report against a profile the profiler built. *)
Lemma build_report_profiled (prior_dir : string) (df0 df : table) :
  exists drifts,
    mapM (fun col =>
            d ← column_drift
                  (Some (prior_columns (build_profile prior_dir df0))) col
                  (match table_get col df with
                   | Some series => column_quality (Pd.row_count df) series
                   | None => Quality fzero 0 None None None None
                   end);
            Ok (col, d)) (sorted (map fst df)) = Ok drifts /\
    build_report df (Some (build_profile prior_dir df0))
    = Ok (VDict [("row_count", VInt (Pd.row_count df));
                 ("column_count", VInt (Pd.column_count df));
                 ("dataset_drift",
                  VDict [("row_count_drift", VInt (Z.abs (Pd.row_count df - Pd.row_count df0)));
                         ("column_count_drift",
                          VInt (Z.abs (Pd.column_count df - Pd.column_count df0)))]);
                 ("quality",
                  VDict (fold_left
                           (fun d col =>
                              dict_set col
                                (quality_json
                                   (match table_get col df with
                                    | Some series => column_quality (Pd.row_count df) series
                                    | None => Quality fzero 0 None None None None
                                    end)) d)
                           (sorted (map fst df)) []));
                 ("drift", VDict (fold_left (fun d cd => dict_set (fst cd) (snd cd) d) drifts []))]).
Proof.
  set (f := fun col : string => _).
  destruct (mapM_exists f (sorted (map fst df))) as [drifts Hd].
  { intros col _. unfold f. unfold build_profile, prior_columns.
    cbn [dict_get String.eqb Ascii.eqb Bool.eqb].
    set (pc := fold_left _ (sorted (map fst df0)) []).
    destruct (dict_get col pc) as [e|] eqn:He.
    - destruct (profile_columns_inv df0 (Pd.row_count df0) (sorted (map fst df0)) [] col e)
        as (s0 & _ & ->); [intros k v; discriminate|exact He|].
      rewrite (column_drift_profiled pc col _ _ _ He). cbn [mbind result_bind]. eauto.
    - rewrite column_drift_unknown; [cbn [mbind result_bind]; eauto|].
      unfold py_contains, dict_mem. now rewrite He. }
  exists drifts. split; [exact Hd|].
  unfold build_report. cbv zeta.
  change (match df with
          | [] => 0
          | (_, a) :: _ => Z.of_nat (length (arr_items a))
          end) with (Pd.row_count df).
  change (Z.of_nat (length df)) with (Pd.column_count df).
  unfold build_profile at 1 2 3. unfold Evaluate.attr_get, get_or_none, count_drift.
  cbn [dict_get String.eqb Ascii.eqb Bool.eqb mbind result_bind is_none py_abs_diff].
  unfold f, build_profile, prior_columns in Hd.
  cbn [dict_get String.eqb Ascii.eqb Bool.eqb] in Hd.
  rewrite Hd. reflexivity.
Qed.

Lemma profile_dataset_runs dataset_dir configs run_dir prior_version_dir (st : fs) :
  profile_dataset dataset_dir configs run_dir prior_version_dir st =
  let out := Path.join run_dir "prior_profile.json" in
  let written df0 :=
    if is_dir st out then (raise RuntimeError "Failed to write profile output", st)
    else (Ok tt, <[out := File (Json (build_profile prior_version_dir df0))]> st) in
  match st !! Path.join prior_version_dir "data.parquet" with
  | Some (File (Parquet t)) => written t
  | Some (File _) => (raise RuntimeError "Failed to read prior data file", st)
  | _ =>
      match st !! Path.join prior_version_dir "data.csv" with
      | Some (File (Csv t)) => written (read_csv t)
      | Some (File _) => (raise RuntimeError "Failed to read prior data file", st)
      | _ => (raise FileNotFoundError
                "No prior data file found (searched for: data.parquet, data.csv)", st)
      end
  end.
Proof.
  unfold profile_dataset.
  cbv beta iota zeta delta [mbind io_bind gets throw is_file read_prior reraise
                            Pd.read_parquet Pd.read_csv_file write_file is_dir].
  destruct (st !! Path.join prior_version_dir "data.parquet") as [[|[]]|] eqn:Hp;
    destruct (st !! Path.join prior_version_dir "data.csv") as [[|[]]|] eqn:Hc;
    cbv beta iota delta [negb andb]; rewrite ?Hp, ?Hc; try reflexivity;
    destruct (st !! Path.join run_dir "prior_profile.json") as [[|c]|]; reflexivity.
Qed.


(** X19: the evaluator accepts every profile the profiler writes: whatever
    the current table, the report is built, and its dataset-level drifts are
    the distances of the two row counts and of the two column counts. *)
Theorem profile_feeds_evaluator dataset_dir configs run_dir prior_version_dir (st st1 : fs) :
  profile_dataset dataset_dir configs run_dir prior_version_dir st = (Ok tt, st1) ->
  exists df0,
    st1 !! Path.join run_dir "prior_profile.json"
    = Some (File (Json (build_profile prior_version_dir df0))) /\
    forall df, exists fields,
      build_report df (Some (build_profile prior_version_dir df0)) = Ok (VDict fields) /\
      dict_get "dataset_drift" fields
      = Some (VDict [("row_count_drift", VInt (Z.abs (Pd.row_count df - Pd.row_count df0)));
                     ("column_count_drift",
                      VInt (Z.abs (Pd.column_count df - Pd.column_count df0)))]).
Proof.
  rewrite profile_dataset_runs. cbv zeta.
  assert (Hgoal : forall df0,
            (if is_dir st (Path.join run_dir "prior_profile.json")
             then (raise RuntimeError "Failed to write profile output", st)
             else (Ok tt, <[Path.join run_dir "prior_profile.json" :=
                              File (Json (build_profile prior_version_dir df0))]> st))
            = (Ok tt, st1) ->
            exists df0,
              st1 !! Path.join run_dir "prior_profile.json"
              = Some (File (Json (build_profile prior_version_dir df0))) /\
              forall df, exists fields,
                build_report df (Some (build_profile prior_version_dir df0)) = Ok (VDict fields) /\
                dict_get "dataset_drift" fields
                = Some (VDict [("row_count_drift",
                                VInt (Z.abs (Pd.row_count df - Pd.row_count df0)));
                               ("column_count_drift",
                                VInt (Z.abs (Pd.column_count df - Pd.column_count df0)))])).
  { intros df0. destruct (is_dir st _); [discriminate|]. intros [= <-].
    exists df0. split; [apply lookup_insert_eq|].
    intros df. destruct (build_report_profiled prior_version_dir df0 df) as (drifts & _ & ->).
    eexists. split; reflexivity. }
  destruct (st !! Path.join prior_version_dir "data.parquet") as [[|[]]|];
    try discriminate; try apply Hgoal;
    destruct (st !! Path.join prior_version_dir "data.csv") as [[|[]]|];
    try discriminate; apply Hgoal.
Qed.

(** X20: evaluated against its own profile, a table shows no drift in its
    counts: the row count, the column count and the cardinality of every
    column are at distance zero. *)
Theorem unchanged_table_no_count_drift (prior_version_dir : string) (df : table) :
  exists fields drift,
    build_report df (Some (build_profile prior_version_dir df)) = Ok (VDict fields) /\
    dict_get "dataset_drift" fields
    = Some (VDict [("row_count_drift", VInt 0); ("column_count_drift", VInt 0)]) /\
    dict_get "drift" fields = Some (VDict drift) /\
    forall col, In col (map fst df) ->
      exists d, dict_get col drift = Some (VDict d) /\
                dict_get "cardinality_drift" d = Some (VInt 0).
Proof.
  destruct (build_report_profiled prior_version_dir df df) as (drifts & Hd & ->).
  eexists _, _. split; [reflexivity|].
  cbn [dict_get String.eqb Ascii.eqb Bool.eqb]. rewrite !Z.sub_diag. cbn [Z.abs].
  split; [reflexivity|]. split; [reflexivity|].
  intros col Hin.
  destruct (GeneratorShape.table_get_Some_In col df Hin) as [series Hs].
  set (pc := match prior_columns (build_profile prior_version_dir df) with
             | VDict pc => pc
             | _ => []
             end).
  assert (Hpc : prior_columns (build_profile prior_version_dir df) = VDict pc) by reflexivity.
  assert (Hget : dict_get col pc = Some (column_profile (Pd.row_count df) series)).
  { unfold pc, build_profile, prior_columns. cbn [dict_get String.eqb Ascii.eqb Bool.eqb].
    destruct (dict_get col (fold_left _ (sorted (map fst df)) [])) as [e|] eqn:He.
    - destruct (profile_columns_inv df (Pd.row_count df) (sorted (map fst df)) [] col e)
        as (s0 & Hs0 & ->); [intros k v; discriminate|exact He|]. congruence.
    - exfalso. revert He.
      apply (profile_columns_mem df (Pd.row_count df) (sorted (map fst df)) [] col).
      left. split; [apply In_sorted, Hin|congruence]. }
  apply mapM_ok in Hd.
  eexists. split.
  - apply (fold_dict_set_get fst snd drifts [] col).
    + intros [k d] Hk Ek. cbn [fst snd] in *. subst k.
      clear -Hd Hk Hget Hpc Hs. revert Hk.
      induction Hd as [|c cd cols drifts Hc _ IH]; [intros []|].
      intros [->|Hk]; [|auto].
      destruct (column_drift _ c _) as [d'|] eqn:Hcd; [|discriminate].
      cbn [mbind result_bind] in Hc. injection Hc as -> ->.
      rewrite Hpc, Hs in Hcd.
      rewrite (column_drift_profiled pc _ _ _ _ Hget) in Hcd. injection Hcd as <-.
      reflexivity.
    + left. assert (Hcol : In col (sorted (map fst df))) by (apply In_sorted, Hin).
      clear -Hd Hcol Hget Hpc Hs.
      induction Hd as [|c cd cols drifts Hc _ IH]; [destruct Hcol|].
      destruct Hcol as [->|Hcol].
      * rewrite Hpc, Hs in Hc.
        rewrite (column_drift_profiled pc _ _ _ _ Hget) in Hc. cbn [mbind result_bind] in Hc.
        injection Hc as <-. eexists. split; [now left|reflexivity].
      * destruct (IH Hcol) as (a & Ha & Ea). exists a. split; [now right|exact Ea].
  - cbn [dict_get String.eqb Ascii.eqb Bool.eqb]. rewrite Z.sub_diag. reflexivity.
Qed.

End Profiler.
End ProfileTheorems.

(** ** The validator *)

Module ValidateTheorems.
Import Py Np Fs Generate Validate PyFacts Notions Readings Laws StringOrder EvaluateTheorems
       GeneratorShape.
Local Open Scope Z_scope.

Section Validator.
Context `{Builtins} `{Pandas} `{PandasChecks}.

(** The steps of the validator, in one equation. *)
Lemma validate_dataset_runs dataset_dir configs run_dir (st : fs) :
  validate_dataset dataset_dir configs run_dir st =
  let out := Path.join run_dir "validation_report.json" in
  let checked df :=
    match check_table configs df with
    | Ok report =>
        if is_dir st out then (raise RuntimeError "Failed to write validation report", st)
        else (Ok tt, <[out := File (Json report)]> st)
    | Raise e => (Raise e, st)
    end in
  match st !! Path.join run_dir "data.parquet" with
  | Some (File (Parquet t)) => checked t
  | Some (File _) => (raise RuntimeError "Failed to read generated data file", st)
  | _ =>
      match st !! Path.join run_dir "data.csv" with
      | Some (File (Csv t)) => checked (read_csv t)
      | Some (File _) => (raise RuntimeError "Failed to read generated data file", st)
      | _ => (raise FileNotFoundError
                "No generated data file found (searched for data.parquet, data.csv)", st)
      end
  end.
Proof.
  unfold validate_dataset.
  cbv beta iota zeta delta [mbind io_bind gets throw lift is_file Evaluate.read_data reraise
                            write_file is_dir].
  destruct (st !! Path.join run_dir "data.parquet") as [[|[]]|] eqn:Hp;
    destruct (st !! Path.join run_dir "data.csv") as [[|[]]|] eqn:Hc;
    cbv beta iota delta [negb andb]; rewrite ?Hp, ?Hc; try reflexivity;
    destruct (check_table configs _); try reflexivity;
    destruct (st !! Path.join run_dir "validation_report.json") as [[|c]|]; reflexivity.
Qed.

Lemma same_columns_spec (data_cols : list string) (schema_cols : list value) :
  same_columns data_cols schema_cols = true ->
  (forall name, In name data_cols <-> In (VStr name) schema_cols) /\
  (forall c, In c schema_cols -> exists name, c = VStr name).
Proof.
  unfold same_columns. rewrite andb_true_iff, !forallb_forall. intros [Hdata Hschema].
  assert (Hlabel : forall c, In c schema_cols -> exists name, c = VStr name /\ In name data_cols).
  { intros c Hc. specialize (Hschema c Hc). unfold is_label in Hschema.
    destruct c as [| | | |n| |]; try discriminate. exists n. split; [reflexivity|].
    now apply existsb_eqb_In. }
  split.
  - intros name. split.
    + intros Hin. specialize (Hdata name Hin). apply existsb_exists in Hdata as (s & Hs & Heq).
      destruct (Hlabel s Hs) as (n & -> & _). cbn in Heq. apply String.eqb_eq in Heq. now subst.
    + intros Hin. destruct (Hlabel _ Hin) as (n & [= <-] & Hn). exact Hn.
  - intros c Hc. destruct (Hlabel c Hc) as (n & -> & _). eauto.
Qed.

(** What a table that passed was checked against. *)
Lemma check_table_ok configs df r :
  check_table configs df = Ok r ->
  r = report df /\
  exists cfg schema columns_cfg schema_cols schema_defs,
    configs = VDict cfg /\ get_or_none "schema.yaml" cfg = schema /\
    Evaluate.getitem schema "columns" = Ok columns_cfg /\
    parse_columns columns_cfg = Ok (schema_cols, schema_defs) /\
    same_columns (map fst df) schema_cols = true /\
    List.Forall (fun col => check_column df schema_defs col = Ok tt)
                (sorted (omap label_of schema_cols)).
Proof.
  unfold check_table. destruct configs as [| | | | | |cfg]; try discriminate.
  cbn [Evaluate.attr_get mbind result_bind].
  destruct (if truthy _ then _ else _) as [[]|]; try discriminate. cbn [mbind result_bind negb].
  destruct (Evaluate.getitem _ "columns") as [columns_cfg|] eqn:Hg; [|discriminate].
  cbn [mbind result_bind].
  destruct (parse_columns columns_cfg) as [[schema_cols schema_defs]|] eqn:Hp; [|discriminate].
  cbn [mbind result_bind]. unfold check_columns.
  destruct (same_columns _ _) eqn:Hs; [|destruct (heterogeneous _); discriminate].
  cbn [mbind result_bind].
  destruct (forM_ _ _) as [[]|] eqn:Hall; [|discriminate]. cbn [mbind result_bind].
  intros [= <-]. split; [reflexivity|].
  exists cfg, (get_or_none "schema.yaml" cfg), columns_cfg, schema_cols, schema_defs.
  repeat split; auto. now apply forM_ok.
Qed.

(** X21: the validator writes one file, the report, and only when every
    check has passed; the report counts the rows and the columns of the table
    that was read.  When it raises it has written nothing. *)
Theorem validation_outcome dataset_dir configs run_dir (st : fs) :
  match validate_dataset dataset_dir configs run_dir st with
  | (Ok _, st1) =>
      exists df,
        current_table st run_dir = Some df /\
        check_table configs df = Ok (report df) /\
        st1 = <[Path.join run_dir "validation_report.json" := File (Json (report df))]> st
  | (Raise e, st1) =>
      st1 = st /\
      (is_file st (Path.join run_dir "data.parquet") = false ->
       is_file st (Path.join run_dir "data.csv") = false ->
       kind e = FileNotFoundError)
  end.
Proof.
  rewrite validate_dataset_runs. cbv zeta. unfold current_table, is_file.
  destruct (st !! Path.join run_dir "data.parquet") as [[|[]]|] eqn:Hp;
    destruct (st !! Path.join run_dir "data.csv") as [[|[]]|] eqn:Hc;
    try (split; [reflexivity|intros; try discriminate; reflexivity]).
  all: destruct (check_table configs _) as [r|e] eqn:Hr;
    [|split; [reflexivity|intros; discriminate]].
  all: destruct (is_dir st (Path.join run_dir "validation_report.json"));
    [split; [reflexivity|intros; discriminate]|].
  all: pose proof (proj1 (check_table_ok _ _ _ Hr)) as ->.
  all: eexists; split; [reflexivity|]; split; [exact Hr|reflexivity].
Qed.

(** X22: a table passes only if its columns are those the schema names:
    every column of the table is named by the schema, every name of the
    schema is a column of the table, and every column went through its
    checks. *)
Theorem passed_table_has_schema_columns configs df r :
  check_table configs df = Ok r ->
  exists cfg columns_cfg schema_cols schema_defs,
    configs = VDict cfg /\
    Evaluate.getitem (get_or_none "schema.yaml" cfg) "columns" = Ok columns_cfg /\
    parse_columns columns_cfg = Ok (schema_cols, schema_defs) /\
    (forall name, In name (map fst df) <-> In (VStr name) schema_cols) /\
    (forall c, In c schema_cols -> exists name, c = VStr name) /\
    (forall name, In name (map fst df) -> check_column df schema_defs name = Ok tt).
Proof.
  intros Hr. destruct (check_table_ok _ _ _ Hr)
    as (_ & cfg & schema & columns_cfg & schema_cols & schema_defs & -> & <- & Hg & Hp & Hs & Hall).
  exists cfg, columns_cfg, schema_cols, schema_defs.
  destruct (same_columns_spec _ _ Hs) as [Hiff Hstr].
  repeat split; auto; try apply Hiff.
  intros name Hin. rewrite List.Forall_forall in Hall. apply Hall.
  apply In_sorted. apply list_elem_of_In, list_elem_of_omap. exists (VStr name).
  split; [apply list_elem_of_In, Hiff, Hin|reflexivity].
Qed.

Lemma dtype_name_float d : In (Pd.dtype_name d) ["float64"; "float32"; "float16"] -> d = float64.
Proof. destruct d; simpl; intuition discriminate. Qed.

Lemma dtype_name_integer d :
  In (Pd.dtype_name d) ["int64"; "int32"; "int16"; "int8"; "uint8"; "uint16"; "uint32"; "uint64"] ->
  d = int8 \/ d = int64.
Proof. destruct d; simpl; intuition discriminate. Qed.

(** X23: what a column that passed its checks is known to satisfy.  A
    column declared not nullable holds no missing entry; a declared type
    other than [datetime] is one of the schema's vocabulary and admits the
    column's dtype; a float column lies within float bounds, and an integer
    column within integer bounds, NaN entries apart. *)
Theorem passed_column_guarantees df schema_defs col series def :
  check_column df schema_defs col = Ok tt ->
  table_get col df = Some series ->
  dict_get col schema_defs = Some (VDict def) ->
  (dict_get "nullable" def = Some (VBool false) ->
   existsb is_missing (arr_items series) = false) /\
  (forall t, dict_get "type" def = Some (VStr t) -> t <> "" ->
     exists valid, dtype_map t = Some valid /\
       (t <> "datetime" -> In (Pd.dtype_name (arr_dtype series)) valid)) /\
  (dict_get "type" def = Some (VStr "float") ->
   arr_dtype series = float64 /\
   forall cons, dict_get "constraints" def = Some (VDict cons) ->
     (forall b f, dict_get "min" cons = Some (VFloat b) ->
                  In (CFloat f) (arr_items series) -> fltb f b = false) /\
     (forall b f, dict_get "max" cons = Some (VFloat b) ->
                  In (CFloat f) (arr_items series) -> fltb b f = false)) /\
  (dict_get "type" def = Some (VStr "integer") ->
   (arr_dtype series = int8 \/ arr_dtype series = int64) /\
   forall cons, dict_get "constraints" def = Some (VDict cons) ->
     (forall b x, dict_get "min" cons = Some (VInt b) -> int64_range b = true ->
                  In (CInt x) (arr_items series) -> b <= x) /\
     (forall b x, dict_get "max" cons = Some (VInt b) -> int64_range b = true ->
                  In (CInt x) (arr_items series) -> x <= b)).
Proof.
  intros Hc Hs Hdef. unfold check_column in Hc. rewrite Hdef in Hc.
  cbn [Evaluate.attr_get mbind result_bind] in Hc.
  destruct (check_type df col (get_or_none "type" def)) as [[]|] eqn:Ht; [|discriminate].
  cbn [mbind result_bind get_default] in Hc.
  assert (Htype : forall t, dict_get "type" def = Some (VStr t) -> t <> "" ->
            exists valid, dtype_map t = Some valid /\
              (t <> "datetime" -> In (Pd.dtype_name (arr_dtype series)) valid)).
  { intros t Hty Hne. unfold check_type, get_or_none in Ht. rewrite Hty in Ht.
    cbn [truthy] in Ht. apply String.eqb_neq in Hne. rewrite Hne in Ht. cbn [negb] in Ht.
    unfold getcol in Ht. rewrite Hs in Ht. cbn [mbind result_bind] in Ht.
    destruct (dtype_map t) as [valid|]; [|discriminate]. exists valid. split; [reflexivity|].
    intros Hnd. apply String.eqb_neq in Hnd. rewrite Hnd in Ht.
    destruct (existsb _ valid) eqn:Hex; [|discriminate].
    now apply existsb_eqb_In in Hex. }
  assert (Hnull : dict_get "nullable" def = Some (VBool false) ->
            existsb is_missing (arr_items series) = false).
  { intros Hn. rewrite Hn in Hc. unfold getcol in Hc. rewrite Hs in Hc.
    cbn [mbind result_bind] in Hc. now destruct (existsb is_missing _). }
  assert (Hrest : forall t, dict_get "type" def = Some (VStr t) ->
            is_numeric_type (VStr t) = true ->
            forall cons, dict_get "constraints" def = Some (VDict cons) ->
              (get_or_none "min" cons <> VNone ->
               lt_any series (get_or_none "min" cons) = Ok false) /\
              (get_or_none "max" cons <> VNone ->
               gt_any series (get_or_none "max" cons) = Ok false)).
  { intros t Hty Hnum cons Hcons.
    destruct (match match dict_get "nullable" def with Some v => v | None => VBool true end with
              | VBool false => _ | _ => _ end) as [[]|]; [|discriminate].
    cbn [mbind result_bind] in Hc. unfold get_or_none in Hc at 1. rewrite Hty, Hnum in Hc.
    rewrite Hcons in Hc. cbn [mbind result_bind Evaluate.attr_get] in Hc.
    unfold getcol in Hc. rewrite Hs in Hc. cbn [mbind result_bind] in Hc.
    split.
    - intros Hmin. destruct (get_or_none "min" cons) eqn:Em; try contradiction;
        cbn [is_none mbind result_bind] in Hc;
        (destruct (lt_any series _) as [[]|]; [discriminate|reflexivity|discriminate]).
    - intros Hmax.
      destruct (if is_none (get_or_none "min" cons) then _ else _) as [[]|]; [|discriminate].
      cbn [mbind result_bind] in Hc.
      destruct (get_or_none "max" cons) eqn:Em; try contradiction;
        cbn [is_none mbind result_bind] in Hc;
        (destruct (gt_any series _) as [[]|]; [discriminate|reflexivity|discriminate]). }
  split; [exact Hnull|]. split; [exact Htype|]. split.
  - intros Hty. destruct (Htype "float" Hty ltac:(discriminate)) as (valid & Hv & Hin).
    injection Hv as <-. specialize (Hin ltac:(discriminate)).
    apply dtype_name_float in Hin. split; [exact Hin|].
    intros cons Hcons. destruct (Hrest "float" Hty eq_refl cons Hcons) as [Hmin Hmax].
    unfold get_or_none in Hmin, Hmax. split.
    + intros b f Hb Hf. rewrite Hb in Hmin. specialize (Hmin ltac:(discriminate)).
      unfold lt_any in Hmin. rewrite Hin in Hmin. injection Hmin as Hmin.
      destruct (fltb f b) eqn:E; [|reflexivity].
      assert (Hex : existsb (fun c => match c with CFloat f => fltb f b | _ => false end)
                      (arr_items series) = true)
        by (apply existsb_exists; exists (CFloat f); auto).
      congruence.
    + intros b f Hb Hf. rewrite Hb in Hmax. specialize (Hmax ltac:(discriminate)).
      unfold gt_any in Hmax. rewrite Hin in Hmax. injection Hmax as Hmax.
      destruct (fltb b f) eqn:E; [|reflexivity].
      assert (Hex : existsb (fun c => match c with CFloat f => fltb b f | _ => false end)
                      (arr_items series) = true)
        by (apply existsb_exists; exists (CFloat f); auto).
      congruence.
  - intros Hty. destruct (Htype "integer" Hty ltac:(discriminate)) as (valid & Hv & Hin).
    injection Hv as <-. specialize (Hin ltac:(discriminate)).
    apply dtype_name_integer in Hin. split; [exact Hin|].
    intros cons Hcons. destruct (Hrest "integer" Hty eq_refl cons Hcons) as [Hmin Hmax].
    unfold get_or_none in Hmin, Hmax. split.
    + intros b x Hb Hr Hx. rewrite Hb in Hmin. specialize (Hmin ltac:(discriminate)).
      unfold lt_any in Hmin.
      assert (Hmin' : existsb (fun c => match c with CInt x => x <? b | _ => false end)
                        (arr_items series) = false)
        by (destruct Hin as [E|E]; rewrite E, Hr in Hmin; now injection Hmin).
      destruct (x <? b) eqn:E; [|now apply Z.ltb_ge in E].
      assert (Hex : existsb (fun c => match c with CInt x => x <? b | _ => false end)
                      (arr_items series) = true)
        by (apply existsb_exists; exists (CInt x); auto).
      congruence.
    + intros b x Hb Hr Hx. rewrite Hb in Hmax. specialize (Hmax ltac:(discriminate)).
      unfold gt_any in Hmax.
      assert (Hmax' : existsb (fun c => match c with CInt x => b <? x | _ => false end)
                        (arr_items series) = false)
        by (destruct Hin as [E|E]; rewrite E, Hr in Hmax; now injection Hmax).
      destruct (b <? x) eqn:E; [|now apply Z.ltb_ge in E].
      assert (Hex : existsb (fun c => match c with CInt x => b <? x | _ => false end)
                      (arr_items series) = true)
        by (apply existsb_exists; exists (CInt x); auto).
      congruence.
Qed.

End Validator.
End ValidateTheorems.

(** ** From the generator to the validator *)

Module GenerateValidate.
Import Py Np Fs Generate Validate PyFacts Notions Readings Laws StringOrder EvaluateTheorems
       GeneratorShape PathFacts ValidateTheorems.
Local Open Scope Z_scope.

Section Pipeline.
Context `{Builtins} `{Hashlib} `{Numpy} `{Pandas} `{PandasChecks} `{!NumpyShapes}.

(** With the parquet engine at hand the generator leaves the table in the
    parquet file. *)
Lemma generate_dataset_parquet dataset_dir (configs : dict) run_dir (st st1 : fs) :
  (forall t, to_parquet_ok t = true) ->
  is_dir st (Path.join run_dir "data.parquet") = false ->
  generate_dataset dataset_dir configs run_dir st = (Ok tt, st1) ->
  exists df,
    build_table dataset_dir configs run_dir = Ok df /\
    st1 = <[Path.join run_dir "data.parquet" := File (Parquet df)]> st.
Proof.
  intros Hpq Hnd. unfold generate_dataset, mbind, io_bind, lift.
  destruct (build_table dataset_dir configs run_dir) as [df|e]; [|discriminate].
  intros Hw. exists df. split; [reflexivity|].
  unfold _write_dataframe, write_file in Hw.
  destruct (is_dir st run_dir); [|discriminate].
  rewrite Hpq in Hw. unfold is_dir in Hnd.
  destruct (st !! Path.join run_dir "data.parquet") as [[|c]|]; [discriminate| |];
    now injection Hw as <-.
Qed.

Lemma validate_dataset_on dataset_dir configs run_dir (st : fs) df :
  st !! Path.join run_dir "data.parquet" = Some (File (Parquet df)) ->
  validate_dataset dataset_dir configs run_dir st =
  match check_table configs df with
  | Ok report =>
      if is_dir st (Path.join run_dir "validation_report.json")
      then (raise RuntimeError "Failed to write validation report", st)
      else (Ok tt, <[Path.join run_dir "validation_report.json" := File (Json report)]> st)
  | Raise e => (Raise e, st)
  end.
Proof. intros Hp. rewrite validate_dataset_runs. cbv zeta. rewrite Hp. reflexivity. Qed.

Lemma built_row_count dataset_dir (configs : dict) run_dir df rows :
  build_table dataset_dir configs run_dir = Ok df ->
  _extract_row_count (get_or_none "dataset.yaml" configs) = Ok rows ->
  Pd.row_count df = rows.
Proof.
  intros Hb Hrows.
  destruct (build_table_ok _ _ _ _ Hb)
    as (cols & rows' & evo & Hcols & Hrows' & Hevo & Hne & Hnd & Hkeys & Hstr & Hget).
  rewrite Hrows in Hrows'. injection Hrows' as <-.
  pose proof (GeneratorTheorems.row_count_positive _ _ Hrows) as Hpos.
  destruct df as [|[n a] df].
  - exfalso. destruct cols as [|c cols]; [contradiction|].
    destruct (Hstr c (or_introl eq_refl)) as [name ->].
    apply (Hkeys name). now left.
  - cbn [Pd.row_count].
    assert (Hn : In (VStr n) cols) by (apply Hkeys; now left).
    destruct (Hget _ Hn) as (arr & Hgen & Hdf).
    cbn [table_get] in Hdf. rewrite String.eqb_refl in Hdf. injection Hdf as ->.
    apply generate_one_shape in Hgen as [_ Hl]. cbn [snd] in Hl. rewrite Hl. lia.
Qed.

Lemma schema_entries_names (ns : list string) (cols0 : list value) (defs0 : dict) :
  schema_entries (map VStr ns) cols0 defs0
  = Ok ((cols0 ++ map VStr ns)%list, fold_left (fun d n => dict_set n (VDict []) d) ns defs0).
Proof.
  revert cols0 defs0. induction ns as [|n ns IH]; intros cols0 defs0; cbn [map schema_entries fold_left].
  - now rewrite app_nil_r.
  - rewrite IH, <- app_assoc. reflexivity.
Qed.

Lemma empty_defs (ns : list string) (defs0 : dict) col :
  (forall v, dict_get col defs0 = Some v -> v = VDict []) ->
  forall v, dict_get col (fold_left (fun d n => dict_set n (VDict []) d) ns defs0) = Some v ->
            v = VDict [].
Proof.
  revert defs0. induction ns as [|n ns IH]; intros defs0 Hd; cbn [fold_left]; [exact Hd|].
  apply IH. intros v. destruct (String.eqb n col) eqn:E.
  - apply String.eqb_eq in E. subst n. rewrite dict_get_set_eq. now intros [= <-].
  - apply String.eqb_neq in E. rewrite dict_get_set_ne by exact E. apply Hd.
Qed.

Lemma mapM_column_entry (ns : list string) : mapM column_entry (map VStr ns) = Ok (map VStr ns).
Proof.
  induction ns as [|n ns IH]; [reflexivity|]. cbn [map mapM column_entry mbind result_bind].
  rewrite IH. reflexivity.
Qed.

Lemma omap_label_of (ns : list string) : omap label_of (map VStr ns) = ns.
Proof. induction ns as [|n ns IH]; [reflexivity|]. cbn. now rewrite IH. Qed.

Lemma forM_all {A} (f : A -> result unit) (l : list A) :
  (forall x, In x l -> f x = Ok tt) -> forM_ f l = Ok tt.
Proof.
  induction l as [|x l IH]; intros Hf; [reflexivity|]. cbn [forM_].
  rewrite (Hf x (or_introl eq_refl)). cbn [mbind result_bind]. apply IH.
  intros y Hy. apply Hf. now right.
Qed.

Lemma same_columns_intro (data_cols : list string) (schema_cols : list value) :
  (forall name, In name data_cols <-> In (VStr name) schema_cols) ->
  (forall c, In c schema_cols -> exists name, c = VStr name) ->
  same_columns data_cols schema_cols = true.
Proof.
  intros Hiff Hstr. unfold same_columns. rewrite andb_true_iff, !forallb_forall. split.
  - intros c Hc. apply existsb_exists. exists (VStr c). split; [now apply Hiff|].
    cbn. apply String.eqb_refl.
  - intros c Hc. destruct (Hstr c Hc) as [n ->]. cbn. apply existsb_eqb_In. now apply Hiff.
Qed.

(** X24: a dataset generated for a schema that lists its columns by name
    passes validation: the validator finds the file the generator wrote, the
    columns are those of the schema, and the report counts the rows the
    dataset configuration asks for. *)
Theorem generated_dataset_validates dataset_dir (configs : dict) run_dir (st st1 : fs)
    (sc : dict) (ns : list string) :
  get_or_none "schema.yaml" configs = VDict sc ->
  dict_get "columns" sc = Some (VList (map VStr ns)) ->
  (forall t, to_parquet_ok t = true) ->
  is_dir st (Path.join run_dir "data.parquet") = false ->
  is_dir st (Path.join run_dir "validation_report.json") = false ->
  generate_dataset dataset_dir configs run_dir st = (Ok tt, st1) ->
  exists df rows,
    build_table dataset_dir configs run_dir = Ok df /\
    _extract_row_count (get_or_none "dataset.yaml" configs) = Ok rows /\
    (forall name, In name (map fst df) <-> In name ns) /\
    validate_dataset dataset_dir (VDict configs) run_dir st1
    = (Ok tt,
       <[Path.join run_dir "validation_report.json" :=
           File (Json (VDict [("status", VStr "pass");
                              ("row_count", VInt rows);
                              ("column_count", VInt (Pd.column_count df))]))]> st1).
Proof.
  intros Hschema Hcolumns Hpq Hnd Hout Hgen.
  destruct (generate_dataset_parquet _ _ _ _ _ Hpq Hnd Hgen) as (df & Hb & ->).
  destruct (build_table_ok _ _ _ _ Hb)
    as (cols & rows & evo & Hcols & Hrows & Hevo & Hne & Hndk & Hkeys & Hstr & Hget).
  assert (Ecols : cols = map VStr ns).
  { rewrite Hschema in Hcols. unfold _extract_columns in Hcols. rewrite Hcolumns in Hcols.
    rewrite mapM_column_entry in Hcols. cbn [mbind result_bind] in Hcols.
    destruct (map VStr ns); [discriminate|]. now injection Hcols as <-. }
  subst cols.
  exists df, rows. split; [exact Hb|]. split; [exact Hrows|]. split.
  { intros name. rewrite Hkeys, in_map_iff. split.
    - intros (n & [= ->] & Hn). exact Hn.
    - intros Hn. eauto. }
  rewrite (validate_dataset_on _ _ _ _ df) by apply lookup_insert_eq.
  assert (Hcheck : check_table (VDict configs) df = Ok (report df)).
  { unfold check_table. cbn [Evaluate.attr_get mbind result_bind]. rewrite Hschema.
    assert (Hsc : truthy (VDict sc) = true) by (destruct sc; [discriminate|reflexivity]).
    rewrite Hsc. unfold Evaluate.py_contains, dict_mem, Evaluate.getitem. rewrite Hcolumns.
    cbn [mbind result_bind negb parse_columns]. rewrite schema_entries_names.
    cbn [app mbind result_bind]. unfold check_columns.
    rewrite same_columns_intro; [|exact Hkeys|exact Hstr].
    cbn [mbind result_bind]. rewrite omap_label_of.
    rewrite forM_all; [reflexivity|].
    intros col _. unfold check_column.
    assert (Hdef : match dict_get col (fold_left (fun d n => dict_set n (VDict []) d) ns []) with
                   | Some d => d
                   | None => VDict []
                   end = VDict []).
    { destruct (dict_get col _) as [v|] eqn:Hv; [|reflexivity].
      eapply empty_defs; [|exact Hv]. intros v'. discriminate. }
    rewrite Hdef. reflexivity. }
  rewrite Hcheck.
  assert (Hout1 : is_dir (<[Path.join run_dir "data.parquet" := File (Parquet df)]> st)
                    (Path.join run_dir "validation_report.json") = false).
  { unfold is_dir in *. rewrite lookup_insert_ne; [exact Hout|].
    intros E. apply join_inj in E. discriminate. }
  rewrite Hout1. unfold report.
  rewrite (built_row_count _ _ _ _ _ Hb Hrows). reflexivity.
Qed.

(** The dtype a column comes out with when positions of it are marked
    missing. *)
Lemma marked_column_dtype rs arr ratio arr' rs' x k :
  fleb ratio fzero = false ->
  fmul_int ratio (Z.of_nat (length (arr_items arr))) = Ok x -> py_round x = Ok k -> 0 < k ->
  _apply_missingness rs arr ratio = Ok (arr', rs') ->
  arr_dtype arr' = float64 \/ arr_dtype arr' = object.
Proof.
  intros Hr Hx Hk Hpos. unfold _apply_missingness. rewrite Hr, Hx. cbn [mbind result_bind].
  rewrite Hk. cbn [mbind result_bind].
  apply Z.leb_gt in Hpos. rewrite Hpos.
  destruct (draw_positions _ _ _) as [idx rs1].
  destruct (_ || _).
  - destruct (assign_at _ _ _); [|discriminate]. cbn [mbind result_bind].
    intros [= <- _]. now left.
  - destruct (assign_at _ _ _); [|discriminate]. cbn [mbind result_bind].
    intros [= <- _]. now right.
Qed.

Lemma generate_one_marked seed rows evo name arr v ratio x k :
  0 < rows ->
  generate_one seed rows evo (VStr name) = Ok (name, arr) ->
  dict_get name (missingness evo) = Some v ->
  py_float v = Ok ratio -> fleb ratio fzero = false ->
  fmul_int ratio rows = Ok x -> py_round x = Ok k -> 0 < k ->
  arr_dtype arr = float64 \/ arr_dtype arr = object.
Proof.
  intros Hrows Hgen Hv Hf Hr Hx Hk Hpos. unfold generate_one in Hgen.
  destruct (column_before_missingness seed rows evo name) as [[vals rs]|] eqn:Hc; [|discriminate].
  cbn [mbind result_bind] in Hgen.
  assert (Hl : length (arr_items vals) = Z.to_nat rows).
  { assert (Hg : generate_one seed rows evo (VStr name) = Ok (name, arr)).
    { unfold generate_one. rewrite Hc. exact Hgen. }
    clear Hg. unfold column_before_missingness in Hc.
    destruct (_generate_column _ name rows) as [[v0 rs0]|] eqn:Hg; [|discriminate].
    cbn [mbind result_bind] in Hc.
    destruct (is_fraud_name (lower name)).
    - destruct (fraud_rate evo) as [rate|]; [|discriminate].
      unfold assign_fraud in Hc.
      destruct (fmul_int rate rows) as [x'|]; [|discriminate]. cbn [mbind result_bind] in Hc.
      destruct (py_round x') as [k'|]; [|discriminate]. cbn [mbind result_bind] in Hc.
      destruct (draw_positions _ _ _) as [idx rs1].
      destruct (assign_at _ _ _) as [items|] eqn:Ha; [|discriminate].
      cbn [mbind result_bind] in Hc. injection Hc as <- _. cbn [arr_items].
      apply assign_at_length in Ha. now rewrite length_replicate in Ha.
    - injection Hc as <- _. eapply generate_column_length, Hg. }
  unfold get_or_none in Hgen. rewrite Hv in Hgen.
  assert (Hnn : is_none v = false) by (destruct v; try reflexivity; discriminate).
  rewrite Hnn, Hf in Hgen. cbn [mbind result_bind] in Hgen.
  destruct (_apply_missingness rs vals ratio) as [[arr' rs']|] eqn:Hm; [|discriminate].
  cbn [fmap result_fmap mbind result_bind fst] in Hgen. injection Hgen as <-.
  eapply marked_column_dtype; [exact Hr| |exact Hk|exact Hpos|exact Hm].
  rewrite Hl, Z2Nat.id by lia. exact Hx.
Qed.

Lemma In_dict_keys k (d : dict) v : dict_get k d = Some v -> In k (dict_keys d).
Proof.
  unfold dict_keys. induction d as [|[k' v'] d IH]; simpl; [discriminate|].
  destruct (String.eqb k k') eqn:E; [|auto].
  apply String.eqb_eq in E. now left.
Qed.

(** X25: missingness and an integer declaration do not go together.  A
    column for which the evolution asks at least one missing entry is
    written as a float or an object column, whatever it was generated as; if
    the schema declares it [integer] or [boolean], the validator raises on
    the dataset the generator wrote, and writes no report. *)
Theorem missingness_fails_integer_declaration dataset_dir (configs : dict) run_dir (st st1 : fs)
    (sc cols def : dict) (name t : string) evo rows v ratio x k :
  get_or_none "schema.yaml" configs = VDict sc ->
  dict_get "columns" sc = Some (VDict cols) ->
  dict_get name cols = Some (VDict def) ->
  dict_get "type" def = Some (VStr t) -> t = "integer" \/ t = "boolean" ->
  _extract_evolution (get_or_none "evolution.yaml" configs) = Ok evo ->
  _extract_row_count (get_or_none "dataset.yaml" configs) = Ok rows ->
  dict_get name (missingness evo) = Some v ->
  py_float v = Ok ratio -> fleb ratio fzero = false ->
  fmul_int ratio rows = Ok x -> py_round x = Ok k -> 0 < k ->
  (forall t, to_parquet_ok t = true) ->
  is_dir st (Path.join run_dir "data.parquet") = false ->
  generate_dataset dataset_dir configs run_dir st = (Ok tt, st1) ->
  (exists df arr,
     st1 !! Path.join run_dir "data.parquet" = Some (File (Parquet df)) /\
     table_get name df = Some arr /\
     (arr_dtype arr = float64 \/ arr_dtype arr = object)) /\
  exists e, validate_dataset dataset_dir (VDict configs) run_dir st1 = (Raise e, st1).
Proof.
  intros Hschema Hcolumns Hname Htype Ht Hevo Hrows Hv Hf Hr Hx Hk Hpos Hpq Hnd Hgen.
  destruct (generate_dataset_parquet _ _ _ _ _ Hpq Hnd Hgen) as (df & Hb & ->).
  destruct (build_table_ok _ _ _ _ Hb)
    as (cs & rows' & evo' & Hcols & Hrows' & Hevo' & Hne & Hndk & Hkeys & Hstr & Hget).
  rewrite Hrows in Hrows'. injection Hrows' as <-.
  rewrite Hevo in Hevo'. injection Hevo' as <-.
  assert (Ecols : cs = map VStr (sorted (dict_keys cols))).
  { rewrite Hschema in Hcols. unfold _extract_columns in Hcols. rewrite Hcolumns in Hcols.
    destruct (sorted (dict_keys cols)); [discriminate|]. now injection Hcols as <-. }
  assert (Hin : In (VStr name) cs).
  { rewrite Ecols. apply in_map, In_sorted. eapply In_dict_keys, Hname. }
  destruct (Hget _ Hin) as (arr & Hone & Hdf).
  pose proof (GeneratorTheorems.row_count_positive _ _ Hrows) as Hrpos.
  pose proof (generate_one_marked _ _ _ _ _ _ _ _ _ Hrpos Hone Hv Hf Hr Hx Hk Hpos) as Hdtype.
  split.
  { exists df, arr. split; [apply lookup_insert_eq|]. auto. }
  rewrite (validate_dataset_on _ _ _ _ df) by apply lookup_insert_eq.
  destruct (check_table (VDict configs) df) as [r|e] eqn:Hcheck; [|eauto].
  exfalso.
  destruct (check_table_ok _ _ _ Hcheck)
    as (_ & cfg & schema & columns_cfg & schema_cols & schema_defs & Ecfg & <- & Hg & Hp & Hs & Hall).
  injection Ecfg as <-. rewrite Hschema in Hg. unfold Evaluate.getitem in Hg.
  rewrite Hcolumns in Hg. injection Hg as <-. cbn [parse_columns] in Hp.
  injection Hp as <- <-.
  rewrite List.Forall_forall in Hall.
  assert (Hc : check_column df cols name = Ok tt).
  { apply Hall. apply In_sorted. rewrite omap_label_of. eapply In_dict_keys, Hname. }
  unfold check_column in Hc. rewrite Hname in Hc.
  cbn [Evaluate.attr_get mbind result_bind] in Hc. unfold get_or_none in Hc.
  rewrite !Htype in Hc. unfold check_type, getcol in Hc. rewrite Hdf in Hc.
  destruct Ht as [-> | ->]; cbn [truthy String.eqb Ascii.eqb Bool.eqb negb mbind result_bind dtype_map] in Hc;
    destruct Hdtype as [Hd|Hd]; rewrite Hd in Hc; discriminate.
Qed.

End Pipeline.
End GenerateValidate.

(** ** Ingestion *)

Module IngestTheorems.
Import Py Np Fs Pd Ingest PyFacts Readings StringOrder PathFacts EvaluateTheorems GeneratorShape.

Lemma string_rev_app (s acc : string) : string_rev s acc = string_rev s "" ++ acc.
Proof.
  revert acc. induction s as [|c s IH]; intros acc; [reflexivity|].
  cbn [string_rev]. rewrite (IH (String c acc)), (IH (String c "")), append_assoc. reflexivity.
Qed.

Lemma string_rev_append (s t : string) :
  string_rev (s ++ t) "" = string_rev t "" ++ string_rev s "".
Proof.
  induction s as [|c s IH].
  - change ("" ++ t) with t. cbn [string_rev].
    induction (string_rev t "") as [|x r IHr]; [reflexivity|].
    change (String x r = String x (r ++ "")). now rewrite <- IHr.
  - change (String c s ++ t) with (String c (s ++ t)). cbn [string_rev].
    rewrite (string_rev_app (s ++ t)), IH, (string_rev_app s (String c "")), append_assoc.
    reflexivity.
Qed.

Lemma string_rev_involutive (s : string) : string_rev (string_rev s "") "" = s.
Proof.
  induction s as [|c s IH]; [reflexivity|].
  cbn [string_rev]. rewrite (string_rev_app s (String c "")), string_rev_append, IH. reflexivity.
Qed.

Lemma endswith_slash (d : string) : endswith "/" d = true -> exists q, d = q ++ "/".
Proof.
  unfold endswith. cbn [string_rev]. intros Hp.
  destruct (string_rev d "") as [|c r] eqn:Hr; [discriminate|].
  cbn [String.prefix] in Hp. destruct (ascii_dec "/" c) as [<-|]; [|discriminate].
  exists (string_rev r ""). rewrite <- (string_rev_involutive d), Hr.
  cbn [string_rev]. apply string_rev_app.
Qed.

Lemma dir_prefix_shape (d : string) : dir_prefix d = "" \/ exists q, dir_prefix d = q ++ "/".
Proof.
  unfold dir_prefix. destruct (String.eqb d ""); [now left|].
  destruct (endswith "/" d) eqn:E; [right; now apply endswith_slash|right; eauto].
Qed.

Lemma split_on_nonempty c s : Path.split_on c s <> [].
Proof.
  induction s as [|a s IH]; cbn [Path.split_on]; [discriminate|].
  destruct (Ascii.eqb a c); [discriminate|]. destruct (Path.split_on c s); discriminate.
Qed.

(** The parts of a path that ends in a name without a slash. *)
Lemma split_on_prefix (pre name : string) :
  Path.split_on Path.slash name = [name] ->
  pre = "" \/ (exists q, pre = q ++ "/") ->
  exists comps,
    Path.split_on Path.slash (pre ++ name) = (comps ++ [name])%list /\
    String.concat "" (map (fun c => c ++ "/") comps) = pre.
Proof.
  intros Hname. induction pre as [|a pre IH]; intros Hpre.
  - exists []. split; [exact Hname|reflexivity].
  - assert (Hpre' : pre = "" \/ exists q, pre = q ++ "/").
    { destruct Hpre as [|[q Hq]]; [discriminate|].
      destruct q as [|b q]; [injection Hq as _ ->; now left|].
      injection Hq as _ ->. right. eauto. }
    destruct (IH Hpre') as (comps & Hs & Hc).
    change (String a pre ++ name) with (String a (pre ++ name)). cbn [Path.split_on].
    rewrite Hs. destruct (Ascii.eqb a Path.slash) eqn:Ea.
    + apply Ascii.eqb_eq in Ea. subst a. exists ("" :: comps). split; [reflexivity|].
      cbn [map]. destruct comps as [|c comps]; cbn [String.concat map] in *.
      * now rewrite <- Hc.
      * rewrite Hc. reflexivity.
    + destruct comps as [|c comps].
      * exfalso. cbn in Hc. subst pre. destruct Hpre as [|[q Hq]]; [discriminate|].
        destruct q as [|b q].
        -- change (String a "" = String "/"%char "") in Hq. injection Hq as ->.
           vm_compute in Ea. discriminate.
        -- change (String a "" = String b (q ++ "/")) in Hq. injection Hq as _ Hq.
           destruct q; discriminate.
      * exists (String a c :: comps). split; [reflexivity|].
        cbn [map] in *. destruct comps as [|c' comps]; cbn [String.concat map] in *.
        -- rewrite <- Hc. reflexivity.
        -- rewrite <- Hc. reflexivity.
Qed.

Lemma with_suffix_join (d name base : string) :
  Path.split_on Path.slash name = [name] ->
  Path.with_suffix name ".tmp" = base ++ ".tmp" ->
  Path.with_suffix (Path.join d name) ".tmp" = Path.join d (base ++ ".tmp").
Proof.
  intros Hname Hws. rewrite !join_prefix.
  destruct (split_on_prefix (dir_prefix d) name Hname (dir_prefix_shape d)) as (comps & Hs & Hc).
  unfold Path.with_suffix, Path.basename, Path.dirname_slash in *.
  rewrite Hs, last_snoc, removelast_last, Hc. cbn [default].
  rewrite Hname in Hws. cbn [last default removelast map String.concat] in Hws.
  change ("" ++ ?x) with x in Hws. now rewrite Hws.
Qed.

Lemma parquet_tmp (d : string) :
  Path.with_suffix (Path.join d "data.parquet") ".tmp" = Path.join d "data.tmp".
Proof. apply (with_suffix_join d "data.parquet" "data"); reflexivity. Qed.

Lemma csv_tmp (d : string) :
  Path.with_suffix (Path.join d "data.csv") ".tmp" = Path.join d "data.tmp".
Proof. apply (with_suffix_join d "data.csv" "data"); reflexivity. Qed.

Lemma empty_dir_lookup (st : fs) (d name : string) :
  listdir st d = [] -> entry_like name = true -> st !! Path.join d name = None.
Proof.
  intros He Hl. destruct (st !! Path.join d name) as [n|] eqn:Hn; [|reflexivity].
  assert (Hin : In name (listdir st d)).
  { apply listdir_spec. split; [exact Hl|]. unfold exists_. now rewrite Hn. }
  rewrite He in Hin. destruct Hin.
Qed.

Section Ingestion.
Context `{Pandas}.

Lemma write_then_replace (tmp out : string) (c : content) (st : fs) :
  st !! tmp = None -> st !! out = None -> tmp <> out ->
  (_ ← write_file tmp c; replace tmp out) st = (Ok tt, <[out := File c]> st).
Proof.
  intros Htmp Hout Hne. unfold mbind, io_bind, write_file, replace.
  rewrite Htmp. cbv beta iota.
  rewrite lookup_insert_eq, lookup_insert_ne, Hout by exact Hne.
  rewrite delete_insert_id by exact Htmp. reflexivity.
Qed.

(** In an empty run directory the write goes through: parquet when the
    engine takes the table, CSV otherwise, and no temporary file stays. *)
Lemma write_atomically_fresh (df : table) run_dir (st : fs) :
  listdir st run_dir = [] ->
  write_atomically df run_dir st =
  (Ok tt,
   if to_parquet_ok df then <[Path.join run_dir "data.parquet" := File (Parquet df)]> st
   else <[Path.join run_dir "data.csv" := File (Csv df)]> st).
Proof.
  intros He.
  pose proof (empty_dir_lookup st run_dir "data.tmp" He eq_refl) as Htmp.
  pose proof (empty_dir_lookup st run_dir "data.parquet" He eq_refl) as Hpq.
  pose proof (empty_dir_lookup st run_dir "data.csv" He eq_refl) as Hcsv.
  assert (Hne1 : Path.join run_dir "data.tmp" <> Path.join run_dir "data.parquet")
    by (intros E; apply join_inj in E; discriminate).
  assert (Hne2 : Path.join run_dir "data.tmp" <> Path.join run_dir "data.csv")
    by (intros E; apply join_inj in E; discriminate).
  unfold write_atomically. rewrite parquet_tmp, csv_tmp.
  destruct (to_parquet_ok df).
  - unfold try_except at 1. rewrite (write_then_replace _ _ _ _ Htmp Hpq Hne1). reflexivity.
  - unfold try_except at 1. unfold mbind at 1. unfold io_bind at 1. unfold throw at 1.
    unfold raise at 1. cbv beta iota.
    assert (Hex : exists_ st (Path.join run_dir "data.tmp") = false)
      by (unfold exists_; now rewrite Htmp).
    unfold mbind at 1. unfold io_bind at 1. unfold gets at 1.
    rewrite Hex. cbv beta iota.
    unfold mbind at 1. unfold io_bind at 1. unfold mret at 1. unfold io_ret at 1.
    cbv beta iota.
    unfold try_except at 1. rewrite (write_then_replace _ _ _ _ Htmp Hcsv Hne2). reflexivity.
Qed.

(** X26: ingestion is all or nothing.  When it succeeds, the input was a
    CSV or parquet file with rows and columns, the run directory was an empty
    directory, and the one thing that changed is the data file, which holds
    the table with its columns reordered by name: parquet when the engine
    takes it, CSV otherwise.  When it fails, it raises a RuntimeError and
    leaves the file system as it was. *)
Theorem ingest_all_or_nothing (input_path run_dir : string) (st : fs) :
  match ingest_external_dataset input_path run_dir st with
  | (Ok _, st1) =>
      exists df0,
        (st !! input_path = Some (File (Parquet df0)) \/
         exists t, st !! input_path = Some (File (Csv t)) /\ df0 = read_csv t) /\
        Pd.empty df0 = false /\
        is_dir st run_dir = true /\ listdir st run_dir = [] /\
        let df := Pd.select (sorted (map fst df0)) df0 in
        st1 = if to_parquet_ok df
              then <[Path.join run_dir "data.parquet" := File (Parquet df)]> st
              else <[Path.join run_dir "data.csv" := File (Csv df)]> st
  | (Raise e, st1) => st1 = st /\ kind e = RuntimeError
  end.
Proof.
  unfold ingest_external_dataset.
  unfold mbind at 1. unfold io_bind at 1. unfold gets at 1. cbv beta iota.
  destruct (exists_ st input_path && is_file st input_path) eqn:Hin; cbn [negb];
    [|split; reflexivity].
  destruct (negb _) eqn:Hsuf; [split; reflexivity|].
  unfold mbind at 1. unfold io_bind at 1. unfold gets at 1. cbv beta iota.
  destruct (exists_ st run_dir && is_dir st run_dir) eqn:Hrun; cbn [negb];
    [|split; reflexivity].
  unfold mbind at 1. unfold io_bind at 1. unfold gets at 1. cbv beta iota.
  destruct (listdir st run_dir) as [|x l] eqn:He; [|split; reflexivity].
  apply andb_true_iff in Hrun as [_ Hdir].
  unfold mbind at 1. unfold io_bind at 1.
  unfold reraise, read_csv_file, read_parquet.
  destruct (String.eqb (lower (suffix input_path)) ".csv");
    destruct (st !! input_path) as [[|[]]|] eqn:Hi; try (split; reflexivity);
    (destruct (Pd.empty _) eqn:Hempty; [split; reflexivity|]);
    rewrite (write_atomically_fresh _ _ _ He);
    eexists; (split; [eauto|]); auto.
Qed.

Lemma filter_name_singleton (df : table) n a :
  List.NoDup (map fst df) -> In (n, a) df ->
  List.filter (fun c => String.eqb (fst c) n) df = [(n, a)].
Proof.
  induction df as [|[k b] df IH]; [intros _ []|].
  cbn [map fst List.filter]. intros Hnd Hin. inversion Hnd as [|? ? Hnotin Hnd']; subst.
  destruct Hin as [[= -> ->]|Hin].
  - rewrite String.eqb_refl. f_equal.
    clear -Hnotin. induction df as [|[k b] df IH]; [reflexivity|].
    cbn [List.filter fst]. destruct (String.eqb k n) eqn:E.
    + apply String.eqb_eq in E. subst k. exfalso. apply Hnotin. now left.
    + apply IH. intros Hin. apply Hnotin. now right.
  - destruct (String.eqb k n) eqn:E.
    + apply String.eqb_eq in E. subst k. exfalso. apply Hnotin.
      apply in_map_iff. exists (n, a). auto.
    + now apply IH.
Qed.

Lemma select_names (df : table) (names : list string) :
  List.NoDup (map fst df) -> (forall n, In n names -> In n (map fst df)) ->
  map fst (Pd.select names df) = names /\
  forall n a, In (n, a) (Pd.select names df) <-> In n names /\ In (n, a) df.
Proof.
  intros Hnd. unfold Pd.select. induction names as [|n names IH]; intros Hsub.
  - split; [reflexivity|]. simpl. tauto.
  - destruct IH as [IH1 IH2]; [intros; apply Hsub; now right|].
    destruct (table_get_Some_In n df (Hsub n (or_introl eq_refl))) as [a Ha].
    apply table_get_In in Ha.
    cbn [flat_map]. rewrite (filter_name_singleton df n a Hnd Ha).
    split.
    + cbn [app map fst]. now rewrite IH1.
    + intros k b. cbn [app In]. rewrite IH2. split.
      * intros [[= <- <-]|[Hk Hb]]; auto.
      * intros [[<-|Hk] Hb]; [|auto]. left. f_equal.
        pose proof (table_get_NoDup _ _ _ Hnd Ha). pose proof (table_get_NoDup _ _ _ Hnd Hb).
        congruence.
Qed.

(** X27: the normalization of ingestion reorders and does nothing else:
    the table written has the columns of the table read, each once and with
    its entries as they were, in ascending order of their names. *)
Theorem ingested_columns_sorted (df : table) :
  List.NoDup (map fst df) ->
  let df' := Pd.select (sorted (map fst df)) df in
  map fst df' = sorted (map fst df) /\
  ascending (map fst df') /\
  Permutation df' df /\
  (forall n, table_get n df' = table_get n df) /\
  (Pd.empty df = false -> Pd.column_count df' = Pd.column_count df).
Proof.
  intros Hnd df'.
  destruct (select_names df (sorted (map fst df)) Hnd) as [Hnames Hin].
  { intros n Hn. now apply In_sorted. }
  fold df' in Hnames, Hin.
  assert (Hnd' : List.NoDup (map fst df')).
  { rewrite Hnames. eapply Permutation_NoDup; [symmetry; apply sorted_perm|exact Hnd]. }
  assert (Hperm : Permutation df' df).
  { apply Stdlib.Sorting.Permutation.NoDup_Permutation.
    - eapply List.NoDup_map_inv, Hnd'.
    - eapply List.NoDup_map_inv, Hnd.
    - intros [n a]. rewrite Hin, In_sorted. split; [tauto|].
      intros Hx. split; [|exact Hx]. apply in_map_iff. exists (n, a). auto. }
  split; [exact Hnames|]. split; [rewrite Hnames; apply sorted_ascending|].
  split; [exact Hperm|]. split.
  - intros n. destruct (table_get n df) as [a|] eqn:Ha.
    + apply table_get_NoDup; [exact Hnd'|]. apply Hin. apply table_get_In in Ha.
      split; [|exact Ha]. apply In_sorted, in_map_iff. exists (n, a). auto.
    + destruct (table_get n df') as [a|] eqn:Ha'; [|reflexivity].
      apply table_get_In, Hin in Ha' as [_ Ha'].
      destruct (table_get_Some_In n df) as [b Hb]; [apply in_map_iff; exists (n, a); auto|].
      congruence.
  - intros _. unfold Pd.column_count. now rewrite (Permutation_length Hperm).
Qed.

End Ingestion.
End IngestTheorems.

(** ** The evaluator's outcome, and the version a manifest yields *)

Module EvaluateMore.
Import Py Np Fs Evaluate PyFacts Notions Readings.

Section Evaluator.
Context `{Builtins} `{Pandas}.

(** The steps of the evaluator, in one equation. *)
Lemma evaluate_dataset_runs dataset_dir configs run_dir (st : fs) :
  evaluate_dataset dataset_dir configs run_dir st =
  let out := Path.join run_dir "evaluation_report.json" in
  let reported df prior :=
    match build_report df prior with
    | Ok report =>
        if is_dir st out then (raise RuntimeError "Failed to write evaluation report", st)
        else (Ok tt, <[out := File (Json report)]> st)
    | Raise e => (Raise e, st)
    end in
  let with_prior (read : option value -> result () * fs) :=
    match st !! Path.join run_dir "prior_profile.json" with
    | Some (File (Json p)) => read (Some p)
    | Some (File _) => (raise ValueError "JSONDecodeError", st)
    | _ => read None
    end in
  match st !! Path.join run_dir "data.parquet" with
  | Some (File (Parquet t)) => with_prior (reported t)
  | Some (File _) =>
      with_prior (fun _ => (raise RuntimeError "Failed to read generated data file", st))
  | _ =>
      match st !! Path.join run_dir "data.csv" with
      | Some (File (Csv t)) => with_prior (reported (read_csv t))
      | Some (File _) =>
          with_prior (fun _ => (raise RuntimeError "Failed to read generated data file", st))
      | _ => (raise FileNotFoundError
                "No generated data file found (searched for data.parquet, data.csv)", st)
      end
  end.
Proof.
  unfold evaluate_dataset.
  cbv beta iota zeta delta [mbind io_bind gets throw lift mret io_ret is_file load_json read_data
                            reraise write_file is_dir].
  destruct (st !! Path.join run_dir "data.parquet") as [[|[]]|] eqn:Hp;
    destruct (st !! Path.join run_dir "data.csv") as [[|[]]|] eqn:Hc;
    cbv beta iota delta [negb andb]; try reflexivity;
    destruct (st !! Path.join run_dir "prior_profile.json") as [[|[]]|] eqn:Hpr;
    cbv beta iota; rewrite ?Hp, ?Hc, ?Hpr; cbv beta iota; rewrite ?Hp, ?Hc; try reflexivity;
    destruct (build_report _ _); try reflexivity;
    destruct (st !! Path.join run_dir "evaluation_report.json") as [[|c]|]; reflexivity.
Qed.

(** X28: the evaluator writes one file, the report of the table it read
    against the prior profile it found, and touches nothing else; when it
    raises it has written nothing, and a run directory without a data file
    is a FileNotFoundError. *)
Theorem evaluation_outcome dataset_dir configs run_dir (st : fs) :
  match evaluate_dataset dataset_dir configs run_dir st with
  | (Ok _, st1) =>
      exists df report,
        current_table st run_dir = Some df /\
        build_report df (match st !! Path.join run_dir "prior_profile.json" with
                         | Some (File (Json p)) => Some p
                         | _ => None
                         end) = Ok report /\
        st1 = <[Path.join run_dir "evaluation_report.json" := File (Json report)]> st
  | (Raise e, st1) =>
      st1 = st /\
      (is_file st (Path.join run_dir "data.parquet") = false ->
       is_file st (Path.join run_dir "data.csv") = false ->
       kind e = FileNotFoundError)
  end.
Proof.
  rewrite evaluate_dataset_runs. cbv zeta. unfold current_table, is_file.
  destruct (st !! Path.join run_dir "data.parquet") as [[|[]]|] eqn:Hp;
    destruct (st !! Path.join run_dir "data.csv") as [[|[]]|] eqn:Hc;
    try (split; [reflexivity|intros; try discriminate; reflexivity]);
    destruct (st !! Path.join run_dir "prior_profile.json") as [[|[]]|] eqn:Hpr;
    try (split; [reflexivity|intros; try discriminate; reflexivity]).
  all: destruct (build_report _ _) as [r|e] eqn:Hr;
    [|split; [reflexivity|intros; discriminate]].
  all: destruct (is_dir st (Path.join run_dir "evaluation_report.json"));
    [split; [reflexivity|intros; discriminate]|].
  all: eexists _, _; split; [reflexivity|]; split; [exact Hr|reflexivity].
Qed.

(** X29: of a prior profile the evaluator needs the statistics of every
    column it lists.  When the profile lists a column of the current table
    under an entry without [stats], the drift of that column is a KeyError,
    no report is built, and the evaluation raises and writes nothing. *)
Theorem prior_entry_without_stats_fails dataset_dir configs run_dir (st : fs) (df : table)
    (p pc e : dict) (col : string) :
  st !! Path.join run_dir "data.parquet" = Some (File (Parquet df)) ->
  st !! Path.join run_dir "prior_profile.json" = Some (File (Json (VDict p))) ->
  dict_get "columns" p = Some (VDict pc) ->
  In col (map fst df) ->
  dict_get col pc = Some (VDict e) ->
  dict_get "stats" e = None ->
  (forall q, exists err, column_drift (Some (VDict pc)) col q = Raise err /\
                         kind err = KeyError) /\
  (exists err, build_report df (Some (VDict p)) = Raise err) /\
  exists err, evaluate_dataset dataset_dir configs run_dir st = (Raise err, st).
Proof.
  intros Hdata Hprior Hcols Hcol Hget Hstats.
  assert (Hdrift : forall q, column_drift (Some (VDict pc)) col q = raise KeyError "stats").
  { intros q. unfold column_drift, py_contains, dict_mem, getitem. rewrite Hget.
    cbn [mbind result_bind]. rewrite Hstats. reflexivity. }
  assert (Hbuild : exists err, build_report df (Some (VDict p)) = Raise err).
  { unfold build_report. cbv zeta. rewrite Hcols. unfold Evaluate.attr_get.
    cbn [mbind result_bind].
    destruct (count_drift _ (get_or_none "row_count" p)); [|eexists; reflexivity].
    cbn [mbind result_bind].
    destruct (count_drift _ (get_or_none "column_count" p)); [|eexists; reflexivity].
    cbn [mbind result_bind].
    match goal with
    | |- context [mapM ?f ?l] =>
        assert (Hm : exists e', mapM f l = Raise e')
    end.
    { eapply mapM_raise with (x := col).
      - apply EvaluateTheorems.In_sorted, Hcol.
      - cbv beta. rewrite Hdrift. reflexivity. }
    destruct Hm as [e' ->]. eexists. reflexivity. }
  split; [intros q; rewrite Hdrift; eexists; split; reflexivity|].
  split; [exact Hbuild|].
  destruct Hbuild as [err Herr].
  rewrite evaluate_dataset_runs. cbv zeta. rewrite Hdata, Hprior, Herr.
  eexists. reflexivity.
Qed.

End Evaluator.
End EvaluateMore.

Module VersionOfManifest.
Import Py Fs Registry PyFacts Readings PathFacts.

(** A component of a path holds no separator. *)

Lemma split_on_no_separator (c : ascii) (s comp : string) :
  In comp (Path.split_on c s) -> is_substring (String c "") comp = false.
Proof.
  revert comp. induction s as [|a s IH]; intros comp; cbn [Path.split_on].
  - intros [<-|[]]. reflexivity.
  - destruct (Ascii.eqb a c) eqn:E.
    + intros [<-|Hin]; [reflexivity|auto].
    + pose proof (IngestTheorems.split_on_nonempty c s) as Hne.
      destruct (Path.split_on c s) as [|w ws]; [contradiction|].
      intros [<-|Hin]; [|apply IH; now right].
      cbn [is_substring String.prefix].
      destruct (ascii_dec c a) as [->|_]; [rewrite Ascii.eqb_refl in E; discriminate|].
      cbn [orb]. apply IH. now left.
Qed.

End VersionOfManifest.

(** ** The version and the name of the run directory *)

Module RunDirectory.
Import Py Fs Pd Version Readings PathFacts IngestTheorems VersionTheorems VersionOfManifest.

Lemma prefix_slash (a : ascii) (s : string) :
  String.prefix "/" (String a s) = Ascii.eqb a Path.slash.
Proof.
  cbn [String.prefix]. destruct (ascii_dec "/" a) as [<-|Hne].
  - destruct s; reflexivity.
  - symmetry. apply Ascii.eqb_neq. intros ->. now apply Hne.
Qed.

Lemma no_slash_split (v : string) :
  is_substring "/" v = false -> Path.split_on Path.slash v = [v].
Proof.
  induction v as [|a v IH]; [reflexivity|].
  cbn [is_substring]. rewrite prefix_slash. intros Hs.
  apply orb_false_iff in Hs as [Ha Hv].
  cbn [Path.split_on]. rewrite Ha, (IH Hv). reflexivity.
Qed.

Lemma is_substring_slash_app (a b : string) :
  is_substring "/" (a ++ b) = is_substring "/" a || is_substring "/" b.
Proof.
  induction a as [|x a IH].
  - change ("" ++ b) with b. destruct b; reflexivity.
  - change (String x a ++ b) with (String x (a ++ b)).
    cbn [is_substring]. rewrite !prefix_slash, IH. now rewrite orb_assoc.
Qed.

Lemma basename_no_slash (p : string) : is_substring "/" (Path.basename p) = false.
Proof.
  unfold Path.basename.
  destruct (last (Path.split_on Path.slash p)) as [comp|] eqn:Hl; [|reflexivity].
  cbn [default]. apply (split_on_no_separator Path.slash p).
  apply list_elem_of_In. eapply last_Some_elem_of, Hl.
Qed.

Lemma norm_comps_snoc (initial : bool) (v : string) (comps new_comps : list string) :
  String.eqb v "" = false -> String.eqb v "." = false -> String.eqb v ".." = false ->
  Path.norm_comps initial (comps ++ [v]) new_comps
  = (Path.norm_comps initial comps new_comps ++ [v])%list.
Proof.
  intros H0 H1 H2. revert new_comps.
  induction comps as [|c comps IH]; intros new_comps.
  - cbn [app Path.norm_comps]. rewrite H0, H1, H2. reflexivity.
  - cbn [app Path.norm_comps].
    destruct (String.eqb c "" || String.eqb c "."); [apply IH|].
    match goal with |- (if ?b then _ else _) = _ => destruct b end; apply IH.
Qed.

Lemma concat_snoc (cs : list string) (v : string) :
  exists pre, (pre = "" \/ exists q, pre = q ++ "/") /\
              String.concat "/" (cs ++ [v]) = pre ++ v.
Proof.
  induction cs as [|c cs (pre & Hpre & IH)].
  - exists "". split; [now left|reflexivity].
  - exists (c ++ "/" ++ pre). split.
    + right. destruct Hpre as [->|[q ->]].
      * exists c. reflexivity.
      * exists (c ++ "/" ++ q). now rewrite !append_assoc.
    + change ((c :: cs) ++ [v])%list with (c :: (cs ++ [v]))%list.
      cbn [String.concat]. destruct (cs ++ [v])%list as [|w ws] eqn:E.
      { destruct cs; discriminate. }
      rewrite IH. now rewrite !append_assoc.
Qed.

Lemma basename_prefixed (pre v : string) :
  Path.split_on Path.slash v = [v] ->
  pre = "" \/ (exists q, pre = q ++ "/") ->
  Path.basename (pre ++ v) = v.
Proof.
  intros Hv Hpre. destruct (split_on_prefix pre v Hv Hpre) as (comps & Hs & _).
  unfold Path.basename. rewrite Hs, last_snoc. reflexivity.
Qed.

Lemma append_empty (a b : string) : a ++ b = "" -> b = "".
Proof. destruct a; [auto|discriminate]. Qed.

(** The last component of a normalized path is the name the path ends in. *)
Lemma basename_normpath_join (d v : string) :
  plain_name v = true -> Path.basename (Path.normpath (Path.join d v)) = v.
Proof.
  unfold plain_name, entry_like. rewrite !andb_true_iff, !negb_true_iff.
  intros [[[H0 Hs] H1] H2].
  pose proof (no_slash_split v Hs) as Hv.
  rewrite join_prefix. unfold Path.normpath.
  destruct (String.eqb (dir_prefix d ++ v) "") eqn:E.
  { apply String.eqb_eq, append_empty in E. subst v. discriminate. }
  destruct (split_on_prefix (dir_prefix d) v Hv (dir_prefix_shape d)) as (comps & Hsp & _).
  rewrite Hsp. cbv zeta.
  set (n := if startswith "/" (dir_prefix d ++ v) then _ else _).
  rewrite norm_comps_snoc by assumption.
  destruct (concat_snoc (Path.norm_comps (negb (n =? 0)%nat) comps []) v) as (pre & Hpre & ->).
  set (slashes := match n with 0%nat => "" | 1%nat => "/" | _ => "//" end).
  assert (Hsl : slashes ++ pre = "" \/ exists q, slashes ++ pre = q ++ "/").
  { destruct Hpre as [->|[q ->]].
    - subst slashes. destruct n as [|[|n]];
        [now left|right; now exists ""|right; now exists "/"].
    - right. exists (slashes ++ q). now rewrite append_assoc. }
  rewrite <- (append_assoc slashes pre v).
  destruct (String.eqb ((slashes ++ pre) ++ v) "") eqn:E'.
  { apply String.eqb_eq, append_empty in E'. subst v. discriminate. }
  now apply basename_prefixed.
Qed.

Lemma two_digits_no_slash :
  forallb (fun n => negb (is_substring "/" (zero_filled 2 n))) (seq 0 100) = true.
Proof. vm_compute. reflexivity. Qed.

Lemma zero_filled_2_no_slash n : (n < 100)%nat -> is_substring "/" (zero_filled 2 n) = false.
Proof.
  intros Hn. pose proof two_digits_no_slash as Hall. rewrite forallb_forall in Hall.
  apply negb_true_iff, Hall, in_seq. lia.
Qed.

Lemma strftime_length a : clock_reading a = true -> String.length (strftime a) = 20%nat.
Proof.
  intros Ha. apply clock_reading_bounds in Ha. unfold strftime.
  rewrite !app_length, four_digits_length, !two_digits_length by lia. reflexivity.
Qed.

(** A timestamp is a plain name. *)
Lemma strftime_plain a : clock_reading a = true -> plain_name (strftime a) = true.
Proof.
  intros Ha. pose proof (strftime_length a Ha) as Hl.
  apply clock_reading_bounds in Ha.
  unfold plain_name, entry_like. rewrite !andb_true_iff, !negb_true_iff.
  repeat split.
  - apply String.eqb_neq. intros E. rewrite E in Hl. discriminate.
  - unfold strftime. rewrite four_digits_split by lia.
    assert (year a / 100 < 100)%nat by (apply Nat.Div0.div_lt_upper_bound; lia).
    assert (year a mod 100 < 100)%nat by (apply Nat.mod_upper_bound; lia).
    rewrite !is_substring_slash_app, !zero_filled_2_no_slash by lia. reflexivity.
  - apply String.eqb_neq. intros E. rewrite E in Hl. discriminate.
  - apply String.eqb_neq. intros E. rewrite E in Hl. discriminate.
Qed.

(** X15: the version of a run and its run directory.  A version that was
    resolved is not empty.  A timestamp is a plain name, and of a plain name
    the run directory keeps the record: the name the registry derives from
    [runs_base/version] is the version.  Of a run id that holds a slash it
    is not. *)
Theorem version_recovered_from_run_dir (now : datetime) (dataset_name run_id : value)
    (v runs_base : string) :
  resolve_version now dataset_name run_id = Ok v ->
  v <> "" /\
  (run_id = VNone -> clock_reading now = true -> plain_name v = true) /\
  (plain_name v = true -> Path.basename (Path.normpath (Path.join runs_base v)) = v) /\
  (is_substring "/" v = true -> Path.basename (Path.normpath (Path.join runs_base v)) <> v).
Proof.
  intros Hres. pose proof (resolved_version_not_empty now dataset_name run_id) as Hne.
  rewrite Hres in Hne. destruct Hne as (Hv & _ & Hid).
  split; [exact Hv|]. split; [|split].
  - intros -> Hclock. destruct Hid as [[=]|[_ ->]]. now apply strftime_plain.
  - apply basename_normpath_join.
  - intros Hs E.
    pose proof (basename_no_slash (Path.normpath (Path.join runs_base v))) as Hb.
    rewrite E, Hs in Hb. discriminate.
Qed.

End RunDirectory.

(** ** A run from the snapshot to the manifest *)

Module FreshRun.
Import Py Np Fs Pd Generate Artifacts Evaluate Profile Validate Run.
Import PyFacts Readings PathFacts ValueFacts StageFacts ArtifactsTheorems IngestTheorems
       VersionTheorems ProfileTheorems ValidateTheorems EvaluateMore Handover YamlFacts
       RunTheorems.

(** The directories [makedirs] makes are no longer than the path. *)
Lemma concat_split (s : string) : String.concat "/" (Path.split_on Path.slash s) = s.
Proof.
  induction s as [|a s IH]; [reflexivity|].
  cbn [Path.split_on]. pose proof (split_on_nonempty Path.slash s) as Hne.
  destruct (Ascii.eqb a Path.slash) eqn:E.
  - apply Ascii.eqb_eq in E. subst a.
    destruct (Path.split_on Path.slash s) as [|w ws]; [contradiction|].
    change (String.concat "/" ("" :: w :: ws)) with ("/" ++ String.concat "/" (w :: ws)).
    now rewrite IH.
  - destruct (Path.split_on Path.slash s) as [|w ws]; [contradiction|].
    destruct ws as [|w' ws].
    + cbn [String.concat] in *. now rewrite IH.
    + change (String.concat "/" (String a w :: w' :: ws))
        with (String a (w ++ "/" ++ String.concat "/" (w' :: ws))).
      change (String.concat "/" (w :: w' :: ws))
        with (w ++ "/" ++ String.concat "/" (w' :: ws)) in IH.
      now rewrite IH.
Qed.

Lemma ancestors_bound (acc : string) (first : bool) (comps : list string) (p : string) :
  In p (ancestors acc first comps) ->
  (String.length p
   <= (if first then 0 else String.length acc + 1) + String.length (String.concat "/" comps))%nat.
Proof.
  revert acc first. induction comps as [|c rest IH]; intros acc first; [intros []|].
  cbn [ancestors].
  set (p0 := if first then c else acc ++ "/" ++ c).
  assert (Hp0 : (String.length p0
                 = (if first then 0 else String.length acc + 1) + String.length c)%nat).
  { subst p0. destruct first; [reflexivity|]. rewrite !app_length. cbn [String.length]. lia. }
  assert (Hc : (String.length c <= String.length (String.concat "/" (c :: rest)))%nat).
  { destruct rest; cbn [String.concat]; [lia|]. rewrite app_length. lia. }
  assert (Hrest : In p (ancestors p0 false rest) ->
                  (String.length p
                   <= (if first then 0 else String.length acc + 1)
                      + String.length (String.concat "/" (c :: rest)))%nat).
  { intros Hin. pose proof (IH p0 false Hin) as Hb. cbv iota in Hb.
    destruct rest as [|c' rest']; [destruct Hin|].
    change (String.concat "/" (c :: c' :: rest'))
      with (c ++ "/" ++ String.concat "/" (c' :: rest')).
    rewrite !app_length. cbn [String.length]. lia. }
  destruct (String.eqb c ""); [exact Hrest|].
  intros [<-|Hin]; [lia|now apply Hrest].
Qed.

Lemma join_longer (d name : string) :
  name <> "" -> (String.length d < String.length (Path.join d name))%nat.
Proof.
  intros Hn. rewrite join_prefix, app_length. unfold dir_prefix.
  assert (0 < String.length name)%nat by (destruct name; [congruence|cbn; lia]).
  destruct (String.eqb d "") eqn:E.
  - apply String.eqb_eq in E. subst d. cbn. lia.
  - destruct (endswith "/" d); [lia|]. rewrite app_length. lia.
Qed.

Lemma for_each_mkdir_outside (l : list string) (st st1 : fs) (p : string) :
  for_each mkdir_exist_ok l st = (Ok tt, st1) -> ~ In p l -> st1 !! p = st !! p.
Proof.
  revert st. induction l as [|q l IH]; intros st.
  - now intros [= <-].
  - cbn [for_each]. unfold mbind at 1. unfold io_bind at 1. unfold mkdir_exist_ok at 1.
    intros Hrun Hnot.
    assert (Hq : p <> q) by (intros ->; apply Hnot; now left).
    assert (Hl : ~ In p l) by (intros Hin; apply Hnot; now right).
    destruct (st !! q) as [[|c]|] eqn:Hst; try discriminate.
    + now apply IH.
    + rewrite (IH _ Hrun Hl). apply lookup_insert_ne. congruence.
Qed.

(** [makedirs] makes nothing inside the directory. *)
Lemma makedirs_outside (run_dir name : string) (st st1 : fs) :
  name <> "" -> makedirs run_dir st = (Ok tt, st1) ->
  st1 !! Path.join run_dir name = st !! Path.join run_dir name.
Proof.
  intros Hn Hrun. eapply for_each_mkdir_outside; [exact Hrun|].
  intros Hin. apply ancestors_bound in Hin. rewrite concat_split in Hin.
  pose proof (join_longer run_dir name Hn). cbv iota in Hin. lia.
Qed.

(** The frame of each stage: what a stage that returns has written. *)
Section Stages.
Context `{Builtins} `{Hashlib} `{Numpy} `{Pandas} `{PandasChecks} `{Os}.

Lemma profile_dataset_writes dataset_dir configs run_dir prior_dir (st st1 : fs) :
  profile_dataset dataset_dir configs run_dir prior_dir st = (Ok tt, st1) ->
  exists v, st1 = <[Path.join run_dir "prior_profile.json" := File (Json v)]> st.
Proof.
  rewrite profile_dataset_runs. cbv zeta.
  destruct (st !! Path.join prior_dir "data.parquet") as [[|[]]|];
    destruct (st !! Path.join prior_dir "data.csv") as [[|[]]|]; try discriminate;
    destruct (is_dir st (Path.join run_dir "prior_profile.json")); try discriminate;
    intros [= <-]; eexists; reflexivity.
Qed.

Lemma generate_dataset_writes dataset_dir (configs : dict) run_dir (st st1 : fs) :
  generate_dataset dataset_dir configs run_dir st = (Ok tt, st1) ->
  exists df,
    st1 = <[Path.join run_dir "data.parquet" := File (Parquet df)]> st \/
    st1 = <[Path.join run_dir "data.csv" := File (Csv df)]> st.
Proof.
  unfold generate_dataset, mbind, io_bind, lift.
  destruct (build_table dataset_dir configs run_dir) as [df|e]; [|discriminate].
  unfold _write_dataframe, write_file.
  destruct (is_dir st run_dir); [|discriminate]. intros Hw. exists df.
  destruct (to_parquet_ok df).
  - destruct (st !! Path.join run_dir "data.parquet") as [[|c]|].
    + right. cbv iota beta in Hw.
      destruct (st !! Path.join run_dir "data.csv") as [[|c]|]; [discriminate| |];
        now injection Hw as <-.
    + left. now injection Hw as <-.
    + left. now injection Hw as <-.
  - right. cbv iota beta in Hw.
    destruct (st !! Path.join run_dir "data.csv") as [[|c]|]; [discriminate| |];
      now injection Hw as <-.
Qed.

Lemma validate_dataset_writes dataset_dir configs run_dir (st st1 : fs) :
  validate_dataset dataset_dir configs run_dir st = (Ok tt, st1) ->
  exists v, st1 = <[Path.join run_dir "validation_report.json" := File (Json v)]> st.
Proof.
  rewrite validate_dataset_runs. cbv zeta.
  destruct (st !! Path.join run_dir "data.parquet") as [[|[]]|];
    destruct (st !! Path.join run_dir "data.csv") as [[|[]]|]; try discriminate;
    destruct (check_table _ _); try discriminate;
    destruct (is_dir st (Path.join run_dir "validation_report.json")); try discriminate;
    intros [= <-]; eexists; reflexivity.
Qed.

Lemma evaluate_dataset_writes dataset_dir configs run_dir (st st1 : fs) :
  evaluate_dataset dataset_dir configs run_dir st = (Ok tt, st1) ->
  exists v, st1 = <[Path.join run_dir "evaluation_report.json" := File (Json v)]> st.
Proof.
  rewrite evaluate_dataset_runs. cbv zeta.
  destruct (st !! Path.join run_dir "data.parquet") as [[|[]]|];
    destruct (st !! Path.join run_dir "data.csv") as [[|[]]|]; try discriminate;
    destruct (st !! Path.join run_dir "prior_profile.json") as [[|[]]|]; try discriminate;
    destruct (build_report _ _); try discriminate;
    destruct (is_dir st (Path.join run_dir "evaluation_report.json")); try discriminate;
    intros [= <-]; eexists; reflexivity.
Qed.

End Stages.

(** Looking up a name of the run directory under what the stages wrote. *)
Ltac at_name :=
  repeat first
    [ rewrite lookup_insert_eq
    | rewrite lookup_insert_ne by (let E := fresh in intros E; apply join_inj in E; discriminate)
    | rewrite lookup_delete_ne by (let E := fresh in intros E; apply join_inj in E; discriminate) ].

Section Run.
Context `{Builtins} `{Hashlib} `{Numpy} `{Pandas} `{PandasChecks} `{Os} `{Yaml.JsonText}.

(** X30: a run in a fresh run directory reaches its manifest.  When the
    run context was snapshot in a directory that held nothing, and
    profiling (if there is a prior version), generation, validation and
    evaluation have returned, the finalizer accepts the run directory for
    every configuration that is a well-formed document (string keys only,
    distinct in every mapping, no NaN): the four artifacts, the manifest
    and exactly one data file are there afterwards. *)
Theorem fresh_run_finalizes (now dataset_dir : string) (configs : dict) (metadata : Yaml.config)
    (run_dir prior_dir : string) (st0 st1 st2 st3 st4 st5 : fs) :
  well_formed (VDict configs) = true ->
  (forall name, name <> "" -> st0 !! Path.join run_dir name = None) ->
  snapshot_run_context run_dir (Yaml.of_value (VDict configs)) metadata st0 = (Ok tt, st1) ->
  st2 = st1 \/ profile_dataset dataset_dir (VDict configs) run_dir prior_dir st1 = (Ok tt, st2) ->
  generate_dataset dataset_dir configs run_dir st2 = (Ok tt, st3) ->
  validate_dataset dataset_dir (VDict configs) run_dir st3 = (Ok tt, st4) ->
  evaluate_dataset dataset_dir (VDict configs) run_dir st4 = (Ok tt, st5) ->
  exists st6,
    persist_artifacts now dataset_dir (VDict configs) run_dir st5 = (Ok tt, st6) /\
    forallb (fun fname => is_file st6 (Path.join run_dir fname))
            (required_artifacts ++ ["final_metadata.json"]) = true /\
    is_file st6 (Path.join run_dir "data.parquet")
    = negb (is_file st6 (Path.join run_dir "data.csv")) /\
    forall p, p <> Path.join run_dir "final_metadata.json" ->
              p <> Path.join run_dir "final_metadata.tmp" -> st6 !! p = st5 !! p.
Proof.
  intros Hwf Hfresh Hsnap Hprof Hgen Hval Heval.
  apply snapshot_run_context_ok in Hsnap as (stm & Hmk & _ & _ & Hst1).
  rewrite (loaded_of_value (VDict configs) Hwf) in Hst1.
  set (metadata' := Yaml.loaded metadata) in *. subst st1.
  assert (Hin : forall name, name <> "" -> stm !! Path.join run_dir name = None).
  { intros name Hn. rewrite (makedirs_outside run_dir name st0 stm Hn Hmk). now apply Hfresh. }
  assert (Hp : exists extra,
             st2 = extra (<[Path.join run_dir "run_metadata.json" := File (Json metadata')]>
                            (<[Path.join run_dir "configs_snapshot.json"
                               := File (Json (VDict configs))]> stm)) /\
             forall (m : fs) name, name <> "prior_profile.json" ->
                                   extra m !! Path.join run_dir name = m !! Path.join run_dir name).
  { destruct Hprof as [->|Hprof].
    - exists (fun m => m). split; [reflexivity|]. reflexivity.
    - apply profile_dataset_writes in Hprof as (v & ->).
      exists (fun m => <[Path.join run_dir "prior_profile.json" := File (Json v)]> m).
      split; [reflexivity|]. intros m name Hn. apply lookup_insert_ne.
      intros E. apply join_inj in E. congruence. }
  clear Hprof. destruct Hp as (extra & -> & Hextra).
  apply generate_dataset_writes in Hgen as (df & Hgen).
  apply validate_dataset_writes in Hval as (vr & ->).
  apply evaluate_dataset_writes in Heval as (er & ->).
  pose proof (with_suffix_join run_dir "final_metadata.json" "final_metadata"
                eq_refl eq_refl) as Htmp.
  change ("final_metadata" ++ ".tmp") with "final_metadata.tmp" in Htmp.
  assert (Hready :
    exists c,
      (st3 !! Path.join run_dir "data.parquet" = Some (File c) /\
       st3 !! Path.join run_dir "data.csv" = None \/
       st3 !! Path.join run_dir "data.parquet" = None /\
       st3 !! Path.join run_dir "data.csv" = Some (File c)) /\
      st3 !! Path.join run_dir "final_metadata.json" = None /\
      st3 !! Path.join run_dir "final_metadata.tmp" = None /\
      st3 !! Path.join run_dir "validation_report.json" = None /\
      st3 !! Path.join run_dir "evaluation_report.json" = None /\
      st3 !! Path.join run_dir "configs_snapshot.json" = Some (File (Json (VDict configs))) /\
      st3 !! Path.join run_dir "run_metadata.json" = Some (File (Json metadata'))).
  { destruct Hgen as [->| ->]; eexists; (split; [|repeat split]); at_name;
      rewrite ?Hextra by discriminate; at_name;
      rewrite ?Hin by discriminate; try reflexivity.
    - left. split; reflexivity.
    - right. split; reflexivity. }
  destruct Hready as (c & Hdata & Hfm & Hft & Hvr & Her & Hcs & Hrm).
  set (st5 := <[Path.join run_dir "evaluation_report.json" := File (Json er)]>
                (<[Path.join run_dir "validation_report.json" := File (Json vr)]> st3)).
  assert (Hex : exists_ st5 (Path.join run_dir "data.parquet")
                = negb (exists_ st5 (Path.join run_dir "data.csv"))).
  { unfold exists_. subst st5. at_name.
    destruct Hdata as [[-> ->]|[-> ->]]; reflexivity. }
  destruct (persist_artifacts_succeeds now dataset_dir (VDict configs) run_dir st5 (VDict configs))
    as (st6 & Hpersist & _).
  - unfold exists_. subst st5. at_name. now rewrite Hfm.
  - exact Hex.
  - unfold required_artifacts, is_file. cbn [forallb]. subst st5. at_name.
    now rewrite Hcs, Hrm.
  - subst st5. at_name. exact Hcs.
  - now apply py_eq_refl.
  - rewrite Htmp. unfold is_dir. subst st5. at_name. now rewrite Hft.
  - exists st6. split; [exact Hpersist|].
    destruct (persist_artifacts_written _ _ _ _ _ _ Hpersist) as (data_file & Hst6).
    cbv zeta in Hst6. rewrite Htmp in Hst6.
    assert (Hframe : forall p, p <> Path.join run_dir "final_metadata.json" ->
                               p <> Path.join run_dir "final_metadata.tmp" ->
                               st6 !! p = st5 !! p).
    { intros p Hp1 Hp2. rewrite Hst6.
      rewrite lookup_insert_ne, lookup_delete_ne, lookup_insert_ne by congruence. reflexivity. }
    split; [|split; [|exact Hframe]].
    + unfold required_artifacts, is_file. cbn [app forallb].
      rewrite !Hframe by (intros E; apply join_inj in E; discriminate).
      rewrite Hst6. subst st5. at_name. now rewrite Hcs, Hrm.
    + unfold is_file. rewrite !Hframe by (intros E; apply join_inj in E; discriminate).
      subst st5. at_name. destruct Hdata as [[-> ->]|[-> ->]]; reflexivity.
Qed.

End Run.
End FreshRun.

(** ** The further properties on concrete inputs *)

Module MoreExamples.
Import Py Np Fs Generate Artifacts Registry Evaluate Profile Validate Ingest Version Run.
Import Notions Readings Laws Demo Examples Samples GeneratorExamples.
Import GeneratorShape GeneratorOutput ArtifactsMore ValueFacts RegistryMore Handover RunTheorems VersionTheorems
       ProfileTheorems ValidateTheorems GenerateValidate IngestTheorems EvaluateMore
       VersionOfManifest RunDirectory FreshRun.
Local Open Scope Z_scope.

(** An equation between closed terms, by evaluation of its two sides. *)
Ltac evaluated :=
  lazymatch goal with
  | |- ?l = ?r =>
      tryif has_evar r then (vm_compute; reflexivity)
      else exact (@eq_refl _ r <: l = r)
  end.

Lemma lcg_draws_length (x : Z) (size : nat) : length (fst (lcg_draws x size)) = size.
Proof.
  revert x. induction size as [|size IH]; intros x; [reflexivity|].
  cbn [lcg_draws]. specialize (IH (lcg x)).
  destruct (lcg_draws (lcg x) size) as [l z]. cbn [fst] in *. simpl. now rewrite IH.
Qed.

#[export] Instance numpy_shapes : NumpyShapes.
Proof.
  constructor.
  - intros rs bound size. cbn [rs_randint numpy].
    pose proof (lcg_draws_length rs size) as Hl.
    destruct (lcg_draws rs size) as [l z]. cbn [fst] in *. now rewrite length_map.
  - intros rs lo hi size. cbn [rs_uniform numpy].
    pose proof (lcg_draws_length rs size) as Hl.
    destruct (lcg_draws rs size) as [l z]. cbn [fst] in *. now rewrite length_map.
Qed.

Lemma columns_mapping_order_independent_witness :
  _extract_columns (VDict schema_b_a) = _extract_columns (VDict schema_a_b) /\
  forall names, _extract_columns (VDict schema_b_a) = Ok names ->
    exists l, names = map VStr l /\ l <> [] /\ ascending l /\
              Permutation l (dict_keys [("b", VNone); ("a", VNone)]).
Proof.
  apply (columns_mapping_order_independent schema_b_a schema_a_b
           [("b", VNone); ("a", VNone)] [("a", VNone); ("b", VNone)]).
  - reflexivity.
  - reflexivity.
  - apply perm_swap.
Defined.

Lemma evolution_ratios_validated_witness :
  let evo := Evolution None [("amount", VFloat f0_4)] in
  (forall name v, dict_get name (missingness evo) = Some v ->
     exists r, py_float v = Ok r /\ fltb r fzero = false /\ fltb fone r = false) /\
  (forall name, dict_get name (missingness evo) <> Some VNone) /\
  exists d, missingness_evolution = VDict d /\
    (get_or_none "missingness" d = VDict (missingness evo) \/
     (get_or_none "missingness" d = VNone /\ missingness evo = [])).
Proof.
  apply (evolution_ratios_validated missingness_evolution
           (Evolution None [("amount", VFloat f0_4)])).
  evaluated.
Defined.

Lemma generated_table_shape_witness :
  exists cols rows,
    _extract_columns (get_or_none "schema.yaml" finance_20) = Ok cols /\
    _extract_row_count (get_or_none "dataset.yaml" finance_20) = Ok rows /\
    0 < rows /\
    List.NoDup (map fst finance_table) /\
    (forall name, In name (map fst finance_table) <-> In (VStr name) cols) /\
    List.Forall (fun c => length (arr_items (snd c)) = Z.to_nat rows) finance_table /\
    Pd.row_count finance_table = rows.
Proof.
  apply (generated_table_shape "datasets/finance_transactions" finance_20
           "runs/finance_transactions/v1" finance_table).
  evaluated.
Defined.

Lemma drawn_values_in_pool_witness :
  (lower "account_id" = "account_id" ->
   arr_dtype account_ids = int64 /\
   List.Forall (fun c => exists z, c = CInt z /\ 100000 <= z < 100000 + Z.min 5000 (20 / 10))
               (arr_items account_ids)) /\
  (lower "account_id" = "merchant_category" ->
   List.Forall (fun c => exists s, c = CStr s /\ In s categories) (arr_items account_ids)).
Proof.
  eapply (drawn_values_in_pool (RandomState_seed 7) "account_id" 20 account_ids).
  evaluated.
Defined.

Lemma identifiers_count_rows_witness :
  exists items,
    _generate_column (RandomState_seed 7) "Customer_ID" 5
    = Ok (NdArray int64 items, RandomState_seed 7) /\
    length items = Z.to_nat 5 /\
    (forall i, (i < Z.to_nat 5)%nat -> items !! i = Some (CInt (Z.of_nat i + 1))) /\
    List.NoDup items.
Proof.
  apply (identifiers_count_rows (RandomState_seed 7) "Customer_ID" 5).
  right. right. split; [vm_compute; reflexivity|vm_compute; discriminate].
Defined.

Lemma generate_writes_one_file_witness :
  exists df,
    build_table "datasets/finance_transactions" finance_20 "runs/finance_transactions/v1" = Ok df /\
    is_dir empty_run "runs/finance_transactions/v1" = true /\
    ((to_parquet_ok df = true /\
      finance_run_generated
      = <[Path.join "runs/finance_transactions/v1" "data.parquet" := File (Parquet df)]> empty_run) \/
     (to_parquet_ok df = false /\
      finance_run_generated
      = <[Path.join "runs/finance_transactions/v1" "data.csv" := File (Csv df)]> empty_run)).
Proof.
  apply (generate_writes_one_file "datasets/finance_transactions" finance_20
           "runs/finance_transactions/v1" empty_run finance_run_generated).
  - evaluated.
  - evaluated.
Defined.

(** The snapshot of the run directory holds [a: 1]; the run is finalized
    with [a: 2]. *)
Lemma persist_failure_changes_nothing_witness :
  snd (persist_artifacts "2025-01-01T00:00:00+00:00" "/dataset" (VDict [("a", VInt 2)])
         "/tmp/run" test_run_dir)
  = test_run_dir.
Proof.
  apply (persist_failure_changes_nothing "2025-01-01T00:00:00+00:00" "/dataset"
           (VDict [("a", VInt 2)]) "/tmp/run" test_run_dir _
           (raised (fst (persist_artifacts "2025-01-01T00:00:00+00:00" "/dataset"
                           (VDict [("a", VInt 2)]) "/tmp/run" test_run_dir)))).
  evaluated.
Defined.

Lemma persist_success_means_complete_witness :
  exists_ test_run_dir (Path.join "/tmp/run" "final_metadata.json") = false /\
  exists_ test_run_dir (Path.join "/tmp/run" "data.parquet")
  = negb (exists_ test_run_dir (Path.join "/tmp/run" "data.csv")) /\
  forallb (fun fname => is_file test_run_dir (Path.join "/tmp/run" fname)) required_artifacts
  = true /\
  (exists snapshot,
     test_run_dir !! Path.join "/tmp/run" "configs_snapshot.json" = Some (File (Json snapshot)) /\
     py_eq snapshot test_configs = true) /\
  let data_file :=
    if exists_ test_run_dir (Path.join "/tmp/run" "data.parquet")
    then "data.parquet" else "data.csv" in
  let written :=
    File (Json (sort_keys (manifest "/dataset" (resolve "/tmp/run")
                             "2025-01-01T00:00:00+00:00" data_file))) in
  let tmp := Path.with_suffix (Path.join "/tmp/run" "final_metadata.json") ".tmp" in
  test_run_dir_finalized
  = <[Path.join "/tmp/run" "final_metadata.json" := written]>
      (delete tmp (<[tmp := written]> test_run_dir)).
Proof.
  apply (persist_success_means_complete "2025-01-01T00:00:00+00:00" "/dataset" test_configs
           "/tmp/run" test_run_dir test_run_dir_finalized).
  evaluated.
Defined.

(** A registry that holds a lone surrogate: the write stops at it, the
    registry stays as it was and the text before it stays at the temporary
    name. *)
Lemma registration_failure_keeps_registry_witness :
  let st := demo_fs_surrogate in
  let tmp := Path.with_suffix registry_path ".tmp" in
  let r := update_registry_from_final_metadata manifest_path registry_path st in
  (st !! tmp = None /\ snd r !! tmp = Some (File (Bytes "{")) /\
   snd r !! registry_path = st !! registry_path) /\
  (forall p, p <> tmp -> snd r !! p = st !! p) /\
  (snd r = st \/
   exists fm m reg reg',
     doc_at st manifest_path = Some fm /\ read_manifest fm = Ok m /\
     doc_at st registry_path = Some reg /\ append_version m reg = Ok reg' /\
     encodable reg' = false /\ kind (raised (fst r)) = ValueError /\
     snd r = <[tmp := File (Bytes (Yaml.utf8_text_before_error reg'))]> st) /\
  ((forall fm m reg reg',
      doc_at st manifest_path = Some fm -> read_manifest fm = Ok m ->
      doc_at st registry_path = Some reg -> append_version m reg = Ok reg' ->
      encodable reg' = true) ->
   snd r = st).
Proof.
  split; [repeat split; evaluated|].
  apply (registration_failure_keeps_registry manifest_path registry_path demo_fs_surrogate).
  evaluated.
Defined.

Lemma registration_leaves_the_rest_witness :
  (forall p, p <> registry_path -> p <> Path.with_suffix registry_path ".tmp" ->
             demo_fs_registered !! p = demo_fs !! p) /\
  exists fm m name doc0 doc1,
    doc_at demo_fs manifest_path = Some fm /\ read_manifest fm = Ok m /\
    mf_dataset m = VStr name /\
    doc_at demo_fs registry_path = Some doc0 /\
    doc_at demo_fs_registered registry_path = Some doc1 /\
    forall other, other <> name -> entry_of doc1 other = entry_of (sort_keys doc0) other.
Proof.
  apply (registration_leaves_the_rest manifest_path registry_path demo_fs demo_fs_registered).
  evaluated.
Defined.

Lemma finalized_run_registers_witness :
  let mp := Path.join "/tmp/run" "final_metadata.json" in
  let name := Path.basename (Path.normpath "/dataset") in
  let version := Path.basename (Path.normpath (resolve "/tmp/run")) in
  let m := ManifestFields (VStr name) (VStr (resolve "/tmp/run"))
             (VStr "2025-01-01T00:00:00+00:00") version in
  (exists fm, doc_at test_run_dir_and_registry_finalized mp = Some fm /\ read_manifest fm = Ok m) /\
  update_registry_from_final_metadata mp registry_path test_run_dir_and_registry_finalized =
    match append_version m registry_of_dataset with
    | Ok reg' => _atomic_write_json registry_path reg' test_run_dir_and_registry_finalized
    | Raise e => (Raise e, test_run_dir_and_registry_finalized)
    end.
Proof.
  apply (finalized_run_registers "2025-01-01T00:00:00+00:00" "/dataset" test_configs "/tmp/run"
           registry_path test_run_dir_and_registry test_run_dir_and_registry_finalized
           registry_of_dataset).
  - evaluated.
  - vm_compute. discriminate.
  - vm_compute. discriminate.
  - discriminate.
  - vm_compute. discriminate.
  - vm_compute. discriminate.
  - vm_compute. discriminate.
  - evaluated.
Defined.

(** A mapping keyed by the number 1 is written under the name "1", and the
    snapshot no longer equals the configuration. *)
Lemma snapshot_matches_configs_witness :
  Yaml.config_eq (Yaml.loaded keyed_by_number) keyed_by_number = false /\
  let st1 := snd (snapshot_run_context "/tmp/run" keyed_by_number (Yaml.CDict []) ∅) in
  Yaml.serializable keyed_by_number = true /\ Yaml.serializable (Yaml.CDict []) = true /\
  st1 !! Path.join "/tmp/run" "configs_snapshot.json"
  = Some (File (Json (Yaml.loaded keyed_by_number))) /\
  st1 !! Path.join "/tmp/run" "run_metadata.json"
  = Some (File (Json (Yaml.loaded (Yaml.CDict [])))) /\
  (Yaml.config_eq (Yaml.loaded keyed_by_number) keyed_by_number = true <->
   exists v, keyed_by_number = Yaml.of_value v /\ well_formed v = true) /\
  (forall v, keyed_by_number = Yaml.of_value v -> well_formed v = true ->
             Yaml.loaded keyed_by_number = v /\ py_eq (Yaml.loaded keyed_by_number) v = true) /\
  (forall v, keyed_by_number = Yaml.of_value v ->
             forall snapshot, Yaml.config_eq snapshot keyed_by_number = py_eq snapshot v).
Proof.
  split; [evaluated|].
  apply (snapshot_matches_configs "/tmp/run" keyed_by_number (Yaml.CDict []) ∅).
  evaluated.
Defined.

(** Of v1, v2, v3 and a file, the prior version of v3 is v2. *)
Lemma prior_version_is_greatest_earlier_witness :
  match select_prior_version three_runs "runs/ds" "v3" with
  | Some p =>
      entry_like p = true /\ is_dir three_runs (Path.join "runs/ds" p) = true /\
      String.ltb p "v3" = true /\
      forall v, entry_like v = true -> is_dir three_runs (Path.join "runs/ds" v) = true ->
                String.ltb v "v3" = true -> String.leb v p = true
  | None =>
      forall v, entry_like v = true -> is_dir three_runs (Path.join "runs/ds" v) = true ->
                String.ltb v "v3" = false
  end.
Proof.
  apply (prior_version_is_greatest_earlier three_runs "runs/ds" "v3").
  evaluated.
Defined.

Lemma timestamps_order_chronologically_witness :
  String.compare (strftime midnight) (strftime a_second_later)
  = chronological midnight a_second_later /\
  (String.ltb (strftime midnight) (strftime a_second_later) = true
   <-> chronological midnight a_second_later = Lt) /\
  (strftime midnight = strftime a_second_later -> midnight = a_second_later).
Proof.
  apply (timestamps_order_chronologically midnight a_second_later).
  - evaluated.
  - evaluated.
Defined.

Lemma profile_feeds_evaluator_witness :
  let st1 := snd (profile_dataset "dataset" (VDict []) "/tmp/run" "/tmp/prior" prior_and_run) in
  exists df0,
    st1 !! Path.join "/tmp/run" "prior_profile.json"
    = Some (File (Json (build_profile "/tmp/prior" df0))) /\
    forall df, exists fields,
      build_report df (Some (build_profile "/tmp/prior" df0)) = Ok (VDict fields) /\
      dict_get "dataset_drift" fields
      = Some (VDict [("row_count_drift", VInt (Z.abs (Pd.row_count df - Pd.row_count df0)));
                     ("column_count_drift",
                      VInt (Z.abs (Pd.column_count df - Pd.column_count df0)))]).
Proof.
  apply (profile_feeds_evaluator "dataset" (VDict []) "/tmp/run" "/tmp/prior" prior_and_run).
  evaluated.
Defined.

Lemma passed_table_has_schema_columns_witness :
  exists cfg columns_cfg schema_cols schema_defs,
    names_schema = VDict cfg /\
    Evaluate.getitem (get_or_none "schema.yaml" cfg) "columns" = Ok columns_cfg /\
    parse_columns columns_cfg = Ok (schema_cols, schema_defs) /\
    (forall name, In name (map fst test_table) <-> In (VStr name) schema_cols) /\
    (forall c, In c schema_cols -> exists name, c = VStr name) /\
    (forall name, In name (map fst test_table) ->
                  check_column test_table schema_defs name = Ok tt).
Proof.
  eapply (passed_table_has_schema_columns names_schema test_table).
  evaluated.
Defined.

Lemma passed_column_guarantees_witness :
  let series := NdArray int64 [CInt 1; CInt 2; CInt 3] in
  let def := [("type", VStr "integer"); ("nullable", VBool false);
              ("constraints", VDict [("min", VInt 1); ("max", VInt 3)])] in
  (dict_get "nullable" def = Some (VBool false) ->
   existsb is_missing (arr_items series) = false) /\
  (forall t, dict_get "type" def = Some (VStr t) -> t <> "" ->
     exists valid, dtype_map t = Some valid /\
       (t <> "datetime" -> In (Pd.dtype_name (arr_dtype series)) valid)) /\
  (dict_get "type" def = Some (VStr "float") ->
   arr_dtype series = float64 /\
   forall cons, dict_get "constraints" def = Some (VDict cons) ->
     (forall b f, dict_get "min" cons = Some (VFloat b) ->
                  In (CFloat f) (arr_items series) -> fltb f b = false) /\
     (forall b f, dict_get "max" cons = Some (VFloat b) ->
                  In (CFloat f) (arr_items series) -> fltb b f = false)) /\
  (dict_get "type" def = Some (VStr "integer") ->
   (arr_dtype series = int8 \/ arr_dtype series = int64) /\
   forall cons, dict_get "constraints" def = Some (VDict cons) ->
     (forall b x, dict_get "min" cons = Some (VInt b) -> int64_range b = true ->
                  In (CInt x) (arr_items series) -> b <= x) /\
     (forall b x, dict_get "max" cons = Some (VInt b) -> int64_range b = true ->
                  In (CInt x) (arr_items series) -> x <= b)).
Proof.
  apply (passed_column_guarantees test_table bounded_defs "a").
  - evaluated.
  - reflexivity.
  - reflexivity.
Defined.

Lemma generated_dataset_validates_witness :
  let run_dir := "runs/finance_transactions/v1" in
  exists df rows,
    build_table "datasets/finance_transactions" finance_20 run_dir = Ok df /\
    _extract_row_count (get_or_none "dataset.yaml" finance_20) = Ok rows /\
    (forall name, In name (map fst df) <->
                  In name ["account_id"; "transaction_id"; "amount"; "merchant_category";
                           "is_fraud"; "timestamp"]) /\
    validate_dataset "datasets/finance_transactions" (VDict finance_20) run_dir
      finance_run_generated
    = (Ok tt,
       <[Path.join run_dir "validation_report.json" :=
           File (Json (VDict [("status", VStr "pass");
                              ("row_count", VInt rows);
                              ("column_count", VInt (Pd.column_count df))]))]>
         finance_run_generated).
Proof.
  apply (generated_dataset_validates "datasets/finance_transactions" finance_20
           "runs/finance_transactions/v1" empty_run finance_run_generated
           [("columns", VList [VStr "account_id"; VStr "transaction_id"; VStr "amount";
                               VStr "merchant_category"; VStr "is_fraud"; VStr "timestamp"])]
           ["account_id"; "transaction_id"; "amount"; "merchant_category"; "is_fraud";
            "timestamp"]).
  - reflexivity.
  - reflexivity.
  - intros t. reflexivity.
  - evaluated.
  - evaluated.
  - evaluated.
Defined.

(** Ten sequential ids declared integer, four of them made missing: the
    column is written as floats and the validator rejects it. *)
Lemma missingness_fails_integer_declaration_witness :
  let run_dir := "runs/finance_transactions/v1" in
  (exists df arr,
     ids_run_generated !! Path.join run_dir "data.parquet" = Some (File (Parquet df)) /\
     table_get "transaction_id" df = Some arr /\
     (arr_dtype arr = float64 \/ arr_dtype arr = object)) /\
  exists e,
    validate_dataset "datasets/finance_transactions" (VDict ids_configs) run_dir
      ids_run_generated
    = (Raise e, ids_run_generated).
Proof.
  eapply (missingness_fails_integer_declaration "datasets/finance_transactions" ids_configs
            "runs/finance_transactions/v1" empty_run ids_run_generated
            [("columns", VDict [("transaction_id", VDict [("type", VStr "integer")])])]
            [("transaction_id", VDict [("type", VStr "integer")])]
            [("type", VStr "integer")] "transaction_id" "integer"
            (Evolution None [("transaction_id", VFloat f0_4)]) 10 (VFloat f0_4) f0_4).
  - reflexivity.
  - reflexivity.
  - reflexivity.
  - reflexivity.
  - left. reflexivity.
  - evaluated.
  - evaluated.
  - reflexivity.
  - reflexivity.
  - evaluated.
  - evaluated.
  - evaluated.
  - reflexivity.
  - intros t. reflexivity.
  - evaluated.
  - evaluated.
Defined.

Lemma ingested_columns_sorted_witness :
  let df' := Pd.select (sorted (map fst unsorted_table)) unsorted_table in
  map fst df' = sorted (map fst unsorted_table) /\
  ascending (map fst df') /\
  Permutation df' unsorted_table /\
  (forall n, table_get n df' = table_get n unsorted_table) /\
  (Pd.empty unsorted_table = false -> Pd.column_count df' = Pd.column_count unsorted_table).
Proof.
  apply (ingested_columns_sorted unsorted_table).
  repeat constructor; simpl; intuition discriminate.
Defined.

Lemma prior_entry_without_stats_fails_witness :
  (forall q, exists err,
      column_drift (Some (VDict [("a", VDict [("dtype", VStr "int64")])])) "a" q = Raise err /\
      kind err = KeyError) /\
  (exists err, build_report test_table (Some (VDict prior_without_stats)) = Raise err) /\
  exists err,
    evaluate_dataset "dataset" (VDict []) "/tmp/run" test_run_with_bare_prior
    = (Raise err, test_run_with_bare_prior).
Proof.
  apply (prior_entry_without_stats_fails "dataset" (VDict []) "/tmp/run"
           test_run_with_bare_prior test_table prior_without_stats
           [("a", VDict [("dtype", VStr "int64")])] [("dtype", VStr "int64")] "a").
  - evaluated.
  - evaluated.
  - reflexivity.
  - left. reflexivity.
  - reflexivity.
  - reflexivity.
Defined.

(** The timestamp of midnight names its run directory. *)
Lemma version_recovered_from_run_dir_witness :
  let v := "2025-01-01T00-00-00Z" in
  v <> "" /\
  (VNone = VNone -> clock_reading midnight = true -> plain_name v = true) /\
  (plain_name v = true ->
   Path.basename (Path.normpath (Path.join "runs/finance_transactions" v)) = v) /\
  (is_substring "/" v = true ->
   Path.basename (Path.normpath (Path.join "runs/finance_transactions" v)) <> v).
Proof.
  apply (version_recovered_from_run_dir midnight (VStr "finance_transactions") VNone
           "2025-01-01T00-00-00Z" "runs/finance_transactions").
  evaluated.
Defined.

(** The registry of the examples, written and written again. *)
Lemma atomic_rewrite_is_stable_witness :
  let st1 := snd (_atomic_write_json registry_path demo_registry demo_fs) in
  _load_json registry_path st1 = (Ok (sort_keys demo_registry), st1) /\
  st1 !! Path.with_suffix registry_path ".tmp"
  = (if decide (Path.with_suffix registry_path ".tmp" = registry_path)
     then Some (File (Json (sort_keys demo_registry))) else None) /\
  _atomic_write_json registry_path (sort_keys demo_registry) st1 = (Ok tt, st1).
Proof.
  apply (atomic_rewrite_is_stable registry_path demo_registry demo_fs).
  evaluated.
Defined.

(** The finance dataset, run from an empty file system. *)
Lemma fresh_run_finalizes_witness :
  let run_dir := "runs/finance_transactions/v1" in
  exists st6,
    persist_artifacts "2025-01-01T00:00:00+00:00" "datasets/finance_transactions"
      (VDict finance_20) run_dir fresh_run_evaluated = (Ok tt, st6) /\
    forallb (fun fname => is_file st6 (Path.join run_dir fname))
            (required_artifacts ++ ["final_metadata.json"]) = true /\
    is_file st6 (Path.join run_dir "data.parquet")
    = negb (is_file st6 (Path.join run_dir "data.csv")) /\
    forall p, p <> Path.join run_dir "final_metadata.json" ->
              p <> Path.join run_dir "final_metadata.tmp" ->
              st6 !! p = fresh_run_evaluated !! p.
Proof.
  apply (fresh_run_finalizes "2025-01-01T00:00:00+00:00" "datasets/finance_transactions"
           finance_20 (Yaml.CDict []) "runs/finance_transactions/v1"
           "runs/finance_transactions/v0"
           ∅ fresh_run_snapshot fresh_run_snapshot fresh_run_generated fresh_run_validated
           fresh_run_evaluated).
  - evaluated.
  - intros name _. apply lookup_empty.
  - evaluated.
  - left. reflexivity.
  - evaluated.
  - evaluated.
  - evaluated.
Defined.

(** Ratio 0.4 over the ten ids of [ids_configs]: four positions. *)
Lemma configured_missingness_marks_column_witness :
  let dataset_dir := "datasets/finance_transactions" in
  let run_dir := "runs/finance_transactions/v1" in
  let evo := Evolution None [("transaction_id", VFloat f0_4)] in
  let name := "transaction_id" in
  let col0 := fst ids_column in
  let rs0 := snd ids_column in
  let seed := _derive_seed dataset_dir run_dir in
  let n := Z.to_nat 10 in
  let d := arr_dtype col0 in
  (col0 = ids_1_to_10 /\ exists x, fmul_int f0_4 10 = Ok x /\ py_round x = Ok 4) /\
  exists x k arr',
    fmul_int f0_4 10 = Ok x /\ py_round x = Ok k /\ 0 <= k <= 10 /\
    length (arr_items col0) = n /\
    generate_one seed 10 evo (VStr name) = Ok (name, arr') /\
    (let idx := firstn (Z.to_nat k) (fst (rs_permutation rs0 n)) in
     NoDup idx /\ length idx = Z.to_nat k /\
     (k = 0 -> arr' = col0) /\
     (0 < k ->
      arr_dtype arr' = (if is_number d then float64 else object) /\
      length (arr_items arr') = n /\
      forall i, (i < n)%nat ->
        arr_items arr' !! i =
        if decide (i ∈ idx) then Some (marker d) else kept d <$> (arr_items col0 !! i))) /\
    (forall df, build_table dataset_dir ids_configs run_dir = Ok df ->
                table_get name df = Some arr') /\
    (forall st st' : fs,
       generate_dataset dataset_dir ids_configs run_dir st = (Ok tt, st') ->
       exists df, holds_table st' run_dir df /\ table_get name df = Some arr') /\
    (forall dataset_dir' run_dir',
       Path.basename (Path.normpath dataset_dir') = Path.basename (Path.normpath dataset_dir) ->
       Path.basename (Path.normpath run_dir') = Path.basename (Path.normpath run_dir) ->
       generate_one (_derive_seed dataset_dir' run_dir') 10 evo (VStr name) = Ok (name, arr') /\
       forall df', build_table dataset_dir' ids_configs run_dir' = Ok df' ->
                   table_get name df' = Some arr').
Proof.
  split; [split; [evaluated|eexists; split; evaluated]|].
  apply (configured_missingness_marks_column "datasets/finance_transactions" ids_configs
           "runs/finance_transactions/v1" [VStr "transaction_id"] 10
           (Evolution None [("transaction_id", VFloat f0_4)]) "transaction_id"
           (VFloat f0_4) f0_4 (fst ids_column) (snd ids_column)).
  - evaluated.
  - evaluated.
  - evaluated.
  - left. reflexivity.
  - reflexivity.
  - evaluated.
  - evaluated.
  - evaluated.
  - evaluated.
  - reflexivity.
  - evaluated.
Defined.



End MoreExamples.
